(** * TallyGO: the offline-first reconciliation layer

    A shallow embedding of the TypeScript services of the TallyGO
    application (local store, remote store adapter, sync service, weekly
    report generator and the two React hooks that drive them), together
    with the properties of the reconciliation design.

    Conventions of the embedding.
    - An [async] function is a computation in the monad [M]: it threads
      the whole observable state of the application ([World]) and either
      returns a value or throws ([Err]).  [try]/[catch]/[finally] are the
      combinators [try_catch] and [try_finally]; state changes made before
      a throw are kept, as in JavaScript.
    - An ISO-8601 instant ([created_at], [updated_at], the expiry stamp) is
      represented by the number of milliseconds it denotes, that is by the
      value of [new Date(s).getTime()].  Calendar days stay strings
      ("YYYY-MM-DD").
    - A JavaScript [number] holding an amount or a ratio is the rational
      ([Q]) that the double denotes, so a literal of the source is the
      exact value of its double; [NaN] and the infinities are not
      represented.  A counter is an integer ([Z]).
    - A JavaScript string is represented by its UTF-8 form, one [ascii]
      per byte.
    - Values stored through [JSON.stringify] and read back through
      [JSON.parse] are kept as typed values. *)

From Stdlib Require Import ZArith QArith Lia Ascii String List Bool Sorting.Sorted.
From stdpp Require Import base list strings pretty.

Local Open Scope string_scope.
Local Open Scope Z_scope.

(** ** JavaScript [Date] *)

Module JsDate.

Definition msPerDay : Z := 86400000.

(** Proleptic Gregorian calendar: day number (days since 1970-01-01) of a
    civil date and back. *)
Definition days_from_civil (y m d : Z) : Z :=
  let y' := if m <=? 2 then y - 1 else y in
  let era := y' / 400 in
  let yoe := y' - era * 400 in
  let mp := if 2 <? m then m - 3 else m + 9 in
  let doy := (153 * mp + 2) / 5 + d - 1 in
  let doe := yoe * 365 + yoe / 4 - yoe / 100 + doy in
  era * 146097 + doe - 719468.

Definition civil_from_days (z : Z) : Z * Z * Z :=
  let z' := z + 719468 in
  let era := z' / 146097 in
  let doe := z' - era * 146097 in
  let yoe := (doe - doe / 1460 + doe / 36524 - doe / 146096) / 365 in
  let doy := doe - (365 * yoe + yoe / 4 - yoe / 100) in
  let mp := (5 * doy + 2) / 153 in
  let d := doy - (153 * mp + 2) / 5 + 1 in
  let m := if mp <? 10 then mp + 3 else mp - 9 in
  let y := yoe + era * 400 in
  (if m <=? 2 then y + 1 else y, m, d).

Definition digit (n : Z) : ascii := ascii_of_nat (48 + Z.to_nat (n mod 10)).

Definition pad2 (n : Z) : string :=
  String (digit (n / 10)) (String (digit n) EmptyString).

Definition pad4 (n : Z) : string :=
  String (digit (n / 1000)) (String (digit (n / 100)) (pad2 n)).

Definition digit_value (c : ascii) : option Z :=
  let n := Z.of_nat (nat_of_ascii c) in
  if (48 <=? n) && (n <=? 57) then Some (n - 48) else None.

Fixpoint number_of (cs : list ascii) (acc : Z) : option Z :=
  match cs with
  | [] => Some acc
  | c :: cs' =>
      match digit_value c with
      | Some v => number_of cs' (10 * acc + v)
      | None => None
      end
  end.

Definition dash : ascii := "-"%char.

(** [new Date(s)] for a date-only string: the instant of midnight UTC of
    that day; [None] stands for an Invalid Date. *)
Definition parse (s : string) : option Z :=
  match list_ascii_of_string s with
  | [y1; y2; y3; y4; s1; m1; m2; s2; d1; d2] =>
      if Ascii.eqb s1 dash && Ascii.eqb s2 dash then
        match number_of [y1; y2; y3; y4] 0,
              number_of [m1; m2] 0, number_of [d1; d2] 0 with
        | Some y, Some m, Some d =>
            let n := days_from_civil y m d in
            if (1 <=? m) && (m <=? 12) && (1 <=? d)
               && bool_decide (civil_from_days n = (y, m, d))
            then Some (n * msPerDay) else None
        | _, _, _ => None
        end
      else None
  | _ => None
  end.

(** [date.toISOString().split('T')[0]]: the calendar day in UTC. *)
Definition isoDay (t : Z) : string :=
  let '(y, m, d) := civil_from_days (t / msPerDay) in
  pad4 y ++ "-" ++ pad2 m ++ "-" ++ pad2 d.

Section Zone.
(** The device's time zone, as a fixed offset east of UTC in
    milliseconds: local wall-clock time is UTC time plus [zone]. *)
Variable zone : Z.

Definition localDay (t : Z) : Z := (t + zone) / msPerDay.

(** [date.getDay()]: 0 is Sunday; 1970-01-01 was a Thursday. *)
Definition getDay (t : Z) : Z := (localDay t + 4) mod 7.

(** [date.getDate()]: the day of the month, local time. *)
Definition getDate (t : Z) : Z := (civil_from_days (localDay t)).2.

(** [date.setDate(n)]: move to day [n] of the date's local month
    (days outside the month roll over), keeping the local time of day. *)
Definition setDate (t : Z) (n : Z) : Z :=
  let '(y, m, _) := civil_from_days (localDay t) in
  (days_from_civil y m 1 + (n - 1)) * msPerDay
  + (t + zone) mod msPerDay - zone.
End Zone.

End JsDate.

(** ** Data model (types.ts) *)

(** Instants, in milliseconds since the epoch. *)
Definition Instant := Z.

Module Expense.
Record t := mk {
  id : string;
  user_id : option string;
  content : string;
  price : Q;
  date : string;
  created_at : Instant;
  updated_at : option Instant;
  synced : option bool;
  sync_error : option string
}.

(** [Partial<Expense>]: the fields an update object may carry. *)
Record partial := mkPartial {
  p_id : option string;
  p_user_id : option string;
  p_content : option string;
  p_price : option Q;
  p_date : option string;
  p_created_at : option Instant;
  p_updated_at : option Instant;
  p_synced : option bool;
  p_sync_error : option string
}.

Definition no_fields : partial :=
  mkPartial None None None None None None None None None.

(** Object spread [{ ...e, ...u }]. *)
Definition spread (e : t) (u : partial) : t :=
  {| id := default (id e) (p_id u);
     user_id := from_option Some (user_id e) (p_user_id u);
     content := default (content e) (p_content u);
     price := default (price e) (p_price u);
     date := default (date e) (p_date u);
     created_at := default (created_at e) (p_created_at u);
     updated_at := from_option Some (updated_at e) (p_updated_at u);
     synced := from_option Some (synced e) (p_synced u);
     sync_error := from_option Some (sync_error e) (p_sync_error u) |}.

(** [Omit<Expense, 'id' | 'created_at'>]: the argument of the [addExpense]
    methods; the store that receives it supplies [id] and [created_at]. *)
Record draft := mkDraft {
  d_user_id : option string;
  d_content : string;
  d_price : Q;
  d_date : string;
  d_updated_at : option Instant;
  d_synced : option bool;
  d_sync_error : option string
}.

(** The object literal [{ content, price, date }]. *)
Definition fields (content : string) (price : Q) (date : string) : draft :=
  mkDraft None content price date None None None.

(** [{ ...e }] passed where a draft is expected. *)
Definition to_draft (e : t) : draft :=
  mkDraft (user_id e) (content e) (price e) (date e) (updated_at e)
    (synced e) (sync_error e).

(** An expense seen as an update object carrying all its fields. *)
Definition as_partial (e : t) : partial :=
  {| p_id := Some (id e); p_user_id := user_id e;
     p_content := Some (content e); p_price := Some (price e);
     p_date := Some (date e); p_created_at := Some (created_at e);
     p_updated_at := updated_at e; p_synced := synced e;
     p_sync_error := sync_error e |}.
End Expense.

Module GoalTemplate.
Record t := mk {
  id : string;
  user_id : string;
  title : string;
  day_of_week : Z;
  order_index : Z;
  is_active : bool;
  created_at : Instant;
  updated_at : Instant
}.
End GoalTemplate.

Module DailyGoalCompletion.
Record t := mk {
  id : string;
  user_id : string;
  goal_template_id : string;
  completion_date : string;
  is_completed : bool;
  completed_at : option Instant;
  created_at : Instant
}.

(** [Omit<DailyGoalCompletion, 'id' | 'created_at'>]. *)
Record input := mkInput {
  i_user_id : string;
  i_goal_template_id : string;
  i_completion_date : string;
  i_is_completed : bool;
  i_completed_at : option Instant
}.
End DailyGoalCompletion.

Module GoalStats.
Record t := mk {
  template_id : string;
  title : string;
  completions : Z;
  total_days : Z;
  completion_rate : Q
}.
End GoalStats.

Module WeeklyReport.
Record t := mk {
  id : string;
  user_id : string;
  week_start_date : string;
  goals : list GoalStats.t;
  overall_completion_rate : Q;
  generated_at : Instant
}.
End WeeklyReport.

Module User.
Record t := mk {
  id : string;
  email : option string;
  isGuest : bool
}.
End User.

Module SyncStatus.
Record t := mk {
  last_sync : option Instant;
  pending_changes : Z;
  sync_in_progress : bool;
  error : option string
}.

Definition initial : t := mk None 0 false None.
End SyncStatus.

(** [SyncOperation]: a mutation waiting in the deferred queue. *)
Inductive OperationType := create | update | delete.
Inductive OperationEntity := expense | goal_template | goal_completion | weekly_report.

Module SyncOperation.
Record t := mk {
  id : string;
  type : OperationType;
  entity : OperationEntity;
  data : Expense.partial;
  timestamp : Instant;
  retries : Z
}.

Definition with_retries (n : Z) (o : t) : t :=
  mk (id o) (type o) (entity o) (data o) (timestamp o) n.
End SyncOperation.

(** ** Errors (utils/errors.ts) *)

(** What a [throw] carries: a JavaScript [Error] or an [AppError] object
    [{code, message, ...}] (a plain object, not an instance of [Error]). *)
Inductive Thrown :=
| JsError (message : string)
| AppError (code message : string).

Definition createAppError (code message : string) : Thrown := AppError code message.
Definition createAuthError (message : string) : Thrown := createAppError "AUTH_ERROR" message.
Definition createStorageError (message : string) : Thrown := createAppError "STORAGE_ERROR" message.
Definition createNetworkError (message : string) : Thrown := createAppError "NETWORK_ERROR" message.
Definition createValidationError (message : string) : Thrown := createAppError "VALIDATION_ERROR" message.

Definition parseError (error : Thrown) : Thrown :=
  match error with
  | JsError message => createAppError "UNKNOWN_ERROR" message
  | AppError _ _ => createAppError "UNKNOWN_ERROR" "An unknown error occurred"
  end.

(** [handleAsyncError]: normalise and log; the log is not observable. *)
Definition handleAsyncError (error : Thrown) (context : string) : Thrown :=
  parseError error.

Definition error_message (e : Thrown) : string :=
  match e with JsError m => m | AppError _ m => m end.

Definition error_code (e : Thrown) : option string :=
  match e with JsError _ => None | AppError c _ => Some c end.

(** ** The state of the application *)

Module AsyncStorage.
(** The device's key-value store, one field per key of [STORAGE_KEYS]. *)
Record t := mk {
  EXPENSES : option (list Expense.t);
  GOAL_TEMPLATES : option (list GoalTemplate.t);
  GOAL_COMPLETIONS : option (list DailyGoalCompletion.t);
  WEEKLY_REPORTS : option (list WeeklyReport.t);
  EXPIRY : option Instant
}.

Definition empty : t := mk None None None None None.

Inductive key := K_EXPENSES | K_GOAL_TEMPLATES | K_GOAL_COMPLETIONS | K_WEEKLY_REPORTS | K_EXPIRY.

Definition set_EXPENSES v s := mk v (GOAL_TEMPLATES s) (GOAL_COMPLETIONS s) (WEEKLY_REPORTS s) (EXPIRY s).
Definition set_GOAL_TEMPLATES v s := mk (EXPENSES s) v (GOAL_COMPLETIONS s) (WEEKLY_REPORTS s) (EXPIRY s).
Definition set_GOAL_COMPLETIONS v s := mk (EXPENSES s) (GOAL_TEMPLATES s) v (WEEKLY_REPORTS s) (EXPIRY s).
Definition set_WEEKLY_REPORTS v s := mk (EXPENSES s) (GOAL_TEMPLATES s) (GOAL_COMPLETIONS s) v (EXPIRY s).
Definition set_EXPIRY v s := mk (EXPENSES s) (GOAL_TEMPLATES s) (GOAL_COMPLETIONS s) (WEEKLY_REPORTS s) v.

Definition remove (k : key) (s : t) : t :=
  match k with
  | K_EXPENSES => set_EXPENSES None s
  | K_GOAL_TEMPLATES => set_GOAL_TEMPLATES None s
  | K_GOAL_COMPLETIONS => set_GOAL_COMPLETIONS None s
  | K_WEEKLY_REPORTS => set_WEEKLY_REPORTS None s
  | K_EXPIRY => set_EXPIRY None s
  end.
End AsyncStorage.

(** The device: its persistent store, the outcome of each coming access to
    it ([true]: the access throws; an exhausted plan means no further
    failure), the instant [new Date()] and [Date.now()] return, and the
    results of the coming calls of
    [Math.random().toString(36).substring(2, 11)].  The instant is held
    fixed over a call of a service; statements quantify over it. *)
Record Device := mkDevice {
  storage : AsyncStorage.t;
  storage_faults : list bool;
  clock : Instant;
  random : list string
}.

(** An account of the Supabase auth service. *)
Record Account := mkAccount {
  acc_email : string;
  acc_password : string;
  acc_confirmed : bool;
  acc_user : User.t
}.

(** The Supabase project: the rows of the expenses table (of all users),
    the ids the database issues for inserted rows ([id_source n] is the
    [n]-th one), the outcome of each coming request ([true]: the request
    fails), the accounts and the session held by the auth client, and
    whether the project is configured. *)
Record Backend := mkBackend {
  rows : list Expense.t;
  id_source : nat -> string;
  issued : nat;
  net_faults : list bool;
  accounts : list Account;
  auth_session : option User.t;
  configured : bool
}.

(** A reference to a [SyncOperation] object. *)
Definition Ref := nat.

(** Private state of the singleton services.  [operations] is the heap of
    [SyncOperation] objects: the queue holds references, so the same object
    can be queued twice and its [retries] field is shared.  [attempted] is a
    ghost log of the operations handed to [processOperation], oldest first,
    with the outcome of each attempt. *)
Record Services := mkServices {
  currentUser : option User.t;
  syncQueue : list Ref;
  operations : Ref -> SyncOperation.t;
  currentSyncStatus : SyncStatus.t;
  attempted : list (Ref * bool)
}.

(** State held by the React hooks [useExpenses] and [useAuth]. *)
Record Hooks := mkHooks {
  expenses : list Expense.t;
  error : option string;
  syncStatus : SyncStatus.t;
  loading : bool;
  user : option User.t;
  authError : option string;
  authLoading : bool;
  forceAuthScreen : bool
}.

Record World := mkWorld {
  device : Device;
  backend : Backend;
  services : Services;
  hooks : Hooks
}.

Definition on_device (f : Device -> Device) (w : World) : World :=
  mkWorld (f (device w)) (backend w) (services w) (hooks w).
Definition on_backend (f : Backend -> Backend) (w : World) : World :=
  mkWorld (device w) (f (backend w)) (services w) (hooks w).
Definition on_services (f : Services -> Services) (w : World) : World :=
  mkWorld (device w) (backend w) (f (services w)) (hooks w).
Definition on_hooks (f : Hooks -> Hooks) (w : World) : World :=
  mkWorld (device w) (backend w) (services w) (f (hooks w)).

Definition set_storage v d := mkDevice v (storage_faults d) (clock d) (random d).
Definition set_storage_faults v d := mkDevice (storage d) v (clock d) (random d).
Definition set_random v d := mkDevice (storage d) (storage_faults d) (clock d) v.

Definition set_rows v b :=
  mkBackend v (id_source b) (issued b) (net_faults b) (accounts b) (auth_session b) (configured b).
Definition set_issued v b :=
  mkBackend (rows b) (id_source b) v (net_faults b) (accounts b) (auth_session b) (configured b).
Definition set_net_faults v b :=
  mkBackend (rows b) (id_source b) (issued b) v (accounts b) (auth_session b) (configured b).
Definition set_accounts v b :=
  mkBackend (rows b) (id_source b) (issued b) (net_faults b) v (auth_session b) (configured b).
Definition set_auth_session v b :=
  mkBackend (rows b) (id_source b) (issued b) (net_faults b) (accounts b) v (configured b).

Definition set_currentUser v s :=
  mkServices v (syncQueue s) (operations s) (currentSyncStatus s) (attempted s).
Definition set_syncQueue v s :=
  mkServices (currentUser s) v (operations s) (currentSyncStatus s) (attempted s).
Definition set_operations v s :=
  mkServices (currentUser s) (syncQueue s) v (currentSyncStatus s) (attempted s).
Definition set_currentSyncStatus v s :=
  mkServices (currentUser s) (syncQueue s) (operations s) v (attempted s).
Definition set_attempted v s :=
  mkServices (currentUser s) (syncQueue s) (operations s) (currentSyncStatus s) v.

Definition set_expenses v h :=
  mkHooks v (error h) (syncStatus h) (loading h) (user h) (authError h) (authLoading h) (forceAuthScreen h).
Definition set_error v h :=
  mkHooks (expenses h) v (syncStatus h) (loading h) (user h) (authError h) (authLoading h) (forceAuthScreen h).
Definition set_syncStatus v h :=
  mkHooks (expenses h) (error h) v (loading h) (user h) (authError h) (authLoading h) (forceAuthScreen h).
Definition set_loading v h :=
  mkHooks (expenses h) (error h) (syncStatus h) v (user h) (authError h) (authLoading h) (forceAuthScreen h).
Definition set_user v h :=
  mkHooks (expenses h) (error h) (syncStatus h) (loading h) v (authError h) (authLoading h) (forceAuthScreen h).
Definition set_authError v h :=
  mkHooks (expenses h) (error h) (syncStatus h) (loading h) (user h) v (authLoading h) (forceAuthScreen h).
Definition set_authLoading v h :=
  mkHooks (expenses h) (error h) (syncStatus h) (loading h) (user h) (authError h) v (forceAuthScreen h).
Definition set_forceAuthScreen v h :=
  mkHooks (expenses h) (error h) (syncStatus h) (loading h) (user h) (authError h) (authLoading h) v.

(** ** The monad of asynchronous computations *)

Inductive Result (A : Type) :=
| Ok (a : A)
| Err (e : Thrown).
Arguments Ok {A} a.
Arguments Err {A} e.

Definition M (A : Type) : Type := World -> Result A * World.

Definition ret {A} (a : A) : M A := fun w => (Ok a, w).
Definition throw {A} (e : Thrown) : M A := fun w => (Err e, w).

Definition bind {A B} (m : M A) (k : A -> M B) : M B :=
  fun w =>
    match m w with
    | (Ok a, w') => k a w'
    | (Err e, w') => (Err e, w')
    end.

(** [const x = await m; k] *)
Notation "'await' x ':=' m 'in' k" := (bind m (fun x => k))
  (at level 10, x name, m at level 200, k at level 200,
   format "'[v' 'await'  x  ':='  m  'in' '/' k ']'").

Definition gets {A} (f : World -> A) : M A := fun w => (Ok (f w), w).
Definition modify (f : World -> World) : M unit := fun w => (Ok tt, f w).

(** [try { m } catch (e) { h e }] *)
Definition try_catch {A} (m : M A) (h : Thrown -> M A) : M A :=
  fun w =>
    match m w with
    | (Ok a, w') => (Ok a, w')
    | (Err e, w') => h e w'
    end.

(** [try { m } finally { f }], for a [finally] block that does not throw. *)
Definition try_finally {A} (m : M A) (f : World -> World) : M A :=
  fun w => let '(r, w') := m w in (r, f w').

(** [for (const x of xs) { body x }] *)
Fixpoint for_of {A} (xs : list A) (body : A -> M unit) : M unit :=
  match xs with
  | [] => ret tt
  | x :: xs' => await _ := body x in for_of xs' body
  end.

(** The result and the final state of a computation. *)
Definition result_of {A} (m : M A) (w : World) : Result A := (m w).1.
Definition state_after {A} (m : M A) (w : World) : World := (m w).2.

(** [new Date()] / [Date.now()]. *)
Definition now : M Instant := gets (fun w => clock (device w)).

(** [Date.now().toString() + Math.random().toString(36).substring(2, 11)] *)
Definition generate_id : M string :=
  await t := now in
  fun w =>
    let r := random (device w) in
    (Ok (pretty t ++ hd EmptyString r)%string, on_device (set_random (tl r)) w).

(** One access to AsyncStorage: it throws when the plan says so, and
    otherwise reads [get] and applies [put]. *)
Definition storage_access {A} (get : AsyncStorage.t -> A)
    (put : AsyncStorage.t -> AsyncStorage.t) : M A :=
  fun w =>
    let d := device w in
    match storage_faults d with
    | true :: plan =>
        (Err (JsError "AsyncStorage failure"), on_device (set_storage_faults plan) w)
    | false :: plan =>
        (Ok (get (storage d)),
         on_device (fun d => set_storage (put (storage d)) (set_storage_faults plan d)) w)
    | [] =>
        (Ok (get (storage d)), on_device (fun d => set_storage (put (storage d)) d) w)
    end.

Definition getItem {A} (field : AsyncStorage.t -> option A) : M (option A) :=
  storage_access field (fun s => s).

Definition setItem (put : AsyncStorage.t -> AsyncStorage.t) : M unit :=
  storage_access (fun _ => tt) put.

Definition multiRemove (keys : list AsyncStorage.key) : M unit :=
  storage_access (fun _ => tt) (fun s => foldr AsyncStorage.remove s keys).

(** ** services/storage.ts: [LocalStorageService] *)

Module LocalStorageService.
Import AsyncStorage.

(** Auto-expiry: 30 days for guest users. *)
Definition EXPIRY_DAYS : Z := 30.

Record ExpiryInfo := mkExpiryInfo {
  expiryDate : option Instant;
  daysRemaining : option Z
}.

Record Export := mkExport {
  x_expenses : list Expense.t;
  x_goalTemplates : list GoalTemplate.t;
  x_dailyCompletions : list DailyGoalCompletion.t;
  x_weeklyReports : list WeeklyReport.t;
  x_expiryInfo : ExpiryInfo;
  x_exportedAt : Instant
}.

Definition isDataExpired : M bool :=
  try_catch
    (await expiryDate := getItem EXPIRY in
     match expiryDate with
     | None => ret false
     | Some expiry =>
         await now_ := now in
         ret (expiry <? now_)
     end)
    (fun _ => ret false).

(** [expiryDate.setDate(expiryDate.getDate() + EXPIRY_DAYS)]: thirty
    calendar days ahead. *)
Definition setExpiryDate : M unit :=
  try_catch
    (await now_ := now in
     setItem (set_EXPIRY (Some (now_ + EXPIRY_DAYS * JsDate.msPerDay))))
    (fun _ => ret tt).

Definition clearAllData : M unit :=
  try_catch
    (multiRemove [K_EXPENSES; K_GOAL_TEMPLATES; K_GOAL_COMPLETIONS;
                  K_WEEKLY_REPORTS; K_EXPIRY])
    (fun _ => ret tt).

(** The common shape of the four collection readers. *)
Definition read_collection {A} (field : AsyncStorage.t -> option (list A))
    : M (list A) :=
  await isExpired := isDataExpired in
  if isExpired : bool then
    await _ := clearAllData in
    ret []
  else
    await json := getItem field in
    match json with
    | None => ret []
    | Some parsed => ret parsed
    end.

(** The common shape of the four collection writers, up to the [catch]. *)
Definition write_collection (put : AsyncStorage.t -> AsyncStorage.t) : M unit :=
  await _ := setItem put in
  await existingExpiry := getItem EXPIRY in
  match existingExpiry with
  | None => setExpiryDate
  | Some _ => ret tt
  end.

Definition getExpenses : M (list Expense.t) :=
  try_catch (read_collection EXPENSES) (fun _ => ret []).

Definition saveExpenses (expenses : list Expense.t) : M unit :=
  try_catch (write_collection (set_EXPENSES (Some expenses))) (fun _ => ret tt).

Definition addExpense (expense : Expense.draft) : M Expense.t :=
  try_catch
    (await expenses := getExpenses in
     await id := generate_id in
     await created := now in
     let newExpense :=
       {| Expense.id := id;
          Expense.user_id := Expense.d_user_id expense;
          Expense.content := Expense.d_content expense;
          Expense.price := Expense.d_price expense;
          Expense.date := Expense.d_date expense;
          Expense.created_at := created;
          Expense.updated_at := Expense.d_updated_at expense;
          Expense.synced := Expense.d_synced expense;
          Expense.sync_error := Expense.d_sync_error expense |} in
     await _ := saveExpenses (expenses ++ [newExpense]) in
     ret newExpense)
    (fun error => throw error).

Definition getExpiryInfo : M ExpiryInfo :=
  try_catch
    (await expiryDateStr := getItem EXPIRY in
     match expiryDateStr with
     | None => ret (mkExpiryInfo None None)
     | Some expiry =>
         await now_ := now in
         let days := - ((- (expiry - now_)) / JsDate.msPerDay) in
         ret (mkExpiryInfo (Some expiry) (Some (Z.max 0 days)))
     end)
    (fun _ => ret (mkExpiryInfo None None)).

(** *** Goal templates *)

Definition getGoalTemplates : M (list GoalTemplate.t) :=
  try_catch (read_collection GOAL_TEMPLATES) (fun _ => ret []).

Definition saveGoalTemplates (templates : list GoalTemplate.t) : M unit :=
  try_catch (write_collection (set_GOAL_TEMPLATES (Some templates)))
    (fun error => throw error).

(** *** Daily goal completions *)

Definition getDailyCompletions (date : option string)
    : M (list DailyGoalCompletion.t) :=
  try_catch
    (await isExpired := isDataExpired in
     if isExpired : bool then
       await _ := clearAllData in
       ret []
     else
       await json := getItem GOAL_COMPLETIONS in
       match json with
       | None => ret []
       | Some completions =>
           match date with
           | Some d =>
               if String.eqb d EmptyString then ret completions
               else ret (filter
                           (fun c => DailyGoalCompletion.completion_date c = d)
                           completions)
           | None => ret completions
           end
       end)
    (fun _ => ret []).

Definition saveDailyCompletions (completions : list DailyGoalCompletion.t)
    : M unit :=
  try_catch (write_collection (set_GOAL_COMPLETIONS (Some completions)))
    (fun error => throw error).

(** The key on which a completion is looked up. *)
Definition same_slot (completion : DailyGoalCompletion.input)
    (c : DailyGoalCompletion.t) : Prop :=
  DailyGoalCompletion.goal_template_id c
    = DailyGoalCompletion.i_goal_template_id completion
  /\ DailyGoalCompletion.completion_date c
    = DailyGoalCompletion.i_completion_date completion.

#[global] Instance same_slot_dec completion c : Decision (same_slot completion c).
Proof. unfold same_slot. apply _. Defined.

(** [{ ...existing, ...completion }] *)
Definition merge_completion (existing : DailyGoalCompletion.t)
    (completion : DailyGoalCompletion.input) : DailyGoalCompletion.t :=
  {| DailyGoalCompletion.id := DailyGoalCompletion.id existing;
     DailyGoalCompletion.user_id := DailyGoalCompletion.i_user_id completion;
     DailyGoalCompletion.goal_template_id :=
       DailyGoalCompletion.i_goal_template_id completion;
     DailyGoalCompletion.completion_date :=
       DailyGoalCompletion.i_completion_date completion;
     DailyGoalCompletion.is_completed :=
       DailyGoalCompletion.i_is_completed completion;
     DailyGoalCompletion.completed_at :=
       DailyGoalCompletion.i_completed_at completion;
     DailyGoalCompletion.created_at := DailyGoalCompletion.created_at existing |}.

Definition updateGoalCompletion (completion : DailyGoalCompletion.input)
    : M DailyGoalCompletion.t :=
  try_catch
    (await completions := getDailyCompletions None in
     match list_find (same_slot completion) completions with
     | Some (existingIndex, existing) =>
         let updatedCompletion := merge_completion existing completion in
         await _ := saveDailyCompletions
                      (<[existingIndex := updatedCompletion]> completions) in
         ret updatedCompletion
     | None =>
         await id := generate_id in
         await created := now in
         let updatedCompletion :=
           {| DailyGoalCompletion.id := id;
              DailyGoalCompletion.user_id :=
                DailyGoalCompletion.i_user_id completion;
              DailyGoalCompletion.goal_template_id :=
                DailyGoalCompletion.i_goal_template_id completion;
              DailyGoalCompletion.completion_date :=
                DailyGoalCompletion.i_completion_date completion;
              DailyGoalCompletion.is_completed :=
                DailyGoalCompletion.i_is_completed completion;
              DailyGoalCompletion.completed_at :=
                DailyGoalCompletion.i_completed_at completion;
              DailyGoalCompletion.created_at := created |} in
         await _ := saveDailyCompletions (completions ++ [updatedCompletion]) in
         ret updatedCompletion
     end)
    (fun error => throw error).

(** *** Weekly reports *)

Definition getWeeklyReports : M (list WeeklyReport.t) :=
  try_catch (read_collection WEEKLY_REPORTS) (fun _ => ret []).

Definition saveWeeklyReports (reports : list WeeklyReport.t) : M unit :=
  try_catch (write_collection (set_WEEKLY_REPORTS (Some reports)))
    (fun error => throw error).

(** *** Export *)

(** [Promise.all] over the three readers; they are run in the order in
    which they are listed. *)
Definition exportGoalData
    : M (list GoalTemplate.t * list DailyGoalCompletion.t
         * list WeeklyReport.t * Instant) :=
  try_catch
    (await goalTemplates := getGoalTemplates in
     await dailyCompletions := getDailyCompletions None in
     await weeklyReports := getWeeklyReports in
     await exportedAt := now in
     ret (goalTemplates, dailyCompletions, weeklyReports, exportedAt))
    (fun error => throw error).

Definition exportAllData : M Export :=
  try_catch
    (await expenses := getExpenses in
     await goalData := exportGoalData in
     await expiryInfo := getExpiryInfo in
     await exportedAt := now in
     let '(goalTemplates, dailyCompletions, weeklyReports, _) := goalData in
     ret (mkExport expenses goalTemplates dailyCompletions weeklyReports
            expiryInfo exportedAt))
    (fun error => throw error).

(** *** Update and delete of an expense *)

Definition updateExpense (id : string) (updates : Expense.partial)
    : M Expense.t :=
  try_catch
    (await expenses := getExpenses in
     match list_find (fun e => Expense.id e = id) expenses with
     | None => throw (JsError "Expense not found")
     | Some (expenseIndex, existing) =>
         await now_ := now in
         let merged := Expense.spread existing updates in
         let updatedExpense :=
           {| Expense.id := Expense.id merged;
              Expense.user_id := Expense.user_id merged;
              Expense.content := Expense.content merged;
              Expense.price := Expense.price merged;
              Expense.date := Expense.date merged;
              Expense.created_at := Expense.created_at merged;
              Expense.updated_at := Some now_;
              Expense.synced := Expense.synced merged;
              Expense.sync_error := Expense.sync_error merged |} in
         await _ := saveExpenses (<[expenseIndex := updatedExpense]> expenses) in
         ret updatedExpense
     end)
    (fun error => throw error).

Definition deleteExpense (id : string) : M unit :=
  try_catch
    (await expenses := getExpenses in
     let filteredExpenses := filter (fun e => Expense.id e <> id) expenses in
     saveExpenses filteredExpenses)
    (fun error => throw error).

End LocalStorageService.

(** ** services/supabase.ts: [SupabaseService] *)

Module SupabaseService.

(** The [error] member of a response of the Supabase client. *)
Record PostgrestError := mkPgError { pg_code : string; pg_message : string }.

Inductive Response (A : Type) :=
| Data (data : A)
| Failure (error : PostgrestError).
Arguments Data {A} data.
Arguments Failure {A} error.

Definition request_failed : PostgrestError := mkPgError EmptyString "Network request failed".
Definition no_rows : PostgrestError :=
  mkPgError "PGRST116" "JSON object requested, multiple (or no) rows returned".
Definition duplicate_key : PostgrestError :=
  mkPgError "23505" "duplicate key value violates unique constraint".
Definition not_null : PostgrestError :=
  mkPgError "23502" "null value violates not-null constraint".

(** One request to the project: it fails when the plan says so, and is
    otherwise answered by [handler] on the state of the project. *)
Definition request {A} (handler : Backend -> Response A * Backend)
    : M (Response A) :=
  fun w =>
    let b := backend w in
    match net_faults b with
    | true :: plan =>
        (Ok (Failure request_failed), on_backend (set_net_faults plan) w)
    | false :: plan =>
        let '(r, b') := handler (set_net_faults plan b) in
        (Ok r, on_backend (fun _ => b') w)
    | [] =>
        let '(r, b') := handler b in
        (Ok r, on_backend (fun _ => b') w)
    end.

Definition includes (needle s : string) : bool :=
  match String.index 0 needle s with Some _ => true | None => false end.

Definition handleDatabaseError {A} (error : PostgrestError) (operation : string)
    : M A :=
  if String.eqb (pg_code error) "PGRST116" then
    throw (createStorageError ("No data found for " ++ operation))
  else if includes "network" (pg_message error) then
    throw (createNetworkError
             ("Network error during " ++ operation ++ ": " ++ pg_message error))
  else
    throw (createStorageError
             ("Database error during " ++ operation ++ ": " ++ pg_message error)).

Definition isConfigured : M bool := gets (fun w => configured (backend w)).

(** [client.auth.getUser()], with its errors turned into [null]. *)
Definition getSupabaseUser : M (option User.t) :=
  await r := request (fun b => (Data (auth_session b), b)) in
  match r with
  | Data u => ret u
  | Failure _ => ret None
  end.

Definition getCurrentUser : M (option User.t) :=
  try_catch
    (await cached := gets (fun w => currentUser (services w)) in
     match cached with
     | Some u => ret (Some u)
     | None =>
         await supabaseUser := getSupabaseUser in
         match supabaseUser with
         | None => ret None
         | Some u =>
             await _ := modify (on_services (set_currentUser (Some u))) in
             ret (Some u)
         end
     end)
    (fun _ => ret None).

(** The lazy creation of the profile row is left out: it touches no
    expense and all its failures are caught. *)
Definition ensureAuthenticated : M string :=
  await user := getCurrentUser in
  match user with
  | None => throw (createAuthError "User not authenticated")
  | Some u => ret (User.id u)
  end.

(** *** Expenses *)

Definition owned_by (userId : string) (e : Expense.t) : Prop :=
  Expense.user_id e = Some userId.

#[global] Instance owned_by_dec userId e : Decision (owned_by userId e).
Proof. unfold owned_by. apply _. Defined.

(** Rows in descending order of [date] (a stable insertion sort). *)
Fixpoint insert_by_date (e : Expense.t) (l : list Expense.t) : list Expense.t :=
  match l with
  | [] => [e]
  | x :: l' =>
      if String.leb (Expense.date x) (Expense.date e)
         && negb (String.eqb (Expense.date x) (Expense.date e))
      then e :: l
      else x :: insert_by_date e l'
  end.

Definition order_by_date_desc (l : list Expense.t) : list Expense.t :=
  foldr insert_by_date [] l.

Definition getExpenses : M (list Expense.t) :=
  try_catch
    (await userId := ensureAuthenticated in
     await r := request (fun b =>
                  (Data (order_by_date_desc (filter (owned_by userId) (rows b))), b)) in
     match r with
     | Failure error => handleDatabaseError error "get expenses"
     | Data data => ret data
     end)
    (fun error => throw (handleAsyncError error "Get expenses")).

(** [insert([newExpense]).select().single()]: the database issues the id
    unless the inserted object carries one, and refuses a row whose id is
    taken. *)
Definition insert_row (carried : option string) (newExpense : string -> Expense.t)
    (b : Backend) : Response Expense.t * Backend :=
  let row := newExpense (default (id_source b (issued b)) carried) in
  let b' := match carried with
            | Some _ => b
            | None => set_issued (S (issued b)) b
            end in
  if bool_decide (Expense.id row ∈ map Expense.id (rows b)) then
    (Failure duplicate_key, b')
  else
    (Data row, set_rows (rows b ++ [row]) b').

(** [carried] is the [id] of the object when it has one at run time (the
    parameter type omits it). *)
Definition addExpense_ (carried : option string) (expense : Expense.draft)
    : M Expense.t :=
  try_catch
    (await userId := ensureAuthenticated in
     await now_ := now in
     let newExpense id :=
       {| Expense.id := id;
          Expense.user_id := Some userId;
          Expense.content := Expense.d_content expense;
          Expense.price := Expense.d_price expense;
          Expense.date := Expense.d_date expense;
          Expense.created_at := now_;
          Expense.updated_at := Some now_;
          Expense.synced := Expense.d_synced expense;
          Expense.sync_error := Expense.d_sync_error expense |} in
     await r := request (insert_row carried newExpense) in
     match r with
     | Failure error => handleDatabaseError error "add expense"
     | Data data => ret data
     end)
    (fun error => throw (handleAsyncError error "Add expense")).

Definition addExpense (expense : Expense.draft) : M Expense.t :=
  addExpense_ None expense.

(** [addExpense(data)] for an untyped object: the database refuses a row
    without content, price or date. *)
Definition addExpense_untyped (data : Expense.partial) : M Expense.t :=
  match Expense.p_content data, Expense.p_price data, Expense.p_date data with
  | Some content, Some price, Some date =>
      addExpense_ (Expense.p_id data)
        (Expense.mkDraft (Expense.p_user_id data) content price date
           (Expense.p_updated_at data) (Expense.p_synced data)
           (Expense.p_sync_error data))
  | _, _, _ =>
      try_catch
        (await userId := ensureAuthenticated in
         await r := request (fun b => (Failure not_null, b)) in
         match r with
         | Failure error => handleDatabaseError error "add expense"
         | Data data => ret data
         end)
        (fun error => throw (handleAsyncError error "Add expense"))
  end.

Definition row_matches (id : option string) (userId : string) (e : Expense.t) : Prop :=
  Some (Expense.id e) = id /\ owned_by userId e.

#[global] Instance row_matches_dec id userId e : Decision (row_matches id userId e).
Proof. unfold row_matches, owned_by. apply _. Defined.

(** [update(updateData).eq('id', id).eq('user_id', userId).select().single()] *)
Definition update_row (id : option string) (userId : string)
    (updateData : Expense.partial) (b : Backend) : Response Expense.t * Backend :=
  match list_find (row_matches id userId) (rows b) with
  | None => (Failure no_rows, b)
  | Some (i, row) =>
      let row' := Expense.spread row updateData in
      (Data row', set_rows (<[i := row']> (rows b)) b)
  end.

(** [id] is optional because the queue passes [data.id] of an untyped
    object. *)
Definition updateExpense_ (id : option string) (updates : Expense.partial)
    : M Expense.t :=
  try_catch
    (await userId := ensureAuthenticated in
     await now_ := now in
     let updateData :=
       Expense.mkPartial (Expense.p_id updates) (Expense.p_user_id updates)
         (Expense.p_content updates) (Expense.p_price updates)
         (Expense.p_date updates) (Expense.p_created_at updates)
         (Some now_) (Expense.p_synced updates) (Expense.p_sync_error updates) in
     await r := request (update_row id userId updateData) in
     match r with
     | Failure error => handleDatabaseError error "update expense"
     | Data data => ret data
     end)
    (fun error => throw (handleAsyncError error "Update expense")).

Definition updateExpense (id : string) (updates : Expense.partial) : M Expense.t :=
  updateExpense_ (Some id) updates.

Definition deleteExpense_ (id : option string) : M unit :=
  try_catch
    (await userId := ensureAuthenticated in
     await r := request (fun b =>
                  (Data tt,
                   set_rows (filter (fun e => ~ row_matches id userId e) (rows b)) b)) in
     match r with
     | Failure error => handleDatabaseError error "delete expense"
     | Data _ => ret tt
     end)
    (fun error => throw (handleAsyncError error "Delete expense")).

Definition deleteExpense (id : string) : M unit := deleteExpense_ (Some id).

(** [updated_at || created_at], as an instant. *)
Definition write_time (e : Expense.t) : Instant :=
  default (Expense.created_at e) (Expense.updated_at e).

(** Resolve expense sync conflicts using last-write-wins strategy. *)
Definition resolveExpenseConflict (localExpense serverExpense : Expense.t)
    : M Expense.t :=
  try_catch
    (let localTime := write_time localExpense in
     let serverTime := write_time serverExpense in
     if serverTime <? localTime then
       updateExpense (Expense.id localExpense)
         {| Expense.p_id := None; Expense.p_user_id := None;
            Expense.p_content := Some (Expense.content localExpense);
            Expense.p_price := Some (Expense.price localExpense);
            Expense.p_date := Some (Expense.date localExpense);
            Expense.p_created_at := None; Expense.p_updated_at := None;
            Expense.p_synced := None; Expense.p_sync_error := None |}
     else
       ret serverExpense)
    (fun error => throw (handleAsyncError error "Resolve expense conflict")).

(** *** Authentication *)

Definition credentials (email password : string) (a : Account) : Prop :=
  acc_email a = email /\ acc_password a = password.

#[global] Instance credentials_dec email password a
  : Decision (credentials email password a).
Proof. unfold credentials. apply _. Defined.

Definition signIn (email password : string) : M User.t :=
  try_catch
    (await ok := isConfigured in
     if negb ok then throw (createAuthError "Supabase is not properly configured")
     else
       await r := request (fun b =>
         match list_find (credentials email password) (accounts b) with
         | None => (Failure (mkPgError EmptyString "Invalid login credentials"), b)
         | Some (_, a) =>
             if acc_confirmed a
             then (Data (acc_user a), set_auth_session (Some (acc_user a)) b)
             else (Failure (mkPgError EmptyString "Email not confirmed"), b)
         end) in
       match r with
       | Failure error =>
           if String.eqb (pg_message error) "Email not confirmed" then
             throw (createAuthError
               "Please confirm your email by clicking the link we sent to your inbox.")
           else if String.eqb (pg_message error) "Invalid login credentials" then
             throw (createAuthError
               "Invalid email or password. Please check your credentials and try again.")
           else throw (createAuthError (pg_message error))
       | Data u =>
           let user := User.mk (User.id u) (User.email u) false in
           await _ := modify (on_services (set_currentUser (Some user))) in
           ret user
       end)
    (fun error => throw (handleAsyncError error "User signin")).

Definition signUp (email password : string) : M User.t :=
  try_catch
    (await ok := isConfigured in
     if negb ok then throw (createAuthError "Supabase is not properly configured")
     else
       await r := request (fun b =>
         if bool_decide (email ∈ map acc_email (accounts b)) then
           (Failure (mkPgError EmptyString "User already registered"), b)
         else
           let u := User.mk (id_source b (issued b)) (Some email) false in
           (Data u,
            set_accounts (accounts b ++ [mkAccount email password false u])
              (set_issued (S (issued b)) b))) in
       match r with
       | Failure error =>
           if includes "already registered" (pg_message error) then
             throw (createAuthError
               "An account with this email already exists. Please sign in instead.")
           else throw (createAuthError (pg_message error))
       | Data u => ret (User.mk (User.id u) (User.email u) false)
       end)
    (fun error => throw (handleAsyncError error "User signup")).

Definition signOut : M unit :=
  try_catch
    (await r := request (fun b => (Data tt, set_auth_session None b)) in
     await _ :=
       match r with
       | Failure error =>
           if String.eqb (pg_message error) "Auth session missing!"
              || includes "session" (pg_message error)
           then ret tt
           else throw (createAuthError (pg_message error))
       | Data _ => ret tt
       end in
     modify (on_services (set_currentUser None)))
    (fun error =>
       await _ := modify (on_services (set_currentUser None)) in
       throw (handleAsyncError error "User signout")).

End SupabaseService.

(** ** services/sync.ts: [SyncService] *)

Module SyncService.

(** [Partial<SyncStatus>] *)
Record StatusUpdate := mkUpdate {
  u_last_sync : option (option Instant);
  u_pending_changes : option Z;
  u_sync_in_progress : option bool;
  u_error : option (option string)
}.

Definition merge_status (s : SyncStatus.t) (u : StatusUpdate) : SyncStatus.t :=
  {| SyncStatus.last_sync := default (SyncStatus.last_sync s) (u_last_sync u);
     SyncStatus.pending_changes :=
       default (SyncStatus.pending_changes s) (u_pending_changes u);
     SyncStatus.sync_in_progress :=
       default (SyncStatus.sync_in_progress s) (u_sync_in_progress u);
     SyncStatus.error := default (SyncStatus.error s) (u_error u) |}.

(** The hook [useExpenses] subscribes [setSyncStatus] to the status signal
    while its identity is an authenticated, non-guest user. *)
Definition subscribed (h : Hooks) : bool :=
  match user h with
  | Some u => negb (User.isGuest u)
  | None => false
  end.

Definition notify (w : World) : World :=
  if subscribed (hooks w)
  then on_hooks (set_syncStatus (currentSyncStatus (services w))) w
  else w.

Definition updateSyncStatus_now (updates : StatusUpdate) (w : World) : World :=
  notify (on_services
            (fun s => set_currentSyncStatus
                        (merge_status (currentSyncStatus s) updates) s) w).

Definition updateSyncStatus (updates : StatusUpdate) : M unit :=
  modify (updateSyncStatus_now updates).

Definition getSyncStatus : M SyncStatus.t :=
  gets (fun w => currentSyncStatus (services w)).

Definition is_temp (id : string) : bool := String.prefix "temp_" id.

(** [new Map(list.map(exp => [exp.id, exp])).get(id)]: a later entry
    replaces an earlier one with the same key. *)
Fixpoint Map_get (l : list Expense.t) (id : string) : option Expense.t :=
  match l with
  | [] => None
  | e :: l' =>
      match Map_get l' id with
      | Some e' => Some e'
      | None => if String.eqb (Expense.id e) id then Some e else None
      end
  end.

Definition Map_has (l : list Expense.t) (id : string) : bool :=
  bool_decide (is_Some (Map_get l id)).

(** An element of [expensesToUpload]; its [id] is [undefined] for an
    expense created under a temporary id. *)
Record Upload := mkUpload { up_id : option string; up_expense : Expense.t }.

Definition with_user_id (userId : string) (e : Expense.t) : Expense.t :=
  {| Expense.id := Expense.id e; Expense.user_id := Some userId;
     Expense.content := Expense.content e; Expense.price := Expense.price e;
     Expense.date := Expense.date e; Expense.created_at := Expense.created_at e;
     Expense.updated_at := Expense.updated_at e; Expense.synced := Expense.synced e;
     Expense.sync_error := Expense.sync_error e |}.

Definition expensesToUpload (localExpenses serverExpenses : list Expense.t)
    (user : User.t) : list Upload :=
  omap (fun localExpense =>
          if Map_has serverExpenses (Expense.id localExpense) then None
          else if is_temp (Expense.id localExpense)
          then Some (mkUpload None (with_user_id (User.id user) localExpense))
          else Some (mkUpload (Some (Expense.id localExpense)) localExpense))
       localExpenses.

Definition expensesToDownload (localExpenses serverExpenses : list Expense.t)
    : list Expense.t :=
  filter (fun serverExpense =>
            Map_has localExpenses (Expense.id serverExpense) = false)
         serverExpenses.

(** The comparison of the domain fields of the two copies. *)
Definition differs (localExpense serverExpense : Expense.t) : bool :=
  negb (String.eqb (Expense.content localExpense) (Expense.content serverExpense))
  || negb (Qeq_bool (Expense.price localExpense) (Expense.price serverExpense))
  || negb (String.eqb (Expense.date localExpense) (Expense.date serverExpense)).

Definition conflictsToResolve (localExpenses serverExpenses : list Expense.t)
    : list (Expense.t * Expense.t) :=
  omap (fun localExpense =>
          match Map_get serverExpenses (Expense.id localExpense) with
          | Some serverExpense =>
              if negb (is_temp (Expense.id localExpense))
                 && differs localExpense serverExpense
              then Some (localExpense, serverExpense)
              else None
          | None => None
          end)
       localExpenses.

Definition upload_one (expense : Upload) : M unit :=
  try_catch
    (let e := up_expense expense in
     await uploadedExpense :=
       SupabaseService.addExpense
         (Expense.mkDraft (Expense.user_id e) (Expense.content e)
            (Expense.price e) (Expense.date e) None None None) in
     match up_id expense with
     | Some id =>
         if is_temp id then
           await _ := LocalStorageService.deleteExpense id in
           await _ := LocalStorageService.addExpense
                        (Expense.to_draft uploadedExpense) in
           ret tt
         else ret tt
     | None => ret tt
     end)
    (fun _ => ret tt).

Definition download_one (expense : Expense.t) : M unit :=
  try_catch
    (await _ := LocalStorageService.addExpense
                  (Expense.mkDraft (Expense.user_id expense)
                     (Expense.content expense) (Expense.price expense)
                     (Expense.date expense) (Expense.updated_at expense)
                     (Some true) (Expense.sync_error expense)) in
     ret tt)
    (fun _ => ret tt).

Definition resolve_one (conflict : Expense.t * Expense.t) : M unit :=
  let '(local_, server) := conflict in
  try_catch
    (await resolvedExpense :=
       SupabaseService.resolveExpenseConflict local_ server in
     await _ := LocalStorageService.updateExpense (Expense.id resolvedExpense)
       {| Expense.p_id := None; Expense.p_user_id := None;
          Expense.p_content := Some (Expense.content resolvedExpense);
          Expense.p_price := Some (Expense.price resolvedExpense);
          Expense.p_date := Some (Expense.date resolvedExpense);
          Expense.p_created_at := None;
          Expense.p_updated_at := Expense.updated_at resolvedExpense;
          Expense.p_synced := Some true; Expense.p_sync_error := None |} in
     ret tt)
    (fun _ => ret tt).

Definition resolveExpenseConflicts (localExpenses serverExpenses : list Expense.t)
    (user : User.t) : M unit :=
  let toUpload := expensesToUpload localExpenses serverExpenses user in
  let toDownload := expensesToDownload localExpenses serverExpenses in
  let conflicts := conflictsToResolve localExpenses serverExpenses in
  await _ := for_of toUpload upload_one in
  await _ := for_of toDownload download_one in
  for_of conflicts resolve_one.

Definition status_error (e : Thrown) : StatusUpdate :=
  mkUpdate None None None (Some (Some (error_message e))).

Definition not_in_progress : World -> World :=
  updateSyncStatus_now (mkUpdate None None (Some false) None).

(** [const [l, s] = await Promise.all([local.getExpenses(),
    remote.getExpenses()])]: the two reads touch disjoint state and are
    run one after the other. *)
Definition syncExpenses : M unit :=
  try_finally
    (try_catch
       (await _ := updateSyncStatus (mkUpdate None None (Some true) (Some None)) in
        await currentUser := SupabaseService.getCurrentUser in
        match currentUser with
        | None => throw (JsError "User not authenticated for sync")
        | Some user =>
            if User.isGuest user
            then throw (JsError "User not authenticated for sync")
            else
              await localExpenses := LocalStorageService.getExpenses in
              await serverExpenses := SupabaseService.getExpenses in
              await _ := resolveExpenseConflicts localExpenses serverExpenses user in
              await now_ := now in
              updateSyncStatus
                (mkUpdate (Some (Some now_)) (Some 0) None (Some None))
        end)
       (fun error =>
          let appError := handleAsyncError error "Sync expenses" in
          await _ := updateSyncStatus (status_error appError) in
          throw appError))
    not_in_progress.

(** *** The deferred operation queue *)

Definition processExpenseOperation (operation : SyncOperation.t) : M unit :=
  let data := SyncOperation.data operation in
  match SyncOperation.type operation with
  | create =>
      await _ := SupabaseService.addExpense_untyped data in ret tt
  | update =>
      await _ := SupabaseService.updateExpense_ (Expense.p_id data) data in ret tt
  | delete =>
      SupabaseService.deleteExpense_ (Expense.p_id data)
  end.

Definition processOperation (operation : SyncOperation.t) : M unit :=
  match SyncOperation.entity operation with
  | expense => processExpenseOperation operation
  | goal_template | goal_completion | weekly_report => ret tt
  end.

Definition bump_retries (r : Ref) (s : Services) : Services :=
  set_operations
    (fun r' =>
       if Nat.eqb r' r
       then SyncOperation.with_retries
              (SyncOperation.retries (operations s r) + 1) (operations s r)
       else operations s r')
    s.

Definition record_attempt (r : Ref) (ok : bool) (s : Services) : Services :=
  set_attempted (attempted s ++ [(r, ok)]) s.

(** The body of the loop over the queue, for the object [r]; it returns
    whether [r] is pushed on [processedOperations]. *)
Definition attempt (r : Ref) : M bool :=
  try_catch
    (await operation := gets (fun w => operations (services w) r) in
     await _ := processOperation operation in
     await _ := modify (on_services (record_attempt r true)) in
     ret true)
    (fun _ =>
       await _ := modify (on_services (record_attempt r false)) in
       await _ := modify (on_services (bump_retries r)) in
       await operation := gets (fun w => operations (services w) r) in
       ret (3 <=? SyncOperation.retries operation)).

Fixpoint drain (queue : list Ref) (processedOperations : list Ref)
    : M (list Ref) :=
  match queue with
  | [] => ret processedOperations
  | r :: queue' =>
      await done := attempt r in
      drain queue' (if done : bool then processedOperations ++ [r]
                    else processedOperations)
  end.

Definition processQueue : M unit :=
  await queue := gets (fun w => syncQueue (services w)) in
  match queue with
  | [] => ret tt
  | _ :: _ =>
      try_finally
        (try_catch
           (await _ := updateSyncStatus (mkUpdate None None (Some true) None) in
            await currentUser := SupabaseService.getCurrentUser in
            match currentUser with
            | None => throw (JsError "User not authenticated for sync")
            | Some user =>
                if User.isGuest user
                then throw (JsError "User not authenticated for sync")
                else
                  await processedOperations := drain queue [] in
                  await _ := modify (on_services (fun s =>
                    set_syncQueue
                      (filter (fun op => op ∉ processedOperations) (syncQueue s)) s)) in
                  await remaining := gets (fun w => syncQueue (services w)) in
                  await now_ := now in
                  updateSyncStatus
                    (mkUpdate (Some (Some now_))
                       (Some (Z.of_nat (length remaining))) None (Some None))
            end)
           (fun error =>
              let appError := handleAsyncError error "Process sync queue" in
              await _ := updateSyncStatus (status_error appError) in
              throw appError))
        not_in_progress
  end.

Definition queueOperation (operation : Ref) : M unit :=
  await _ := modify (on_services (fun s => set_syncQueue (syncQueue s ++ [operation]) s)) in
  await queue := gets (fun w => syncQueue (services w)) in
  await _ := updateSyncStatus
               (mkUpdate None (Some (Z.of_nat (length queue))) None None) in
  try_catch processQueue (fun _ => ret tt).

Definition clearQueue : M unit :=
  await _ := modify (on_services (set_syncQueue [])) in
  updateSyncStatus (mkUpdate None (Some 0) None None).

End SyncService.

(** ** utils/validation.ts *)

Module Validation.

Record ValidationResult := mkResult { isValid : bool; errors : list string }.

(** [s.length]: the number of UTF-16 code units of the text.  In the
    UTF-8 form a byte that continues a character counts for nothing, and
    the first byte of a character of four bytes counts for two (such a
    character is a surrogate pair). *)
Definition utf16_units (c : ascii) : nat :=
  let n := nat_of_ascii c in
  if (Nat.leb 128 n && Nat.ltb n 192)%bool then 0%nat
  else if Nat.leb 240 n then 2%nat
  else 1%nat.

Definition length_utf16 (s : string) : nat :=
  fold_right (fun c n => (utf16_units c + n)%nat) 0%nat (list_ascii_of_string s).

(** The white space and line terminators of one byte that [trim]
    removes: tab, line feed, vertical tab, form feed, carriage return and
    space. *)
Definition is_space (c : ascii) : bool :=
  let n := nat_of_ascii c in
  (Nat.eqb n 32 || (Nat.leb 9 n && Nat.leb n 13))%bool.

Definition byte_is (n : nat) (c : ascii) : bool := Nat.eqb (nat_of_ascii c) n.

(** [s.trim().length === 0]: the text consists of white space only.  The
    characters of more than one byte that [trim] removes are U+00A0,
    U+1680, U+2000 to U+200A, U+2028, U+2029, U+202F, U+205F, U+3000 and
    U+FEFF. *)
Fixpoint only_white_space (l : list ascii) : bool :=
  match l with
  | [] => true
  | c :: rest =>
      if is_space c then only_white_space rest
      else
        match rest with
        | c2 :: rest2 =>
            if byte_is 194 c then byte_is 160 c2 && only_white_space rest2
            else
              match rest2 with
              | c3 :: rest3 =>
                  let n3 := nat_of_ascii c3 in
                  ((byte_is 225 c && byte_is 154 c2 && byte_is 128 c3)
                   || (byte_is 226 c && byte_is 128 c2
                       && ((Nat.leb 128 n3 && Nat.leb n3 138)
                           || Nat.eqb n3 168 || Nat.eqb n3 169 || Nat.eqb n3 175))
                   || (byte_is 226 c && byte_is 129 c2 && byte_is 159 c3)
                   || (byte_is 227 c && byte_is 128 c2 && byte_is 128 c3)
                   || (byte_is 239 c && byte_is 187 c2 && byte_is 191 c3))
                  && only_white_space rest3
              | [] => false
              end
        | [] => false
        end
  end.

Definition is_blank (s : string) : bool :=
  only_white_space (list_ascii_of_string s).

Definition is_digit (c : ascii) : bool :=
  match JsDate.digit_value c with Some _ => true | None => false end.

(** [/^\d{4}-\d{2}-\d{2}$/.test(s)] *)
Definition matches_date_pattern (s : string) : bool :=
  match list_ascii_of_string s with
  | [y1; y2; y3; y4; s1; m1; m2; s2; d1; d2] =>
      forallb is_digit [y1; y2; y3; y4; m1; m2; d1; d2]
      && Ascii.eqb s1 JsDate.dash && Ascii.eqb s2 JsDate.dash
  | _ => false
  end.

(** [new Date(dateString + 'T00:00:00.000Z')] for a string that matches
    the pattern: an Invalid Date ([None]) unless the month is 01 to 12 and
    the day 01 to 31; a day up to 31 that the month does not have is
    counted on into the next month, as V8 does. *)
Definition midnight_of (dateString : string) : option Instant :=
  match list_ascii_of_string dateString with
  | [y1; y2; y3; y4; _; m1; m2; _; d1; d2] =>
      match JsDate.number_of [y1; y2; y3; y4] 0,
            JsDate.number_of [m1; m2] 0, JsDate.number_of [d1; d2] 0 with
      | Some y, Some m, Some d =>
          if (1 <=? m) && (m <=? 12) && (1 <=? d) && (d <=? 31)
          then Some (JsDate.days_from_civil y m d * JsDate.msPerDay)
          else None
      | _, _, _ => None
      end
  | _ => None
  end.

(** The [RangeError] that [toISOString] throws on an Invalid Date. *)
Definition invalid_time_value : Thrown := JsError "Invalid time value".

(** [isValidDateString]: [false] for a string that does not match the
    pattern; for one that does, [date.toISOString().startsWith(s)], which
    throws when the date is invalid. *)
Definition isValidDateString (dateString : string) : Result bool :=
  if negb (matches_date_pattern dateString) then Ok false
  else
    match midnight_of dateString with
    | Some date => Ok (String.prefix dateString (JsDate.isoDay date))
    | None => Err invalid_time_value
    end.

Definition push_if (c : bool) (message : string) (errors : list string)
    : list string :=
  if c then errors ++ [message] else errors.

Definition truthy (s : option string) : bool :=
  match s with Some v => negb (String.eqb v EmptyString) | None => false end.

(** The literal [999999999.99], as the double it denotes. *)
Definition max_price : Q := 4194303999958057 # 4194304.

(** [validateExpense]; it throws what [isValidDateString] throws. *)
Definition validateExpense (expense : Expense.partial) : Result ValidationResult :=
  let content := Expense.p_content expense in
  let price := Expense.p_price expense in
  let date := Expense.p_date expense in
  let errors :=
    push_if (negb (truthy date)) "Date is required"
    (push_if (match price with
              | Some p => negb (Qle_bool p max_price)
              | None => false
              end)
       "Price is too large"
    (push_if (match price with
              | Some p => negb (Qle_bool 0 p)
              | None => false
              end)
       "Price must be positive"
    (push_if (match price with Some _ => false | None => true end)
       "Price is required"
    (push_if (truthy content
              && Nat.ltb 200 (length_utf16 (default EmptyString content)))
       "Content must be less than 200 characters"
    (push_if (negb (truthy content) || is_blank (default EmptyString content))
       "Content is required" []))))) in
  let result errors := mkResult (match errors with [] => true | _ => false end) errors in
  if truthy date then
    match isValidDateString (default EmptyString date) with
    | Ok valid =>
        Ok (result (push_if (negb valid) "Date must be in YYYY-MM-DD format" errors))
    | Err error => Err error
    end
  else Ok (result errors).

End Validation.

(** ** services/weeklyReportService.ts *)

Module WeeklyReportService.

(** Modelled from the spec: [calculateCompletionRate] of utils/helpers.ts,
    which is not among the sources.  The spec gives
    [completion_rate = completions/total_days], and 0 if [total_days]
    is 0. *)
Definition calculateCompletionRate (completed total : Z) : Q :=
  if total =? 0 then 0%Q else Qred (inject_Z completed / inject_Z total).

Section Zone.
Variable zone : Z.

(** The day examined by iteration [i] of the loop. *)
Definition checkDate (startDate : Instant) (i : Z) : Instant :=
  JsDate.setDate zone startDate (JsDate.getDate zone startDate + i).

Definition dayOfWeek (checkDate : Instant) : Z :=
  if JsDate.getDay zone checkDate =? 0 then 7 else JsDate.getDay zone checkDate.

Definition is_completion_for (template : GoalTemplate.t) (dateString : string)
    (c : DailyGoalCompletion.t) : bool :=
  String.eqb (DailyGoalCompletion.goal_template_id c) (GoalTemplate.id template)
  && String.eqb (DailyGoalCompletion.completion_date c) dateString
  && DailyGoalCompletion.is_completed c.

(** The loop [for (let i = 0; i < 7; i++)], run on the remaining
    indices; the state is [totalDays] and [templateCompletions]. *)
Fixpoint scan_week (template : GoalTemplate.t) (startDate : Instant)
    (completions : list DailyGoalCompletion.t) (indices : list Z) (totalDays : Z)
    (templateCompletions : list DailyGoalCompletion.t)
    : Z * list DailyGoalCompletion.t :=
  match indices with
  | [] => (totalDays, templateCompletions)
  | i :: rest =>
      let check := checkDate startDate i in
      let dateString := JsDate.isoDay check in
      if GoalTemplate.day_of_week template =? dayOfWeek check then
        match List.find (is_completion_for template dateString) completions with
        | Some completion =>
            scan_week template startDate completions rest (totalDays + 1)
              (templateCompletions ++ [completion])
        | None =>
            scan_week template startDate completions rest (totalDays + 1)
              templateCompletions
        end
      else
        scan_week template startDate completions rest totalDays
          templateCompletions
  end.

(** [None] when [weekStartDate] is not a date ([toISOString] throws on
    an Invalid Date). *)
Definition calculateGoalStats (template : GoalTemplate.t)
    (weekStartDate : string) (completions : list DailyGoalCompletion.t)
    : option GoalStats.t :=
  match JsDate.parse weekStartDate with
  | None => None
  | Some startDate =>
      let '(totalDays, templateCompletions) :=
        scan_week template startDate completions [0; 1; 2; 3; 4; 5; 6] 0 [] in
      let n := Z.of_nat (length templateCompletions) in
      Some {| GoalStats.template_id := GoalTemplate.id template;
              GoalStats.title := GoalTemplate.title template;
              GoalStats.completions := n;
              GoalStats.total_days := totalDays;
              GoalStats.completion_rate := calculateCompletionRate n totalDays |}
  end.
End Zone.

End WeeklyReportService.

(** ** hooks/useAuth.ts *)

Module useAuth.

(** The [user] exposed by the context: [forceAuthScreen ? null : user]. *)
Definition context_user (h : Hooks) : option User.t :=
  if forceAuthScreen h then None else user h.

Definition isAuthenticated (h : Hooks) : bool :=
  match user h with Some u => negb (User.isGuest u) | None => false end.

Definition isGuest (h : Hooks) : bool :=
  match user h with Some u => User.isGuest u | None => false end.

Definition createGuestUser : M User.t :=
  await t := now in
  ret (User.mk ("guest_" ++ pretty t) None true).

Definition not_configured : Thrown :=
  JsError "Authentication service is not available. Please continue as guest.".

Definition signUp (email password : string) : M unit :=
  try_finally
    (try_catch
       (await _ := modify (on_hooks (set_authLoading true)) in
        await _ := modify (on_hooks (set_authError None)) in
        await ok := SupabaseService.isConfigured in
        if negb ok then throw not_configured
        else
          await _ := SupabaseService.signUp email password in
          await _ := LocalStorageService.clearAllData in
          modify (on_hooks (set_forceAuthScreen false)))
       (fun err =>
          let appError := handleAsyncError err "User signup" in
          await _ := modify (on_hooks (set_authError (Some (error_message appError)))) in
          throw appError))
    (on_hooks (set_authLoading false)).

Definition signIn (email password : string) : M unit :=
  try_finally
    (try_catch
       (await _ := modify (on_hooks (set_authLoading true)) in
        await _ := modify (on_hooks (set_authError None)) in
        await ok := SupabaseService.isConfigured in
        if negb ok then throw not_configured
        else
          await authenticatedUser := SupabaseService.signIn email password in
          await _ := LocalStorageService.clearAllData in
          await _ := modify (on_hooks (set_user (Some authenticatedUser))) in
          modify (on_hooks (set_forceAuthScreen false)))
       (fun err =>
          let appError := handleAsyncError err "User signin" in
          await _ := modify (on_hooks (set_authError (Some (error_message appError)))) in
          throw appError))
    (on_hooks (set_authLoading false)).

Definition signOut : M unit :=
  try_finally
    (try_catch
       (await _ := modify (on_hooks (set_authLoading true)) in
        await _ := modify (on_hooks (set_authError None)) in
        await authenticated := gets (fun w => isAuthenticated (hooks w)) in
        await _ := (if authenticated : bool then SupabaseService.signOut else ret tt) in
        await guestUser := createGuestUser in
        modify (on_hooks (set_user (Some guestUser))))
       (fun err =>
          let appError := handleAsyncError err "User signout" in
          modify (on_hooks (set_authError (Some (error_message appError))))))
    (on_hooks (set_authLoading false)).

End useAuth.

(** ** hooks/useExpenses.ts *)

Module useExpenses.

(** [isAuthenticated && user && !user.isGuest], on the values the auth
    context exposes. *)
Definition remote_identity (h : Hooks) : bool :=
  useAuth.isAuthenticated h
  && match useAuth.context_user h with
     | Some u => negb (User.isGuest u)
     | None => false
     end.

Definition setExpenses (f : list Expense.t -> list Expense.t) : M unit :=
  modify (on_hooks (fun h => set_expenses (f (expenses h)) h)).

Definition setError (e : option string) : M unit :=
  modify (on_hooks (set_error e)).

Definition setLoading (b : bool) : M unit :=
  modify (on_hooks (set_loading b)).

Definition setSyncStatus (f : SyncStatus.t -> SyncStatus.t) : M unit :=
  modify (on_hooks (fun h => set_syncStatus (f (syncStatus h)) h)).

Definition in_progress (b : bool) (prev : SyncStatus.t) : SyncStatus.t :=
  SyncStatus.mk (SyncStatus.last_sync prev) (SyncStatus.pending_changes prev) b
    (SyncStatus.error prev).

Definition synced_at (t : Instant) (prev : SyncStatus.t) : SyncStatus.t :=
  SyncStatus.mk (Some t) (SyncStatus.pending_changes prev)
    (SyncStatus.sync_in_progress prev) None.

Definition sync_failed (prev : SyncStatus.t) : SyncStatus.t :=
  SyncStatus.mk (SyncStatus.last_sync prev) (SyncStatus.pending_changes prev)
    (SyncStatus.sync_in_progress prev) (Some "Failed to sync with server").

Definition change_pending (prev : SyncStatus.t) : SyncStatus.t :=
  SyncStatus.mk (SyncStatus.last_sync prev) (SyncStatus.pending_changes prev + 1)
    (SyncStatus.sync_in_progress prev) (Some "Failed to sync with server").

Definition finish (w : World) : World :=
  on_hooks (fun h => set_syncStatus (in_progress false (syncStatus h)) h) w.

Definition loadExpenses : M unit :=
  try_finally
    (try_catch
       (await _ := setLoading true in
        await _ := setError None in
        await _ := setSyncStatus (in_progress true) in
        await remote := gets (fun w => remote_identity (hooks w)) in
        await storedExpenses :=
          (if remote : bool then
             try_catch
               (await stored := SupabaseService.getExpenses in
                await t := now in
                await _ := setSyncStatus (synced_at t) in
                ret stored)
               (fun _ =>
                  await stored := LocalStorageService.getExpenses in
                  await _ := setSyncStatus sync_failed in
                  ret stored)
           else LocalStorageService.getExpenses) in
        setExpenses (fun _ => storedExpenses))
       (fun err =>
          let appError := handleAsyncError err "Load expenses" in
          setError (Some (error_message appError))))
    (fun w => finish (on_hooks (set_loading false) w)).

(** The temporary id [`temp_${Date.now()}`]. *)
Definition temp_id : M string :=
  await t := now in ret ("temp_" ++ pretty t).

Definition addExpense (content : string) (price : Q) (date : string)
    : M Expense.t :=
  let newExpense := Expense.fields content price date in
  try_finally
    (try_catch
       (await _ := setError None in
        await id := temp_id in
        await user := gets (fun w => useAuth.context_user (hooks w)) in
        await created := now in
        let optimisticExpense :=
          {| Expense.id := id;
             Expense.user_id := User.id <$> user;
             Expense.content := content; Expense.price := price;
             Expense.date := date; Expense.created_at := created;
             Expense.updated_at := None; Expense.synced := Some false;
             Expense.sync_error := None |} in
        await _ := setExpenses (fun prev => optimisticExpense :: prev) in
        await remote := gets (fun w => remote_identity (hooks w)) in
        await savedExpense :=
          (if remote : bool then
             try_catch
               (await _ := setSyncStatus (in_progress true) in
                await saved := SupabaseService.addExpense newExpense in
                await t := now in
                await _ := setSyncStatus (synced_at t) in
                ret saved)
               (fun _ =>
                  await saved := LocalStorageService.addExpense newExpense in
                  await _ := setSyncStatus change_pending in
                  ret saved)
           else LocalStorageService.addExpense newExpense) in
        await _ := setExpenses
                     (map (fun exp =>
                             if String.eqb (Expense.id exp)
                                  (Expense.id optimisticExpense)
                             then savedExpense else exp)) in
        ret savedExpense)
       (fun err =>
          await id := temp_id in
          await _ := setExpenses
                       (filter (fun exp => Expense.id exp <> id)) in
          let appError := handleAsyncError err "Add expense" in
          await _ := setError (Some (error_message appError)) in
          throw appError))
    finish.

(** [{ ...exp, ...updates, updated_at: now }] *)
Definition optimistic_update (updates : Expense.partial) (t : Instant)
    (exp : Expense.t) : Expense.t :=
  let merged := Expense.spread exp updates in
  {| Expense.id := Expense.id merged; Expense.user_id := Expense.user_id merged;
     Expense.content := Expense.content merged;
     Expense.price := Expense.price merged; Expense.date := Expense.date merged;
     Expense.created_at := Expense.created_at merged;
     Expense.updated_at := Some t; Expense.synced := Expense.synced merged;
     Expense.sync_error := Expense.sync_error merged |}.

Definition updateExpense (id : string) (updates : Expense.partial)
    : M Expense.t :=
  try_finally
    (try_catch
       (await _ := setError None in
        await t := now in
        await _ := setExpenses
                     (map (fun exp =>
                             if String.eqb (Expense.id exp) id
                             then optimistic_update updates t exp else exp)) in
        await remote := gets (fun w => remote_identity (hooks w)) in
        await updatedExpense :=
          (if remote : bool then
             try_catch
               (await _ := setSyncStatus (in_progress true) in
                await updated := SupabaseService.updateExpense id updates in
                await t' := now in
                await _ := setSyncStatus (synced_at t') in
                ret updated)
               (fun _ =>
                  await updated := LocalStorageService.updateExpense id updates in
                  await _ := setSyncStatus change_pending in
                  ret updated)
           else LocalStorageService.updateExpense id updates) in
        await _ := setExpenses
                     (map (fun exp =>
                             if String.eqb (Expense.id exp) id
                             then updatedExpense else exp)) in
        ret updatedExpense)
       (fun err =>
          await _ := loadExpenses in
          let appError := handleAsyncError err "Update expense" in
          await _ := setError (Some (error_message appError)) in
          throw appError))
    finish.

Definition deleteExpense (id : string) : M unit :=
  try_finally
    (try_catch
       (await _ := setError None in
        await _ := setExpenses (filter (fun exp => Expense.id exp <> id)) in
        await remote := gets (fun w => remote_identity (hooks w)) in
        if remote : bool then
          try_catch
            (await _ := setSyncStatus (in_progress true) in
             await _ := SupabaseService.deleteExpense id in
             await t := now in
             setSyncStatus (synced_at t))
            (fun _ =>
               await _ := LocalStorageService.deleteExpense id in
               setSyncStatus change_pending)
        else LocalStorageService.deleteExpense id)
       (fun err =>
          await _ := loadExpenses in
          let appError := handleAsyncError err "Delete expense" in
          await _ := setError (Some (error_message appError)) in
          throw appError))
    finish.

End useExpenses.

(** * Vocabulary of the statements *)

(** No access to the device's store fails from [w] on. *)
Definition healthy (w : World) : Prop := storage_faults (device w) = [].

(** The expiry stamp exists and is in the past. *)
Definition expired_on (d : Device) : bool :=
  match AsyncStorage.EXPIRY (storage d) with
  | Some expiry => expiry <? clock d
  | None => false
  end.

Definition expired (w : World) : bool := expired_on (device w).

(** [w] after the removal of the five keys. *)
Definition wiped (w : World) : World :=
  on_device (set_storage AsyncStorage.empty) w.

(** The state in which a reader leaves a healthy device: wiped if the
    data had expired. *)
Definition settle (d : Device) : Device :=
  if expired_on d then set_storage AsyncStorage.empty d else d.

Definition settled (w : World) : World := on_device settle w.

(** The collection kept under a key, as a reader sees it. *)
Definition stored {A} (field : AsyncStorage.t -> option (list A)) (w : World)
    : list A :=
  if expired w then [] else default [] (field (storage (device w))).

(** The store after a first write: the expiry stamp is set if absent. *)
Definition stamped (t : Instant) (s : AsyncStorage.t) : AsyncStorage.t :=
  match AsyncStorage.EXPIRY s with
  | Some _ => s
  | None =>
      AsyncStorage.set_EXPIRY
        (Some (t + LocalStorageService.EXPIRY_DAYS * JsDate.msPerDay)) s
  end.

(** [w] after a successful write [put] of a collection. *)
Definition written (put : AsyncStorage.t -> AsyncStorage.t) (w : World) : World :=
  on_device (fun d => set_storage (stamped (clock d) (put (storage d))) d) w.

(** A computation leaves a component of the state alone. *)
Definition keeps {A X} (proj : World -> X) (m : M A) : Prop :=
  forall w, proj (m w).2 = proj w.

(** A computation returns, whatever the state. *)
Definition total {A} (m : M A) : Prop :=
  forall w, exists a w', m w = (Ok a, w').

(** The device holds nothing. *)
Definition is_empty (w : World) : Prop := storage (device w) = AsyncStorage.empty.

(** What a failed access to the store throws. *)
Definition storage_failure : Thrown := JsError "AsyncStorage failure".

(** The state once the failing access has been consumed. *)
Definition after_fault (plan : list bool) (w : World) : World :=
  on_device (set_storage_faults plan) w.

(** The same state on a device whose store answers. *)
Definition answering (w : World) : World := on_device (set_storage_faults []) w.

(** What a writer of a collection does when one of its accesses to the
    store fails: the write of the collection ([put]), the read of the
    expiry stamp that follows, or the write of the stamp that a store
    without a stamp then receives. *)
Definition write_outcomes (save : M unit)
    (put : AsyncStorage.t -> AsyncStorage.t) : Prop :=
  (forall v plan,
      storage_faults (device v) = true :: plan ->
      exists v', save v = (Err storage_failure, v')
                 /\ storage (device v') = storage (device v))
  /\ (forall v plan,
        storage_faults (device v) = false :: true :: plan ->
        exists v', save v = (Err storage_failure, v')
                   /\ storage (device v') = put (storage (device v)))
  /\ (forall v plan,
        storage_faults (device v) = false :: false :: true :: plan ->
        AsyncStorage.EXPIRY (storage (device v)) = None ->
        exists v', save v = (Ok tt, v')
                   /\ storage (device v') = put (storage (device v))).

(** The number of stored records for the slot of [completion]. *)
Definition slot_count (completion : DailyGoalCompletion.input)
    (l : list DailyGoalCompletion.t) : nat :=
  length (filter (LocalStorageService.same_slot completion) l).

(** At most one completion record per [(goal_template_id, completion_date)]. *)
Definition one_per_slot (l : list DailyGoalCompletion.t) : Prop :=
  forall completion, (slot_count completion l <= 1)%nat.

(** The record [updateGoalCompletion] creates in state [w]. *)
Definition created_completion (completion : DailyGoalCompletion.input) (w : World)
    : DailyGoalCompletion.t :=
  {| DailyGoalCompletion.id :=
       (pretty (clock (device w)) ++ hd EmptyString (random (device w)))%string;
     DailyGoalCompletion.user_id := DailyGoalCompletion.i_user_id completion;
     DailyGoalCompletion.goal_template_id :=
       DailyGoalCompletion.i_goal_template_id completion;
     DailyGoalCompletion.completion_date :=
       DailyGoalCompletion.i_completion_date completion;
     DailyGoalCompletion.is_completed :=
       DailyGoalCompletion.i_is_completed completion;
     DailyGoalCompletion.completed_at :=
       DailyGoalCompletion.i_completed_at completion;
     DailyGoalCompletion.created_at := clock (device w) |}.

(** [w] once an id has been generated. *)
Definition drawn (w : World) : World :=
  on_device (fun d => set_random (tl (random d)) d) w.

(** Two inputs name the same slot. *)
Definition same_key (a b : DailyGoalCompletion.input) : Prop :=
  DailyGoalCompletion.i_goal_template_id a = DailyGoalCompletion.i_goal_template_id b
  /\ DailyGoalCompletion.i_completion_date a = DailyGoalCompletion.i_completion_date b.

(** The record [addExpense] appends in state [w]. *)
Definition created_expense (expense : Expense.draft) (w : World) : Expense.t :=
  {| Expense.id := (pretty (clock (device w)) ++ hd EmptyString (random (device w)))%string;
     Expense.user_id := Expense.d_user_id expense;
     Expense.content := Expense.d_content expense;
     Expense.price := Expense.d_price expense;
     Expense.date := Expense.d_date expense;
     Expense.created_at := clock (device w);
     Expense.updated_at := Expense.d_updated_at expense;
     Expense.synced := Expense.d_synced expense;
     Expense.sync_error := Expense.d_sync_error expense |}.

(** The records filed under an id. *)
Abbreviation has_id id := (fun e : Expense.t => Expense.id e = id).

(** What the caller sees of an error raised by the adapter. *)
Definition unknown_error : Thrown :=
  AppError "UNKNOWN_ERROR" "An unknown error occurred".

(** [w] once the failing request has been consumed. *)
Definition request_lost (plan : list bool) (w : World) : World :=
  on_backend (set_net_faults plan) w.

(** The status after a write that fell back to the local store. *)
Definition fell_back (before : SyncStatus.t) : SyncStatus.t :=
  {| SyncStatus.last_sync := SyncStatus.last_sync before;
     SyncStatus.pending_changes := SyncStatus.pending_changes before + 1;
     SyncStatus.sync_in_progress := false;
     SyncStatus.error := Some "Failed to sync with server" |}.

(** [prev.map(exp => exp.id === id ? r : exp)] *)
Definition replaced (id : string) (r : Expense.t) (l : list Expense.t) : list Expense.t :=
  map (fun exp => if String.eqb (Expense.id exp) id then r else exp) l.

(** The count of pending changes shown by the hook. *)
Definition pending (w : World) : Z :=
  SyncStatus.pending_changes (syncStatus (hooks w)).

(** ** Vocabulary of the deferred queue *)

Definition queue (w : World) : list Ref := syncQueue (services w).

Definition retries_of (w : World) (r : Ref) : Z :=
  SyncOperation.retries (operations (services w) r).

(** The attempts logged so far. *)
Definition attempts (w : World) : list (Ref * bool) := attempted (services w).

(** The attempts made on the object [r]. *)
Definition attempts_on (r : Ref) (log : list (Ref * bool)) : list (Ref * bool) :=
  filter (fun a => a.1 = r) log.

(** The number of failed attempts on [r] in a log. *)
Definition failures (r : Ref) (log : list (Ref * bool)) : Z :=
  Z.of_nat (length (filter (fun a => a = (r, false)) log)).

(** What the queue, its objects and the log are in a state. *)
Definition queue_state (w : World)
    : list Ref * (Ref -> SyncOperation.t) * list (Ref * bool) :=
  (syncQueue (services w), operations (services w), attempted (services w)).

(** [v] is reached from [w] by drain passes and by any other activity that
    leaves the queue, its objects and the log alone (requests, sign-in and
    sign-out, local writes, the passing of time). *)
Inductive later (w : World) : World -> Prop :=
| later_now : later w w
| later_pass v : later w v -> later w (state_after SyncService.processQueue v)
| later_other v v' : later w v -> queue_state v' = queue_state v -> later w v'.

(** ** Vocabulary of bulk reconciliation *)

(** The conditions under which a reconciliation runs to its end: the
    device's store and the project answer, the local data has not expired,
    and the adapter holds the signed-in user [u]. *)
Definition in_sync_session (u : User.t) (w : World) : Prop :=
  healthy w /\ expired w = false
  /\ net_faults (backend w) = [] /\ currentUser (services w) = Some u.

(** The local record and the remote row found under an id. *)
Definition local_record (id : string) (w : World) : option (nat * Expense.t) :=
  list_find (fun e : Expense.t => Expense.id e = id) (stored AsyncStorage.EXPENSES w).

Definition remote_record (id : string) (u : User.t) (w : World)
    : option (nat * Expense.t) :=
  list_find (SupabaseService.row_matches (Some id) (User.id u)) (rows (backend w)).

(** Two records agree on the domain fields of an expense. *)
Definition same_fields (a b : Expense.t) : Prop :=
  Expense.content a = Expense.content b
  /\ Expense.price a = Expense.price b
  /\ Expense.date a = Expense.date b.

(** Last write wins: the local copy if it is strictly newer, else the
    remote one. *)
Definition winner (localExpense serverExpense : Expense.t) : Expense.t :=
  if SupabaseService.write_time serverExpense <? SupabaseService.write_time localExpense
  then localExpense else serverExpense.

(** The update object the adapter sends. *)
Definition stamped_update (updates : Expense.partial) (t : Instant) : Expense.partial :=
  Expense.mkPartial (Expense.p_id updates) (Expense.p_user_id updates)
    (Expense.p_content updates) (Expense.p_price updates)
    (Expense.p_date updates) (Expense.p_created_at updates)
    (Some t) (Expense.p_synced updates) (Expense.p_sync_error updates).

(** The pair under id [X], as the two stores hold it in a session of [u]. *)
Definition paired (u : User.t) (X : string)
    (i : nat) (e : Expense.t) (j : nat) (r : Expense.t) (w : World) : Prop :=
  in_sync_session u w
  /\ local_record X w = Some (i, e) /\ remote_record X u w = Some (j, r).

(** A step returns and maintains [I]. *)
Definition maintains (I J : World -> Prop) (m : M unit) : Prop :=
  forall w, I w -> exists w', m w = (Ok tt, w') /\ J w'.

(** The fields a resolution sends to the table. *)
Definition local_fields (e : Expense.t) : Expense.partial :=
  {| Expense.p_id := None; Expense.p_user_id := None;
     Expense.p_content := Some (Expense.content e);
     Expense.p_price := Some (Expense.price e);
     Expense.p_date := Some (Expense.date e);
     Expense.p_created_at := None; Expense.p_updated_at := None;
     Expense.p_synced := None; Expense.p_sync_error := None |}.

(** The update of the local copy after a resolution. *)
Definition resolved_fields (resolved : Expense.t) : Expense.partial :=
  {| Expense.p_id := None; Expense.p_user_id := None;
     Expense.p_content := Some (Expense.content resolved);
     Expense.p_price := Some (Expense.price resolved);
     Expense.p_date := Some (Expense.date resolved);
     Expense.p_created_at := None;
     Expense.p_updated_at := Expense.updated_at resolved;
     Expense.p_synced := Some true; Expense.p_sync_error := None |}.

(** What the resolution of the conflict under [X] leaves in the stores. *)
Definition resolved_pair (u : User.t) (X : string) (l s : Expense.t) (i j : nat) (w : World) : Prop :=
  exists l' s',
    paired u X i l' j s' w
    /\ same_fields l' (winner l s) /\ same_fields s' (winner l s)
    /\ Expense.synced l' = Some true
    /\ (SupabaseService.write_time l <= SupabaseService.write_time s -> s' = s).

(** * Sample data *)

Module Sample.

(** 2024-01-01T00:00:00.000Z *)
Definition new_year : Instant := 1704067200000.

Definition coffee : Expense.t :=
  {| Expense.id := "1704067200000abc"; Expense.user_id := None;
     Expense.content := "coffee"; Expense.price := 10%Q;
     Expense.date := "2024-01-01"; Expense.created_at := new_year;
     Expense.updated_at := None; Expense.synced := None;
     Expense.sync_error := None |}.

(** A row of the remote table, owned by Alice. *)
Definition lunch : Expense.t :=
  {| Expense.id := "srv-lunch"; Expense.user_id := Some "alice";
     Expense.content := "lunch"; Expense.price := 12%Q;
     Expense.date := "2024-01-01"; Expense.created_at := new_year - 5000;
     Expense.updated_at := Some (new_year - 1000); Expense.synced := None;
     Expense.sync_error := None |}.

Definition guest : User.t := User.mk "guest_1704067200000" None true.
Definition alice : User.t := User.mk "alice" (Some "alice@example.org") false.

Definition store (expenses : option (list Expense.t)) (expiry : option Instant)
    : AsyncStorage.t :=
  AsyncStorage.mk expenses None None None expiry.

Definition phone (s : AsyncStorage.t) (faults : list bool) (t : Instant) : Device :=
  mkDevice s faults t ["abc"; "def"; "ghi"].

Definition project (rows : list Expense.t) (faults : list bool)
    (session : option User.t) : Backend :=
  mkBackend rows (fun n => "srv" ++ pretty n) 0 faults
    [mkAccount "alice@example.org" "secret" true alice] session true.

Definition no_operation : SyncOperation.t :=
  SyncOperation.mk EmptyString create goal_template Expense.no_fields 0 0.

Definition idle (cached : option User.t) : Services :=
  mkServices cached [] (fun _ => no_operation) SyncStatus.initial [].

Definition screen (expenses : list Expense.t) (user : option User.t) : Hooks :=
  mkHooks expenses None SyncStatus.initial false user None false false.

(** A guest whose local store holds one expense. *)
Definition guest_with_coffee : World :=
  mkWorld (phone (store (Some [coffee]) (Some (new_year + 1000))) [] new_year)
    (project [] [] None) (idle None) (screen [coffee] (Some guest)).

(** The same device after the expiry stamp has passed. *)
Definition stale_guest : World :=
  mkWorld (phone (store (Some [coffee]) (Some (new_year - 1))) [] new_year)
    (project [] [] None) (idle None) (screen [] (Some guest)).

(** The same device when the load of the collection fails. *)
Definition unreadable_guest : World :=
  mkWorld (phone (store (Some [coffee]) (Some (new_year + 1000))) [false; true] new_year)
    (project [] [] None) (idle None) (screen [] (Some guest)).

(** The same device when the next write fails. *)
Definition unwritable_guest : World :=
  mkWorld (phone (store (Some [coffee]) (Some (new_year + 1000))) [true] new_year)
    (project [] [] None) (idle None) (screen [] (Some guest)).

(** Alice, signed in, with one expense in her local store and a project
    that does not answer the next request. *)
Definition alice_offline : World :=
  mkWorld (phone (store (Some [coffee]) (Some (new_year + 1000))) [] new_year)
    (project [lunch] [true] (Some alice)) (idle (Some alice))
    (screen [lunch] (Some alice)).

Definition cheaper : Expense.partial :=
  Expense.mkPartial None None None (Some 9%Q) None None None None None.

Definition negative_price : Expense.partial :=
  Expense.mkPartial None None None (Some (-5)%Q) None None None None None.

Definition daily_run : DailyGoalCompletion.input :=
  DailyGoalCompletion.mkInput "alice" "goal-1" "2024-01-01" true (Some new_year).

(** The same run, recorded a minute later, and the run taken back. *)
Definition daily_run_later : DailyGoalCompletion.input :=
  DailyGoalCompletion.mkInput "alice" "goal-1" "2024-01-01" true
    (Some (new_year + 60000)).

Definition run_undone : DailyGoalCompletion.input :=
  DailyGoalCompletion.mkInput "alice" "goal-1" "2024-01-01" false None.

(** Alice, signed in, with guest-era data still on the device. *)
Definition alice_signed_in : World :=
  mkWorld (phone (store (Some [coffee]) (Some (new_year + 1000))) [] new_year)
    (project [lunch] [] (Some alice)) (idle (Some alice))
    (screen [lunch] (Some alice)).

Definition monday_goal : GoalTemplate.t :=
  GoalTemplate.mk "goal-1" "alice" "Run" 1 0 true new_year new_year.

Definition ran_on_new_year : DailyGoalCompletion.t :=
  DailyGoalCompletion.mk "c-1" "alice" "goal-1" "2024-01-01" true
    (Some new_year) new_year.

(** A guest whose store holds the run of new year. *)
Definition guest_who_ran : World :=
  mkWorld
    (phone (AsyncStorage.mk None None (Some [ran_on_new_year]) None
              (Some (new_year + 1000))) [] new_year)
    (project [] [] None) (idle None) (screen [] (Some guest)).

(** The same device when the load of the completions fails. *)
Definition guest_whose_load_fails : World :=
  mkWorld
    (phone (AsyncStorage.mk None None (Some [ran_on_new_year]) None
              (Some (new_year + 1000))) [false; true; false; false; false] new_year)
    (project [] [] None) (idle None) (screen [] (Some guest)).

(** The copy of [lunch] on Alice's device, edited before the row was. *)
Definition lunch_on_device : Expense.t :=
  {| Expense.id := "srv-lunch"; Expense.user_id := Some "alice";
     Expense.content := "lunch"; Expense.price := 10%Q;
     Expense.date := "2024-01-01"; Expense.created_at := new_year - 5000;
     Expense.updated_at := Some (new_year - 2000); Expense.synced := Some true;
     Expense.sync_error := None |}.

(** Alice's device and the project disagree on the price of [lunch]. *)
Definition conflicting_lunch : World :=
  mkWorld
    (phone (store (Some [coffee; lunch_on_device]) (Some (new_year + 1000))) [] new_year)
    (project [lunch] [] (Some alice)) (idle (Some alice))
    (screen [coffee; lunch_on_device] (Some alice)).

(** The copy of [lunch] on Alice's device, edited after the row was. *)
Definition lunch_after_the_row : Expense.t :=
  {| Expense.id := "srv-lunch"; Expense.user_id := Some "alice";
     Expense.content := "lunch"; Expense.price := 10%Q;
     Expense.date := "2024-01-01"; Expense.created_at := new_year - 5000;
     Expense.updated_at := Some (new_year - 500); Expense.synced := Some false;
     Expense.sync_error := None |}.

Definition lunch_edited_later : World :=
  mkWorld
    (phone (store (Some [coffee; lunch_after_the_row]) (Some (new_year + 1000))) []
       new_year)
    (project [lunch] [] (Some alice)) (idle (Some alice))
    (screen [coffee; lunch_after_the_row] (Some alice)).

(** A queued edit of an expense the table does not hold, and a queued
    operation on a goal template. *)
Definition edit_of_missing_row : SyncOperation.t :=
  SyncOperation.mk "op-1" update expense
    (Expense.mkPartial (Some "srv-gone") None (Some "dinner") None None None None
       None None)
    new_year 0.

Definition template_operation : SyncOperation.t :=
  SyncOperation.mk "op-2" create goal_template Expense.no_fields new_year 0.

(** Alice, signed in, with the two operations waiting. *)
Definition alice_with_queue : World :=
  mkWorld (phone (store None None) [] new_year)
    (project [lunch] [] (Some alice))
    (mkServices (Some alice) [0%nat; 1%nat]
       (fun r => match r with
                 | O => edit_of_missing_row
                 | S _ => template_operation
                 end)
       SyncStatus.initial [])
    (screen [lunch] (Some alice)).

(** UTC-5, in milliseconds east of UTC. *)
Definition new_york : Z := -18000000.

End Sample.

(** * Further code of the repository *)

(** ** utils/date.ts *)

Module DateUtils.

(** [date.toISOString().split('T')[0]] *)
Definition formatDateToString (date : Instant) : string := JsDate.isoDay date.

(** [Math.ceil(timeDiff / (1000 * 60 * 60 * 24))] *)
Definition getDaysBetween (startDate endDate : Instant) : Z :=
  let timeDiff := endDate - startDate in
  - ((- timeDiff) / JsDate.msPerDay).

Definition isSameDay (date1 date2 : Instant) : bool :=
  String.eqb (formatDateToString date1) (formatDateToString date2).

Section Zone.
Variable zone : Z.

(** The start of the week (Monday) of a date. *)
Definition getWeekStart (date : Instant) : Instant :=
  let d := date in
  let day := JsDate.getDay zone d in
  let diff := JsDate.getDate zone d - day + (if day =? 0 then -6 else 1) in
  JsDate.setDate zone d diff.

(** Day of week number (1-7, Monday=1). *)
Definition getDayOfWeek (date : Instant) : Z :=
  let day := JsDate.getDay zone date in
  if day =? 0 then 7 else day.

(** [days] is a whole number. *)
Definition addDays (date : Instant) (days : Z) : Instant :=
  let result := date in
  JsDate.setDate zone result (JsDate.getDate zone result + days).

(** [for (let i = 0; i < 7; i++) dates.push(addDays(weekStart, i))] *)
Definition getWeekDates (weekStart : Instant) : list Instant :=
  map (addDays weekStart) [0; 1; 2; 3; 4; 5; 6].

(** [isCurrentWeek(date)], with the value of [new Date()] as [today]. *)
Definition isCurrentWeek (today date : Instant) : bool :=
  let weekStart := getWeekStart today in
  let weekEnd := addDays weekStart 6 in
  (weekStart <=? date) && (date <=? weekEnd).

End Zone.

End DateUtils.

(** ** Vocabulary of the weekly report *)

(** The day of the week, from 1 for Monday to 7 for Sunday, [i] days after
    a day whose [getDay] is [g]. *)
Definition weekday_after (g i : Z) : Z :=
  let g' := (g + i) mod 7 in if g' =? 0 then 7 else g'.


(** ** services/weeklyReportService.ts, the report as a whole *)

Module WeeklyReportData.

(** [Omit<WeeklyReport, 'id' | 'generated_at'>] *)
Record input := mkInput {
  i_user_id : string;
  i_week_start_date : string;
  i_goals : list GoalStats.t;
  i_overall_completion_rate : Q
}.

(** [goalStats.reduce((sum, stat) => sum + stat.total_days, 0)] and the
    like. *)
Definition calculateOverallCompletionRate (goalStats : list GoalStats.t) : Q :=
  let totalPossible := fold_left (fun sum stat => sum + GoalStats.total_days stat) goalStats 0 in
  let totalCompleted := fold_left (fun sum stat => sum + GoalStats.completions stat) goalStats 0 in
  WeeklyReportService.calculateCompletionRate totalCompleted totalPossible.

Section Zone.
Variable zone : Z.

(** [activeTemplates.map(template => this.calculateGoalStats(...))]; the
    result is [None] when a call throws. *)
Fixpoint goalStats_of (activeTemplates : list GoalTemplate.t)
    (weekStartDate : string) (completions : list DailyGoalCompletion.t)
    : option (list GoalStats.t) :=
  match activeTemplates with
  | [] => Some []
  | template :: rest =>
      match WeeklyReportService.calculateGoalStats zone template weekStartDate completions with
      | None => None
      | Some stats =>
          match goalStats_of rest weekStartDate completions with
          | None => None
          | Some more => Some (stats :: more)
          end
      end
  end.

Definition generateReportData (goalTemplates : list GoalTemplate.t)
    (completions : list DailyGoalCompletion.t) (weekStartDate : string)
    : option (list GoalStats.t * Q) :=
  let activeTemplates := List.filter GoalTemplate.is_active goalTemplates in
  match goalStats_of activeTemplates weekStartDate completions with
  | None => None
  | Some goalStats => Some (goalStats, calculateOverallCompletionRate goalStats)
  end.

Definition createWeeklyReport (userId : string) (goalTemplates : list GoalTemplate.t)
    (completions : list DailyGoalCompletion.t) (weekStartDate : string)
    : option input :=
  match generateReportData goalTemplates completions weekStartDate with
  | None => None
  | Some (goals, rate) => Some (mkInput userId weekStartDate goals rate)
  end.

End Zone.

End WeeklyReportData.

(** ** services/storage.ts: goal templates, lookups and weekly reports *)

Module GoalTemplateInput.

(** [Omit<GoalTemplate, 'id' | 'created_at' | 'updated_at'>] *)
Record draft := mkDraft {
  d_user_id : string;
  d_title : string;
  d_day_of_week : Z;
  d_order_index : Z;
  d_is_active : bool
}.

(** [Partial<GoalTemplate>] *)
Record partial := mkPartial {
  p_id : option string;
  p_user_id : option string;
  p_title : option string;
  p_day_of_week : option Z;
  p_order_index : option Z;
  p_is_active : option bool;
  p_created_at : option Instant;
  p_updated_at : option Instant
}.

(** Object spread [{ ...t, ...u }]. *)
Definition spread (t : GoalTemplate.t) (u : partial) : GoalTemplate.t :=
  {| GoalTemplate.id := default (GoalTemplate.id t) (p_id u);
     GoalTemplate.user_id := default (GoalTemplate.user_id t) (p_user_id u);
     GoalTemplate.title := default (GoalTemplate.title t) (p_title u);
     GoalTemplate.day_of_week := default (GoalTemplate.day_of_week t) (p_day_of_week u);
     GoalTemplate.order_index := default (GoalTemplate.order_index t) (p_order_index u);
     GoalTemplate.is_active := default (GoalTemplate.is_active t) (p_is_active u);
     GoalTemplate.created_at := default (GoalTemplate.created_at t) (p_created_at u);
     GoalTemplate.updated_at := default (GoalTemplate.updated_at t) (p_updated_at u) |}.

End GoalTemplateInput.

Module GoalStorage.
Import AsyncStorage LocalStorageService.

Definition addGoalTemplate (template : GoalTemplateInput.draft) : M GoalTemplate.t :=
  try_catch
    (await templates := getGoalTemplates in
     await id := generate_id in
     await created := now in
     let newTemplate :=
       {| GoalTemplate.id := id;
          GoalTemplate.user_id := GoalTemplateInput.d_user_id template;
          GoalTemplate.title := GoalTemplateInput.d_title template;
          GoalTemplate.day_of_week := GoalTemplateInput.d_day_of_week template;
          GoalTemplate.order_index := GoalTemplateInput.d_order_index template;
          GoalTemplate.is_active := GoalTemplateInput.d_is_active template;
          GoalTemplate.created_at := created;
          GoalTemplate.updated_at := created |} in
     await _ := saveGoalTemplates (templates ++ [newTemplate]) in
     ret newTemplate)
    (fun error => throw error).

Definition updateGoalTemplate (id : string) (updates : GoalTemplateInput.partial)
    : M GoalTemplate.t :=
  try_catch
    (await templates := getGoalTemplates in
     match list_find (fun t => GoalTemplate.id t = id) templates with
     | None => throw (JsError "Goal template not found")
     | Some (templateIndex, existing) =>
         await now_ := now in
         let merged := GoalTemplateInput.spread existing updates in
         let updatedTemplate :=
           {| GoalTemplate.id := GoalTemplate.id merged;
              GoalTemplate.user_id := GoalTemplate.user_id merged;
              GoalTemplate.title := GoalTemplate.title merged;
              GoalTemplate.day_of_week := GoalTemplate.day_of_week merged;
              GoalTemplate.order_index := GoalTemplate.order_index merged;
              GoalTemplate.is_active := GoalTemplate.is_active merged;
              GoalTemplate.created_at := GoalTemplate.created_at merged;
              GoalTemplate.updated_at := now_ |} in
         await _ := saveGoalTemplates (<[templateIndex := updatedTemplate]> templates) in
         ret updatedTemplate
     end)
    (fun error => throw error).

(** The template goes first, then the completions that refer to it. *)
Definition deleteGoalTemplate (id : string) : M unit :=
  try_catch
    (await templates := getGoalTemplates in
     let filteredTemplates := filter (fun t => GoalTemplate.id t <> id) templates in
     await _ := saveGoalTemplates filteredTemplates in
     await completions := getDailyCompletions None in
     let filteredCompletions :=
       filter (fun c => DailyGoalCompletion.goal_template_id c <> id) completions in
     saveDailyCompletions filteredCompletions)
    (fun error => throw error).

(** [sort((a, b) => a.order_index - b.order_index)], a stable sort. *)
Fixpoint insert_by_order (t : GoalTemplate.t) (l : list GoalTemplate.t)
    : list GoalTemplate.t :=
  match l with
  | [] => [t]
  | x :: l' =>
      if GoalTemplate.order_index t <=? GoalTemplate.order_index x
      then t :: l
      else x :: insert_by_order t l'
  end.

Definition sort_by_order (l : list GoalTemplate.t) : list GoalTemplate.t :=
  foldr insert_by_order [] l.

Definition getGoalTemplatesForDay (dayOfWeek : Z) : M (list GoalTemplate.t) :=
  try_catch
    (await templates := getGoalTemplates in
     ret (sort_by_order
            (List.filter (fun template =>
                            GoalTemplate.is_active template
                            && (GoalTemplate.day_of_week template =? dayOfWeek))
               templates)))
    (fun _ => ret []).

(** [completions.find(c => c.goal_template_id === templateId) || null] *)
Definition getCompletionForDate (templateId date : string)
    : M (option DailyGoalCompletion.t) :=
  try_catch
    (await completions := getDailyCompletions (Some date) in
     ret (List.find (fun c =>
                       String.eqb (DailyGoalCompletion.goal_template_id c) templateId)
            completions))
    (fun _ => ret None).

(** Strings are compared as JavaScript compares them, code unit by code
    unit. *)
Definition getCompletionsForDateRange (startDate endDate : string)
    : M (list DailyGoalCompletion.t) :=
  try_catch
    (await completions := getDailyCompletions None in
     ret (List.filter (fun completion =>
                         let completionDate :=
                           DailyGoalCompletion.completion_date completion in
                         String.leb startDate completionDate
                         && String.leb completionDate endDate)
            completions))
    (fun _ => ret []).

(** The key on which a weekly report is looked up. *)
Definition same_week (week_start_date user_id : string) (r : WeeklyReport.t) : Prop :=
  WeeklyReport.week_start_date r = week_start_date /\ WeeklyReport.user_id r = user_id.

#[global] Instance same_week_dec week user r : Decision (same_week week user r).
Proof. unfold same_week. apply _. Defined.

Definition addWeeklyReport (report : WeeklyReportData.input) : M WeeklyReport.t :=
  try_catch
    (await reports := getWeeklyReports in
     let existingReport :=
       list_find (same_week (WeeklyReportData.i_week_start_date report)
                    (WeeklyReportData.i_user_id report)) reports in
     await id := generate_id in
     await generated := now in
     let newReport :=
       {| WeeklyReport.id := id;
          WeeklyReport.user_id := WeeklyReportData.i_user_id report;
          WeeklyReport.week_start_date := WeeklyReportData.i_week_start_date report;
          WeeklyReport.goals := WeeklyReportData.i_goals report;
          WeeklyReport.overall_completion_rate :=
            WeeklyReportData.i_overall_completion_rate report;
          WeeklyReport.generated_at := generated |} in
     await _ := saveWeeklyReports
                  match existingReport with
                  | Some (existingReportIndex, _) =>
                      <[existingReportIndex := newReport]> reports
                  | None => reports ++ [newReport]
                  end in
     ret newReport)
    (fun error => throw error).

Definition getWeeklyReportForWeek (weekStartDate userId : string)
    : M (option WeeklyReport.t) :=
  try_catch
    (await reports := getWeeklyReports in
     ret (snd <$> list_find (same_week weekStartDate userId) reports))
    (fun _ => ret None).

End GoalStorage.

(** ** Vocabulary of the goal collections *)

(** Every completion refers to a stored template. *)
Definition completions_refer_to_templates (w : World) : Prop :=
  forall c, c ∈ stored AsyncStorage.GOAL_COMPLETIONS w ->
    exists t, t ∈ stored AsyncStorage.GOAL_TEMPLATES w
              /\ GoalTemplate.id t = DailyGoalCompletion.goal_template_id c.


(** The order of [getGoalTemplatesForDay]. *)
Definition by_order (a b : GoalTemplate.t) : Prop :=
  GoalTemplate.order_index a <= GoalTemplate.order_index b.


(** The report [addWeeklyReport] builds in state [w]. *)
Definition created_report (report : WeeklyReportData.input) (w : World) : WeeklyReport.t :=
  {| WeeklyReport.id :=
       (pretty (clock (device w)) ++ hd EmptyString (random (device w)))%string;
     WeeklyReport.user_id := WeeklyReportData.i_user_id report;
     WeeklyReport.week_start_date := WeeklyReportData.i_week_start_date report;
     WeeklyReport.goals := WeeklyReportData.i_goals report;
     WeeklyReport.overall_completion_rate :=
       WeeklyReportData.i_overall_completion_rate report;
     WeeklyReport.generated_at := clock (device w) |}.

(** ** Vocabulary of failures *)

(** Only [AppError] objects escape from a computation. *)
Definition app_errors_only {A} (m : M A) : Prop :=
  forall w e w', m w = (Err e, w') -> exists code message, e = AppError code message.

(** The rows of the other users are all still in the table. *)
Definition others_kept (userId : string) (before after : list Expense.t) : Prop :=
  forall row, row ∈ before -> ~ SupabaseService.owned_by userId row -> row ∈ after.

(** ** services/sync.ts: [syncAll] *)

Module SyncAll.
Import SyncService.

(** The goal collections are not synchronised yet: [syncAll] runs the
    reconciliation of expenses and stamps the status. *)
Definition syncAll : M unit :=
  try_finally
    (try_catch
       (await _ := updateSyncStatus (mkUpdate None None (Some true) (Some None)) in
        await _ := syncExpenses in
        await now_ := now in
        updateSyncStatus (mkUpdate (Some (Some now_)) None None (Some None)))
       (fun error =>
          let appError := handleAsyncError error "Sync all data" in
          await _ := updateSyncStatus (status_error appError) in
          throw appError))
    not_in_progress.

End SyncAll.

(** Nobody is signed in: the adapter holds no user and the auth service
    has no session. *)
Definition signed_out (w : World) : Prop :=
  currentUser (services w) = None /\ auth_session (backend w) = None.

(** The status of the sync service. *)
Definition service_status (w : World) : SyncStatus.t := currentSyncStatus (services w).

(** ** Vocabulary of the first reconciliation *)

(** [copy] is what the download of [row] stores at time [t]: the fields of
    the row under an id the device generated. *)
Definition downloaded_copy (t : Instant) (row copy : Expense.t) : Prop :=
  Expense.user_id copy = Expense.user_id row
  /\ Expense.content copy = Expense.content row
  /\ Expense.price copy = Expense.price row
  /\ Expense.date copy = Expense.date row
  /\ Expense.updated_at copy = Expense.updated_at row
  /\ Expense.synced copy = Some true
  /\ Expense.created_at copy = t
  /\ String.prefix (pretty t) (Expense.id copy) = true.

(** ** Vocabulary of the goal templates *)

(** The template [addGoalTemplate] builds in state [w]. *)
Definition created_template (template : GoalTemplateInput.draft) (w : World)
    : GoalTemplate.t :=
  {| GoalTemplate.id :=
       (pretty (clock (device w)) ++ hd EmptyString (random (device w)))%string;
     GoalTemplate.user_id := GoalTemplateInput.d_user_id template;
     GoalTemplate.title := GoalTemplateInput.d_title template;
     GoalTemplate.day_of_week := GoalTemplateInput.d_day_of_week template;
     GoalTemplate.order_index := GoalTemplateInput.d_order_index template;
     GoalTemplate.is_active := GoalTemplateInput.d_is_active template;
     GoalTemplate.created_at := clock (device w);
     GoalTemplate.updated_at := clock (device w) |}.

(** The template [updateGoalTemplate] writes over [existing] at time [t]. *)
Definition updated_template (updates : GoalTemplateInput.partial) (t : Instant)
    (existing : GoalTemplate.t) : GoalTemplate.t :=
  let merged := GoalTemplateInput.spread existing updates in
  {| GoalTemplate.id := GoalTemplate.id merged;
     GoalTemplate.user_id := GoalTemplate.user_id merged;
     GoalTemplate.title := GoalTemplate.title merged;
     GoalTemplate.day_of_week := GoalTemplate.day_of_week merged;
     GoalTemplate.order_index := GoalTemplate.order_index merged;
     GoalTemplate.is_active := GoalTemplate.is_active merged;
     GoalTemplate.created_at := GoalTemplate.created_at merged;
     GoalTemplate.updated_at := t |}.

(** * Sample data of the goal collections *)

Module Cases.
Import Sample.

(** A guest who has one template, due on Mondays, and has completed it on
    the first of January. *)
Definition goals_kept : AsyncStorage.t :=
  AsyncStorage.mk None (Some [monday_goal]) (Some [ran_on_new_year]) None
    (Some (new_year + 1000)).

Definition runner : World :=
  mkWorld (phone goals_kept [] new_year)
    (project [] [] None) (idle None) (screen [] (Some guest)).

(** The same device when its seventh access fails. *)
Definition runner_interrupted : World :=
  mkWorld (phone goals_kept [false; false; false; false; false; false; true] new_year)
    (project [] [] None) (idle None) (screen [] (Some guest)).

Definition morning_walk : GoalTemplateInput.draft :=
  GoalTemplateInput.mkDraft "guest" "Walk" 1 1 true.

Definition renamed : GoalTemplateInput.partial :=
  GoalTemplateInput.mkPartial None None (Some "Jog") None None None None None.

Definition first_week : WeeklyReportData.input :=
  WeeklyReportData.mkInput "alice" "2024-01-01" [] 0%Q.

(** Monday the first of January 2024, at ten in the morning UTC. *)
Definition monday_at_ten : Instant := new_year + 36000000.

End Cases.

(** * Properties *)

(** ** Running computations *)

Lemma bind_ok {A B} (m : M A) (k : A -> M B) w a w' :
  m w = (Ok a, w') -> bind m k w = k a w'.
Proof. intros H. unfold bind. now rewrite H. Qed.

Lemma bind_err {A B} (m : M A) (k : A -> M B) w e w' :
  m w = (Err e, w') -> bind m k w = (Err e, w').
Proof. intros H. unfold bind. now rewrite H. Qed.

Lemma try_catch_ok {A} (m : M A) h w a w' :
  m w = (Ok a, w') -> try_catch m h w = (Ok a, w').
Proof. intros H. unfold try_catch. now rewrite H. Qed.

Lemma try_catch_err {A} (m : M A) h w e w' :
  m w = (Err e, w') -> try_catch m h w = h e w'.
Proof. intros H. unfold try_catch. now rewrite H. Qed.

Lemma try_catch_rethrow {A} (m : M A) w :
  try_catch m (fun e => throw e) w = m w.
Proof. unfold try_catch, throw. now destruct (m w) as [[a|e] w']. Qed.

Ltac world w :=
  let s := fresh "s" in
  let rnd := fresh "rnd" in
  let t := fresh "t" in
  destruct w as [[s ? t rnd] ? ? ?]; unfold healthy in *; simpl in *; subst.

(** Symbolic execution of the primitives of the monad. *)
Ltac exec :=
  cbv [try_catch try_finally bind ret throw gets modify getItem setItem
       multiRemove storage_access now generate_id
       on_device on_backend on_services on_hooks
       set_storage set_storage_faults set_random
       device backend services hooks storage storage_faults clock random].

Lemma healthy_wiped w : healthy w -> healthy (wiped w).
Proof. now destruct w as [[? ? ? ?] ? ? ?]. Qed.

Lemma healthy_written put w : healthy w -> healthy (written put w).
Proof. now destruct w as [[? ? ? ?] ? ? ?]. Qed.

(** ** The local store on a healthy device *)

Section Healthy.
Import LocalStorageService.

Lemma isDataExpired_healthy w :
  healthy w -> isDataExpired w = (Ok (expired w), w).
Proof.
  intros H. world w. unfold isDataExpired, expired, expired_on. exec.
  destruct (AsyncStorage.EXPIRY s); reflexivity.
Qed.

Lemma clearAllData_healthy w :
  healthy w -> clearAllData w = (Ok tt, wiped w).
Proof. intros H. world w. reflexivity. Qed.

Lemma settled_unfold w : settled w = if expired w then wiped w else w.
Proof.
  destruct w as [d b sv hk]. unfold settled, settle, expired, wiped, on_device.
  cbn [device backend services hooks]. now destruct (expired_on d).
Qed.

Lemma read_collection_healthy {A} (field : AsyncStorage.t -> option (list A)) w :
  healthy w ->
  read_collection field w = (Ok (stored field w), settled w).
Proof.
  intros H. unfold read_collection. rewrite settled_unfold.
  rewrite (bind_ok _ _ _ _ _ (isDataExpired_healthy w H)).
  unfold stored. destruct (expired w).
  - rewrite (bind_ok _ _ _ _ _ (clearAllData_healthy w H)). reflexivity.
  - world w. exec. destruct (field s); reflexivity.
Qed.

Lemma write_collection_healthy put w :
  healthy w ->
  (forall s, AsyncStorage.EXPIRY (put s) = AsyncStorage.EXPIRY s) ->
  write_collection put w = (Ok tt, written put w).
Proof.
  intros H Hput. world w. unfold write_collection, written, stamped, setExpiryDate.
  exec. rewrite Hput. destruct (AsyncStorage.EXPIRY s) eqn:E; [reflexivity|].
  exec. reflexivity.
Qed.

Lemma getExpenses_healthy w :
  healthy w ->
  getExpenses w
  = (Ok (stored AsyncStorage.EXPENSES w), settled w).
Proof.
  intros H. unfold getExpenses.
  apply try_catch_ok, read_collection_healthy, H.
Qed.

Lemma getGoalTemplates_healthy w :
  healthy w ->
  getGoalTemplates w
  = (Ok (stored AsyncStorage.GOAL_TEMPLATES w), settled w).
Proof.
  intros H. unfold getGoalTemplates.
  apply try_catch_ok, read_collection_healthy, H.
Qed.

Lemma getWeeklyReports_healthy w :
  healthy w ->
  getWeeklyReports w
  = (Ok (stored AsyncStorage.WEEKLY_REPORTS w), settled w).
Proof.
  intros H. unfold getWeeklyReports.
  apply try_catch_ok, read_collection_healthy, H.
Qed.

Lemma getDailyCompletions_healthy w :
  healthy w ->
  getDailyCompletions None w
  = (Ok (stored AsyncStorage.GOAL_COMPLETIONS w), settled w).
Proof.
  intros H. unfold getDailyCompletions. apply try_catch_ok. rewrite settled_unfold.
  rewrite (bind_ok _ _ _ _ _ (isDataExpired_healthy w H)).
  unfold stored. destruct (expired w).
  - rewrite (bind_ok _ _ _ _ _ (clearAllData_healthy w H)). reflexivity.
  - world w. exec. destruct (AsyncStorage.GOAL_COMPLETIONS s); reflexivity.
Qed.

Lemma getDailyCompletions_expired date w :
  healthy w -> expired w = true ->
  getDailyCompletions date w = (Ok [], wiped w).
Proof.
  intros H He. unfold getDailyCompletions. apply try_catch_ok.
  rewrite (bind_ok _ _ _ _ _ (isDataExpired_healthy w H)), He.
  rewrite (bind_ok _ _ _ _ _ (clearAllData_healthy w H)). reflexivity.
Qed.

Lemma saveExpenses_healthy es w :
  healthy w ->
  saveExpenses es w = (Ok tt, written (AsyncStorage.set_EXPENSES (Some es)) w).
Proof.
  intros H. unfold saveExpenses. apply try_catch_ok.
  now apply write_collection_healthy.
Qed.

Lemma saveDailyCompletions_healthy cs w :
  healthy w ->
  saveDailyCompletions cs w
  = (Ok tt, written (AsyncStorage.set_GOAL_COMPLETIONS (Some cs)) w).
Proof.
  intros H. unfold saveDailyCompletions. apply try_catch_ok.
  now apply write_collection_healthy.
Qed.

(** What a write leaves behind. *)
Lemma expired_written put w :
  (forall s, AsyncStorage.EXPIRY (put s) = AsyncStorage.EXPIRY s) ->
  expired w = false -> expired (written put w) = false.
Proof.
  intros Hput. destruct w as [[s ? t ?] ? ? ?].
  unfold expired, expired_on, written, stamped. cbn.
  rewrite Hput. destruct (AsyncStorage.EXPIRY s) eqn:E; cbn.
  - now rewrite Hput, E.
  - intros _. destruct (put s); cbn. unfold EXPIRY_DAYS, JsDate.msPerDay. lia.
Qed.

Lemma expired_wiped w : expired (wiped w) = false.
Proof. now destruct w as [[? ? ? ?] ? ? ?]. Qed.

Lemma stored_wiped {A} (field : AsyncStorage.t -> option (list A)) w :
  field AsyncStorage.empty = None -> stored field (wiped w) = [].
Proof.
  intros E. unfold stored. rewrite expired_wiped.
  destruct w as [[? ? ? ?] ? ? ?]. cbn. now rewrite E.
Qed.

End Healthy.

(** ** Reading an empty store, whatever the faults *)

Section EmptyStore.
Import LocalStorageService.

Ltac plan w :=
  let sf := fresh "sf" in
  destruct w as [[? sf ? ?] ? ? ?]; unfold is_empty in *; simpl in *; subst;
  destruct sf as [|[] [|[] ?]].

Lemma read_collection_empty {A} (field : AsyncStorage.t -> option (list A)) w :
  field AsyncStorage.empty = None -> is_empty w ->
  exists w', try_catch (read_collection field) (fun _ => ret []) w = (Ok [], w')
             /\ is_empty w'.
Proof.
  intros E H. unfold read_collection, isDataExpired.
  plan w; exec; cbn; rewrite ?E; eexists; split; reflexivity.
Qed.

Lemma getDailyCompletions_empty w :
  is_empty w ->
  exists w', getDailyCompletions None w = (Ok [], w') /\ is_empty w'.
Proof.
  intros H. unfold getDailyCompletions, isDataExpired.
  plan w; exec; cbn; eexists; split; reflexivity.
Qed.

Lemma getExpiryInfo_empty w :
  is_empty w ->
  exists w', getExpiryInfo w = (Ok (mkExpiryInfo None None), w') /\ is_empty w'.
Proof.
  intros H. unfold getExpiryInfo.
  plan w; exec; cbn; eexists; split; reflexivity.
Qed.

Lemma exportAllData_empty w :
  is_empty w ->
  exists x w', exportAllData w = (Ok x, w')
    /\ x_expenses x = [] /\ x_goalTemplates x = []
    /\ x_dailyCompletions x = [] /\ x_weeklyReports x = [].
Proof.
  intros H.
  destruct (read_collection_empty AsyncStorage.EXPENSES w eq_refl H) as (w1 & R1 & H1).
  destruct (read_collection_empty AsyncStorage.GOAL_TEMPLATES w1 eq_refl H1)
    as (w2 & R2 & H2).
  destruct (getDailyCompletions_empty w2 H2) as (w3 & R3 & H3).
  destruct (read_collection_empty AsyncStorage.WEEKLY_REPORTS w3 eq_refl H3)
    as (w4 & R4 & H4).
  destruct (getExpiryInfo_empty w4 H4) as (w5 & R5 & H5).
  unfold exportAllData. rewrite try_catch_rethrow.
  rewrite (bind_ok _ _ _ _ _ R1).
  unfold exportGoalData. rewrite (bind_ok _ _ w1 (([], [], [], clock (device w4)))  w4).
  - rewrite (bind_ok _ _ _ _ _ R5). eexists _, _. split; [reflexivity|]. cbn. auto.
  - rewrite try_catch_rethrow.
    rewrite (bind_ok _ _ _ _ _ R2), (bind_ok _ _ _ _ _ R3), (bind_ok _ _ _ _ _ R4).
    reflexivity.
Qed.

End EmptyStore.

(** ** Expiry *)

Section Expiry.
Import LocalStorageService.

Lemma expired_past w expiry :
  AsyncStorage.EXPIRY (storage (device w)) = Some expiry ->
  expiry < clock (device w) -> expired w = true.
Proof. unfold expired, expired_on. intros -> H. now apply Z.ltb_lt. Qed.

Lemma isDataExpired_no_stamp w :
  AsyncStorage.EXPIRY (storage (device w)) = None ->
  exists w', isDataExpired w = (Ok false, w').
Proof.
  intros E. destruct w as [[s sf ? ?] ? ? ?]. simpl in E. unfold isDataExpired.
  destruct sf as [|[] ?]; exec; rewrite ?E; eexists; reflexivity.
Qed.

(** C4.  On a device whose store answers, if the expiry stamp exists and
    is in the past then a read of any of the four collections returns the
    empty list and removes the four collections and the stamp; an export
    made afterwards, at any later time and whatever the faults, shows the
    four collections empty.  Without a stamp the expiry check answers
    [false] and a read returns what is stored and changes nothing. *)
Theorem expired_read_wipes_everything (w : World) (expiry : Instant) :
  healthy w ->
  AsyncStorage.EXPIRY (storage (device w)) = Some expiry ->
  expiry < clock (device w) ->
  getExpenses w = (Ok [], wiped w)
  /\ getGoalTemplates w = (Ok [], wiped w)
  /\ (forall date, getDailyCompletions date w = (Ok [], wiped w))
  /\ getWeeklyReports w = (Ok [], wiped w)
  /\ storage (device (wiped w)) = AsyncStorage.empty
  /\ (forall w2, storage (device w2) = storage (device (wiped w)) ->
      exists x w3, exportAllData w2 = (Ok x, w3)
        /\ x_expenses x = [] /\ x_goalTemplates x = []
        /\ x_dailyCompletions x = [] /\ x_weeklyReports x = [])
  /\ (forall v, AsyncStorage.EXPIRY (storage (device v)) = None ->
      (exists v', isDataExpired v = (Ok false, v'))
      /\ (healthy v ->
          getExpenses v = (Ok (default [] (AsyncStorage.EXPENSES (storage (device v)))), v)
          /\ getGoalTemplates v
             = (Ok (default [] (AsyncStorage.GOAL_TEMPLATES (storage (device v)))), v)
          /\ getDailyCompletions None v
             = (Ok (default [] (AsyncStorage.GOAL_COMPLETIONS (storage (device v)))), v)
          /\ getWeeklyReports v
             = (Ok (default [] (AsyncStorage.WEEKLY_REPORTS (storage (device v)))), v))).
Proof.
  intros H E Hpast. pose proof (expired_past w expiry E Hpast) as He.
  split; [|split; [|split; [|split; [|split; [|split]]]]].
  - rewrite getExpenses_healthy, settled_unfold by assumption.
    unfold stored. now rewrite He.
  - rewrite getGoalTemplates_healthy, settled_unfold by assumption.
    unfold stored. now rewrite He.
  - intros date. now apply getDailyCompletions_expired.
  - rewrite getWeeklyReports_healthy, settled_unfold by assumption.
    unfold stored. now rewrite He.
  - now destruct w as [[? ? ? ?] ? ? ?].
  - intros w2 Hw2. apply exportAllData_empty. unfold is_empty. rewrite Hw2.
    now destruct w as [[? ? ? ?] ? ? ?].
  - intros v Ev. split; [now apply isDataExpired_no_stamp|]. intros Hv.
    assert (expired v = false) as Hne
      by (unfold expired, expired_on; now rewrite Ev).
    rewrite getExpenses_healthy, getGoalTemplates_healthy,
      getDailyCompletions_healthy, getWeeklyReports_healthy by assumption.
    rewrite settled_unfold. unfold stored. rewrite Hne. auto.
Qed.

End Expiry.

Lemma total_bind {A B} (m : M A) (k : A -> M B) :
  total m -> (forall a, total (k a)) -> total (bind m k).
Proof.
  intros Hm Hk w. destruct (Hm w) as (a & w' & E).
  rewrite (bind_ok _ _ _ _ _ E). apply Hk.
Qed.

Lemma total_ret {A} (a : A) : total (ret a).
Proof. intros w. now exists a, w. Qed.

Lemma total_catch {A} (m : M A) h :
  (forall e, total (h e)) -> total (try_catch m h).
Proof.
  intros Hh w. unfold try_catch. destruct (m w) as [[a|e] w'].
  - now exists a, w'.
  - apply Hh.
Qed.

(** ** Failures of the device's store *)

Section StorageFailures.
Import LocalStorageService.

Lemma readers_total :
  total getExpenses /\ total getGoalTemplates
  /\ (forall date, total (getDailyCompletions date)) /\ total getWeeklyReports.
Proof.
  repeat split; try intros date; apply total_catch; intros; apply total_ret.
Qed.

Lemma read_collection_fault {A} (field : AsyncStorage.t -> option (list A)) w plan :
  storage_faults (device w) = false :: true :: plan -> expired w = false ->
  try_catch (read_collection field) (fun _ => ret []) w
  = (Ok [], after_fault plan w).
Proof.
  intros H. destruct w as [[s sf t rnd] ? ? ?]. simpl in H. subst sf.
  unfold expired, expired_on, read_collection, isDataExpired. exec. cbn.
  destruct (AsyncStorage.EXPIRY s); [intros ->|]; reflexivity.
Qed.

Lemma getDailyCompletions_fault date w plan :
  storage_faults (device w) = false :: true :: plan -> expired w = false ->
  getDailyCompletions date w = (Ok [], after_fault plan w).
Proof.
  intros H. destruct w as [[s sf t rnd] ? ? ?]. simpl in H. subst sf.
  unfold expired, expired_on, getDailyCompletions, isDataExpired. exec. cbn.
  destruct (AsyncStorage.EXPIRY s); [intros ->|]; reflexivity.
Qed.

Lemma write_collection_outcomes put :
  write_outcomes (try_catch (write_collection put) (fun error => throw error)) put.
Proof.
  unfold write_outcomes, write_collection, setExpiryDate.
  split; [|split]; intros [[s sf t rnd] ? ? ?] plan H; simpl in H; subst sf.
  - eexists. split; reflexivity.
  - eexists. split; reflexivity.
  - intros _. exec. cbn.
    destruct (AsyncStorage.EXPIRY (put s)); eexists; split; reflexivity.
Qed.

Section UpsertFailures.
Variables (completion : DailyGoalCompletion.input) (u : World).
Hypothesis Hfresh : expired u = false.

Let upsert := updateGoalCompletion completion.
Let completions_of (w : World) := AsyncStorage.GOAL_COMPLETIONS (storage (device w)).

Ltac run_upsert H :=
  subst upsert completions_of; revert Hfresh H;
  destruct u as [[s sf t rnd] b sv h];
  unfold expired, expired_on, answering, result_of, state_after,
    updateGoalCompletion, getDailyCompletions, isDataExpired,
    saveDailyCompletions, write_collection, setExpiryDate, created_completion;
  cbn [device storage clock storage_faults random];
  intros He H; subst sf; exec;
  destruct (AsyncStorage.EXPIRY s) eqn:Estamp; [rewrite He|];
    cbn;
    try (destruct (AsyncStorage.GOAL_COMPLETIONS s) as [l|];
         [destruct (list_find (same_slot completion) l) as [[? ?]|]|]);
    cbn; rewrite ?Estamp; cbn.

(** The check of the expiry stamp fails: the call carries on as on a
    store that answers. *)
Lemma upsert_first_access_fails plan :
  storage_faults (device u) = true :: false :: false :: false :: false :: plan ->
  result_of upsert u = result_of upsert (answering u)
  /\ storage (device (state_after upsert u))
     = storage (device (state_after upsert (answering u))).
Proof. intros H. run_upsert H; split; reflexivity. Qed.

(** The load fails: the collection is taken to be empty. *)
Lemma upsert_load_fails plan :
  storage_faults (device u) = false :: true :: false :: false :: false :: plan ->
  exists u',
    upsert u = (Ok (created_completion completion u), u')
    /\ completions_of u' = Some [created_completion completion u].
Proof.
  intros H. subst upsert completions_of. revert Hfresh H.
  destruct u as [[s sf t rnd] b sv h].
  unfold expired, expired_on, updateGoalCompletion, getDailyCompletions,
    isDataExpired, saveDailyCompletions, write_collection, setExpiryDate,
    created_completion.
  cbn [device storage clock storage_faults random]. intros He H. subst sf. exec.
  destruct (AsyncStorage.EXPIRY s) eqn:Estamp; [rewrite He|]; cbn;
    rewrite ?Estamp; cbn; eexists; split; reflexivity.
Qed.

(** The write of the collection fails. *)
Lemma upsert_write_fails plan :
  storage_faults (device u) = false :: false :: true :: plan ->
  exists u', upsert u = (Err storage_failure, u')
             /\ storage (device u') = storage (device u).
Proof. intros H. run_upsert H; eexists; split; reflexivity. Qed.

(** The read of the stamp after the write fails. *)
Lemma upsert_stamp_read_fails plan :
  storage_faults (device u) = false :: false :: false :: true :: plan ->
  exists u', upsert u = (Err storage_failure, u')
             /\ completions_of u' = completions_of (state_after upsert (answering u))
             /\ AsyncStorage.EXPIRY (storage (device u'))
                = AsyncStorage.EXPIRY (storage (device u)).
Proof.
  intros H. run_upsert H; eexists; (split; [reflexivity|]); split;
    try reflexivity; cbn; now rewrite ?Estamp.
Qed.

(** The write of the stamp fails. *)
Lemma upsert_stamp_write_fails plan :
  storage_faults (device u) = false :: false :: false :: false :: true :: plan ->
  AsyncStorage.EXPIRY (storage (device u)) = None ->
  exists r u', upsert u = (Ok r, u')
               /\ result_of upsert (answering u) = Ok r
               /\ completions_of u' = completions_of (state_after upsert (answering u))
               /\ AsyncStorage.EXPIRY (storage (device u')) = None.
Proof.
  intros H Hnone. revert Hnone. run_upsert H; intros Hnone; try discriminate Hnone;
    eexists _, _; (split; [reflexivity|]); (split; [reflexivity|]); split;
    try reflexivity; cbn; now rewrite ?Estamp.
Qed.

End UpsertFailures.

(** C9, as amended.  A failure of the store is not always surfaced.  The
    four readers never fail: when the access that loads the collection
    fails they return the empty list.  The writers of goal templates,
    completions and weekly reports throw when the write of the collection
    fails, the store being then unchanged, and when the read of the
    expiry stamp that follows fails, the collection being then already
    written; when the write of the stamp fails they return normally.
    [updateGoalCompletion] throws in the same two cases; when its check of
    the expiry stamp fails it carries on as on a store that answers, when
    its load fails it returns normally and the stored collection becomes
    the one new record, and when the write of the stamp fails it returns
    normally. *)
Theorem storage_failures_by_collection (r : World) (plan : list bool)
    (Hload : storage_faults (device r) = false :: true :: plan)
    (Hfresh : expired r = false) :
  (total getExpenses /\ total getGoalTemplates
   /\ (forall date, total (getDailyCompletions date)) /\ total getWeeklyReports)
  /\ (result_of getExpenses r = Ok [] /\ result_of getGoalTemplates r = Ok []
      /\ (forall date, result_of (getDailyCompletions date) r = Ok [])
      /\ result_of getWeeklyReports r = Ok [])
  /\ (forall templates,
        write_outcomes (saveGoalTemplates templates)
          (AsyncStorage.set_GOAL_TEMPLATES (Some templates)))
  /\ (forall completions,
        write_outcomes (saveDailyCompletions completions)
          (AsyncStorage.set_GOAL_COMPLETIONS (Some completions)))
  /\ (forall reports,
        write_outcomes (saveWeeklyReports reports)
          (AsyncStorage.set_WEEKLY_REPORTS (Some reports)))
  /\ (forall completion u plan',
        expired u = false ->
        let upsert := updateGoalCompletion completion in
        let completions_of (w : World) :=
          AsyncStorage.GOAL_COMPLETIONS (storage (device w)) in
        (storage_faults (device u) = true :: false :: false :: false :: false :: plan' ->
         result_of upsert u = result_of upsert (answering u)
         /\ storage (device (state_after upsert u))
            = storage (device (state_after upsert (answering u))))
        /\ (storage_faults (device u)
            = false :: true :: false :: false :: false :: plan' ->
            exists u',
              upsert u = (Ok (created_completion completion u), u')
              /\ completions_of u' = Some [created_completion completion u])
        /\ (storage_faults (device u) = false :: false :: true :: plan' ->
            exists u', upsert u = (Err storage_failure, u')
                       /\ storage (device u') = storage (device u))
        /\ (storage_faults (device u) = false :: false :: false :: true :: plan' ->
            exists u', upsert u = (Err storage_failure, u')
                       /\ completions_of u'
                          = completions_of (state_after upsert (answering u))
                       /\ AsyncStorage.EXPIRY (storage (device u'))
                          = AsyncStorage.EXPIRY (storage (device u)))
        /\ (storage_faults (device u)
            = false :: false :: false :: false :: true :: plan' ->
            AsyncStorage.EXPIRY (storage (device u)) = None ->
            exists r' u', upsert u = (Ok r', u')
                          /\ result_of upsert (answering u) = Ok r'
                          /\ completions_of u'
                             = completions_of (state_after upsert (answering u))
                          /\ AsyncStorage.EXPIRY (storage (device u')) = None)).
Proof.
  split; [exact readers_total|]. split; [|split; [|split; [|split]]].
  - unfold result_of, getExpenses, getGoalTemplates, getWeeklyReports.
    rewrite !(read_collection_fault _ r plan Hload Hfresh).
    repeat split. intros date.
    now rewrite (getDailyCompletions_fault date r plan Hload Hfresh).
  - intros templates. apply write_collection_outcomes.
  - intros completions. apply write_collection_outcomes.
  - intros reports. apply write_collection_outcomes.
  - intros completion u plan' Hu. cbv zeta.
    split; [apply (upsert_first_access_fails completion u Hu)|].
    split; [apply (upsert_load_fails completion u Hu)|].
    split; [apply (upsert_write_fails completion u Hu)|].
    split; [apply (upsert_stamp_read_fails completion u Hu)
           |apply (upsert_stamp_write_fails completion u Hu)].
Qed.

End StorageFailures.

(** ** Local writes of expenses *)

Section LocalExpenses.
Import LocalStorageService.

Lemma setExpiryDate_total : total setExpiryDate.
Proof. apply total_catch. intros. apply total_ret. Qed.

Lemma saveExpenses_total es : total (saveExpenses es).
Proof. apply total_catch. intros. apply total_ret. Qed.

Lemma deleteExpense_total id : total (deleteExpense id).
Proof.
  intros w. unfold deleteExpense. rewrite try_catch_rethrow.
  destruct (proj1 readers_total w) as (l & w1 & E).
  rewrite (bind_ok _ _ _ _ _ E). apply saveExpenses_total.
Qed.

Lemma stored_written_expenses es w :
  expired w = false ->
  stored AsyncStorage.EXPENSES (written (AsyncStorage.set_EXPENSES (Some es)) w) = es.
Proof.
  intros He. unfold stored. rewrite expired_written by (assumption || reflexivity).
  destruct w as [[s ? ? ?] ? ? ?]. unfold written, stamped. cbn.
  destruct (AsyncStorage.EXPIRY s); reflexivity.
Qed.

Lemma settled_fresh w : expired (settled w) = false.
Proof.
  rewrite settled_unfold. destruct (expired w) eqn:E; [apply expired_wiped | exact E].
Qed.

Lemma healthy_settled w : healthy w -> healthy (settled w).
Proof. rewrite settled_unfold. destruct (expired w); auto using healthy_wiped. Qed.

Lemma stored_settled {A} (field : AsyncStorage.t -> option (list A)) w :
  field AsyncStorage.empty = None ->
  stored field (settled w) = stored field w.
Proof.
  intros E. rewrite settled_unfold. destruct (expired w) eqn:He; [|reflexivity].
  rewrite stored_wiped by assumption. unfold stored. now rewrite He.
Qed.

Lemma filter_absent id (l : list Expense.t) :
  id ∉ map Expense.id l -> filter (fun e => Expense.id e <> id) l = l.
Proof.
  induction l as [|e l IH]; [reflexivity|]. cbn [map]. intros H.
  rewrite not_elem_of_cons in H. destruct H as [Hne Hl].
  rewrite filter_cons_True by congruence. now rewrite IH.
Qed.

Lemma list_find_absent id (l : list Expense.t) :
  id ∉ map Expense.id l -> list_find (fun e => Expense.id e = id) l = None.
Proof.
  intros H. apply list_find_None, Forall_forall. intros e He Heq.
  apply H. subst id. apply list_elem_of_fmap. now exists e.
Qed.

Lemma deleteExpense_healthy id w :
  healthy w ->
  deleteExpense id w
  = (Ok tt,
     written (AsyncStorage.set_EXPENSES
                (Some (filter (fun e => Expense.id e <> id)
                         (stored AsyncStorage.EXPENSES w))))
       (settled w)).
Proof.
  intros H. unfold deleteExpense. rewrite try_catch_rethrow.
  rewrite (bind_ok _ _ _ _ _ (getExpenses_healthy w H)).
  apply saveExpenses_healthy, healthy_settled, H.
Qed.

Lemma updateExpense_missing id updates w l w1 :
  getExpenses w = (Ok l, w1) -> id ∉ map Expense.id l ->
  updateExpense id updates w = (Err (JsError "Expense not found"), w1).
Proof.
  intros E H. unfold updateExpense. rewrite try_catch_rethrow.
  rewrite (bind_ok _ _ _ _ _ E). now rewrite list_find_absent.
Qed.

(** C10.  Deleting an id that the stored collection does not hold
    returns normally and leaves the collection as it was, whereas updating
    such an id throws; on any device, healthy or not, the delete
    returns normally. *)
Theorem delete_of_missing_expense_is_silent (w : World) (id : string)
    (Hhealthy : healthy w)
    (Hmissing : id ∉ map Expense.id (stored AsyncStorage.EXPENSES w)) :
  (exists w', deleteExpense id w = (Ok tt, w')
      /\ stored AsyncStorage.EXPENSES w' = stored AsyncStorage.EXPENSES w)
  /\ (forall updates, exists w',
        updateExpense id updates w = (Err (JsError "Expense not found"), w'))
  /\ (forall v, exists v', deleteExpense id v = (Ok tt, v')).
Proof.
  split; [|split].
  - eexists. split; [now apply deleteExpense_healthy|].
    rewrite stored_written_expenses by apply settled_fresh.
    now apply filter_absent.
  - intros updates. eexists.
    now apply (updateExpense_missing id updates w _ _ (getExpenses_healthy w Hhealthy)).
  - intros v. destruct (deleteExpense_total id v) as ([] & v' & E). now exists v'.
Qed.

End LocalExpenses.

(** ** Lookups by equivalent keys *)

Lemma list_find_equiv {A} (P Q : A -> Prop) `{!forall x, Decision (P x)}
    `{!forall x, Decision (Q x)} (l : list A) :
  (forall x, P x <-> Q x) -> list_find P l = list_find Q l.
Proof.
  intros Hiff. induction l as [|x l IH]; [reflexivity|]. cbn [list_find].
  rewrite IH. destruct (decide (P x)) as [Hp|Hp], (decide (Q x)) as [Hq|Hq];
    try reflexivity; exfalso; [apply Hq | apply Hp]; now apply Hiff.
Qed.

(** ** Upsert of goal completions *)

Section Upsert.
Import LocalStorageService.

Local Abbreviation COMPLETIONS := AsyncStorage.GOAL_COMPLETIONS.
Local Abbreviation put_completions l := (AsyncStorage.set_GOAL_COMPLETIONS (Some l)).

Lemma settled_device w :
  clock (device (settled w)) = clock (device w)
  /\ random (device (settled w)) = random (device w).
Proof.
  unfold settled, settle. cbn. now destruct (expired_on (device w)).
Qed.

Lemma generate_id_run w :
  generate_id w
  = (Ok (pretty (clock (device w)) ++ hd EmptyString (random (device w)))%string, drawn w).
Proof. reflexivity. Qed.

Lemma updateGoalCompletion_healthy completion w :
  healthy w ->
  let l := stored COMPLETIONS w in
  updateGoalCompletion completion w
  = match list_find (same_slot completion) l with
    | Some (i, existing) =>
        let r := merge_completion existing completion in
        (Ok r, written (put_completions (<[i := r]> l)) (settled w))
    | None =>
        let r := created_completion completion w in
        (Ok r, written (put_completions (l ++ [r])%list) (drawn (settled w)))
    end.
Proof.
  intros H l. unfold updateGoalCompletion. rewrite try_catch_rethrow.
  rewrite (bind_ok _ _ _ _ _ (getDailyCompletions_healthy w H)).
  fold l. destruct (list_find (same_slot completion) l) as [[i existing]|].
  - cbv zeta.
    rewrite (bind_ok _ _ _ _ _
               (saveDailyCompletions_healthy _ _ (healthy_settled w H))).
    reflexivity.
  - pose proof (healthy_settled w H) as Hs.
    destruct (settled_device w) as [Hc Hr].
    assert (generate_id (settled w)
            = (Ok (DailyGoalCompletion.id (created_completion completion w)),
               drawn (settled w))) as Hid.
    { rewrite generate_id_run, Hc, Hr. reflexivity. }
    rewrite (bind_ok _ _ _ _ _ Hid).
    assert (healthy (drawn (settled w))) as Hd by exact Hs.
    assert (now (drawn (settled w)) = (Ok (clock (device w)), drawn (settled w)))
      as Hnow.
    { unfold now, gets. f_equal. f_equal. exact Hc. }
    rewrite (bind_ok _ _ _ _ _ Hnow).
    rewrite (bind_ok _ _ _ _ _ (saveDailyCompletions_healthy _ _ Hd)).
    reflexivity.
Qed.

Lemma stored_written_completions l w :
  expired w = false -> stored COMPLETIONS (written (put_completions l) w) = l.
Proof.
  intros He. unfold stored. rewrite expired_written by (assumption || reflexivity).
  destruct w as [[s ? ? ?] ? ? ?]. unfold written, stamped. cbn.
  destruct (AsyncStorage.EXPIRY s); reflexivity.
Qed.

Lemma expired_drawn w : expired (drawn w) = expired w.
Proof. now destruct w as [[? ? ? ?] ? ? ?]. Qed.

(** *** Counting the records of a slot *)

Lemma same_slot_merge completion' existing completion :
  same_slot completion existing ->
  same_slot completion' (merge_completion existing completion)
  <-> same_slot completion' existing.
Proof. unfold same_slot. cbn. intros [-> ->]. tauto. Qed.

Lemma slot_count_insert completion l i x existing :
  l !! i = Some existing ->
  (same_slot completion x <-> same_slot completion existing) ->
  slot_count completion (<[i := x]> l) = slot_count completion l.
Proof.
  unfold slot_count. revert i. induction l as [|y l IH]; intros [|i] Hi Hiff;
    try discriminate; simpl in Hi.
  - injection Hi as ->. change (<[0%nat := x]> (existing :: l)) with (x :: l).
    rewrite !filter_cons.
    destruct (decide (same_slot completion x)),
      (decide (same_slot completion existing)); tauto.
  - change (<[S i := x]> (y :: l)) with (y :: <[i := x]> l).
    rewrite !filter_cons. specialize (IH i Hi Hiff).
    destruct (decide (same_slot completion y)); simpl; now rewrite IH.
Qed.

Lemma slot_count_none completion l :
  list_find (same_slot completion) l = None -> slot_count completion l = 0%nat.
Proof.
  intros H. apply list_find_None in H. unfold slot_count.
  induction H as [|y l Hy _ IH]; [reflexivity|].
  now rewrite filter_cons_False.
Qed.

Lemma slot_count_app completion l x :
  slot_count completion (l ++ [x])%list
  = (slot_count completion l + (if decide (same_slot completion x) then 1 else 0))%nat.
Proof.
  unfold slot_count. rewrite filter_app, length_app. f_equal.
  rewrite filter_cons. now destruct (decide (same_slot completion x)).
Qed.

Lemma slot_count_found completion l i existing :
  list_find (same_slot completion) l = Some (i, existing) ->
  (1 <= slot_count completion l)%nat.
Proof.
  intros (Hi & HP & _)%list_find_Some. unfold slot_count.
  revert i Hi. induction l as [|y l IH]; intros [|i] Hi; try discriminate;
    simpl in Hi.
  - injection Hi as ->. rewrite filter_cons_True by assumption. simpl. lia.
  - specialize (IH i Hi). rewrite filter_cons.
    destruct (decide (same_slot completion y)); simpl; lia.
Qed.

Lemma same_slot_created completion' completion w :
  same_slot completion' (created_completion completion w)
  <-> same_slot completion' (merge_completion (created_completion completion w) completion).
Proof. reflexivity. Qed.

Lemma slot_count_key a b l : same_key a b -> slot_count a l = slot_count b l.
Proof.
  intros [H1 H2]. unfold slot_count. f_equal. apply list_filter_iff.
  intros x. unfold same_slot. rewrite H1, H2. tauto.
Qed.

Lemma same_slot_created_iff a completion w :
  same_slot a (created_completion completion w) <-> same_key completion a.
Proof. unfold same_slot, same_key. cbn. intuition congruence. Qed.

Lemma one_per_slot_upsert completion l l' :
  one_per_slot l ->
  match list_find (same_slot completion) l with
  | Some (i, existing) => l' = <[i := merge_completion existing completion]> l
  | None => exists w, l' = (l ++ [created_completion completion w])%list
  end ->
  one_per_slot l' /\ slot_count completion l' = 1%nat.
Proof.
  intros Hinv Hl'.
  destruct (list_find (same_slot completion) l) as [[i existing]|] eqn:Hfind.
  - subst l'. pose proof Hfind as (Hi & HP & _)%list_find_Some.
    assert (forall c, slot_count c (<[i := merge_completion existing completion]> l)
                      = slot_count c l) as Hsame.
    { intros c. apply (slot_count_insert c l i _ existing Hi).
      now apply same_slot_merge. }
    split.
    + intros c. rewrite Hsame. apply Hinv.
    + rewrite Hsame. pose proof (Hinv completion).
      pose proof (slot_count_found _ _ _ _ Hfind). lia.
  - destruct Hl' as (w & ->). pose proof (slot_count_none _ _ Hfind) as H0. split.
    + intros c. rewrite slot_count_app.
      destruct (decide (same_slot c (created_completion completion w))) as [Hc|Hc].
      * apply same_slot_created_iff in Hc.
        rewrite <- (slot_count_key _ _ l Hc), H0. lia.
      * pose proof (Hinv c). lia.
    + rewrite slot_count_app, H0.
      rewrite decide_True; [reflexivity|]. apply same_slot_created_iff. now split.
Qed.

Lemma one_per_slot_nil : one_per_slot [].
Proof. intros c. cbn. lia. Qed.

(** The record found by a second lookup is the one just written. *)
Lemma list_find_after_upsert completion l l' r :
  match list_find (same_slot completion) l with
  | Some (i, existing) =>
      r = merge_completion existing completion /\ l' = <[i := r]> l
  | None => (exists w, r = created_completion completion w) /\ l' = (l ++ [r])%list
  end ->
  exists j, list_find (same_slot completion) l' = Some (j, r)
            /\ merge_completion r completion = r.
Proof.
  destruct (list_find (same_slot completion) l) as [[i existing]|] eqn:Hfind.
  - intros [-> ->]. exists i. pose proof Hfind as (Hi & HP & Hleast)%list_find_Some.
    split; [|reflexivity].
    apply list_find_insert_Some. right; left.
    split; [reflexivity|]. split; [reflexivity|].
    split; [eauto using lookup_lt_Some|]. split; [|exact Hleast].
    now apply same_slot_merge.
  - intros [(w & ->) ->]. exists (length l). split; [|reflexivity].
    rewrite list_find_app_r by assumption. cbn.
    rewrite decide_True by (apply same_slot_created_iff; now split).
    reflexivity.
Qed.

(** What one call does to the stored collection. *)
Lemma updateGoalCompletion_shape completion w :
  healthy w ->
  let l := stored COMPLETIONS w in
  exists r w0 l',
    updateGoalCompletion completion w = (Ok r, written (put_completions l') w0)
    /\ expired w0 = false /\ healthy w0
    /\ match list_find (same_slot completion) l with
       | Some (i, existing) =>
           r = merge_completion existing completion /\ l' = <[i := r]> l
       | None => r = created_completion completion w /\ l' = (l ++ [r])%list
       end.
Proof.
  intros Hhealthy l.
  pose proof (updateGoalCompletion_healthy completion w Hhealthy) as Hrun.
  cbv zeta in Hrun. fold l in Hrun.
  destruct (list_find (same_slot completion) l) as [[i existing]|].
  - eexists _, _, _. split; [exact Hrun|].
    split; [apply settled_fresh|]. split; [now apply healthy_settled|]. auto.
  - eexists _, _, _. split; [exact Hrun|].
    split; [rewrite expired_drawn; apply settled_fresh|].
    split; [|auto].
    exact (healthy_settled w Hhealthy).
Qed.

(** A second call for the slot of a record that is there. *)
Lemma updateGoalCompletion_again completion completion' l j r v :
  same_key completion completion' ->
  list_find (same_slot completion) l = Some (j, r) ->
  healthy v -> expired v = false -> stored COMPLETIONS v = l ->
  updateGoalCompletion completion' v
  = (Ok (merge_completion r completion'),
     written (put_completions (<[j := merge_completion r completion']> l)) v).
Proof.
  intros [Ht Hd] Hj Hhv Hev Hstored.
  pose proof (updateGoalCompletion_healthy completion' v Hhv) as Hrun.
  cbv zeta in Hrun. rewrite Hstored in Hrun.
  replace (list_find (same_slot completion') l) with (Some (j, r)) in Hrun.
  - rewrite Hrun. now rewrite settled_unfold, Hev.
  - rewrite <- Hj. apply list_find_equiv. intros c. unfold same_slot.
    rewrite Ht, Hd. tauto.
Qed.


End Upsert.

(** ** Frame properties *)

Section Keeps.
Context {X : Type} (proj : World -> X).

Lemma keeps_ret {A} (a : A) : keeps proj (ret a).
Proof. intros w. reflexivity. Qed.

Lemma keeps_throw {A} e : keeps proj (@throw A e).
Proof. intros w. reflexivity. Qed.

Lemma keeps_gets {A} (f : World -> A) : keeps proj (gets f).
Proof. intros w. reflexivity. Qed.

Lemma keeps_now : keeps proj now.
Proof. intros w. reflexivity. Qed.

Lemma keeps_modify f : (forall w, proj (f w) = proj w) -> keeps proj (modify f).
Proof. intros H w. apply H. Qed.

Lemma keeps_bind {A B} (m : M A) (k : A -> M B) :
  keeps proj m -> (forall a, keeps proj (k a)) -> keeps proj (bind m k).
Proof.
  intros Hm Hk w. unfold bind. specialize (Hm w).
  destruct (m w) as [[a|e] w']; simpl in *; [now rewrite Hk | exact Hm].
Qed.

Lemma keeps_catch {A} (m : M A) h :
  keeps proj m -> (forall e, keeps proj (h e)) -> keeps proj (try_catch m h).
Proof.
  intros Hm Hh w. unfold try_catch. specialize (Hm w).
  destruct (m w) as [[a|e] w']; simpl in *; [exact Hm | now rewrite Hh].
Qed.

Lemma keeps_finally {A} (m : M A) f :
  keeps proj m -> (forall w, proj (f w) = proj w) -> keeps proj (try_finally m f).
Proof.
  intros Hm Hf w. unfold try_finally. specialize (Hm w).
  destruct (m w) as [r w']; simpl in *. now rewrite Hf.
Qed.

Lemma keeps_for_of {A} (xs : list A) body :
  (forall x, keeps proj (body x)) -> keeps proj (for_of xs body).
Proof.
  intros H. induction xs as [|x xs IH]; [apply keeps_ret|].
  apply keeps_bind; auto.
Qed.

Lemma keeps_request {A} (handler : Backend -> SupabaseService.Response A * Backend) :
  (forall f w, proj (on_backend f w) = proj w) ->
  keeps proj (SupabaseService.request handler).
Proof.
  intros H w. unfold SupabaseService.request.
  destruct (net_faults (backend w)) as [|[] plan]; simpl;
    try destruct (handler _); apply H.
Qed.

Lemma keeps_storage_access {A} (get : AsyncStorage.t -> A) put :
  (forall f w, proj (on_device f w) = proj w) ->
  keeps proj (storage_access get put).
Proof.
  intros H w. unfold storage_access.
  destruct (storage_faults (device w)) as [|[] plan]; simpl; apply H.
Qed.

Lemma keeps_generate_id :
  (forall f w, proj (on_device f w) = proj w) -> keeps proj generate_id.
Proof. intros H w. unfold generate_id, bind, now, gets. simpl. apply H. Qed.
End Keeps.

(** Decomposition of a frame goal along the structure of the computation. *)
Ltac frame_step :=
  match goal with
  | |- keeps _ (bind _ _) => apply keeps_bind; [|intros]
  | |- keeps _ (try_catch _ _) => apply keeps_catch; [|intros]
  | |- keeps _ (try_finally _ _) => apply keeps_finally; [|intros]
  | |- keeps _ (ret _) => apply keeps_ret
  | |- keeps _ (throw _) => apply keeps_throw
  | |- keeps _ (gets _) => apply keeps_gets
  | |- keeps _ now => apply keeps_now
  | |- keeps _ (modify _) => apply keeps_modify; intros
  | |- keeps _ (for_of _ _) => apply keeps_for_of; intros
  | |- keeps _ (SupabaseService.request _) => apply keeps_request; intros
  | |- keeps _ (storage_access _ _) => apply keeps_storage_access; intros
  | |- keeps _ (getItem _) => apply keeps_storage_access; intros
  | |- keeps _ (setItem _) => apply keeps_storage_access; intros
  | |- keeps _ (multiRemove _) => apply keeps_storage_access; intros
  | |- keeps _ generate_id => apply keeps_generate_id; intros
  | |- keeps _ (match ?x with _ => _ end) => destruct x
  | |- keeps _ (if ?x then _ else _) => destruct x
  | |- keeps _ (let '(_, _) := ?x in _) => destruct x
  end.

Ltac frame := repeat frame_step; try reflexivity; auto.

(** *** The remote adapter leaves the device and the hooks alone *)

Section RemoteFrame.
Import SupabaseService.

Lemma getCurrentUser_device : keeps device getCurrentUser.
Proof. unfold getCurrentUser, getSupabaseUser. frame. Qed.

Lemma getCurrentUser_hooks : keeps hooks getCurrentUser.
Proof. unfold getCurrentUser, getSupabaseUser. frame. Qed.

Lemma handleDatabaseError_keeps {A X} (proj : World -> X) error operation :
  keeps proj (@handleDatabaseError A error operation).
Proof. unfold handleDatabaseError. frame. Qed.

Lemma ensureAuthenticated_device : keeps device ensureAuthenticated.
Proof. unfold ensureAuthenticated. frame. apply getCurrentUser_device. Qed.

Lemma ensureAuthenticated_hooks : keeps hooks ensureAuthenticated.
Proof. unfold ensureAuthenticated. frame. apply getCurrentUser_hooks. Qed.

Hint Resolve getCurrentUser_device getCurrentUser_hooks
  ensureAuthenticated_device ensureAuthenticated_hooks : core.
Hint Extern 1 (keeps _ (handleDatabaseError _ _)) =>
  apply handleDatabaseError_keeps : core.

Lemma getExpenses_device : keeps device getExpenses.
Proof. unfold getExpenses. frame. Qed.
Lemma getExpenses_hooks : keeps hooks getExpenses.
Proof. unfold getExpenses. frame. Qed.

Lemma addExpense_device carried expense : keeps device (addExpense_ carried expense).
Proof. unfold addExpense_. frame. Qed.
Lemma addExpense_hooks carried expense : keeps hooks (addExpense_ carried expense).
Proof. unfold addExpense_. frame. Qed.

Lemma updateExpense_device id updates : keeps device (updateExpense_ id updates).
Proof. unfold updateExpense_. frame. Qed.
Lemma updateExpense_hooks id updates : keeps hooks (updateExpense_ id updates).
Proof. unfold updateExpense_. frame. Qed.

Lemma deleteExpense_device id : keeps device (deleteExpense_ id).
Proof. unfold deleteExpense_. frame. Qed.
Lemma deleteExpense_hooks id : keeps hooks (deleteExpense_ id).
Proof. unfold deleteExpense_. frame. Qed.

Lemma signIn_device email password : keeps device (signIn email password).
Proof. unfold signIn, isConfigured. frame. Qed.
Lemma signUp_device email password : keeps device (signUp email password).
Proof. unfold signUp, isConfigured. frame. Qed.
Lemma signOut_device : keeps device signOut.
Proof. unfold signOut. frame. Qed.
Lemma signIn_hooks email password : keeps hooks (signIn email password).
Proof. unfold signIn, isConfigured. frame. Qed.
Lemma signUp_hooks email password : keeps hooks (signUp email password).
Proof. unfold signUp, isConfigured. frame. Qed.

Lemma resolveExpenseConflict_device l s : keeps device (resolveExpenseConflict l s).
Proof. unfold resolveExpenseConflict, updateExpense. frame. apply updateExpense_device. Qed.

End RemoteFrame.

(** Symbolic execution through the remote adapter and the hooks as well. *)
Ltac exec_all :=
  cbv [try_catch try_finally bind ret throw gets modify getItem setItem
       multiRemove storage_access now generate_id
       SupabaseService.request SupabaseService.isConfigured
       on_device on_backend on_services on_hooks
       set_storage set_storage_faults set_random
       set_rows set_issued set_net_faults set_accounts set_auth_session
       set_currentUser set_syncQueue set_operations set_currentSyncStatus
       set_attempted
       set_expenses set_error set_syncStatus set_loading set_user set_authError
       set_authLoading set_forceAuthScreen
       device backend services hooks storage storage_faults clock random
       rows id_source issued net_faults accounts auth_session configured
       currentUser syncQueue operations currentSyncStatus attempted
       expenses error syncStatus loading user authError authLoading
       forceAuthScreen negb].

(** ** Identity switches (useAuth) *)

Section IdentitySwitch.

Lemma signOut_keeps_storage : keeps device useAuth.signOut
  -> forall w, storage (device (state_after useAuth.signOut w)) = storage (device w).
Proof. intros H w. unfold state_after. now rewrite H. Qed.

Lemma useAuth_signOut_device : keeps device useAuth.signOut.
Proof.
  unfold useAuth.signOut, useAuth.createGuestUser. frame. apply signOut_device.
Qed.

(** What the three identity switches do to the store and to the state of
    the hooks. *)
Lemma identity_switches_and_the_store
    (w : World) (email password email' password' : string) (i : nat) (a : Account)
    (Hhealthy : healthy w)
    (Hconfigured : configured (backend w) = true)
    (Hnet : net_faults (backend w) = [])
    (Haccount :
       list_find (SupabaseService.credentials email password) (accounts (backend w))
       = Some (i, a))
    (Hconfirmed : acc_confirmed a = true)
    (Hnew : email' ∉ map acc_email (accounts (backend w))) :
  (exists w', useAuth.signIn email password w = (Ok tt, w')
      /\ storage (device w') = AsyncStorage.empty
      /\ storage_faults (device w') = []
      /\ user (hooks w')
         = Some (User.mk (User.id (acc_user a)) (User.email (acc_user a)) false)
      /\ forceAuthScreen (hooks w') = false
      /\ expenses (hooks w') = expenses (hooks w))
  /\ (exists w', useAuth.signUp email' password' w = (Ok tt, w')
      /\ storage (device w') = AsyncStorage.empty
      /\ user (hooks w') = user (hooks w)
      /\ expenses (hooks w') = expenses (hooks w))
  /\ (forall v e v' em pw, useAuth.signIn em pw v = (Err e, v') ->
      storage (device v') = storage (device v) /\ user (hooks v') = user (hooks v))
  /\ (forall v, storage (device (state_after useAuth.signOut v)) = storage (device v)).
Proof.
  split; [|split; [|split]].
  - destruct w as [[s sf t rnd] [rs src iss nf accs sess conf] sv hk].
    unfold healthy in *. simpl in *. subst.
    unfold useAuth.signIn, SupabaseService.signIn, LocalStorageService.clearAllData.
    exec_all. rewrite Haccount, Hconfirmed. cbn. eexists. split; [reflexivity|].
    repeat split; reflexivity.
  - destruct w as [[s sf t rnd] [rs src iss nf accs sess conf] sv hk].
    unfold healthy in *. simpl in *. subst.
    unfold useAuth.signUp, SupabaseService.signUp, LocalStorageService.clearAllData.
    exec_all. rewrite bool_decide_eq_false_2 by assumption. cbn.
    eexists. split; [reflexivity|]. repeat split; reflexivity.
  - intros v e v' em pw. unfold useAuth.signIn, try_finally, try_catch.
    destruct (bind _ _ v) as [[[]|e0] v0] eqn:E; [discriminate|].
    cbn. intros [= <- <-]. revert E. unfold bind at 1 2 3. unfold modify at 1 2. cbn.
    unfold SupabaseService.isConfigured, gets. cbn.
    destruct (configured (backend v)); cbn.
    + unfold bind at 1.
      pose proof (signIn_device em pw
                    (on_hooks (set_authError None) (on_hooks (set_authLoading true) v)))
        as Hd.
      pose proof (signIn_hooks em pw
                    (on_hooks (set_authError None) (on_hooks (set_authLoading true) v)))
        as Hh.
      destruct (SupabaseService.signIn em pw _) as [[u|e1] v1]; cbn in Hd, Hh.
      * unfold LocalStorageService.clearAllData, bind, try_catch.
        destruct (multiRemove _ v1) as [[[]|?] ?]; discriminate.
      * intros [= <- <-]. destruct v1 as [? ? ? ?], v as [? ? ? [? ? ? ? ? ? ? ?]].
        cbn in *. subst. split; reflexivity.
    + intros [= <- <-]. destruct v as [? ? ? [? ? ? ? ? ? ? ?]]. split; reflexivity.
  - apply signOut_keeps_storage, useAuth_signOut_device.
Qed.

End IdentitySwitch.

Lemma bind_modify {B} f (k : unit -> M B) w : bind (modify f) k w = k tt (f w).
Proof. reflexivity. Qed.

Lemma bind_gets {A B} (f : World -> A) (k : A -> M B) w : bind (gets f) k w = k (f w) w.
Proof. reflexivity. Qed.

Lemma bind_now {B} (k : Instant -> M B) w : bind now k w = k (clock (device w)) w.
Proof. reflexivity. Qed.

Lemma bind_ret {A B} (a : A) (k : A -> M B) w : bind (ret a) k w = k a w.
Proof. reflexivity. Qed.

(** ** Local writes of one expense *)

Section LocalWrites.
Import LocalStorageService.

Local Abbreviation put_expenses l := (AsyncStorage.set_EXPENSES (Some l)).

Lemma healthy_drawn w : healthy w -> healthy (drawn w).
Proof. intros H. exact H. Qed.

Lemma addExpense_healthy expense w :
  healthy w ->
  let r := created_expense expense w in
  addExpense expense w
  = (Ok r, written (put_expenses (stored AsyncStorage.EXPENSES w ++ [r])%list)
             (drawn (settled w))).
Proof.
  intros H r. unfold addExpense. rewrite try_catch_rethrow.
  rewrite (bind_ok _ _ _ _ _ (getExpenses_healthy w H)).
  destruct (settled_device w) as [Hc Hr].
  assert (generate_id (settled w) = (Ok (Expense.id r), drawn (settled w))) as Hid.
  { rewrite generate_id_run, Hc, Hr. reflexivity. }
  rewrite (bind_ok _ _ _ _ _ Hid), bind_now.
  assert (clock (device (drawn (settled w))) = clock (device w)) as -> by exact Hc.
  rewrite (bind_ok _ _ _ _ _
             (saveExpenses_healthy _ _ (healthy_drawn _ (healthy_settled w H)))).
  reflexivity.
Qed.

Lemma updateExpense_healthy id updates w :
  healthy w ->
  let l := stored AsyncStorage.EXPENSES w in
  updateExpense id updates w
  = match list_find (has_id id) l with
    | Some (i, existing) =>
        let r := useExpenses.optimistic_update updates (clock (device w)) existing in
        (Ok r, written (put_expenses (<[i := r]> l)) (settled w))
    | None => (Err (JsError "Expense not found"), settled w)
    end.
Proof.
  intros H l. unfold updateExpense. rewrite try_catch_rethrow.
  rewrite (bind_ok _ _ _ _ _ (getExpenses_healthy w H)). fold l.
  destruct (list_find (has_id id) l) as [[i existing]|]; [|reflexivity].
  rewrite bind_now. destruct (settled_device w) as [-> _].
  rewrite (bind_ok _ _ _ _ _ (saveExpenses_healthy _ _ (healthy_settled w H))).
  reflexivity.
Qed.

Lemma written_keeps {X} (proj : World -> X) put w :
  (forall f v, proj (on_device f v) = proj v) -> proj (written put w) = proj w.
Proof. intros H. apply H. Qed.

Lemma settled_keeps {X} (proj : World -> X) w :
  (forall f v, proj (on_device f v) = proj v) -> proj (settled w) = proj w.
Proof. intros H. apply H. Qed.

End LocalWrites.

(** ** A failing request *)

Section RemoteFailure.
Import SupabaseService.

Context (w : World) (u : User.t) (plan : list bool).
Hypothesis Hcached : currentUser (services w) = Some u.
Hypothesis Hfail : net_faults (backend w) = true :: plan.

Lemma ensureAuthenticated_cached :
  ensureAuthenticated w = (Ok (User.id u), w).
Proof.
  unfold ensureAuthenticated, getCurrentUser.
  unfold bind, try_catch, gets. now rewrite Hcached.
Qed.

Lemma request_fails {A} (handler : Backend -> Response A * Backend) :
  request handler w = (Ok (Failure request_failed), request_lost plan w).
Proof. unfold request. now rewrite Hfail. Qed.

Lemma addExpense_fails expense :
  addExpense expense w = (Err unknown_error, request_lost plan w).
Proof.
  unfold addExpense, addExpense_.
  eapply eq_trans;
    [eapply try_catch_err;
     rewrite (bind_ok _ _ _ _ _ ensureAuthenticated_cached), bind_now;
     rewrite (bind_ok _ _ _ _ _ (request_fails _)); reflexivity
    |reflexivity].
Qed.

Lemma updateExpense_fails id updates :
  updateExpense id updates w = (Err unknown_error, request_lost plan w).
Proof.
  unfold updateExpense, updateExpense_.
  eapply eq_trans;
    [eapply try_catch_err;
     rewrite (bind_ok _ _ _ _ _ ensureAuthenticated_cached), bind_now;
     rewrite (bind_ok _ _ _ _ _ (request_fails _)); reflexivity
    |reflexivity].
Qed.

Lemma deleteExpense_fails id :
  deleteExpense id w = (Err unknown_error, request_lost plan w).
Proof.
  unfold deleteExpense, deleteExpense_.
  eapply eq_trans;
    [eapply try_catch_err;
     rewrite (bind_ok _ _ _ _ _ ensureAuthenticated_cached);
     rewrite (bind_ok _ _ _ _ _ (request_fails _)); reflexivity
    |reflexivity].
Qed.

End RemoteFailure.

(** ** Single-entity writes through the hook (useExpenses) *)

Lemma remote_identity_inv h :
  useExpenses.remote_identity h = true ->
  exists u, user h = Some u /\ User.isGuest u = false /\ forceAuthScreen h = false.
Proof.
  destruct h as [? ? ? ? [[uid em []]|] ? ? []]; cbn; try discriminate.
  intros _. eexists. repeat split.
Qed.

Lemma remote_identity_eq h h' :
  user h = user h' -> forceAuthScreen h = forceAuthScreen h' ->
  useExpenses.remote_identity h = useExpenses.remote_identity h'.
Proof.
  unfold useExpenses.remote_identity, useAuth.isAuthenticated, useAuth.context_user.
  now intros -> ->.
Qed.

(** Reduce the steps of a hook that only touch its own state. *)
Ltac hook_steps :=
  unfold useExpenses.setExpenses, useExpenses.setError,
    useExpenses.setSyncStatus, useExpenses.setLoading, useExpenses.temp_id,
    useExpenses.finish;
  cbv [bind modify gets now ret try_catch try_finally throw];
  cbn [device backend services hooks on_hooks on_device on_backend on_services].

(** Read a component off a state built by the hooks and the stores. *)
Ltac project :=
  cbn [device backend services hooks on_hooks on_device on_backend on_services
       written drawn settled wiped request_lost
       expenses error syncStatus loading user authError authLoading forceAuthScreen
       set_expenses set_error set_syncStatus set_loading set_user].

(** Decide the branch on the identity from the hypothesis [Hr]. *)
Ltac remote_is b Hr :=
  match goal with
  | |- context [useExpenses.remote_identity ?h] =>
      replace (useExpenses.remote_identity h) with b
        by (rewrite <- Hr; apply remote_identity_eq; reflexivity)
  end.

(** View the collection of a state the stores have not written as that of
    [w]. *)
Ltac stored_at w :=
  repeat match goal with
    | |- context [stored AsyncStorage.EXPENSES ?W] =>
        lazymatch W with
        | w => fail
        | _ => change (stored AsyncStorage.EXPENSES W)
                 with (stored AsyncStorage.EXPENSES w)
        end
    end.

Lemma addExpense_falls_back w u plan content price date :
  useExpenses.remote_identity (hooks w) = true ->
  currentUser (services w) = Some u ->
  net_faults (backend w) = true :: plan ->
  healthy w ->
  let saved := created_expense (Expense.fields content price date) w in
  exists w',
    useExpenses.addExpense content price date w = (Ok saved, w')
    /\ stored AsyncStorage.EXPENSES w'
       = (stored AsyncStorage.EXPENSES w ++ [saved])%list
    /\ syncStatus (hooks w') = fell_back (syncStatus (hooks w))
    /\ expenses (hooks w')
       = saved :: replaced ("temp_" ++ pretty (clock (device w))) saved
                    (expenses (hooks w)).
Proof.
  intros Hr Hc Hf Hh saved.
  unfold useExpenses.addExpense. hook_steps. remote_is true Hr.
  match goal with
  | |- context [SupabaseService.addExpense ?d ?W] =>
      rewrite (addExpense_fails W u plan Hc Hf d)
  end.
  match goal with
  | |- context [LocalStorageService.addExpense ?d ?W] =>
      rewrite (addExpense_healthy d W Hh)
  end.
  cbv zeta. eexists. split; [reflexivity|]. split; [|split].
  - refine (stored_written_expenses _ (drawn (settled w)) _).
    rewrite expired_drawn. apply settled_fresh.
  - reflexivity.
  - project. cbn [map Expense.id]. rewrite String.eqb_refl. reflexivity.
Qed.

Lemma updateExpense_falls_back w u plan id updates i existing :
  useExpenses.remote_identity (hooks w) = true ->
  currentUser (services w) = Some u ->
  net_faults (backend w) = true :: plan ->
  healthy w ->
  list_find (has_id id) (stored AsyncStorage.EXPENSES w) = Some (i, existing) ->
  let updated := useExpenses.optimistic_update updates (clock (device w)) existing in
  exists w',
    useExpenses.updateExpense id updates w = (Ok updated, w')
    /\ stored AsyncStorage.EXPENSES w'
       = <[i := updated]> (stored AsyncStorage.EXPENSES w)
    /\ syncStatus (hooks w') = fell_back (syncStatus (hooks w)).
Proof.
  intros Hr Hc Hf Hh Hfound updated.
  unfold useExpenses.updateExpense. hook_steps. remote_is true Hr.
  match goal with
  | |- context [SupabaseService.updateExpense ?a ?b ?W] =>
      rewrite (updateExpense_fails W u plan Hc Hf a b)
  end.
  match goal with
  | |- context [LocalStorageService.updateExpense ?a ?b ?W] =>
      rewrite (updateExpense_healthy a b W Hh)
  end.
  cbv zeta. stored_at w. rewrite Hfound.
  eexists. split; [reflexivity|]. split.
  - refine (stored_written_expenses _ (settled w) _). apply settled_fresh.
  - reflexivity.
Qed.

Lemma deleteExpense_falls_back w u plan id :
  useExpenses.remote_identity (hooks w) = true ->
  currentUser (services w) = Some u ->
  net_faults (backend w) = true :: plan ->
  healthy w ->
  exists w',
    useExpenses.deleteExpense id w = (Ok tt, w')
    /\ stored AsyncStorage.EXPENSES w'
       = filter (fun e => Expense.id e <> id) (stored AsyncStorage.EXPENSES w)
    /\ syncStatus (hooks w') = fell_back (syncStatus (hooks w))
    /\ expenses (hooks w')
       = filter (fun e => Expense.id e <> id) (expenses (hooks w)).
Proof.
  intros Hr Hc Hf Hh.
  unfold useExpenses.deleteExpense. hook_steps. remote_is true Hr.
  match goal with
  | |- context [SupabaseService.deleteExpense ?a ?W] =>
      rewrite (deleteExpense_fails W u plan Hc Hf a)
  end.
  match goal with
  | |- context [LocalStorageService.deleteExpense ?a ?W] =>
      rewrite (deleteExpense_healthy a W Hh)
  end.
  eexists. split; [reflexivity|]. split; [|split].
  - refine (stored_written_expenses _ (settled w) _). apply settled_fresh.
  - reflexivity.
  - reflexivity.
Qed.

(** *** Reloading keeps the count of pending changes *)

Lemma local_getExpenses_hooks : keeps hooks LocalStorageService.getExpenses.
Proof.
  unfold LocalStorageService.getExpenses, LocalStorageService.read_collection,
    LocalStorageService.isDataExpired, LocalStorageService.clearAllData.
  frame.
Qed.

Lemma keeps_weaken {A X Y} (proj : World -> X) (g : X -> Y) (m : M A) :
  keeps proj m -> keeps (fun w => g (proj w)) m.
Proof. intros H w. now rewrite H. Qed.

Lemma loadExpenses_pending : keeps pending useExpenses.loadExpenses.
Proof.
  unfold useExpenses.loadExpenses, useExpenses.setLoading, useExpenses.setError,
    useExpenses.setSyncStatus, useExpenses.setExpenses, useExpenses.finish.
  frame;
    try (apply (keeps_weaken hooks (fun h => SyncStatus.pending_changes (syncStatus h)));
         auto using getExpenses_hooks, local_getExpenses_hooks).
Qed.

Lemma total_finally {A} (m : M A) f : total m -> total (try_finally m f).
Proof.
  intros Hm w. destruct (Hm w) as (a & w' & E). unfold try_finally.
  rewrite E. eauto.
Qed.

Lemma loadExpenses_total : total useExpenses.loadExpenses.
Proof.
  apply total_finally, total_catch. intros e.
  unfold useExpenses.setError. intros w. eexists _, _. reflexivity.
Qed.

Lemma updateExpense_fallback_fails w u plan id updates :
  useExpenses.remote_identity (hooks w) = true ->
  currentUser (services w) = Some u ->
  net_faults (backend w) = true :: plan ->
  healthy w ->
  id ∉ map Expense.id (stored AsyncStorage.EXPENSES w) ->
  exists w',
    useExpenses.updateExpense id updates w
    = (Err (AppError "UNKNOWN_ERROR" "Expense not found"), w')
    /\ pending w' = pending w.
Proof.
  intros Hr Hc Hf Hh Hmiss.
  unfold useExpenses.updateExpense. hook_steps. remote_is true Hr.
  match goal with
  | |- context [SupabaseService.updateExpense ?a ?b ?W] =>
      rewrite (updateExpense_fails W u plan Hc Hf a b)
  end.
  match goal with
  | |- context [LocalStorageService.updateExpense ?a ?b ?W] =>
      rewrite (updateExpense_healthy a b W Hh)
  end.
  cbv zeta. stored_at w. rewrite (list_find_absent _ _ Hmiss).
  match goal with
  | |- context [useExpenses.loadExpenses ?W] =>
      pose proof (loadExpenses_pending W) as Hp;
      destruct (loadExpenses_total W) as ([] & W1 & E); rewrite E in Hp |- *
  end.
  eexists. split; [reflexivity|]. exact Hp.
Qed.

Section HookTheorems.

(** C2, as amended.  For an authenticated identity whose request to the
    project fails, on a device whose store answers: an add appends the
    record to the local store, a delete removes the id from it, and an
    update of an id the local store holds rewrites that record; each of the
    three returns normally, adds one to [pending_changes] and sets the
    status error to the sync-failure message; the record an add stores
    carries no [synced] flag.  An update of an id the local store does
    not hold throws to the caller and leaves [pending_changes] as it
    was. *)
Theorem remote_failure_falls_back_to_the_local_store
    (w : World) (u : User.t) (plan : list bool)
    (content : string) (price : Q) (date : string)
    (id id' : string) (updates : Expense.partial) (i : nat) (existing : Expense.t)
    (Hremote : useExpenses.remote_identity (hooks w) = true)
    (Hcached : currentUser (services w) = Some u)
    (Hfail : net_faults (backend w) = true :: plan)
    (Hhealthy : healthy w)
    (Hfound : list_find (has_id id) (stored AsyncStorage.EXPENSES w)
              = Some (i, existing))
    (Hmissing : id' ∉ map Expense.id (stored AsyncStorage.EXPENSES w)) :
  (exists saved w',
      useExpenses.addExpense content price date w = (Ok saved, w')
      /\ stored AsyncStorage.EXPENSES w'
         = (stored AsyncStorage.EXPENSES w ++ [saved])%list
      /\ Expense.content saved = content /\ Expense.price saved = price
      /\ Expense.date saved = date /\ Expense.synced saved = None
      /\ syncStatus (hooks w') = fell_back (syncStatus (hooks w)))
  /\ (exists w',
      useExpenses.updateExpense id updates w
      = (Ok (useExpenses.optimistic_update updates (clock (device w)) existing), w')
      /\ stored AsyncStorage.EXPENSES w'
         = <[i := useExpenses.optimistic_update updates (clock (device w)) existing]>
             (stored AsyncStorage.EXPENSES w)
      /\ syncStatus (hooks w') = fell_back (syncStatus (hooks w)))
  /\ (forall id'', exists w',
      useExpenses.deleteExpense id'' w = (Ok tt, w')
      /\ stored AsyncStorage.EXPENSES w'
         = filter (fun e => Expense.id e <> id'') (stored AsyncStorage.EXPENSES w)
      /\ syncStatus (hooks w') = fell_back (syncStatus (hooks w)))
  /\ (exists w',
      useExpenses.updateExpense id' updates w
      = (Err (AppError "UNKNOWN_ERROR" "Expense not found"), w')
      /\ pending w' = pending w).
Proof.
  split; [|split; [|split]].
  - destruct (addExpense_falls_back w u plan content price date
                Hremote Hcached Hfail Hhealthy) as (w' & E & Hs & Hst & _).
    eexists _, w'. split; [exact E|]. split; [exact Hs|].
    repeat (split; [reflexivity|]). exact Hst.
  - exact (updateExpense_falls_back w u plan id updates i existing
             Hremote Hcached Hfail Hhealthy Hfound).
  - intros id''.
    destruct (deleteExpense_falls_back w u plan id''
                Hremote Hcached Hfail Hhealthy) as (w' & E & Hs & Hst & _).
    eauto.
  - exact (updateExpense_fallback_fails w u plan id' updates
             Hremote Hcached Hfail Hhealthy Hmissing).
Qed.

(** An instance: Alice, whose device holds [coffee], writes while the
    project does not answer. *)
Lemma remote_failure_fallback_witness :
  useExpenses.remote_identity (hooks Sample.alice_offline) = true
  /\ net_faults (backend Sample.alice_offline) = [true]
  /\ healthy Sample.alice_offline
  /\ exists saved w',
      useExpenses.addExpense "tea" 3%Q "2024-01-02" Sample.alice_offline
      = (Ok saved, w')
      /\ stored AsyncStorage.EXPENSES w' = [Sample.coffee; saved]
      /\ Expense.content saved = "tea" /\ Expense.price saved = 3%Q
      /\ Expense.date saved = "2024-01-02" /\ Expense.synced saved = None
      /\ syncStatus (hooks w')
         = fell_back (syncStatus (hooks Sample.alice_offline)).
Proof.
  split; [reflexivity|]. split; [reflexivity|]. split; [reflexivity|].
  refine (proj1 (remote_failure_falls_back_to_the_local_store
                   Sample.alice_offline Sample.alice [] "tea" 3%Q "2024-01-02"
                   (Expense.id Sample.coffee) "srv-lunch" Sample.cheaper 0
                   Sample.coffee eq_refl eq_refl eq_refl eq_refl eq_refl _)).
  vm_compute. intros H. inversion H as [|? ? ? H']; subst. inversion H'.
Defined.

(** C2 fails as stated: Alice edits an expense that only the project
    holds while the project does not answer; the local fallback does not
    find the id, the update throws to the caller and no pending change is
    counted. *)
Lemma update_fallback_throws_for_remote_only_expense :
  useExpenses.remote_identity (hooks Sample.alice_offline) = true
  /\ net_faults (backend Sample.alice_offline) = [true]
  /\ result_of (useExpenses.updateExpense "srv-lunch" Sample.cheaper)
       Sample.alice_offline
     = Err (AppError "UNKNOWN_ERROR" "Expense not found")
  /\ pending (state_after (useExpenses.updateExpense "srv-lunch" Sample.cheaper)
                Sample.alice_offline)
     = pending Sample.alice_offline.
Proof. repeat split; vm_compute; reflexivity. Qed.

End HookTheorems.

(** ** Updates are not validated *)

Section Unvalidated.

Lemma push_if_keeps c message message' errors :
  message' ∈ errors -> message' ∈ Validation.push_if c message errors.
Proof.
  unfold Validation.push_if. destruct c; [|auto].
  intros H. apply elem_of_app. now left.
Qed.

Lemma push_if_true message errors :
  message ∈ Validation.push_if true message errors.
Proof. unfold Validation.push_if. apply elem_of_app. right. now left. Qed.

Lemma negative_price_is_invalid (expense : Expense.partial) (p : Q) :
  Expense.p_price expense = Some p -> (p < 0)%Q ->
  match Validation.validateExpense expense with
  | Ok result =>
      Validation.isValid result = false
      /\ "Price must be positive" ∈ Validation.errors result
  | Err error => error = Validation.invalid_time_value
  end.
Proof.
  intros Hp Hneg. unfold Validation.validateExpense. rewrite Hp.
  assert (Qle_bool 0 p = false) as ->.
  { destruct (Qle_bool 0 p) eqn:E; [|reflexivity].
    apply Qle_bool_iff in E. exfalso. now apply (Qlt_not_le p 0). }
  cbn [negb]. cbv zeta.
  set (errors := Validation.push_if _ "Date is required" _).
  assert ("Price must be positive" ∈ errors) as Hin.
  { unfold errors. do 2 apply push_if_keeps. apply push_if_true. }
  assert (forall l, "Price must be positive" ∈ l ->
            Validation.isValid
              (Validation.mkResult (match l with [] => true | _ => false end) l) = false
            /\ "Price must be positive"
               ∈ Validation.errors
                   (Validation.mkResult (match l with [] => true | _ => false end) l))
    as Hres.
  { intros l Hl. split; [|exact Hl]. destruct l; [inversion Hl | reflexivity]. }
  destruct (Validation.truthy (Expense.p_date expense)); [|now apply Hres].
  unfold Validation.isValidDateString.
  destruct (negb (Validation.matches_date_pattern _)).
  - apply Hres. now apply push_if_keeps.
  - destruct (Validation.midnight_of _); [|reflexivity].
    apply Hres. now apply push_if_keeps.
Qed.

(** C8, as amended.  [validateExpense] never accepts an object with a
    negative price (it reports 'Price must be positive', unless it throws
    on a date that does not exist), but [updateExpense] of the hook does
    not validate:
    for a guest, on a device whose store answers, the update of an id the
    local store holds returns normally whatever the new values, and both
    the stored record and the in-memory collection take them.  When the
    update does throw, because the local store does not hold the id, the
    in-memory collection is replaced by the stored collection and the
    error reaches the caller, as an [AppError] with code UNKNOWN_ERROR. *)
Theorem update_is_not_validated
    (w : World) (id : string) (updates : Expense.partial)
    (Hguest : useExpenses.remote_identity (hooks w) = false)
    (Hhealthy : healthy w) :
  (forall p, Expense.p_price updates = Some p -> (p < 0)%Q ->
     match Validation.validateExpense updates with
     | Ok result =>
         Validation.isValid result = false
         /\ "Price must be positive" ∈ Validation.errors result
     | Err error => error = Validation.invalid_time_value
     end)
  /\ (forall i existing,
       list_find (has_id id) (stored AsyncStorage.EXPENSES w) = Some (i, existing) ->
       let updated :=
         useExpenses.optimistic_update updates (clock (device w)) existing in
       exists w',
         useExpenses.updateExpense id updates w = (Ok updated, w')
         /\ stored AsyncStorage.EXPENSES w'
            = <[i := updated]> (stored AsyncStorage.EXPENSES w)
         /\ expenses (hooks w')
            = replaced id updated
                (map (fun exp =>
                        if String.eqb (Expense.id exp) id
                        then useExpenses.optimistic_update updates
                               (clock (device w)) exp
                        else exp)
                   (expenses (hooks w))))
  /\ (id ∉ map Expense.id (stored AsyncStorage.EXPENSES w) ->
      exists w',
        useExpenses.updateExpense id updates w
        = (Err (AppError "UNKNOWN_ERROR" "Expense not found"), w')
        /\ expenses (hooks w') = stored AsyncStorage.EXPENSES w).
Proof.
  split; [|split].
  - intros p. apply negative_price_is_invalid.
  - intros i existing Hfound updated.
    unfold useExpenses.updateExpense. hook_steps. remote_is false Hguest.
    match goal with
    | |- context [LocalStorageService.updateExpense ?a ?b ?W] =>
        rewrite (updateExpense_healthy a b W Hhealthy)
    end.
    cbv zeta. stored_at w. rewrite Hfound.
    eexists. split; [reflexivity|]. split.
    + refine (stored_written_expenses _ (settled w) _). apply settled_fresh.
    + reflexivity.
  - intros Hmiss.
    unfold useExpenses.updateExpense. hook_steps. remote_is false Hguest.
    match goal with
    | |- context [LocalStorageService.updateExpense ?a ?b ?W] =>
        rewrite (updateExpense_healthy a b W Hhealthy)
    end.
    cbv zeta. stored_at w. rewrite (list_find_absent _ _ Hmiss).
    unfold useExpenses.loadExpenses. hook_steps. remote_is false Hguest.
    match goal with
    | |- context [LocalStorageService.getExpenses ?W] =>
        rewrite (getExpenses_healthy W (healthy_settled w Hhealthy))
    end.
    eexists. split; [reflexivity|].
    exact (stored_settled AsyncStorage.EXPENSES w eq_refl).
Qed.

(** An instance: the guest who holds [coffee]. *)
Lemma update_is_not_validated_witness :
  useExpenses.remote_identity (hooks Sample.guest_with_coffee) = false
  /\ healthy Sample.guest_with_coffee
  /\ Validation.validateExpense Sample.negative_price
     = Ok (Validation.mkResult false
             ["Content is required"; "Price must be positive"; "Date is required"])
  /\ exists w',
       useExpenses.updateExpense (Expense.id Sample.coffee) Sample.negative_price
         Sample.guest_with_coffee
       = (Ok (useExpenses.optimistic_update Sample.negative_price Sample.new_year
                Sample.coffee), w')
       /\ stored AsyncStorage.EXPENSES w'
          = [useExpenses.optimistic_update Sample.negative_price Sample.new_year
               Sample.coffee].
Proof.
  pose proof (update_is_not_validated Sample.guest_with_coffee
                (Expense.id Sample.coffee) Sample.negative_price eq_refl eq_refl)
    as (_ & Hfound & _).
  split; [reflexivity|]. split; [reflexivity|].
  split; [reflexivity|].
  destruct (Hfound 0%nat Sample.coffee eq_refl) as (w' & E & Hs & _).
  exists w'. split; [exact E | exact Hs].
Defined.

(** C8 fails as stated: a guest sets the price of a stored expense to -5;
    the validator calls the result invalid, yet the update returns
    normally and the in-memory collection now holds the negative price. *)
Lemma negative_price_update_is_accepted :
  Validation.validateExpense
    (Expense.as_partial
       (useExpenses.optimistic_update Sample.negative_price Sample.new_year
          Sample.coffee))
  = Ok (Validation.mkResult false ["Price must be positive"])
  /\ result_of (useExpenses.updateExpense (Expense.id Sample.coffee)
                  Sample.negative_price) Sample.guest_with_coffee
     = Ok (useExpenses.optimistic_update Sample.negative_price Sample.new_year
             Sample.coffee)
  /\ map Expense.price
       (expenses (hooks (state_after
                           (useExpenses.updateExpense (Expense.id Sample.coffee)
                              Sample.negative_price) Sample.guest_with_coffee)))
     = [(-5)%Q]
  /\ map Expense.price (expenses (hooks Sample.guest_with_coffee)) = [10%Q].
Proof. repeat split; vm_compute; reflexivity. Qed.

End Unvalidated.

(** ** Instances on the sample data *)

Section Witnesses.
Import LocalStorageService.

(** An instance: the guest whose stamp passed a millisecond ago reads an
    empty collection of expenses, and the export that follows is empty. *)
Lemma expired_read_witness :
  healthy Sample.stale_guest
  /\ AsyncStorage.EXPIRY (storage (device Sample.stale_guest))
     = Some (Sample.new_year - 1)
  /\ Sample.new_year - 1 < clock (device Sample.stale_guest)
  /\ getExpenses Sample.stale_guest = (Ok [], wiped Sample.stale_guest)
  /\ exists x w3, exportAllData (wiped Sample.stale_guest) = (Ok x, w3)
       /\ x_expenses x = [] /\ x_goalTemplates x = []
       /\ x_dailyCompletions x = [] /\ x_weeklyReports x = [].
Proof.
  assert (Sample.new_year - 1 < clock (device Sample.stale_guest)) as Hpast
    by (vm_compute; reflexivity).
  pose proof (expired_read_wipes_everything Sample.stale_guest
                (Sample.new_year - 1) eq_refl eq_refl Hpast)
    as (Hread & _ & _ & _ & _ & Hexport & _).
  split; [reflexivity|]. split; [reflexivity|]. split; [exact Hpast|].
  split; [exact Hread|]. apply Hexport. reflexivity.
Defined.

(** C9 fails as stated: the store holds an expense, the access that loads
    the collection fails, and the read reports the empty list as a normal
    result. *)
Lemma failed_load_reads_as_empty :
  AsyncStorage.EXPENSES (storage (device Sample.unreadable_guest))
  = Some [Sample.coffee]
  /\ storage_faults (device Sample.unreadable_guest) = [false; true]
  /\ result_of getExpenses Sample.unreadable_guest = Ok [].
Proof. repeat split. Qed.

(** An instance: a guest device whose second access fails on a read, one
    whose first access fails on a write, and one that holds the run of
    new year and whose second access fails on an upsert. *)
Lemma storage_failures_witness :
  result_of getExpenses Sample.unreadable_guest = Ok []
  /\ (exists v',
        saveGoalTemplates [] Sample.unwritable_guest = (Err storage_failure, v')
        /\ storage (device v') = storage (device Sample.unwritable_guest))
  /\ (exists u',
        updateGoalCompletion Sample.run_undone Sample.guest_whose_load_fails
        = (Ok (created_completion Sample.run_undone Sample.guest_whose_load_fails), u')
        /\ AsyncStorage.GOAL_COMPLETIONS (storage (device u'))
           = Some [created_completion Sample.run_undone
                     Sample.guest_whose_load_fails]).
Proof.
  pose proof (storage_failures_by_collection Sample.unreadable_guest []
                eq_refl eq_refl)
    as (_ & (Hread & _) & Hwrite & _ & _ & Hupsert).
  split; [exact Hread|]. split.
  - destruct (Hwrite []) as (H & _). exact (H Sample.unwritable_guest [] eq_refl).
  - destruct (Hupsert Sample.run_undone Sample.guest_whose_load_fails [] eq_refl)
      as (_ & H & _).
    exact (H eq_refl).
Defined.

(** The failed load, run: the call returns normally and the run of new
    year is no longer stored. *)
Lemma failed_load_loses_the_completions :
  let w' := state_after (updateGoalCompletion Sample.run_undone)
              Sample.guest_whose_load_fails in
  AsyncStorage.GOAL_COMPLETIONS (storage (device Sample.guest_whose_load_fails))
  = Some [Sample.ran_on_new_year]
  /\ (exists r, result_of (updateGoalCompletion Sample.run_undone)
                  Sample.guest_whose_load_fails = Ok r)
  /\ map DailyGoalCompletion.id
       <$> AsyncStorage.GOAL_COMPLETIONS (storage (device w'))
     = Some ["1704067200000abc"].
Proof. cbv zeta. split; [reflexivity|]. split; [eexists|]; vm_compute; reflexivity. Qed.

(** An instance: the guest holds [coffee] only; deleting the id of [lunch]
    changes nothing and updating it throws. *)
Lemma delete_of_missing_expense_witness :
  healthy Sample.guest_with_coffee
  /\ ("srv-lunch" ∉ map Expense.id (stored AsyncStorage.EXPENSES Sample.guest_with_coffee))
  /\ (exists w', deleteExpense "srv-lunch" Sample.guest_with_coffee = (Ok tt, w')
        /\ stored AsyncStorage.EXPENSES w' = [Sample.coffee])
  /\ exists w', updateExpense "srv-lunch" Sample.cheaper Sample.guest_with_coffee
                = (Err (JsError "Expense not found"), w').
Proof.
  assert ("srv-lunch"
            ∉ map Expense.id (stored AsyncStorage.EXPENSES Sample.guest_with_coffee))
    as Hmissing.
  { vm_compute. intros H. inversion H as [|? ? ? H']; subst. inversion H'. }
  pose proof (delete_of_missing_expense_is_silent Sample.guest_with_coffee
                "srv-lunch" eq_refl Hmissing) as (Hdelete & Hupdate & _).
  split; [reflexivity|]. split; [exact Hmissing|].
  split; [exact Hdelete | apply Hupdate].
Defined.



End Witnesses.

(** ** The weekly report *)

Section Report.
Import WeeklyReportService.

(** C7 at the failing input.  The template is due on Mondays, the week
    starts on Monday 2024-01-01 and a completed record exists for that
    day.  On a device in UTC-5 the generator counts one due day and no
    completion; on a device in UTC it counts the completion. *)
Theorem weekly_stats_depend_on_the_time_zone :
  calculateGoalStats Sample.new_york Sample.monday_goal "2024-01-01"
    [Sample.ran_on_new_year]
  = Some (GoalStats.mk "goal-1" "Run" 0 1 0%Q)
  /\ calculateGoalStats 0 Sample.monday_goal "2024-01-01" [Sample.ran_on_new_year]
     = Some (GoalStats.mk "goal-1" "Run" 1 1 1%Q)
  /\ calculateGoalStats 0 Sample.monday_goal "2024-01-01" []
     = Some (GoalStats.mk "goal-1" "Run" 0 1 0%Q)
  /\ JsDate.isoDay (checkDate Sample.new_york Sample.new_year 1) = "2024-01-02"
  /\ dayOfWeek Sample.new_york (checkDate Sample.new_york Sample.new_year 1) = 1
  /\ dayOfWeek Sample.new_york (checkDate Sample.new_york Sample.new_year 0) = 7.
Proof. repeat split; vm_compute; reflexivity. Qed.

End Report.

(** ** The deferred operation queue *)

Section Queue.
Import SyncService.

Lemma processOperation_queue_state operation :
  keeps queue_state (processOperation operation).
Proof.
  unfold processOperation, processExpenseOperation,
    SupabaseService.addExpense_untyped, SupabaseService.addExpense_,
    SupabaseService.updateExpense_, SupabaseService.deleteExpense_,
    SupabaseService.ensureAuthenticated, SupabaseService.getCurrentUser,
    SupabaseService.getSupabaseUser.
  frame; apply handleDatabaseError_keeps.
Qed.

Lemma getCurrentUser_queue_state : keeps queue_state SupabaseService.getCurrentUser.
Proof.
  unfold SupabaseService.getCurrentUser, SupabaseService.getSupabaseUser. frame.
Qed.

Lemma updateSyncStatus_queue_state updates w :
  queue_state (updateSyncStatus_now updates w) = queue_state w.
Proof.
  unfold updateSyncStatus_now, notify. now destruct (subscribed _).
Qed.

Lemma queue_state_inv w w' :
  queue_state w' = queue_state w ->
  queue w' = queue w /\ attempts w' = attempts w
  /\ forall r, retries_of w' r = retries_of w r.
Proof.
  unfold queue_state, queue, attempts, retries_of. intros [= -> -> ->]. auto.
Qed.

(** *** Failures counted in a log *)

Lemma failures_nil r : failures r [] = 0.
Proof. reflexivity. Qed.

Lemma failures_cons r r0 ok log :
  failures r ((r0, ok) :: log)
  = (if ok then 0 else if Nat.eqb r0 r then 1 else 0) + failures r log.
Proof.
  unfold failures. rewrite filter_cons.
  destruct (decide ((r0, ok) = (r, false))) as [[= -> ->]|Hne].
  - rewrite Nat.eqb_refl. cbn [length]. lia.
  - destruct ok; [lia|]. destruct (Nat.eqb_spec r0 r); [congruence | lia].
Qed.

Lemma failures_nonneg r log : 0 <= failures r log.
Proof. unfold failures. lia. Qed.

Lemma failures_pos r log : 0 < failures r log -> (r, false) ∈ log.
Proof.
  unfold failures. intros H.
  destruct (filter (fun a => a = (r, false)) log) as [|a l] eqn:E; [cbn in H; lia|].
  assert (a ∈ filter (fun a => a = (r, false)) log) as Ha by (rewrite E; left).
  apply list_elem_of_filter in Ha as [-> Ha]. exact Ha.
Qed.

Lemma failures_elem r log : (r, false) ∈ log -> 0 < failures r log.
Proof.
  intros H. unfold failures.
  assert ((r, false) ∈ filter (fun a => a = (r, false)) log) as Ha
    by (apply list_elem_of_filter; auto).
  destruct (filter _ log); [inversion Ha | cbn; lia].
Qed.

(** *** One attempt *)

Lemma attempt_spec r w :
  exists ok w',
    attempt r w = (Ok (if ok : bool then true else 3 <=? retries_of w r + 1), w')
    /\ queue w' = queue w
    /\ attempts w' = (attempts w ++ [(r, ok)])%list
    /\ forall r', retries_of w' r'
                  = retries_of w r' + (if ok then 0 else if Nat.eqb r r' then 1 else 0).
Proof.
  unfold attempt. unfold try_catch. rewrite bind_gets.
  pose proof (processOperation_queue_state (operations (services w) r) w) as Hq.
  unfold bind at 1.
  destruct (processOperation (operations (services w) r) w) as [[[]|e] w1];
    cbn [snd] in Hq; apply queue_state_inv in Hq as (Hq & Ha & Hr).
  - exists true. eexists. split; [reflexivity|].
    unfold queue, attempts, retries_of in *. cbn. rewrite Hq, Ha.
    repeat split. intros r'. rewrite Hr. lia.
  - exists false. eexists. split.
    + cbn. unfold retries_of in *. rewrite Nat.eqb_refl. cbn. now rewrite Hr.
    + unfold queue, attempts, retries_of in *. cbn. rewrite Hq, Ha.
      repeat split. intros r'. rewrite Nat.eqb_sym.
      destruct (Nat.eqb_spec r r') as [->|]; cbn; rewrite Hr; lia.
Qed.

(** *** One pass over the queue *)

Lemma drain_spec q : forall acc w,
  exists outs acc' w',
    drain q acc w = (Ok acc', w')
    /\ length outs = length q
    /\ queue w' = queue w
    /\ attempts w' = (attempts w ++ zip q outs)%list
    /\ (forall r, retries_of w' r = retries_of w r + failures r (zip q outs))
    /\ (forall r, r ∈ acc' <->
                  r ∈ acc \/ (r, true) ∈ zip q outs
                  \/ ((r, false) ∈ zip q outs /\ 3 <= retries_of w' r)).
Proof.
  induction q as [|r0 q IH]; intros acc w.
  - exists [], acc, w. cbn. rewrite app_nil_r.
    repeat split; try (intros; rewrite ?failures_nil; lia).
    + auto.
    + intros [H|[H|[H _]]]; [assumption | inversion H | inversion H].
  - destruct (attempt_spec r0 w) as (ok & w1 & E & Hq1 & Ha1 & Hr1).
    cbn [drain]. rewrite (bind_ok _ _ _ _ _ E).
    set (done := if ok then true else 3 <=? retries_of w r0 + 1) in *.
    destruct (IH (if done then (acc ++ [r0])%list else acc) w1)
      as (outs & acc' & w' & E' & Hlen & Hq & Ha & Hr & Hacc).
    exists (ok :: outs), acc', w'. split; [exact E'|].
    split; [cbn; lia|]. split; [congruence|].
    split; [rewrite Ha, Ha1, <- app_assoc; reflexivity|].
    assert (forall r, retries_of w' r = retries_of w r + failures r (zip (r0 :: q) (ok :: outs)))
      as Hretries.
    { intros r. cbn [zip zip_with]. rewrite failures_cons, Hr, Hr1.
      destruct ok; [lia|]. lia. }
    split; [exact Hretries|].
    intros r. rewrite Hacc. cbn [zip zip_with]. rewrite !elem_of_cons.
    pose proof (failures_nonneg r (zip q outs)) as Hnn.
    pose proof (Hr r) as Hrr. pose proof (Hr1 r) as Hr1r.
    destruct ok; subst done.
    + rewrite elem_of_app, list_elem_of_singleton.
      split; [intros [[H| ->]|[H|H]] | intros [H|[[H|H]|[[H|H] H3]]]];
        try tauto; try congruence.
      inversion H. tauto.
    + destruct (Z.leb_spec 3 (retries_of w r0 + 1)) as [Hge|Hlt].
      * rewrite elem_of_app, list_elem_of_singleton.
        split; [intros [[H| ->]|[H|H]] | intros [H|[[H|H]|[[H|H] H3]]]];
          try tauto; try congruence.
        -- right; right. split; [left; reflexivity|].
           specialize (Hr r0). specialize (Hr1 r0). rewrite Nat.eqb_refl in Hr1.
           pose proof (failures_nonneg r0 (zip q outs)). lia.
        -- inversion H. tauto.
      * split; [intros [H|[H|H]] | intros [H|[[H|H]|[[H|H] H3]]]];
          try tauto; try congruence.
        inversion H; subst r. right; right. split; [|exact H3].
        apply failures_pos. specialize (Hr r0). specialize (Hr1 r0).
        rewrite Nat.eqb_refl in Hr1. lia.
Qed.

(** *** [processQueue] *)

Lemma updateSyncStatus_currentUser updates w :
  currentUser (services (updateSyncStatus_now updates w)) = currentUser (services w).
Proof. unfold updateSyncStatus_now, notify. now destruct (subscribed _). Qed.

Lemma getCurrentUser_cached w u :
  currentUser (services w) = Some u ->
  SupabaseService.getCurrentUser w = (Ok (Some u), w).
Proof.
  intros H. unfold SupabaseService.getCurrentUser, try_catch, bind, gets.
  now rewrite H.
Qed.

Lemma zip_covers (q : list Ref) (outs : list bool) r :
  length outs = length q -> r ∈ q -> exists ok, (r, ok) ∈ zip q outs.
Proof.
  revert outs. induction q as [|r0 q IH]; intros [|ok outs] Hlen Hr;
    try discriminate; [inversion Hr|].
  cbn [zip zip_with]. apply elem_of_cons in Hr as [->|Hr].
  - exists ok. left.
  - destruct (IH outs) as (ok' & H); [cbn in Hlen; lia | assumption|].
    exists ok'. now right.
Qed.

Lemma zip_from (q : list Ref) (outs : list bool) a : a ∈ zip q outs -> a.1 ∈ q.
Proof.
  revert outs. induction q as [|r0 q IH]; intros [|ok outs] H;
    try (now inversion H).
  cbn [zip zip_with] in H. apply elem_of_cons in H as [->|H]; [left|].
  right. eauto.
Qed.

(** The pass of a signed-in user. *)
Lemma processQueue_signed_in w u :
  currentUser (services w) = Some u -> User.isGuest u = false ->
  exists outs w',
    processQueue w = (Ok tt, w')
    /\ length outs = length (queue w)
    /\ attempts w' = (attempts w ++ zip (queue w) outs)%list
    /\ (forall r, retries_of w' r = retries_of w r + failures r (zip (queue w) outs))
    /\ (forall r, r ∈ queue w' <->
                  r ∈ queue w /\ ((r, true) ∉ zip (queue w) outs)
                  /\ retries_of w' r < 3).
Proof.
  intros Hc Hg. unfold processQueue. rewrite bind_gets.
  destruct (syncQueue (services w)) as [|r0 q] eqn:Eq.
  - exists [], w. unfold queue. rewrite Eq. cbn [length zip zip_with].
    rewrite app_nil_r. do 3 (split; [reflexivity|]).
    split; [intros; rewrite failures_nil; lia|].
    intros r. split; [intros Hin; inversion Hin | intros (Hin & _); inversion Hin].
  - unfold try_finally, try_catch, updateSyncStatus. rewrite bind_modify.
    set (w1 := updateSyncStatus_now _ w).
    assert (currentUser (services w1) = Some u) as Hc1
      by (unfold w1; now rewrite updateSyncStatus_currentUser).
    rewrite (bind_ok _ _ _ _ _ (getCurrentUser_cached w1 u Hc1)), Hg.
    destruct (drain_spec (r0 :: q) [] w1)
      as (outs & acc' & w2 & E & Hlen & Hq & Ha & Hr & Hacc).
    rewrite (bind_ok _ _ _ _ _ E), bind_modify, bind_gets, bind_now.
    unfold modify.
    destruct (queue_state_inv w w1 (updateSyncStatus_queue_state _ w))
      as (Hq1 & Ha1 & Hr1).
    set (w3 := on_services _ w2).
    exists outs. eexists. split; [reflexivity|].
    match goal with
    | |- context [attempts ?W] => set (w' := W)
    end.
    assert (queue_state w' = queue_state w3) as Hqs.
    { unfold w', not_in_progress.
      now rewrite !updateSyncStatus_queue_state. }
    apply queue_state_inv in Hqs as (Hq' & Ha' & Hr').
    assert (queue w = r0 :: q) as Hqw by exact Eq.
    rewrite Hqw.
    split; [exact Hlen|].
    split; [rewrite Ha'; unfold w3, attempts; cbn; fold (attempts w2);
            now rewrite Ha, Ha1|].
    assert (forall r, retries_of w' r
                      = retries_of w r + failures r (zip (r0 :: q) outs)) as Hret.
    { intros r. rewrite Hr'. unfold w3, retries_of. cbn. fold (retries_of w2 r).
      now rewrite Hr, Hr1. }
    split; [exact Hret|].
    intros r. rewrite Hq'. unfold w3, queue. cbn. fold (queue w2).
    rewrite Hq, Hq1, Hqw, list_elem_of_filter, Hacc.
    assert (retries_of w2 r = retries_of w' r) as ->
      by (rewrite Hret, Hr, Hr1; reflexivity).
    split.
    + intros (Hnot & Hin). split; [exact Hin|].
      split; [tauto|].
      destruct (zip_covers (r0 :: q) outs r Hlen Hin) as ([] & Hok); [tauto|].
      destruct (Z.lt_ge_cases (retries_of w' r) 3); [assumption|]. tauto.
    + intros (Hin & Hno & Hlt). split; [|exact Hin].
      intros [H|[H|[_ H]]]; [inversion H | tauto | lia].
Qed.

(** Any pass: what it logs comes from the queue, and it adds nothing to
    the queue. *)
Lemma processQueue_any v :
  exists new,
    attempts (state_after processQueue v) = (attempts v ++ new)%list
    /\ (forall a, a ∈ new -> a.1 ∈ queue v)
    /\ (forall r, r ∈ queue (state_after processQueue v) -> r ∈ queue v).
Proof.
  assert (forall v', queue_state v' = queue_state v ->
            attempts v' = (attempts v ++ [])%list
            /\ (forall a : Ref * bool, a ∈ [] -> a.1 ∈ queue v)
            /\ (forall r, r ∈ queue v' -> r ∈ queue v)) as Hidle.
  { intros v' (Hq & Ha & _)%queue_state_inv. rewrite app_nil_r, Hq, Ha.
    repeat split; auto. intros a Hin. inversion Hin. }
  unfold state_after. destruct (processQueue v) as [res v'] eqn:E. cbn [snd].
  revert E. unfold processQueue. rewrite bind_gets.
  destruct (syncQueue (services v)) as [|r0 q] eqn:Eq.
  - intros [= <- <-]. exists []. now apply Hidle.
  - unfold try_finally, try_catch, updateSyncStatus. rewrite bind_modify.
    set (w1 := updateSyncStatus_now _ v).
    pose proof (updateSyncStatus_queue_state
                  (mkUpdate None None (Some true) None) v) as Hw1. fold w1 in Hw1.
    pose proof (getCurrentUser_queue_state w1) as Hk. unfold bind at 1.
    destruct (SupabaseService.getCurrentUser w1) as [[[u|]|e] w1'];
      cbn [snd] in Hk.
    + destruct (User.isGuest u).
      * cbn [throw bind modify]. intros [= <- <-]. exists []. apply Hidle.
        unfold not_in_progress. rewrite !updateSyncStatus_queue_state. congruence.
      * destruct (drain_spec (r0 :: q) [] w1')
          as (outs & acc' & w2 & E & Hlen & Hq & Ha & Hr & Hacc).
        rewrite (bind_ok _ _ _ _ _ E), bind_modify, bind_gets, bind_now.
        unfold modify. intros [= <- <-]. exists (zip (r0 :: q) outs).
        match goal with
        | |- context [attempts (not_in_progress (updateSyncStatus_now ?X ?W))] =>
            assert (queue_state (not_in_progress (updateSyncStatus_now X W))
                    = queue_state W) as Hqs
              by (unfold not_in_progress; now rewrite !updateSyncStatus_queue_state)
        end.
        apply queue_state_inv in Hqs as (Hq' & Ha' & _).
        apply queue_state_inv in Hk as (Hq1' & Ha1' & _).
        apply queue_state_inv in Hw1 as (Hq1 & Ha1 & _).
        rewrite Ha', Hq'. unfold attempts at 1, queue at 2.
        cbn [attempted syncQueue services on_services set_syncQueue].
        fold (attempts w2) (queue w2).
        rewrite Ha, Ha1', Ha1, Hq, Hq1', Hq1.
        assert (queue v = r0 :: q) as Hqv by exact Eq. rewrite Hqv.
        split; [reflexivity|]. split; [apply zip_from|].
        intros r Hr0. now apply list_elem_of_filter in Hr0.
    + cbn [throw bind modify]. intros [= <- <-]. exists []. apply Hidle.
      unfold not_in_progress. rewrite !updateSyncStatus_queue_state. congruence.
    + cbn [throw bind modify]. intros [= <- <-]. exists []. apply Hidle.
      unfold not_in_progress. rewrite !updateSyncStatus_queue_state. congruence.
Qed.

Lemma attempts_on_none r (log : list (Ref * bool)) :
  (forall a, a ∈ log -> a.1 <> r) -> attempts_on r log = [].
Proof.
  unfold attempts_on. induction log as [|a log IH]; intros H; [reflexivity|].
  rewrite filter_cons_False by (apply H; left).
  apply IH. intros b Hb. apply H. now right.
Qed.

Lemma attempts_on_app r (l1 l2 : list (Ref * bool)) :
  attempts_on r (l1 ++ l2) = (attempts_on r l1 ++ attempts_on r l2)%list.
Proof. apply filter_app. Qed.

(** An object out of the queue stays out and is not attempted. *)
Lemma later_untouched w v r :
  later w v -> (r ∉ queue w) ->
  (r ∉ queue v) /\ attempts_on r (attempts v) = attempts_on r (attempts w).
Proof.
  intros Hl Hout. induction Hl as [|v Hl [IHq IHa]|v v' Hl [IHq IHa] Hsame].
  - auto.
  - destruct (processQueue_any v) as (new & Ha & Hnew & Hq). split.
    + intros H. apply IHq, Hq, H.
    + rewrite Ha, attempts_on_app, IHa, (attempts_on_none r new); [apply app_nil_r|].
      intros a Hin Heq. apply IHq. rewrite <- Heq. now apply Hnew.
  - apply queue_state_inv in Hsame as (Hq & Ha & _). now rewrite Hq, Ha.
Qed.

(** C3.  A drain pass of a signed-in user hands the operations of the
    queue to [processOperation] once each, in the order of the queue; each
    failed attempt adds one to the [retries] counter of the object; an
    operation stays in the queue exactly when no attempt on it succeeded
    and its counter is below 3.  An operation whose counter has reached 3
    is out of the queue after the pass, and no later pass attempts it. *)
Theorem drain_pass_respects_the_retry_ceiling (w : World) (u : User.t)
    (Hcached : currentUser (services w) = Some u)
    (Hreal : User.isGuest u = false) :
  exists outcomes w',
    processQueue w = (Ok tt, w')
    /\ length outcomes = length (queue w)
    /\ attempts w' = (attempts w ++ zip (queue w) outcomes)%list
    /\ (forall r, retries_of w' r
                  = retries_of w r + failures r (zip (queue w) outcomes))
    /\ (forall r, r ∈ queue w' <->
                  r ∈ queue w /\ ((r, true) ∉ zip (queue w) outcomes)
                  /\ retries_of w' r < 3)
    /\ (forall r v, 3 <= retries_of w' r -> later w' v ->
          (r ∉ queue v)
          /\ attempts_on r (attempts v) = attempts_on r (attempts w')).
Proof.
  destruct (processQueue_signed_in w u Hcached Hreal)
    as (outs & w' & E & Hlen & Ha & Hr & Hq).
  exists outs, w'. repeat (split; [assumption|]).
  intros r v Hge Hl. apply (later_untouched w' v r Hl).
  intros Hin. apply Hq in Hin as (_ & _ & Hlt). lia.
Qed.

End Queue.

(** ** Bulk reconciliation of expenses *)

(** *** Lists of records with distinct ids *)

Section DistinctIds.

Lemma same_id_same_record (l : list Expense.t) (a b : Expense.t) :
  NoDup (map Expense.id l) -> a ∈ l -> b ∈ l -> Expense.id a = Expense.id b -> a = b.
Proof.
  induction l as [|x l IH]; intros Hnd Ha Hb Hid; [inversion Ha|].
  cbn [map] in Hnd. apply NoDup_cons in Hnd as [Hx Hnd].
  apply elem_of_cons in Ha as [->|Ha], Hb as [->|Hb]; auto.
  - exfalso. apply Hx. rewrite Hid. apply list_elem_of_fmap. now exists b.
  - exfalso. apply Hx. rewrite <- Hid. apply list_elem_of_fmap. now exists a.
Qed.

Lemma split_at_id (l : list Expense.t) (a : Expense.t) :
  NoDup (map Expense.id l) -> a ∈ l ->
  exists l1 l2, l = (l1 ++ a :: l2)%list
                /\ (Expense.id a ∉ map Expense.id l1)
                /\ (Expense.id a ∉ map Expense.id l2).
Proof.
  intros Hnd (l1 & l2 & ->)%list_elem_of_split. exists l1, l2.
  split; [reflexivity|].
  rewrite map_app in Hnd. cbn [map] in Hnd.
  apply NoDup_app in Hnd as (_ & Hdisj & Hnd2).
  apply NoDup_cons in Hnd2 as [Hx _]. split; [|exact Hx].
  intros Hin. apply (Hdisj _ Hin). left.
Qed.

Lemma find_by_id (l : list Expense.t) (a : Expense.t) :
  NoDup (map Expense.id l) -> a ∈ l ->
  exists i, list_find (has_id (Expense.id a)) l = Some (i, a).
Proof.
  intros Hnd Ha.
  destruct (list_find_elem_of (has_id (Expense.id a)) l a Ha eq_refl) as [[i e] E].
  exists i. pose proof E as (Hi & Hid & _)%list_find_Some.
  rewrite (same_id_same_record l e a Hnd) in E; eauto using list_elem_of_lookup_2.
Qed.

(** *** The index built by [new Map] *)

Lemma Map_get_Some l id e :
  SyncService.Map_get l id = Some e -> e ∈ l /\ Expense.id e = id.
Proof.
  induction l as [|x l IH]; [discriminate|]. cbn [SyncService.Map_get].
  destruct (SyncService.Map_get l id) as [e'|].
  - intros [= ->]. destruct (IH eq_refl). split; [now right | assumption].
  - destruct (String.eqb_spec (Expense.id x) id); [|discriminate].
    intros [= ->]. split; [left | assumption].
Qed.

Lemma Map_get_unique l e :
  e ∈ l -> (forall e', e' ∈ l -> Expense.id e' = Expense.id e -> e' = e) ->
  SyncService.Map_get l (Expense.id e) = Some e.
Proof.
  intros He Hu.
  destruct (SyncService.Map_get l (Expense.id e)) as [e'|] eqn:E.
  - apply Map_get_Some in E as [Hin Hid]. f_equal. now apply Hu.
  - exfalso. induction l as [|x l IH]; [inversion He|].
    cbn [SyncService.Map_get] in E.
    destruct (SyncService.Map_get l (Expense.id e)); [discriminate|].
    destruct (String.eqb_spec (Expense.id x) (Expense.id e)) as [Heq|Hne];
      [discriminate|].
    apply elem_of_cons in He as [->|He]; [congruence|].
    apply IH; auto. intros e' He'. apply Hu. now right.
Qed.

(** *** The order of the rows a read returns *)

Lemma elem_of_insert_by_date e x l :
  e ∈ SupabaseService.insert_by_date x l <-> e = x \/ e ∈ l.
Proof.
  induction l as [|y l IH]; cbn [SupabaseService.insert_by_date].
  - rewrite list_elem_of_singleton. split; [auto | intros [H|H]; [auto | inversion H]].
  - destruct (_ && _); rewrite !elem_of_cons; [tauto|]. rewrite IH. tauto.
Qed.

Lemma elem_of_order_by_date e l :
  e ∈ SupabaseService.order_by_date_desc l <-> e ∈ l.
Proof.
  unfold SupabaseService.order_by_date_desc.
  induction l as [|y l IH]; cbn [foldr]; [reflexivity|].
  rewrite elem_of_insert_by_date, IH, elem_of_cons. reflexivity.
Qed.

(** *** Updating another record keeps a lookup *)

Lemma list_find_insert_other {A} (P : A -> Prop) `{!forall x, Decision (P x)}
    (l : list A) j old new :
  l !! j = Some old -> ~ P old -> ~ P new ->
  list_find P (<[j := new]> l) = list_find P l.
Proof.
  revert j. induction l as [|y l IH]; intros [|j] Hj Hold Hnew; try discriminate.
  - simpl in Hj. injection Hj as ->. simpl.
    now rewrite !decide_False by assumption.
  - simpl in Hj. simpl. destruct (decide (P y)); [reflexivity|].
    f_equal. exact (IH j Hj Hold Hnew).
Qed.

Lemma list_find_insert_same {A} (P : A -> Prop) `{!forall x, Decision (P x)}
    (l : list A) j old new :
  list_find P l = Some (j, old) -> P new ->
  list_find P (<[j := new]> l) = Some (j, new).
Proof.
  intros (Hj & _ & Hleast)%list_find_Some Hnew.
  apply list_find_insert_Some. right; left.
  split; [reflexivity|]. split; [reflexivity|].
  split; [eauto using lookup_lt_Some|]. split; assumption.
Qed.

End DistinctIds.

(** *** The stores during a reconciliation *)

Section SessionSteps.
Variable u : User.t.

Local Abbreviation put_expenses l := (AsyncStorage.set_EXPENSES (Some l)).

Lemma stored_fresh {A} (field : AsyncStorage.t -> option (list A)) w :
  field AsyncStorage.empty = None -> stored field (settled w) = stored field w.
Proof. apply stored_settled. Qed.

Lemma local_add_spec expense w :
  healthy w ->
  exists r w',
    LocalStorageService.addExpense expense w = (Ok r, w')
    /\ healthy w' /\ expired w' = false
    /\ stored AsyncStorage.EXPENSES w' = (stored AsyncStorage.EXPENSES w ++ [r])%list
    /\ backend w' = backend w /\ services w' = services w.
Proof.
  intros Hh. eexists _, _. split; [apply (addExpense_healthy expense w Hh)|].
  split; [exact (healthy_written _ _ (healthy_drawn _ (healthy_settled w Hh)))|].
  assert (expired (drawn (settled w)) = false) as He
    by (rewrite expired_drawn; apply settled_fresh).
  split; [now apply expired_written|].
  split; [now apply stored_written_expenses|]. split; reflexivity.
Qed.

Lemma local_update_spec id updates w :
  healthy w ->
  match list_find (has_id id) (stored AsyncStorage.EXPENSES w) with
  | Some (i, existing) =>
      let r := useExpenses.optimistic_update updates (clock (device w)) existing in
      exists w',
        LocalStorageService.updateExpense id updates w = (Ok r, w')
        /\ healthy w' /\ expired w' = false
        /\ stored AsyncStorage.EXPENSES w' = <[i := r]> (stored AsyncStorage.EXPENSES w)
        /\ backend w' = backend w /\ services w' = services w
  | None =>
      exists e w',
        LocalStorageService.updateExpense id updates w = (Err e, w')
        /\ healthy w' /\ expired w' = false
        /\ stored AsyncStorage.EXPENSES w' = stored AsyncStorage.EXPENSES w
        /\ backend w' = backend w /\ services w' = services w
  end.
Proof.
  intros Hh. pose proof (updateExpense_healthy id updates w Hh) as E. cbv zeta in E.
  destruct (list_find (has_id id) (stored AsyncStorage.EXPENSES w)) as [[i existing]|].
  - cbv zeta. eexists. split; [exact E|].
    split; [exact (healthy_written _ _ (healthy_settled w Hh))|].
    split; [apply expired_written; [reflexivity | apply settled_fresh]|].
    split; [apply stored_written_expenses, settled_fresh|]. split; reflexivity.
  - eexists _, _. split; [exact E|].
    split; [exact (healthy_settled w Hh)|]. split; [apply settled_fresh|].
    split; [now apply stored_settled|]. split; reflexivity.
Qed.

(** *** Requests that are answered *)

Lemma request_answered {A} (handler : Backend -> SupabaseService.Response A * Backend) w :
  net_faults (backend w) = [] ->
  SupabaseService.request handler w
  = (Ok (handler (backend w)).1, on_backend (fun _ => (handler (backend w)).2) w).
Proof.
  intros H. unfold SupabaseService.request. rewrite H.
  now destruct (handler (backend w)).
Qed.

Lemma remote_add_spec expense w :
  currentUser (services w) = Some u -> net_faults (backend w) = [] ->
  exists res w',
    SupabaseService.addExpense expense w = (res, w')
    /\ device w' = device w /\ services w' = services w
    /\ net_faults (backend w') = []
    /\ (rows (backend w') = rows (backend w)
        \/ exists row, rows (backend w') = (rows (backend w) ++ [row])%list).
Proof.
  intros Hc Hn. unfold SupabaseService.addExpense, SupabaseService.addExpense_, try_catch.
  rewrite (bind_ok _ _ _ _ _ (ensureAuthenticated_cached w u Hc)), bind_now.
  rewrite (bind_ok _ _ _ _ _ (request_answered _ w Hn)).
  unfold SupabaseService.insert_row.
  destruct (bool_decide _); cbn [fst snd].
  - unfold SupabaseService.handleDatabaseError. cbn.
    eexists _, _. split; [reflexivity|]. cbn. rewrite Hn. auto.
  - eexists _, _. split; [reflexivity|]. cbn. rewrite Hn.
    repeat split; auto. right. eexists. reflexivity.
Qed.

Lemma remote_update_spec id updates w :
  currentUser (services w) = Some u -> net_faults (backend w) = [] ->
  match list_find (SupabaseService.row_matches (Some id) (User.id u))
          (rows (backend w)) with
  | Some (j, row) =>
      let row' := Expense.spread row (stamped_update updates (clock (device w))) in
      exists w',
        SupabaseService.updateExpense id updates w = (Ok row', w')
        /\ device w' = device w /\ services w' = services w
        /\ net_faults (backend w') = []
        /\ rows (backend w') = <[j := row']> (rows (backend w))
  | None =>
      exists e w',
        SupabaseService.updateExpense id updates w = (Err e, w')
        /\ device w' = device w /\ services w' = services w
        /\ net_faults (backend w') = []
        /\ rows (backend w') = rows (backend w)
  end.
Proof.
  intros Hc Hn.
  unfold SupabaseService.updateExpense, SupabaseService.updateExpense_, try_catch.
  rewrite (bind_ok _ _ _ _ _ (ensureAuthenticated_cached w u Hc)), bind_now.
  rewrite (bind_ok _ _ _ _ _ (request_answered _ w Hn)).
  unfold SupabaseService.update_row.
  destruct (list_find _ (rows (backend w))) as [[j row]|]; cbn [fst snd].
  - cbv zeta. eexists. split; [reflexivity|]. cbn. rewrite Hn. auto.
  - eexists _, _. split; [reflexivity|]. cbn. rewrite Hn. auto.
Qed.

End SessionSteps.

(** *** The steps of a reconciliation *)

Lemma for_of_app {A} (xs ys : list A) (body : A -> M unit) w :
  for_of (xs ++ ys) body w = bind (for_of xs body) (fun _ => for_of ys body) w.
Proof.
  revert w. induction xs as [|x xs IH]; intros w; cbn [app for_of].
  - reflexivity.
  - change (for_of (xs ++ ys) body) with (for_of (xs ++ ys)%list body).
    unfold bind. destruct (body x w) as [[[]|e] w1]; [|reflexivity].
    rewrite IH. reflexivity.
Qed.

Lemma maintains_for_of {A} (I : World -> Prop) (xs : list A) (body : A -> M unit) :
  (forall x, x ∈ xs -> maintains I I (body x)) -> maintains I I (for_of xs body).
Proof.
  induction xs as [|x xs IH]; intros Hbody w Hw; cbn [for_of].
  - exists w. now split.
  - destruct (Hbody x (list_elem_of_here _ _) w Hw) as (w1 & E & H1).
    rewrite (bind_ok _ _ _ _ _ E). apply IH; [|exact H1].
    intros y Hy. apply Hbody. now right.
Qed.

Lemma on_backend_same w : on_backend (fun _ => backend w) w = w.
Proof. now destruct w. Qed.

Section Session.
Variables (u : User.t) (X : string).

Lemma session_remote_step w w' :
  device w' = device w -> services w' = services w ->
  net_faults (backend w') = [] ->
  in_sync_session u w -> in_sync_session u w'.
Proof.
  intros Hd Hs Hn (Hh & He & _ & Hc). unfold in_sync_session, healthy, expired in *.
  rewrite Hd, Hs. auto.
Qed.

Lemma session_local_step w w' :
  healthy w' -> expired w' = false ->
  backend w' = backend w -> services w' = services w ->
  in_sync_session u w -> in_sync_session u w'.
Proof.
  intros Hh He Hb Hs (_ & _ & Hn & Hc). unfold in_sync_session.
  rewrite Hb, Hs. auto.
Qed.

Lemma local_record_device w w' :
  device w' = device w -> local_record X w' = local_record X w.
Proof. intros H. unfold local_record, stored, expired. now rewrite H. Qed.

Lemma local_record_stored w w' :
  stored AsyncStorage.EXPENSES w' = stored AsyncStorage.EXPENSES w ->
  local_record X w' = local_record X w.
Proof. intros H. unfold local_record. now rewrite H. Qed.

Lemma remote_record_rows w w' :
  rows (backend w') = rows (backend w) -> remote_record X u w' = remote_record X u w.
Proof. intros H. unfold remote_record. now rewrite H. Qed.

Lemma remote_record_backend w w' :
  backend w' = backend w -> remote_record X u w' = remote_record X u w.
Proof. intros H. unfold remote_record. now rewrite H. Qed.

(** An upload adds a row at the end; a record with a permanent id is
    left as it is in the local store. *)
Lemma upload_one_paired item i e j r :
  (forall id, SyncService.up_id item = Some id -> SyncService.is_temp id = false) ->
  maintains (paired u X i e j r) (paired u X i e j r) (SyncService.upload_one item).
Proof.
  intros Hperm w (Hs & Hl & Hr).
  destruct Hs as (Hh & He & Hn & Hc).
  destruct (remote_add_spec u
              (let e0 := SyncService.up_expense item in
               Expense.mkDraft (Expense.user_id e0) (Expense.content e0)
                 (Expense.price e0) (Expense.date e0) None None None)
              w Hc Hn) as (res & w1 & E & Hd & Hsv & Hn1 & Hrows).
  assert (paired u X i e j r w1) as H1.
  { split; [apply (session_remote_step w); unfold in_sync_session; auto|].
    split; [now rewrite (local_record_device w w1 Hd)|].
    destruct Hrows as [Hrows|[row Hrows]].
    - now rewrite (remote_record_rows w w1 Hrows).
    - unfold remote_record. rewrite Hrows. now apply list_find_app_l. }
  exists w1. split; [|exact H1].
  unfold SyncService.upload_one, try_catch, bind. cbv zeta in E. rewrite E.
  destruct res as [uploaded|err]; [|reflexivity].
  destruct (SyncService.up_id item) as [id|] eqn:Eid; [|reflexivity].
  now rewrite (Hperm id eq_refl).
Qed.

(** A download appends a record to the local collection. *)
Lemma download_one_paired x i e j r :
  maintains (paired u X i e j r) (paired u X i e j r) (SyncService.download_one x).
Proof.
  intros w (Hs & Hl & Hr). pose proof Hs as (Hh & He & Hn & Hc).
  destruct (local_add_spec
              (Expense.mkDraft (Expense.user_id x) (Expense.content x)
                 (Expense.price x) (Expense.date x) (Expense.updated_at x)
                 (Some true) (Expense.sync_error x))
              w Hh) as (res & w1 & E & Hh1 & He1 & Hst & Hb & Hsv).
  exists w1. split.
  - unfold SyncService.download_one, try_catch, bind. now rewrite E.
  - split; [now apply (session_local_step w)|].
    split; [|now rewrite (remote_record_backend w w1 Hb)].
    unfold local_record. rewrite Hst. now apply list_find_app_l.
Qed.

(** *** The resolution of one conflict *)

Lemma resolveExpenseConflict_spec lk sk w :
  currentUser (services w) = Some u -> net_faults (backend w) = [] ->
  exists res w',
    SupabaseService.resolveExpenseConflict lk sk w = (res, w')
    /\ device w' = device w /\ services w' = services w
    /\ net_faults (backend w') = []
    /\ match res with
       | Ok resolved =>
           if SupabaseService.write_time sk <? SupabaseService.write_time lk
           then exists j row,
               list_find (SupabaseService.row_matches (Some (Expense.id lk)) (User.id u))
                 (rows (backend w)) = Some (j, row)
               /\ resolved = Expense.spread row
                               (stamped_update (local_fields lk) (clock (device w)))
               /\ rows (backend w') = <[j := resolved]> (rows (backend w))
           else resolved = sk /\ w' = w
       | Err _ =>
           list_find (SupabaseService.row_matches (Some (Expense.id lk)) (User.id u))
             (rows (backend w)) = None
           /\ rows (backend w') = rows (backend w)
       end.
Proof.
  intros Hc Hn. unfold SupabaseService.resolveExpenseConflict, try_catch.
  cbv zeta. destruct (_ <? _) eqn:Enewer.
  - pose proof (remote_update_spec u (Expense.id lk) (local_fields lk) w Hc Hn) as Hup.
    destruct (list_find _ (rows (backend w))) as [[j row]|] eqn:Efind.
    + cbv zeta in Hup. destruct Hup as (w1 & E & Hd & Hs & Hn1 & Hrows).
      unfold local_fields in E. rewrite E.
      eexists _, w1. split; [reflexivity|]. do 3 (split; [assumption|]).
      exists j, row. auto.
    + destruct Hup as (e & w1 & E & Hd & Hs & Hn1 & Hrows).
      unfold local_fields in E. rewrite E.
      eexists _, w1. split; [reflexivity|]. do 3 (split; [assumption|]).
      split; [reflexivity | exact Hrows].
  - eexists _, w. split; [reflexivity|]. auto.
Qed.

Lemma resolve_one_unfold lk sk w :
  SyncService.resolve_one (lk, sk) w
  = try_catch
      (await resolved := SupabaseService.resolveExpenseConflict lk sk in
       await _ := LocalStorageService.updateExpense (Expense.id resolved)
                    (resolved_fields resolved) in
       ret tt)
      (fun _ => ret tt) w.
Proof. reflexivity. Qed.

(** A conflict under another id leaves the pair alone. *)
Lemma resolve_other_paired lk sk i e j r :
  Expense.id lk <> X -> Expense.id sk = Expense.id lk ->
  maintains (paired u X i e j r) (paired u X i e j r) (SyncService.resolve_one (lk, sk)).
Proof.
  intros Hne Hid w (Hs & Hl & Hr). pose proof Hs as (Hh & He & Hn & Hc).
  rewrite resolve_one_unfold.
  destruct (resolveExpenseConflict_spec lk sk w Hc Hn)
    as (res & w1 & E & Hd & Hsv & Hn1 & Hres).
  assert (in_sync_session u w1) as Hs1 by now apply (session_remote_step w).
  assert (local_record X w1 = Some (i, e)) as Hl1
    by now rewrite (local_record_device w w1 Hd).
  unfold try_catch, bind at 1. rewrite E.
  destruct res as [resolved|err].
  2:{ exists w1. split; [reflexivity|]. split; [assumption|]. split; [assumption|].
      now rewrite (remote_record_rows w w1 (proj2 Hres)). }
  assert (remote_record X u w1 = Some (j, r) /\ Expense.id resolved <> X) as [Hr1 Hri].
  { destruct (_ <? _).
    - destruct Hres as (j' & row & Hfind & -> & Hrows).
      apply list_find_Some in Hfind as (Hj' & [Hrid _] & _).
      injection Hrid as Hrid. split; [|cbn; congruence].
      unfold remote_record. rewrite Hrows.
      rewrite (list_find_insert_other _ _ j' row); [exact Hr|exact Hj'| |].
      + intros [[=] _]. congruence.
      + intros [[=] _]. cbn in *. congruence.
    - destruct Hres as [-> ->]. split; [exact Hr|congruence]. }
  pose proof Hs1 as (Hh1 & _).
  pose proof (local_update_spec (Expense.id resolved) (resolved_fields resolved) w1 Hh1)
    as Hup.
  destruct (list_find _ (stored AsyncStorage.EXPENSES w1)) as [[i' ex]|] eqn:Efind.
  - cbv zeta in Hup. destruct Hup as (w2 & E2 & Hh2 & He2 & Hst & Hb & Hsv2).
    unfold bind. rewrite E2. exists w2. split; [reflexivity|].
    split; [now apply (session_local_step w1)|].
    split; [|now rewrite (remote_record_backend w1 w2 Hb)].
    apply list_find_Some in Efind as (Hi' & Hex & _).
    unfold local_record. rewrite Hst.
    rewrite (list_find_insert_other _ _ i' ex); [exact Hl1|exact Hi'| |].
    + congruence.
    + cbn. congruence.
  - destruct Hup as (err & w2 & E2 & Hh2 & He2 & Hst & Hb & Hsv2).
    unfold bind. rewrite E2. exists w2. split; [reflexivity|].
    split; [now apply (session_local_step w1)|].
    split; [|now rewrite (remote_record_backend w1 w2 Hb)].
    now rewrite (local_record_stored w1 w2 Hst).
Qed.

End Session.

Section Resolution.
Variables (u : User.t) (X : string).

Lemma resolve_this_paired l s i j :
  maintains (paired u X i l j s) (resolved_pair u X l s i j) (SyncService.resolve_one (l, s)).
Proof.
  intros w (Hs & Hl & Hr). pose proof Hs as (Hh & He & Hn & Hc).
  pose proof Hl as (_ & HlX & _)%list_find_Some.
  pose proof Hr as (_ & [HsX Hown] & _)%list_find_Some. injection HsX as HsX.
  rewrite resolve_one_unfold.
  destruct (resolveExpenseConflict_spec u l s w Hc Hn)
    as (res & w1 & E & Hd & Hsv & Hn1 & Hres).
  assert (in_sync_session u w1) as Hs1 by now apply (session_remote_step u w).
  assert (local_record X w1 = Some (i, l)) as Hl1
    by now rewrite (local_record_device X w w1 Hd).
  unfold try_catch, bind at 1. rewrite E.
  destruct res as [resolved|err].
  2:{ exfalso. destruct Hres as [Hnone _]. unfold remote_record in Hr.
      rewrite HlX in Hnone. congruence. }
  assert (exists s',
             remote_record X u w1 = Some (j, s') /\ Expense.id resolved = X
             /\ same_fields resolved (winner l s) /\ same_fields s' (winner l s)
             /\ (SupabaseService.write_time l <= SupabaseService.write_time s -> s' = s))
    as (s' & Hr1 & Hri & Hfr & Hfs & Htie).
  { unfold winner. destruct (_ <? _) eqn:Enewer.
    - destruct Hres as (j' & row & Hfind & -> & Hrows).
      unfold remote_record in Hr. rewrite HlX, Hr in Hfind. injection Hfind as <- <-.
      eexists. split; [|split; [exact HsX|]].
      + unfold remote_record. rewrite Hrows.
        apply (list_find_insert_same _ _ j s); [exact Hr|].
        split; [cbn; now rewrite HsX | exact Hown].
      + split; [repeat split|]. split; [repeat split|].
        apply Z.ltb_lt in Enewer. lia.
    - destruct Hres as [-> ->]. exists s. repeat split; auto. }
  pose proof Hs1 as (Hh1 & _).
  pose proof (local_update_spec (Expense.id resolved) (resolved_fields resolved) w1 Hh1)
    as Hup.
  rewrite Hri in Hup. fold (local_record X w1) in Hup. rewrite Hl1 in Hup.
  cbv zeta in Hup. destruct Hup as (w2 & E2 & Hh2 & He2 & Hst & Hb & Hsv2).
  unfold bind. rewrite Hri, E2. exists w2. split; [reflexivity|].
  eexists _, s'. split; [split; [|split]|].
  - now apply (session_local_step u w1).
  - unfold local_record. rewrite Hst.
    apply (list_find_insert_same _ _ i l); [exact Hl1|]. cbn. exact HlX.
  - now rewrite (remote_record_backend u X w1 w2 Hb).
  - split; [|split; [exact Hfs|split; [reflexivity|exact Htie]]].
    destruct Hfr as (Hc1 & Hp1 & Hd1). repeat split; cbn; assumption.
Qed.

(** *** The three passes *)

Lemma uploads_are_permanent L Rs item :
  item ∈ SyncService.expensesToUpload L Rs u ->
  forall id, SyncService.up_id item = Some id -> SyncService.is_temp id = false.
Proof.
  unfold SyncService.expensesToUpload.
  intros (x & _ & Hx)%list_elem_of_omap id.
  destruct (SyncService.Map_has Rs (Expense.id x)); [discriminate|].
  destruct (SyncService.is_temp (Expense.id x)) eqn:Et; injection Hx as <-; cbn;
    [discriminate|]. now intros [= <-].
Qed.

Lemma conflict_ids L Rs lk sk :
  (lk, sk) ∈ SyncService.conflictsToResolve L Rs ->
  lk ∈ L /\ Expense.id sk = Expense.id lk.
Proof.
  unfold SyncService.conflictsToResolve.
  intros (x & Hx & Hf)%list_elem_of_omap.
  destruct (SyncService.Map_get Rs (Expense.id x)) as [sx|] eqn:Eget; [|discriminate].
  destruct (_ && _); [|discriminate]. injection Hf as <- <-.
  apply Map_get_Some in Eget as [_ Hid]. auto.
Qed.

Lemma maintains_seq (I J K : World -> Prop) (m k : M unit) :
  maintains I J m -> maintains J K k -> maintains I K (await _ := m in k).
Proof.
  intros Hm Hk w Hw. destruct (Hm w Hw) as (w1 & E & H1).
  rewrite (bind_ok _ _ _ _ _ E). now apply Hk.
Qed.

Lemma resolved_pair_maintained l s i j m :
  (forall l' s', maintains (paired u X i l' j s') (paired u X i l' j s') m) ->
  maintains (resolved_pair u X l s i j) (resolved_pair u X l s i j) m.
Proof.
  intros H w (l' & s' & Hp & Hrest).
  destruct (H l' s' w Hp) as (w1 & E & H1). exists w1. split; [exact E|].
  exists l', s'. auto.
Qed.

Lemma resolveExpenseConflicts_paired L Rs l s i j :
  NoDup (map Expense.id L) -> l ∈ L -> Expense.id l = X ->
  SyncService.Map_get Rs (Expense.id l) = Some s ->
  SyncService.is_temp (Expense.id l) = false ->
  SyncService.differs l s = true ->
  maintains (paired u X i l j s) (resolved_pair u X l s i j)
    (SyncService.resolveExpenseConflicts L Rs u).
Proof.
  intros Hnd Hl HlX Hget Htemp Hdiff.
  unfold SyncService.resolveExpenseConflicts. cbv zeta.
  apply (maintains_seq _ (paired u X i l j s)).
  { apply maintains_for_of. intros item Hitem.
    apply upload_one_paired. now apply (uploads_are_permanent L Rs). }
  apply (maintains_seq _ (paired u X i l j s)).
  { apply maintains_for_of. intros x _. apply download_one_paired. }
  destruct (split_at_id L l Hnd Hl) as (L1 & L2 & -> & H1 & H2).
  unfold SyncService.conflictsToResolve. rewrite omap_app.
  assert (forall La lk sk,
             (Expense.id l ∉ map Expense.id La) ->
             (lk, sk) ∈ SyncService.conflictsToResolve La Rs ->
             Expense.id lk <> X /\ Expense.id sk = Expense.id lk) as Hother.
  { intros La lk sk Hnot [Hin Hid]%conflict_ids. split; [|exact Hid].
    intros Heq. apply Hnot. rewrite HlX, <- Heq.
    apply list_elem_of_fmap. now exists lk. }
  intros w Hw. rewrite for_of_app. revert w Hw.
  apply (maintains_seq _ (paired u X i l j s)).
  { apply maintains_for_of. intros [lk sk] Hin.
    destruct (Hother L1 lk sk H1 Hin). now apply resolve_other_paired. }
  simpl omap. rewrite Hget, Htemp, Hdiff. cbn [negb andb for_of].
  apply (maintains_seq _ (resolved_pair u X l s i j)).
  { apply resolve_this_paired. }
  apply maintains_for_of. intros [lk sk] Hin.
  apply resolved_pair_maintained. intros l' s'.
  destruct (Hother L2 lk sk H2 Hin). now apply resolve_other_paired.
Qed.

End Resolution.

(** *** The reconciliation as a whole *)

Lemma remote_getExpenses_spec u w :
  currentUser (services w) = Some u -> net_faults (backend w) = [] ->
  SupabaseService.getExpenses w
  = (Ok (SupabaseService.order_by_date_desc
           (filter (SupabaseService.owned_by (User.id u)) (rows (backend w)))), w).
Proof.
  intros Hc Hn. unfold SupabaseService.getExpenses, try_catch.
  rewrite (bind_ok _ _ _ _ _ (ensureAuthenticated_cached w u Hc)).
  rewrite (bind_ok _ _ _ _ _ (request_answered _ w Hn)).
  cbn [fst snd ret]. now rewrite on_backend_same.
Qed.

Lemma find_row (l : list Expense.t) uid (a : Expense.t) :
  NoDup (map Expense.id l) -> a ∈ l -> SupabaseService.owned_by uid a ->
  exists j, list_find (SupabaseService.row_matches (Some (Expense.id a)) uid) l
            = Some (j, a).
Proof.
  intros Hnd Ha Hown.
  destruct (list_find_elem_of (SupabaseService.row_matches (Some (Expense.id a)) uid)
              l a Ha (conj eq_refl Hown)) as [[j e] E].
  exists j. pose proof E as (Hj & [[= Hid] _] & _)%list_find_Some.
  rewrite (same_id_same_record l e a Hnd) in E; eauto using list_elem_of_lookup_2.
Qed.

Lemma updateSyncStatus_now_stores updates w :
  device (SyncService.updateSyncStatus_now updates w) = device w
  /\ backend (SyncService.updateSyncStatus_now updates w) = backend w.
Proof.
  unfold SyncService.updateSyncStatus_now, SyncService.notify.
  now destruct (SyncService.subscribed _).
Qed.

Lemma stored_nonempty_fresh {A} (field : AsyncStorage.t -> option (list A)) w x :
  x ∈ stored field w -> expired w = false.
Proof. unfold stored. destruct (expired w); [inversion 1 | reflexivity]. Qed.

(** The reconciliation of a conflicting pair, through the comparison that
    [resolveExpenseConflict] makes. *)
Lemma syncExpenses_settles_on_the_winner (u : User.t) (w : World) (l s : Expense.t) :
  healthy w -> net_faults (backend w) = [] ->
  currentUser (services w) = Some u -> User.isGuest u = false ->
  NoDup (map Expense.id (stored AsyncStorage.EXPENSES w)) ->
  NoDup (map Expense.id (rows (backend w))) ->
  l ∈ stored AsyncStorage.EXPENSES w ->
  s ∈ rows (backend w) -> SupabaseService.owned_by (User.id u) s ->
  Expense.id s = Expense.id l ->
  SyncService.is_temp (Expense.id l) = false ->
  SyncService.differs l s = true ->
  exists w' i l' j s',
    SyncService.syncExpenses w = (Ok tt, w')
    /\ local_record (Expense.id l) w' = Some (i, l')
    /\ remote_record (Expense.id l) u w' = Some (j, s')
    /\ same_fields l' (winner l s) /\ same_fields s' (winner l s)
    /\ Expense.synced l' = Some true
    /\ (SupabaseService.write_time l <= SupabaseService.write_time s -> s' = s).
Proof.
  intros Hh Hn Hc Hguest Hndl Hndr Hl Hs Hown Hid Htemp Hdiff.
  pose proof (stored_nonempty_fresh _ w l Hl) as He.
  destruct (find_by_id _ l Hndl Hl) as [i Hfl].
  destruct (find_row _ (User.id u) s Hndr Hs Hown) as [j Hfr]. rewrite Hid in Hfr.
  set (w1 := SyncService.updateSyncStatus_now
               (SyncService.mkUpdate None None (Some true) (Some None)) w).
  destruct (updateSyncStatus_now_stores
              (SyncService.mkUpdate None None (Some true) (Some None)) w) as [Hd1 Hb1].
  fold w1 in Hd1, Hb1.
  assert (currentUser (services w1) = Some u) as Hc1
    by (unfold w1; now rewrite updateSyncStatus_currentUser).
  assert (healthy w1) as Hh1 by (unfold healthy; now rewrite Hd1).
  assert (stored AsyncStorage.EXPENSES w1 = stored AsyncStorage.EXPENSES w) as Hst1
    by (unfold stored, expired; now rewrite Hd1).
  assert (paired u (Expense.id l) i l j s (settled w1)) as Hp.
  { split; [split; [now apply healthy_settled|split; [apply settled_fresh|split]]|split].
    - change (backend (settled w1)) with (backend w1). now rewrite Hb1.
    - exact Hc1.
    - unfold local_record. rewrite stored_settled by reflexivity. now rewrite Hst1.
    - unfold remote_record. change (backend (settled w1)) with (backend w1).
      now rewrite Hb1. }
  set (Rs := SupabaseService.order_by_date_desc
               (filter (SupabaseService.owned_by (User.id u)) (rows (backend w)))).
  assert (SyncService.Map_get Rs (Expense.id l) = Some s) as Hget.
  { rewrite <- Hid. apply Map_get_unique.
    - apply elem_of_order_by_date, list_elem_of_filter. now split.
    - intros e' [_ He']%elem_of_order_by_date%list_elem_of_filter Hid'.
      now apply (same_id_same_record (rows (backend w))). }
  rewrite <- Hst1 in Hndl, Hl.
  destruct (resolveExpenseConflicts_paired u (Expense.id l)
              (stored AsyncStorage.EXPENSES w1) Rs l s i j
              Hndl Hl eq_refl Hget Htemp Hdiff (settled w1) Hp)
    as (w2 & E2 & l' & s' & (Hs2 & Hl2 & Hr2) & Hfl' & Hfs' & Hsy & Htie).
  set (w3 := SyncService.updateSyncStatus_now
               (SyncService.mkUpdate (Some (Some (clock (device w2)))) (Some 0) None
                  (Some None)) w2).
  exists (SyncService.not_in_progress w3), i, l', j, s'.
  split.
  - unfold SyncService.syncExpenses, try_finally, try_catch.
    unfold SyncService.updateSyncStatus at 1. rewrite bind_modify. fold w1.
    rewrite (bind_ok _ _ _ _ _ (getCurrentUser_cached w1 u Hc1)). rewrite Hguest.
    rewrite (bind_ok _ _ _ _ _ (getExpenses_healthy w1 Hh1)).
    assert (SupabaseService.getExpenses (settled w1) = (Ok Rs, settled w1)) as Eget.
    { rewrite (remote_getExpenses_spec u); [| exact Hc1 |].
      - change (backend (settled w1)) with (backend w1). unfold Rs. now rewrite Hb1.
      - change (backend (settled w1)) with (backend w1). now rewrite Hb1. }
    rewrite (bind_ok _ _ _ _ _ Eget), (bind_ok _ _ _ _ _ E2), bind_now.
    reflexivity.
  - assert (device (SyncService.not_in_progress w3) = device w2
            /\ backend (SyncService.not_in_progress w3) = backend w2) as [Hd3 Hb3].
    { unfold SyncService.not_in_progress, w3.
      split; [now rewrite !(proj1 (updateSyncStatus_now_stores _ _))
             |now rewrite !(proj2 (updateSyncStatus_now_stores _ _))]. }
    split; [now rewrite (local_record_device _ w2 _ Hd3)|].
    split; [now rewrite (remote_record_backend u _ w2 _ Hb3)|]. auto.
Qed.

(** C1. Bulk reconciliation resolves a conflict by last write wins.  On a
    device whose store answers, against a project that answers, in the
    session of a signed-in user [u]: if the local collection and the table
    hold each at most one record per id, [l] is a local expense and [s] a
    row of [u] with the same permanent id, and they differ in content,
    price or date, then [syncExpenses] returns and afterwards, with the
    time of a copy being its [updated_at], or its [created_at] when it has
    no [updated_at]: if the time of the local copy is strictly later than
    that of the row, the row and the local record found under the id both
    carry the content, price and date of the local copy; otherwise (the
    row is later, or the times are equal) the local record carries the
    content, price and date of the row, and the row is untouched.  In
    both cases the local record is flagged as synced. *)
Theorem syncExpenses_is_last_write_wins (u : User.t) (w : World) (l s : Expense.t)
    (Hhealthy : healthy w)
    (Hnet : net_faults (backend w) = [])
    (Huser : currentUser (services w) = Some u)
    (Hsigned : User.isGuest u = false)
    (Hlocal_ids : NoDup (map Expense.id (stored AsyncStorage.EXPENSES w)))
    (Hrow_ids : NoDup (map Expense.id (rows (backend w))))
    (Hlocal : l ∈ stored AsyncStorage.EXPENSES w)
    (Hrow : s ∈ rows (backend w))
    (Hown : Expense.user_id s = Some (User.id u))
    (Hid : Expense.id s = Expense.id l)
    (Hpermanent : String.prefix "temp_" (Expense.id l) = false)
    (Hdiffer : Expense.content l <> Expense.content s
               \/ ~ (Expense.price l == Expense.price s)%Q
               \/ Expense.date l <> Expense.date s) :
  let local_time :=
    match Expense.updated_at l with
    | Some t => t
    | None => Expense.created_at l
    end in
  let server_time :=
    match Expense.updated_at s with
    | Some t => t
    | None => Expense.created_at s
    end in
  exists w' i l' j s',
    SyncService.syncExpenses w = (Ok tt, w')
    /\ list_find (fun e => Expense.id e = Expense.id l)
         (stored AsyncStorage.EXPENSES w') = Some (i, l')
    /\ list_find (fun e => Expense.id e = Expense.id l
                          /\ Expense.user_id e = Some (User.id u))
         (rows (backend w')) = Some (j, s')
    /\ Expense.synced l' = Some true
    /\ (server_time < local_time ->
        (Expense.content l' = Expense.content l
         /\ Expense.price l' = Expense.price l
         /\ Expense.date l' = Expense.date l)
        /\ (Expense.content s' = Expense.content l
            /\ Expense.price s' = Expense.price l
            /\ Expense.date s' = Expense.date l))
    /\ (local_time <= server_time ->
        (Expense.content l' = Expense.content s
         /\ Expense.price l' = Expense.price s
         /\ Expense.date l' = Expense.date s)
        /\ s' = s).
Proof.
  intros local_time server_time.
  assert (SyncService.differs l s = true) as Hdiff.
  { unfold SyncService.differs. rewrite !orb_true_iff, !negb_true_iff.
    destruct Hdiffer as [H|[H|H]].
    - left. left. now apply String.eqb_neq.
    - left. right. destruct (Qeq_bool _ _) eqn:E; [|reflexivity].
      exfalso. apply H. now apply Qeq_bool_iff.
    - right. now apply String.eqb_neq. }
  destruct (syncExpenses_settles_on_the_winner u w l s Hhealthy Hnet Huser Hsigned
              Hlocal_ids Hrow_ids Hlocal Hrow Hown Hid Hpermanent Hdiff)
    as (w' & i & l' & j & s' & E & Hl & Hs & Hfl & Hfs & Hsy & Htie).
  exists w', i, l', j, s'. split; [exact E|]. split; [exact Hl|]. split.
  { rewrite <- Hs. unfold remote_record. apply list_find_equiv.
    intros e. unfold SupabaseService.row_matches, SupabaseService.owned_by.
    split; intros [H1 H2]; split; congruence. }
  split; [exact Hsy|].
  assert (SupabaseService.write_time l = local_time) as Htl
    by (unfold SupabaseService.write_time, local_time; now destruct (Expense.updated_at l)).
  assert (SupabaseService.write_time s = server_time) as Hts
    by (unfold SupabaseService.write_time, server_time; now destruct (Expense.updated_at s)).
  unfold winner in Hfl, Hfs. rewrite Htl, Hts in *. split.
  - intros Hlater. apply Z.ltb_lt in Hlater. rewrite Hlater in Hfl, Hfs.
    split; [exact Hfl | exact Hfs].
  - intros Hnot. split; [|now apply Htie].
    apply Z.ltb_ge in Hnot. rewrite Hnot in Hfl. exact Hfl.
Qed.

(** Two instances.  The device holds [lunch] at the price 10, written
    before the row of the table, which says 12: both end at 12.  The
    device holds it at the price 10, written after the row: both end at
    10. *)
Lemma syncExpenses_last_write_wins_witness :
  (exists w' i l' j s',
     SyncService.syncExpenses Sample.conflicting_lunch = (Ok tt, w')
     /\ stored AsyncStorage.EXPENSES w' !! i = Some l'
     /\ rows (backend w') !! j = Some s'
     /\ Expense.price l' = 12%Q /\ s' = Sample.lunch)
  /\ (exists w' i l' j s',
        SyncService.syncExpenses Sample.lunch_edited_later = (Ok tt, w')
        /\ stored AsyncStorage.EXPENSES w' !! i = Some l'
        /\ rows (backend w') !! j = Some s'
        /\ Expense.price l' = 10%Q /\ Expense.price s' = 10%Q).
Proof.
  split.
  - destruct (syncExpenses_is_last_write_wins Sample.alice Sample.conflicting_lunch
                Sample.lunch_on_device Sample.lunch)
      as (w' & i & l' & j & s' & E & Hl & Hs & _ & _ & Hrow).
    + reflexivity.
    + reflexivity.
    + reflexivity.
    + reflexivity.
    + vm_compute. apply NoDup_cons. split; [|apply NoDup_singleton].
      intros H%list_elem_of_singleton. discriminate H.
    + vm_compute. apply NoDup_singleton.
    + vm_compute. right. left.
    + left.
    + reflexivity.
    + reflexivity.
    + reflexivity.
    + right. left. intros H. vm_compute in H. discriminate H.
    + exists w', i, l', j, s'. split; [exact E|].
      split; [now apply list_find_Some in Hl|].
      split; [now apply list_find_Some in Hs|].
      destruct Hrow as ((_ & Hp & _) & Hsame); [vm_compute; discriminate|].
      split; [exact Hp | exact Hsame].
  - destruct (syncExpenses_is_last_write_wins Sample.alice Sample.lunch_edited_later
                Sample.lunch_after_the_row Sample.lunch)
      as (w' & i & l' & j & s' & E & Hl & Hs & _ & Hlocal & _).
    + reflexivity.
    + reflexivity.
    + reflexivity.
    + reflexivity.
    + vm_compute. apply NoDup_cons. split; [|apply NoDup_singleton].
      intros H%list_elem_of_singleton. discriminate H.
    + vm_compute. apply NoDup_singleton.
    + vm_compute. right. left.
    + left.
    + reflexivity.
    + reflexivity.
    + reflexivity.
    + right. left. intros H. vm_compute in H. discriminate H.
    + exists w', i, l', j, s'. split; [exact E|].
      split; [now apply list_find_Some in Hl|].
      split; [now apply list_find_Some in Hs|].
      destruct Hlocal as ((_ & Hp & _) & (_ & Hp' & _)); [vm_compute; reflexivity|].
      split; [exact Hp | exact Hp'].
Defined.

(** The example of the specification, run: after the reconciliation the
    device and the table both hold the price 12 for the expense. *)
Lemma conflicting_lunch_settles_on_twelve :
  let w' := (SyncService.syncExpenses Sample.conflicting_lunch).2 in
  (SyncService.syncExpenses Sample.conflicting_lunch).1 = Ok tt
  /\ (Expense.price ∘ snd) <$> local_record "srv-lunch" w' = Some 12%Q
  /\ (Expense.price ∘ snd) <$> remote_record "srv-lunch" Sample.alice w' = Some 12%Q.
Proof. vm_compute. auto. Qed.

(** The opposite case, run: the copy on the device was written after the
    row, and the device and the table both end at its price, 10. *)
Lemma later_local_copy_overwrites_the_row :
  let w' := (SyncService.syncExpenses Sample.lunch_edited_later).2 in
  (SyncService.syncExpenses Sample.lunch_edited_later).1 = Ok tt
  /\ Expense.updated_at Sample.lunch_after_the_row = Some (Sample.new_year - 500)
  /\ Expense.updated_at Sample.lunch = Some (Sample.new_year - 1000)
  /\ (Expense.price ∘ snd) <$> local_record "srv-lunch" w' = Some 10%Q
  /\ (Expense.price ∘ snd) <$> remote_record "srv-lunch" Sample.alice w' = Some 10%Q.
Proof. vm_compute. auto. Qed.

(** An instance: a first pass over the queue of Alice. *)
Lemma drain_pass_witness :
  exists outcomes w',
    SyncService.processQueue Sample.alice_with_queue = (Ok tt, w')
    /\ length outcomes = length (queue Sample.alice_with_queue)
    /\ attempts w'
       = (attempts Sample.alice_with_queue
          ++ zip (queue Sample.alice_with_queue) outcomes)%list
    /\ (forall r, retries_of w' r
                  = retries_of Sample.alice_with_queue r
                    + failures r (zip (queue Sample.alice_with_queue) outcomes))
    /\ (forall r, r ∈ queue w' <->
                  r ∈ queue Sample.alice_with_queue
                  /\ ((r, true) ∉ zip (queue Sample.alice_with_queue) outcomes)
                  /\ retries_of w' r < 3)
    /\ (forall r v, 3 <= retries_of w' r -> later w' v ->
          (r ∉ queue v)
          /\ attempts_on r (attempts v) = attempts_on r (attempts w')).
Proof.
  apply (drain_pass_respects_the_retry_ceiling Sample.alice_with_queue Sample.alice).
  - reflexivity.
  - reflexivity.
Defined.

(** Three passes over the sample queue: the edit fails each time and is
    dropped by the third pass; a fourth pass attempts nothing. *)
Lemma three_failures_then_silence :
  let pass := state_after SyncService.processQueue in
  let w1 := pass Sample.alice_with_queue in
  let w2 := pass w1 in
  let w3 := pass w2 in
  let w4 := pass w3 in
  attempts w1 = [(0%nat, false); (1%nat, true)]
  /\ queue w1 = [0%nat] /\ queue w2 = [0%nat] /\ queue w3 = []
  /\ retries_of w3 0%nat = 3
  /\ attempts w3 = [(0%nat, false); (1%nat, true); (0%nat, false); (0%nat, false)]
  /\ attempts w4 = attempts w3.
Proof. vm_compute. repeat split. Qed.

(** ** The identity switches and what the expenses hook shows *)

Section IdentityWitnesses.

(** The rows a read of the remote adapter returns are rows of the table. *)
Lemma remote_getExpenses_rows v l v1 :
  SupabaseService.getExpenses v = (Ok l, v1) ->
  forall e, e ∈ l -> e ∈ rows (backend v).
Proof.
  unfold SupabaseService.getExpenses, SupabaseService.ensureAuthenticated,
    SupabaseService.getCurrentUser, SupabaseService.getSupabaseUser,
    SupabaseService.handleDatabaseError.
  destruct v as [d [rs src iss nf accs sess conf] [cu q ops st att] h].
  exec_all. cbn.
  assert (forall uid e, e ∈ SupabaseService.order_by_date_desc
                              (filter (SupabaseService.owned_by uid) rs) -> e ∈ rs)
    as Hsub.
  { intros uid e He. rewrite elem_of_order_by_date in He.
    now apply list_elem_of_filter in He as [_ He]. }
  destruct cu as [u|]; cbn.
  - destruct nf as [|[] nf]; cbn; intros [= <- <-] e He; eauto.
  - destruct nf as [|[] nf]; cbn; [destruct sess; cbn| |destruct sess; cbn];
      try discriminate;
      try (destruct nf as [|[] nf]; cbn);
      try discriminate;
      intros [= <- <-] e He; eauto.
Qed.

(** A load under an authenticated identity, on a device whose store is
    empty and answers: the list shown consists of rows of the table. *)
Lemma load_on_a_wiped_device v :
  useExpenses.remote_identity (hooks v) = true ->
  healthy v -> storage (device v) = AsyncStorage.empty ->
  exists v',
    useExpenses.loadExpenses v = (Ok tt, v')
    /\ forall e, e ∈ expenses (hooks v') -> e ∈ rows (backend v).
Proof.
  intros Hr Hh Hs. unfold useExpenses.loadExpenses. hook_steps. remote_is true Hr.
  match goal with
  | |- context [SupabaseService.getExpenses ?V] =>
      pose proof (getExpenses_device V) as Hd;
      pose proof (remote_getExpenses_rows V) as Hrows;
      destruct (SupabaseService.getExpenses V) as [[l|e] v1]
  end.
  - cbn. eexists. split; [reflexivity|]. project. intros x Hx.
    now apply (Hrows l v1 eq_refl).
  - cbn in Hd. cbn.
    assert (healthy v1) as Hh1 by (unfold healthy; now rewrite Hd).
    rewrite (getExpenses_healthy v1 Hh1). cbn.
    assert (stored AsyncStorage.EXPENSES v1 = []) as ->.
    { unfold stored, expired, expired_on. rewrite Hd. cbn [device]. now rewrite Hs. }
    eexists. split; [reflexivity|]. project. intros x Hx. inversion Hx.
Qed.

(** C5, as amended.  On a device whose store answers, a sign-in and a
    sign-up that the auth service accepts remove the four collections and
    the expiry stamp: the store is empty when the call returns, and the
    sign-in has then set the authenticated user.  Neither touches the
    list of expenses that the hook of the expenses holds in memory: what
    the guest saw is still in it when the sign-in returns.  The load that
    follows the sign-in, whatever the project then answers, shows rows of
    the project only.  A sign-in that fails changes neither the store nor
    the identity; a sign-out leaves the store as it is. *)
Theorem sign_in_and_sign_up_wipe_sign_out_does_not
    (w : World) (email password email' password' : string) (i : nat) (a : Account)
    (Hhealthy : healthy w)
    (Hconfigured : configured (backend w) = true)
    (Hnet : net_faults (backend w) = [])
    (Haccount :
       list_find (SupabaseService.credentials email password) (accounts (backend w))
       = Some (i, a))
    (Hconfirmed : acc_confirmed a = true)
    (Hnew : email' ∉ map acc_email (accounts (backend w))) :
  (exists w', useAuth.signIn email password w = (Ok tt, w')
      /\ storage (device w') = AsyncStorage.empty
      /\ user (hooks w')
         = Some (User.mk (User.id (acc_user a)) (User.email (acc_user a)) false)
      /\ expenses (hooks w') = expenses (hooks w)
      /\ forall v, device v = device w' -> hooks v = hooks w' ->
           exists v',
             useExpenses.loadExpenses v = (Ok tt, v')
             /\ forall e, e ∈ expenses (hooks v') -> e ∈ rows (backend v))
  /\ (exists w', useAuth.signUp email' password' w = (Ok tt, w')
      /\ storage (device w') = AsyncStorage.empty
      /\ user (hooks w') = user (hooks w)
      /\ expenses (hooks w') = expenses (hooks w))
  /\ (forall v e v' em pw, useAuth.signIn em pw v = (Err e, v') ->
      storage (device v') = storage (device v) /\ user (hooks v') = user (hooks v))
  /\ (forall v, storage (device (state_after useAuth.signOut v)) = storage (device v)).
Proof.
  destruct (identity_switches_and_the_store w email password email' password' i a
              Hhealthy Hconfigured Hnet Haccount Hconfirmed Hnew)
    as ((w' & E & Hs & Hf & Hu & Hforce & He) & Hup & Hfail & Hout).
  split; [|split; [exact Hup | split; [exact Hfail | exact Hout]]].
  exists w'. split; [exact E|]. split; [exact Hs|]. split; [exact Hu|].
  split; [exact He|].
  intros v Hd Hh. apply load_on_a_wiped_device.
  - rewrite Hh. unfold useExpenses.remote_identity, useAuth.isAuthenticated,
      useAuth.context_user. now rewrite Hu, Hforce.
  - unfold healthy. now rewrite Hd.
  - now rewrite Hd.
Qed.

(** C5 fails as stated: Alice signs out while the device still holds a
    collection; the sign-out returns normally and the local store is what
    it was. *)
Lemma sign_out_keeps_local_data :
  result_of useAuth.signOut Sample.alice_signed_in = Ok tt
  /\ storage (device (state_after useAuth.signOut Sample.alice_signed_in))
     = storage (device Sample.alice_signed_in)
  /\ AsyncStorage.EXPENSES (storage (device Sample.alice_signed_in))
     = Some [Sample.coffee].
Proof. repeat split. Qed.

(** An instance: Alice signs in on the device of the guest who holds
    [coffee]. *)
Lemma sign_in_wipes_witness :
  healthy Sample.guest_with_coffee
  /\ configured (backend Sample.guest_with_coffee) = true
  /\ net_faults (backend Sample.guest_with_coffee) = []
  /\ (exists w',
        useAuth.signIn "alice@example.org" "secret" Sample.guest_with_coffee
        = (Ok tt, w')
        /\ storage (device w') = AsyncStorage.empty
        /\ user (hooks w') = Some Sample.alice
        /\ expenses (hooks w') = [Sample.coffee]
        /\ exists v',
             useExpenses.loadExpenses w' = (Ok tt, v')
             /\ forall e, e ∈ expenses (hooks v') -> e ∈ rows (backend w'))
  /\ (exists w',
        useAuth.signUp "bob@example.org" "hunter2" Sample.guest_with_coffee
        = (Ok tt, w')
        /\ storage (device w') = AsyncStorage.empty
        /\ user (hooks w') = user (hooks Sample.guest_with_coffee)).
Proof.
  assert ("bob@example.org" ∉ map acc_email (accounts (backend Sample.guest_with_coffee)))
    as Hnew.
  { vm_compute. intros H. inversion H as [|? ? ? H']; subst. inversion H'. }
  pose proof (sign_in_and_sign_up_wipe_sign_out_does_not Sample.guest_with_coffee
                "alice@example.org" "secret" "bob@example.org" "hunter2" 0%nat
                (mkAccount "alice@example.org" "secret" true Sample.alice)
                eq_refl eq_refl eq_refl eq_refl eq_refl Hnew)
    as ((w' & E & Hs & Hu & He & Hload) & (w2 & E2 & Hs2 & Hu2 & _) & _).
  do 3 (split; [reflexivity|]). split.
  - exists w'. split; [exact E|]. split; [exact Hs|]. split; [exact Hu|].
    split; [exact He|]. exact (Hload w' eq_refl eq_refl).
  - exists w2. split; [exact E2|]. split; [exact Hs2 | exact Hu2].
Defined.

(** The sign-in of the instance, run with the load that follows: the
    list in memory holds the guest's [coffee] when the sign-in returns,
    under the identity of Alice, and nothing of the guest after the
    load. *)
Lemma guest_record_outlives_the_sign_in :
  let w' := state_after (useAuth.signIn "alice@example.org" "secret")
              Sample.guest_with_coffee in
  let w2 := state_after useExpenses.loadExpenses w' in
  user (hooks w') = Some Sample.alice
  /\ expenses (hooks w') = [Sample.coffee]
  /\ storage (device w') = AsyncStorage.empty
  /\ expenses (hooks w2) = [].
Proof. vm_compute. repeat split. Qed.

End IdentityWitnesses.

(** * Further properties *)

(** ** The calendar *)

Section Calendar.

Lemma days_from_civil_linear y m d d' :
  JsDate.days_from_civil y m d' = JsDate.days_from_civil y m d + (d' - d).
Proof. unfold JsDate.days_from_civil. cbv zeta. lia. Qed.

Lemma civil_from_days_bounds z :
  let '(y, m, d) := JsDate.civil_from_days z in 1 <= m <= 12 /\ 1 <= d <= 31.
Proof.
  unfold JsDate.civil_from_days. cbv zeta.
  set (z' := z + 719468).
  set (era := z' / 146097).
  set (doe := z' - era * 146097).
  assert (0 <= doe <= 146096) as Hdoe by (unfold doe, era; Z.div_mod_to_equations; lia).
  set (yoe := (doe - doe / 1460 + doe / 36524 - doe / 146096) / 365).
  assert (0 <= yoe <= 399) as Hyoe by (unfold yoe; Z.div_mod_to_equations; lia).
  set (doy := doe - (365 * yoe + yoe / 4 - yoe / 100)).
  assert (0 <= doy <= 365) as Hdoy by (unfold doy, yoe; Z.div_mod_to_equations; lia).
  set (mp := (5 * doy + 2) / 153).
  assert (0 <= mp <= 11) as Hmp by (unfold mp; Z.div_mod_to_equations; lia).
  assert (1 <= doy - (153 * mp + 2) / 5 + 1 <= 31) as Hd
    by (unfold mp; Z.div_mod_to_equations; lia).
  clearbody mp doy. destruct (mp <? 10) eqn:E; [apply Z.ltb_lt in E|apply Z.ltb_ge in E];
    split; try lia; exact Hd.
Qed.

(** The day number of the civil date of a day number is that day number. *)
Lemma days_from_civil_from_days z :
  let '(y, m, d) := JsDate.civil_from_days z in JsDate.days_from_civil y m d = z.
Proof.
  unfold JsDate.civil_from_days, JsDate.days_from_civil. cbv zeta.
  set (z' := z + 719468).
  set (era := z' / 146097).
  set (doe := z' - era * 146097).
  assert (0 <= doe <= 146096) as Hdoe by (unfold doe, era; Z.div_mod_to_equations; lia).
  set (yoe := (doe - doe / 1460 + doe / 36524 - doe / 146096) / 365).
  assert (0 <= yoe <= 399) as Hyoe by (unfold yoe; Z.div_mod_to_equations; lia).
  set (doy := doe - (365 * yoe + yoe / 4 - yoe / 100)).
  assert (0 <= doy <= 365) as Hdoy by (unfold doy, yoe; Z.div_mod_to_equations; lia).
  set (mp := (5 * doy + 2) / 153).
  assert (0 <= mp <= 11) as Hmp by (unfold mp; Z.div_mod_to_equations; lia).
  assert (doe = yoe * 365 + yoe / 4 - yoe / 100 + doy) as Edoe by (unfold doy; lia).
  assert (z = era * 146097 + doe - 719468) as Ez by (unfold doe, z'; lia).
  clearbody mp doy yoe doe era z'.
  destruct (mp <? 10) eqn:E1.
  - apply Z.ltb_lt in E1.
    replace (mp + 3 <=? 2) with false by (symmetry; apply Z.leb_gt; lia).
    replace (2 <? mp + 3) with true by (symmetry; apply Z.ltb_lt; lia).
    replace ((yoe + era * 400) / 400) with era by (Z.div_mod_to_equations; lia).
    replace (yoe + era * 400 - era * 400) with yoe by lia.
    replace (mp + 3 - 3) with mp by lia. lia.
  - apply Z.ltb_ge in E1.
    replace (mp - 9 <=? 2) with true by (symmetry; apply Z.leb_le; lia).
    replace (2 <? mp - 9) with false by (symmetry; apply Z.ltb_ge; lia).
    replace ((yoe + era * 400 + 1 - 1) / 400) with era by (Z.div_mod_to_equations; lia).
    replace (mp - 9 + 9) with mp by lia.
    replace (yoe + era * 400 + 1 - 1 - era * 400) with yoe by lia. lia.
Qed.

Variable zone : Z.

(** [setDate] moves by whole days. *)
Lemma setDate_moves t n :
  JsDate.setDate zone t n = t + (n - JsDate.getDate zone t) * JsDate.msPerDay.
Proof.
  unfold JsDate.setDate, JsDate.getDate.
  pose proof (days_from_civil_from_days (JsDate.localDay zone t)) as Hinv.
  destruct (JsDate.civil_from_days (JsDate.localDay zone t)) as [[y m] d].
  cbn [snd]. rewrite (days_from_civil_linear y m d 1), Hinv.
  unfold JsDate.localDay, JsDate.msPerDay.
  pose proof (Z.div_mod (t + zone) 86400000 ltac:(lia)). lia.
Qed.

Lemma getDay_range t : 0 <= JsDate.getDay zone t <= 6.
Proof. unfold JsDate.getDay. pose proof (Z.mod_pos_bound (JsDate.localDay zone t + 4) 7). lia. Qed.

Lemma localDay_shift t n :
  JsDate.localDay zone (t + n * JsDate.msPerDay) = JsDate.localDay zone t + n.
Proof.
  unfold JsDate.localDay, JsDate.msPerDay.
  replace (t + n * 86400000 + zone) with (t + zone + n * 86400000) by lia.
  now rewrite Z.div_add by lia.
Qed.

Lemma getDay_shift t n :
  JsDate.getDay zone (t + n * JsDate.msPerDay) = (JsDate.getDay zone t + n) mod 7.
Proof.
  unfold JsDate.getDay. rewrite localDay_shift.
  rewrite Zplus_mod_idemp_l. f_equal. lia.
Qed.

Lemma addDays_moves t n : DateUtils.addDays zone t n = t + n * JsDate.msPerDay.
Proof. unfold DateUtils.addDays. rewrite setDate_moves. f_equal. lia. Qed.

End Calendar.

Section DateArithmetic.
Variable zone : Z.

Lemma getDaysBetween_whole d n :
  DateUtils.getDaysBetween d (d + n * JsDate.msPerDay) = n.
Proof.
  unfold DateUtils.getDaysBetween, JsDate.msPerDay. cbv zeta.
  replace (- (d + n * 86400000 - d)) with ((- n) * 86400000) by lia.
  rewrite Z.div_mul by lia. lia.
Qed.

Lemma getDayOfWeek_shift d n :
  DateUtils.getDayOfWeek zone (d + n * JsDate.msPerDay)
  = let g := (JsDate.getDay zone d + n) mod 7 in if g =? 0 then 7 else g.
Proof. unfold DateUtils.getDayOfWeek. cbv zeta. now rewrite getDay_shift. Qed.

(** X1.  [addDays] moves a date by exactly the given number of days of 24
    hours, in either direction (in a zone of fixed offset): so two moves
    compose into the move by the sum, [addDays d 0] is [d],
    [getDaysBetween] measures the move back, and a move by seven days
    keeps the day of the week. *)
Theorem addDays_moves_by_whole_days (d : Instant) (a b : Z) :
  DateUtils.addDays zone d a = d + a * JsDate.msPerDay
  /\ DateUtils.addDays zone (DateUtils.addDays zone d a) b
     = DateUtils.addDays zone d (a + b)
  /\ DateUtils.addDays zone d 0 = d
  /\ DateUtils.getDaysBetween d (DateUtils.addDays zone d a) = a
  /\ DateUtils.getDayOfWeek zone (DateUtils.addDays zone d (7 * a))
     = DateUtils.getDayOfWeek zone d.
Proof.
  rewrite !addDays_moves. repeat split; try lia.
  - apply getDaysBetween_whole.
  - rewrite getDayOfWeek_shift. cbv zeta. unfold DateUtils.getDayOfWeek. cbv zeta.
    replace (JsDate.getDay zone d + 7 * a) with (JsDate.getDay zone d + a * 7) by lia.
    rewrite Z_mod_plus_full, Z.mod_small by (pose proof (getDay_range zone d); lia).
    reflexivity.
Qed.

Lemma getWeekStart_moves d :
  DateUtils.getWeekStart zone d
  = d - (DateUtils.getDayOfWeek zone d - 1) * JsDate.msPerDay.
Proof.
  unfold DateUtils.getWeekStart, DateUtils.getDayOfWeek. cbv zeta.
  rewrite setDate_moves. destruct (JsDate.getDay zone d =? 0) eqn:E.
  - apply Z.eqb_eq in E. rewrite E. lia.
  - lia.
Qed.

Lemma getDayOfWeek_range d : 1 <= DateUtils.getDayOfWeek zone d <= 7.
Proof.
  unfold DateUtils.getDayOfWeek. cbv zeta. pose proof (getDay_range zone d).
  destruct (JsDate.getDay zone d =? 0) eqn:E; [lia|]. apply Z.eqb_neq in E. lia.
Qed.

Lemma getDayOfWeek_getWeekStart d :
  DateUtils.getDayOfWeek zone (DateUtils.getWeekStart zone d) = 1.
Proof.
  rewrite getWeekStart_moves.
  replace (d - (DateUtils.getDayOfWeek zone d - 1) * JsDate.msPerDay)
    with (d + (- (DateUtils.getDayOfWeek zone d - 1)) * JsDate.msPerDay) by lia.
  rewrite getDayOfWeek_shift. cbv zeta.
  unfold DateUtils.getDayOfWeek. cbv zeta. pose proof (getDay_range zone d) as Hr.
  destruct (JsDate.getDay zone d =? 0) eqn:E.
  - apply Z.eqb_eq in E. rewrite E. reflexivity.
  - apply Z.eqb_neq in E.
    replace (JsDate.getDay zone d + - (JsDate.getDay zone d - 1)) with 1 by lia.
    reflexivity.
Qed.

Lemma getWeekDates_from_monday s :
  DateUtils.getDayOfWeek zone s = 1 ->
  map (DateUtils.getDayOfWeek zone) (DateUtils.getWeekDates zone s) = [1; 2; 3; 4; 5; 6; 7].
Proof.
  intros Hmon. unfold DateUtils.getWeekDates. cbn [map].
  rewrite !addDays_moves, !getDayOfWeek_shift. cbv zeta.
  assert (JsDate.getDay zone s = 1) as ->.
  { revert Hmon. unfold DateUtils.getDayOfWeek. cbv zeta.
    destruct (JsDate.getDay zone s =? 0); [discriminate | auto]. }
  reflexivity.
Qed.

(** X2.  [getWeekStart] gives the Monday of the week of a date: its day
    of the week is 1, it lies before the date by as many whole days as the
    date is after Monday (six for a Sunday) and has the date's time of day,
    the week start of a week start is itself, and the seven dates of
    [getWeekDates] from it run from Monday (1) to Sunday (7). *)
Theorem getWeekStart_is_the_monday_of_the_week (d : Instant) :
  let s := DateUtils.getWeekStart zone d in
  DateUtils.getDayOfWeek zone s = 1
  /\ d - s = (DateUtils.getDayOfWeek zone d - 1) * JsDate.msPerDay
  /\ s <= d < s + 7 * JsDate.msPerDay
  /\ DateUtils.getWeekStart zone s = s
  /\ map (DateUtils.getDayOfWeek zone) (DateUtils.getWeekDates zone s)
     = [1; 2; 3; 4; 5; 6; 7].
Proof.
  cbv zeta. pose proof (getDayOfWeek_range d) as Hr.
  pose proof (getDayOfWeek_getWeekStart d) as Hmon.
  split; [exact Hmon|]. split; [rewrite getWeekStart_moves; lia|].
  split; [rewrite getWeekStart_moves; unfold JsDate.msPerDay; lia|].
  split; [|now apply getWeekDates_from_monday].
  rewrite (getWeekStart_moves (DateUtils.getWeekStart zone d)), Hmon. lia.
Qed.

(** X3.  [isCurrentWeek] compares instants, and the week start it computes
    keeps the time of day of now: the window runs from Monday at the
    current time of day to the following Sunday at that time.  So now
    itself is always in the current week, and so is the Monday that
    [getWeekStart] gives; but an instant of that Monday earlier than the
    current time of day is not, nor is one of Sunday later than it. *)
Theorem isCurrentWeek_window (today date : Instant) :
  let s := DateUtils.getWeekStart zone today in
  (DateUtils.isCurrentWeek zone today date = true
   <-> s <= date <= s + 6 * JsDate.msPerDay)
  /\ DateUtils.isCurrentWeek zone today today = true
  /\ DateUtils.isCurrentWeek zone today s = true
  /\ (date < s -> DateUtils.isCurrentWeek zone today date = false)
  /\ (s + 6 * JsDate.msPerDay < date -> DateUtils.isCurrentWeek zone today date = false).
Proof.
  cbv zeta.
  assert (forall x, DateUtils.isCurrentWeek zone today x = true
                    <-> DateUtils.getWeekStart zone today <= x
                        <= DateUtils.getWeekStart zone today + 6 * JsDate.msPerDay) as Hiff.
  { intros x. unfold DateUtils.isCurrentWeek. cbv zeta. rewrite addDays_moves.
    rewrite andb_true_iff, !Z.leb_le. reflexivity. }
  pose proof (getWeekStart_is_monday_bounds := getWeekStart_moves today).
  pose proof (getDayOfWeek_range today) as Hr.
  split; [apply Hiff|]. split; [|split; [|split]].
  - apply Hiff. rewrite getWeekStart_moves. unfold JsDate.msPerDay. lia.
  - apply Hiff. unfold JsDate.msPerDay. lia.
  - intros Hlt. destruct (DateUtils.isCurrentWeek zone today date) eqn:E;
      [apply Hiff in E; lia | reflexivity].
  - intros Hlt. destruct (DateUtils.isCurrentWeek zone today date) eqn:E;
      [apply Hiff in E; lia | reflexivity].
Qed.

End DateArithmetic.

(** ** Day strings *)

Section DayStrings.

Lemma digit_value_digit n : JsDate.digit_value (JsDate.digit n) = Some (n mod 10).
Proof.
  unfold JsDate.digit_value, JsDate.digit. cbv zeta.
  pose proof (Z.mod_pos_bound n 10 ltac:(lia)) as Hr.
  rewrite nat_ascii_embedding by lia.
  replace (Z.of_nat (48 + Z.to_nat (n mod 10))) with (48 + n mod 10) by lia.
  replace (48 <=? 48 + n mod 10) with true by (symmetry; apply Z.leb_le; lia).
  replace (48 + n mod 10 <=? 57) with true by (symmetry; apply Z.leb_le; lia).
  cbn. f_equal. lia.
Qed.

Lemma digit_of_value c v : JsDate.digit_value c = Some v -> 0 <= v <= 9 /\ JsDate.digit v = c.
Proof.
  unfold JsDate.digit_value, JsDate.digit. cbv zeta.
  destruct (_ && _) eqn:E; [|discriminate]. intros [= <-].
  apply andb_true_iff in E as [H1%Z.leb_le H2%Z.leb_le]. split; [lia|].
  rewrite Z.mod_small by lia.
  replace (48 + Z.to_nat (Z.of_nat (nat_of_ascii c) - 48))%nat with (nat_of_ascii c) by lia.
  apply ascii_nat_embedding.
Qed.

Lemma number_of_pad4 y :
  0 <= y <= 9999 ->
  JsDate.number_of (list_ascii_of_string (JsDate.pad4 y)) 0 = Some y.
Proof.
  intros Hy. unfold JsDate.pad4, JsDate.pad2. cbn [list_ascii_of_string JsDate.number_of].
  rewrite !digit_value_digit. f_equal. Z.div_mod_to_equations. lia.
Qed.

Lemma number_of_pad2 n :
  0 <= n <= 99 ->
  JsDate.number_of (list_ascii_of_string (JsDate.pad2 n)) 0 = Some n.
Proof.
  intros Hn. unfold JsDate.pad2. cbn [list_ascii_of_string JsDate.number_of].
  rewrite !digit_value_digit. f_equal. Z.div_mod_to_equations. lia.
Qed.

Lemma pad2_of_digits c1 c2 n :
  JsDate.number_of [c1; c2] 0 = Some n ->
  0 <= n <= 99 /\ JsDate.pad2 n = String c1 (String c2 EmptyString).
Proof.
  cbn [JsDate.number_of].
  destruct (JsDate.digit_value c1) as [v1|] eqn:E1; [|discriminate].
  destruct (JsDate.digit_value c2) as [v2|] eqn:E2; [|discriminate].
  intros [= <-]. apply digit_of_value in E1 as [H1 <-], E2 as [H2 <-].
  split; [lia|]. unfold JsDate.pad2, JsDate.digit.
  replace ((10 * (10 * 0 + v1) + v2) / 10 mod 10) with (v1 mod 10)
    by (Z.div_mod_to_equations; lia).
  replace ((10 * (10 * 0 + v1) + v2) mod 10) with (v2 mod 10)
    by (Z.div_mod_to_equations; lia).
  reflexivity.
Qed.

Lemma pad4_of_digits c1 c2 c3 c4 n :
  JsDate.number_of [c1; c2; c3; c4] 0 = Some n ->
  0 <= n <= 9999
  /\ JsDate.pad4 n = String c1 (String c2 (String c3 (String c4 EmptyString))).
Proof.
  cbn [JsDate.number_of].
  destruct (JsDate.digit_value c1) as [v1|] eqn:E1; [|discriminate].
  destruct (JsDate.digit_value c2) as [v2|] eqn:E2; [|discriminate].
  destruct (JsDate.digit_value c3) as [v3|] eqn:E3; [|discriminate].
  destruct (JsDate.digit_value c4) as [v4|] eqn:E4; [|discriminate].
  intros [= <-].
  apply digit_of_value in E1 as [H1 <-], E2 as [H2 <-], E3 as [H3 <-], E4 as [H4 <-].
  split; [lia|]. unfold JsDate.pad4, JsDate.pad2, JsDate.digit.
  set (n := 10 * (10 * (10 * (10 * 0 + v1) + v2) + v3) + v4).
  replace (n / 1000 mod 10) with (v1 mod 10) by (unfold n; Z.div_mod_to_equations; lia).
  replace (n / 100 mod 10) with (v2 mod 10) by (unfold n; Z.div_mod_to_equations; lia).
  replace (n / 10 mod 10) with (v3 mod 10) by (unfold n; Z.div_mod_to_equations; lia).
  replace (n mod 10) with (v4 mod 10) by (unfold n; Z.div_mod_to_equations; lia).
  reflexivity.
Qed.

(** The years 0000 to 9999. *)
Lemma civil_from_days_year z :
  -719528 <= z <= 2932896 ->
  0 <= (JsDate.civil_from_days z).1.1 <= 9999.
Proof.
  intros Hz. unfold JsDate.civil_from_days. cbv zeta.
  set (z' := z + 719468).
  set (era := z' / 146097).
  set (doe := z' - era * 146097).
  assert (0 <= doe <= 146096) as Hdoe by (unfold doe, era; Z.div_mod_to_equations; lia).
  assert (-1 <= era <= 24) as Hera by (unfold era, z'; Z.div_mod_to_equations; lia).
  assert (era = -1 -> 146037 <= doe) as Hlow by (unfold doe, z'; lia).
  assert (era = 24 -> doe <= 146036) as Hhigh by (unfold doe, z'; lia).
  set (yoe := (doe - doe / 1460 + doe / 36524 - doe / 146096) / 365).
  assert (0 <= yoe <= 399) as Hyoe by (unfold yoe; Z.div_mod_to_equations; lia).
  assert (146037 <= doe -> yoe = 399) as Hy1 by (unfold yoe; Z.div_mod_to_equations; lia).
  set (doy := doe - (365 * yoe + yoe / 4 - yoe / 100)).
  assert (0 <= doy <= 365) as Hdoy by (unfold doy, yoe; Z.div_mod_to_equations; lia).
  assert (doe <= 146036 -> yoe = 399 -> doy <= 305) as Hd1
    by (unfold doy; intros H1 H2; rewrite H2; Z.div_mod_to_equations; lia).
  assert (146037 <= doe -> 306 <= doy) as Hd2
    by (intros H; unfold doy; rewrite (Hy1 H); Z.div_mod_to_equations; lia).
  set (mp := (5 * doy + 2) / 153).
  assert (0 <= mp <= 11) as Hmp by (unfold mp; Z.div_mod_to_equations; lia).
  assert (doy <= 305 -> mp < 10) as Hm1 by (unfold mp; Z.div_mod_to_equations; lia).
  assert (306 <= doy -> 10 <= mp) as Hm2 by (unfold mp; Z.div_mod_to_equations; lia).
  clearbody mp doy yoe doe era z'. cbn [fst].
  destruct (mp <? 10) eqn:E1; [apply Z.ltb_lt in E1|apply Z.ltb_ge in E1].
  - replace (mp + 3 <=? 2) with false by (symmetry; apply Z.leb_gt; lia). lia.
  - replace (mp - 9 <=? 2) with true by (symmetry; apply Z.leb_le; lia). lia.
Qed.

Lemma parse_isoDay_of_day z :
  -719528 <= z <= 2932896 ->
  JsDate.parse (JsDate.isoDay (z * JsDate.msPerDay)) = Some (z * JsDate.msPerDay).
Proof.
  intros Hz. unfold JsDate.isoDay.
  replace (z * JsDate.msPerDay / JsDate.msPerDay) with z
    by (unfold JsDate.msPerDay; rewrite Z.div_mul by lia; reflexivity).
  pose proof (civil_from_days_year z Hz) as Hy.
  pose proof (civil_from_days_bounds z) as Hb.
  pose proof (days_from_civil_from_days z) as Hinv.
  destruct (JsDate.civil_from_days z) as [[y m] d] eqn:Ec. cbn [fst] in Hy.
  destruct Hb as [Hm Hd].
  unfold JsDate.parse.
  change (list_ascii_of_string (JsDate.pad4 y ++ "-" ++ JsDate.pad2 m ++ "-" ++ JsDate.pad2 d))
    with (list_ascii_of_string (JsDate.pad4 y)
          ++ JsDate.dash :: list_ascii_of_string (JsDate.pad2 m)
          ++ JsDate.dash :: list_ascii_of_string (JsDate.pad2 d))%list.
  pose proof (number_of_pad4 y Hy) as Ny.
  pose proof (number_of_pad2 m ltac:(lia)) as Nm.
  pose proof (number_of_pad2 d ltac:(lia)) as Nd.
  unfold JsDate.pad4, JsDate.pad2 in *.
  cbn [list_ascii_of_string app] in *.
  rewrite Ny, Nm, Nd. rewrite Hinv, Ec.
  rewrite bool_decide_eq_true_2 by reflexivity.
  replace (1 <=? m) with true by (symmetry; apply Z.leb_le; lia).
  replace (m <=? 12) with true by (symmetry; apply Z.leb_le; lia).
  replace (1 <=? d) with true by (symmetry; apply Z.leb_le; lia).
  reflexivity.
Qed.

Lemma isoDay_parse s t : JsDate.parse s = Some t -> JsDate.isoDay t = s.
Proof.
  unfold JsDate.parse.
  destruct (list_ascii_of_string s) as [|y1 [|y2 [|y3 [|y4 [|s1 [|m1 [|m2 [|s2 [|d1 [|d2 [|? ?]]]]]]]]]]] eqn:Es;
    try discriminate.
  destruct (Ascii.eqb s1 JsDate.dash && Ascii.eqb s2 JsDate.dash) eqn:Edash; [|discriminate].
  apply andb_true_iff in Edash as [->%Ascii.eqb_eq ->%Ascii.eqb_eq].
  destruct (JsDate.number_of [y1; y2; y3; y4] 0) as [y|] eqn:Ny; [|discriminate].
  destruct (JsDate.number_of [m1; m2] 0) as [m|] eqn:Nm; [|discriminate].
  destruct (JsDate.number_of [d1; d2] 0) as [d|] eqn:Nd; [|discriminate].
  cbv zeta. destruct (_ && _) eqn:Echeck; [|discriminate]. intros [= <-].
  apply andb_true_iff in Echeck as [_ Hciv%bool_decide_eq_true].
  unfold JsDate.isoDay.
  replace (JsDate.days_from_civil y m d * JsDate.msPerDay / JsDate.msPerDay)
    with (JsDate.days_from_civil y m d)
    by (unfold JsDate.msPerDay; rewrite Z.div_mul by lia; reflexivity).
  rewrite Hciv.
  apply pad4_of_digits in Ny as [_ ->]. apply pad2_of_digits in Nm as [_ ->].
  apply pad2_of_digits in Nd as [_ ->].
  rewrite <- (string_of_list_ascii_of_string s), Es. reflexivity.
Qed.

End DayStrings.

Section DayStringTheorems.

Lemma prefix_refl s : String.prefix s s = true.
Proof.
  induction s as [|c s IH]; [reflexivity|]. cbn.
  destruct (ascii_dec c c); [exact IH | congruence].
Qed.

Lemma is_digit_of_number c cs acc n :
  JsDate.number_of (c :: cs) acc = Some n -> Validation.is_digit c = true.
Proof.
  cbn [JsDate.number_of]. unfold Validation.is_digit.
  now destruct (JsDate.digit_value c).
Qed.

Lemma number_of_tail c cs acc n :
  JsDate.number_of (c :: cs) acc = Some n ->
  exists acc', JsDate.number_of cs acc' = Some n.
Proof.
  cbn [JsDate.number_of]. destruct (JsDate.digit_value c); [eauto | discriminate].
Qed.

Lemma matches_date_pattern_parse s t :
  JsDate.parse s = Some t -> Validation.matches_date_pattern s = true.
Proof.
  unfold JsDate.parse, Validation.matches_date_pattern.
  destruct (list_ascii_of_string s) as [|y1 [|y2 [|y3 [|y4 [|s1 [|m1 [|m2 [|s2 [|d1 [|d2 [|? ?]]]]]]]]]]];
    try discriminate.
  destruct (Ascii.eqb s1 JsDate.dash && Ascii.eqb s2 JsDate.dash) eqn:Edash; [|discriminate].
  apply andb_true_iff in Edash as [-> ->].
  destruct (JsDate.number_of [y1; y2; y3; y4] 0) as [y|] eqn:Ny; [|discriminate].
  destruct (JsDate.number_of [m1; m2] 0) as [m|] eqn:Nm; [|discriminate].
  destruct (JsDate.number_of [d1; d2] 0) as [d|] eqn:Nd; [|discriminate].
  intros _. cbn [forallb].
  pose proof (is_digit_of_number _ _ _ _ Ny) as ->.
  apply number_of_tail in Ny as [a1 Ny]. pose proof (is_digit_of_number _ _ _ _ Ny) as ->.
  apply number_of_tail in Ny as [a2 Ny]. pose proof (is_digit_of_number _ _ _ _ Ny) as ->.
  apply number_of_tail in Ny as [a3 Ny]. pose proof (is_digit_of_number _ _ _ _ Ny) as ->.
  pose proof (is_digit_of_number _ _ _ _ Nm) as ->.
  apply number_of_tail in Nm as [a4 Nm]. pose proof (is_digit_of_number _ _ _ _ Nm) as ->.
  pose proof (is_digit_of_number _ _ _ _ Nd) as ->.
  apply number_of_tail in Nd as [a5 Nd]. pose proof (is_digit_of_number _ _ _ _ Nd) as ->.
  reflexivity.
Qed.

Lemma isoDay_of_midnight t :
  JsDate.isoDay (t / JsDate.msPerDay * JsDate.msPerDay) = JsDate.isoDay t.
Proof.
  unfold JsDate.isoDay, JsDate.msPerDay. rewrite Z.div_mul by lia. reflexivity.
Qed.

Lemma midnight_of_parse s t :
  JsDate.parse s = Some t -> Validation.midnight_of s = Some t.
Proof.
  unfold JsDate.parse, Validation.midnight_of.
  destruct (list_ascii_of_string s) as [|y1 [|y2 [|y3 [|y4 [|s1 [|m1 [|m2 [|s2 [|d1 [|d2 [|? ?]]]]]]]]]]];
    try discriminate.
  destruct (_ && _); [|discriminate].
  destruct (JsDate.number_of [y1; y2; y3; y4] 0) as [y|]; [|discriminate].
  destruct (JsDate.number_of [m1; m2] 0) as [m|]; [|discriminate].
  destruct (JsDate.number_of [d1; d2] 0) as [d|]; [|discriminate].
  cbv zeta.
  destruct (bool_decide (JsDate.civil_from_days (JsDate.days_from_civil y m d) = (y, m, d)))
    eqn:Ecivil; [|now rewrite andb_false_r].
  apply bool_decide_eq_true in Ecivil.
  pose proof (civil_from_days_bounds (JsDate.days_from_civil y m d)) as Hb.
  rewrite Ecivil in Hb. destruct Hb as [Hm Hd].
  rewrite andb_true_r.
  destruct ((1 <=? m) && (m <=? 12) && (1 <=? d)) eqn:E; [|discriminate].
  replace (d <=? 31) with true by (symmetry; apply Z.leb_le; lia).
  now rewrite andb_true_r.
Qed.

(** X4.  A day string printed by [formatDateToString] is accepted by
    [isValidDateString], which reads it as midnight UTC of the day of the
    instant and does not throw; that midnight is the same day for
    [isSameDay].  This holds for the instants of the years 0000 to 9999,
    which print with four digits. *)
Theorem formatted_day_is_valid (t : Instant)
    (Hyear : -62167219200000 <= t < 253402300800000) :
  Validation.isValidDateString (DateUtils.formatDateToString t) = Ok true
  /\ Validation.midnight_of (DateUtils.formatDateToString t)
     = Some (t / JsDate.msPerDay * JsDate.msPerDay)
  /\ DateUtils.isSameDay t (t / JsDate.msPerDay * JsDate.msPerDay) = true.
Proof.
  unfold DateUtils.formatDateToString, DateUtils.isSameDay.
  assert (JsDate.parse (JsDate.isoDay t) = Some (t / JsDate.msPerDay * JsDate.msPerDay))
    as Hparse.
  { rewrite <- isoDay_of_midnight. apply parse_isoDay_of_day.
    unfold JsDate.msPerDay. Z.div_mod_to_equations. lia. }
  pose proof (midnight_of_parse _ _ Hparse) as Hread.
  split; [|split].
  - unfold Validation.isValidDateString.
    rewrite (matches_date_pattern_parse _ _ Hparse), Hread, isoDay_of_midnight.
    cbn [negb]. now rewrite prefix_refl.
  - exact Hread.
  - unfold DateUtils.formatDateToString. rewrite isoDay_of_midnight. apply String.eqb_refl.
Qed.

Lemma formatted_day_witness :
  Validation.isValidDateString (DateUtils.formatDateToString (Sample.new_year + 3600000))
  = Ok true
  /\ DateUtils.formatDateToString (Sample.new_year + 3600000) = "2024-01-01".
Proof.
  destruct (formatted_day_is_valid (Sample.new_year + 3600000)) as (H & _).
  - unfold Sample.new_year. lia.
  - split; [exact H | reflexivity].
Defined.

Lemma parse_is_a_midnight s t :
  JsDate.parse s = Some t -> t mod JsDate.msPerDay = 0.
Proof.
  unfold JsDate.parse.
  destruct (list_ascii_of_string s) as [|y1 [|y2 [|y3 [|y4 [|s1 [|m1 [|m2 [|s2 [|d1 [|d2 [|? ?]]]]]]]]]]];
    try discriminate.
  destruct (_ && _); [|discriminate].
  destruct (JsDate.number_of [y1; y2; y3; y4] 0) as [y|]; [|discriminate].
  destruct (JsDate.number_of [m1; m2] 0) as [m|]; [|discriminate].
  destruct (JsDate.number_of [d1; d2] 0) as [d|]; [|discriminate].
  cbv zeta. destruct (_ && _); [|discriminate]. intros [= <-].
  unfold JsDate.msPerDay. apply Z_mod_mult.
Qed.

Lemma prefix_of_equal_length a b :
  String.prefix a b = true -> String.length a = String.length b -> a = b.
Proof.
  revert b. induction a as [|c a IH]; intros [|c' b]; cbn; try discriminate; auto.
  destruct (ascii_dec c c') as [->|_]; [|discriminate].
  intros Hp [= Hl]. f_equal. now apply IH.
Qed.

Lemma isoDay_length t : String.length (JsDate.isoDay t) = 10%nat.
Proof.
  unfold JsDate.isoDay. destruct (JsDate.civil_from_days _) as [[y m] d]. reflexivity.
Qed.

Lemma matches_date_pattern_length s :
  Validation.matches_date_pattern s = true -> String.length s = 10%nat.
Proof.
  unfold Validation.matches_date_pattern.
  destruct s as [|y1 [|y2 [|y3 [|y4 [|s1 [|m1 [|m2 [|s2 [|d1 [|d2 [|? ?]]]]]]]]]]];
    cbn [list_ascii_of_string]; try discriminate.
  reflexivity.
Qed.

Lemma midnight_of_is_a_midnight s t :
  Validation.midnight_of s = Some t -> t mod JsDate.msPerDay = 0.
Proof.
  unfold Validation.midnight_of.
  destruct (list_ascii_of_string s) as [|y1 [|y2 [|y3 [|y4 [|s1 [|m1 [|m2 [|s2 [|d1 [|d2 [|? ?]]]]]]]]]]];
    try discriminate.
  destruct (JsDate.number_of [y1; y2; y3; y4] 0) as [y|]; [|discriminate].
  destruct (JsDate.number_of [m1; m2] 0) as [m|]; [|discriminate].
  destruct (JsDate.number_of [d1; d2] 0) as [d|]; [|discriminate].
  destruct (_ && _); [|discriminate]. intros [= <-].
  unfold JsDate.msPerDay. apply Z_mod_mult.
Qed.

(** X5.  A string that [isValidDateString] accepts is the printed form of
    a day: the date read from it is a midnight UTC that
    [formatDateToString] prints back as the same string, so a day that
    the calendar does not have, which would print as a later day, is not
    accepted. *)
Theorem valid_day_string_is_a_printed_day (s : string)
    (Hvalid : Validation.isValidDateString s = Ok true) :
  exists t,
    Validation.midnight_of s = Some t
    /\ t mod JsDate.msPerDay = 0
    /\ DateUtils.formatDateToString t = s
    /\ Validation.isValidDateString (DateUtils.formatDateToString t) = Ok true.
Proof.
  revert Hvalid. unfold Validation.isValidDateString, DateUtils.formatDateToString.
  destruct (Validation.matches_date_pattern s) eqn:Hform; [|discriminate].
  cbn [negb].
  destruct (Validation.midnight_of s) as [t|] eqn:Hread; [|discriminate].
  intros Hv.
  assert (String.prefix s (JsDate.isoDay t) = true) as Hprefix
    by (injection Hv as Hv'; exact Hv').
  clear Hv. exists t.
  assert (JsDate.isoDay t = s) as Hprint.
  { symmetry. apply prefix_of_equal_length; [exact Hprefix|].
    now rewrite isoDay_length, (matches_date_pattern_length s Hform). }
  split; [reflexivity|]. split; [exact (midnight_of_is_a_midnight s t Hread)|].
  split; [exact Hprint|].
  rewrite Hprint, Hform, Hread. cbn [negb]. now rewrite Hprefix.
Qed.

Lemma valid_day_string_witness :
  Validation.isValidDateString "2024-02-29" = Ok true
  /\ DateUtils.formatDateToString 1709164800000 = "2024-02-29"
  /\ Validation.isValidDateString "2024-02-30" = Ok false.
Proof.
  assert (Validation.isValidDateString "2024-02-29" = Ok true) as H
    by (vm_compute; reflexivity).
  destruct (valid_day_string_is_a_printed_day "2024-02-29" H) as (t & Hread & _ & Hp & _).
  vm_compute in Hread. injection Hread as <-.
  split; [exact H|]. split; [exact Hp | vm_compute; reflexivity].
Defined.

End DayStringTheorems.

(** ** The week examined by the report generator *)

Section WeekScan.
Import WeeklyReportService.
Variable zone : Z.

Lemma checkDate_moves start i :
  checkDate zone start i = start + i * JsDate.msPerDay.
Proof. unfold checkDate. rewrite setDate_moves. lia. Qed.

Lemma dayOfWeek_checkDate start i :
  dayOfWeek zone (checkDate zone start i) = weekday_after (JsDate.getDay zone start) i.
Proof.
  rewrite checkDate_moves. unfold dayOfWeek, weekday_after. cbv zeta.
  now rewrite getDay_shift.
Qed.

Lemma scan_week_spec template start completions indices totalDays found :
  scan_week zone template start completions indices totalDays found
  = (totalDays
     + Z.of_nat (length (omap (fun i =>
         if GoalTemplate.day_of_week template =? dayOfWeek zone (checkDate zone start i)
         then Some i else None) indices)),
     (found ++ omap (fun i =>
         if GoalTemplate.day_of_week template =? dayOfWeek zone (checkDate zone start i)
         then List.find (is_completion_for template (JsDate.isoDay (checkDate zone start i)))
                completions
         else None) indices)%list).
Proof.
  revert totalDays found.
  induction indices as [|i rest IH]; intros totalDays found; cbn [scan_week omap list_omap].
  - rewrite app_nil_r. f_equal. cbn. lia.
  - cbv zeta. destruct (_ =? _).
    + destruct (List.find _ completions) as [c|]; rewrite IH; cbn [length]; f_equal;
        try lia. now rewrite <- app_assoc.
    + apply IH.
Qed.

Lemma omap_single {A} (due : Z -> bool) (f : Z -> option A) (indices : list Z) (j : Z) :
  NoDup indices -> j ∈ indices -> (forall i, i ∈ indices -> due i = true <-> i = j) ->
  omap (fun i => if due i then f i else None) indices = option_list (f j).
Proof.
  induction indices as [|i rest IH]; intros Hnd Hj Hdue; [inversion Hj|].
  apply NoDup_cons in Hnd as [Hi Hnd]. cbn [omap list_omap].
  destruct (decide (i = j)) as [->|Hne].
  - rewrite (proj2 (Hdue j (list_elem_of_here _ _)) eq_refl).
    assert (omap (fun i => if due i then f i else None) rest = []) as ->.
    { clear IH Hj. induction rest as [|x rest IH]; [reflexivity|]. cbn [omap list_omap].
      destruct (due x) eqn:Ex.
      - exfalso. apply Hi. apply Hdue in Ex; [|right; left]. subst. left.
      - apply IH.
        + intros Hin. apply Hi. now right.
        + now apply NoDup_cons in Hnd as [_ ?].
        + intros y Hy. apply Hdue. apply elem_of_cons in Hy as [->|Hy]; [left|right; now right]. }
    destruct (f j); reflexivity.
  - destruct (due i) eqn:Ei; [apply Hdue in Ei; [contradiction|left]|].
    apply IH; [assumption| |].
    + apply elem_of_cons in Hj as [->|Hj]; [contradiction | assumption].
    + intros y Hy. apply Hdue. now right.
Qed.

Lemma omap_none {A} (due : Z -> bool) (f : Z -> option A) (indices : list Z) :
  (forall i, due i = false) -> omap (fun i => if due i then f i else None) indices = [].
Proof.
  intros H. induction indices as [|i rest IH]; [reflexivity|]. cbn [omap list_omap].
  now rewrite H.
Qed.

Lemma week_indices_nodup : NoDup [0; 1; 2; 3; 4; 5; 6].
Proof. apply (bool_decide_unpack _). vm_compute. exact I. Qed.

Lemma week_index i : i ∈ [0; 1; 2; 3; 4; 5; 6] <-> 0 <= i <= 6.
Proof.
  rewrite !elem_of_cons, elem_of_nil. lia.
Qed.

Lemma weekday_after_range g i : 1 <= weekday_after g i <= 7.
Proof.
  unfold weekday_after. cbv zeta. pose proof (Z.mod_pos_bound (g + i) 7 ltac:(lia)).
  destruct (_ =? 0) eqn:E; [lia|]. apply Z.eqb_neq in E. lia.
Qed.

Lemma weekday_after_hits g k i :
  0 <= g <= 6 -> 1 <= k <= 7 -> 0 <= i <= 6 ->
  (k =? weekday_after g i) = true <-> i = (k - g) mod 7.
Proof.
  intros Hg Hk Hi. rewrite Z.eqb_eq. unfold weekday_after. cbv zeta.
  destruct (_ =? 0) eqn:E; [apply Z.eqb_eq in E|apply Z.eqb_neq in E];
    Z.div_mod_to_equations; lia.
Qed.

End WeekScan.

Section WeeklyStats.
Import WeeklyReportService.
Variable zone : Z.

Lemma calculateGoalStats_unfold template s start completions :
  JsDate.parse s = Some start ->
  calculateGoalStats zone template s completions
  = let r := scan_week zone template start completions [0; 1; 2; 3; 4; 5; 6] 0 [] in
    let n := Z.of_nat (length r.2) in
    Some {| GoalStats.template_id := GoalTemplate.id template;
            GoalStats.title := GoalTemplate.title template;
            GoalStats.completions := n;
            GoalStats.total_days := r.1;
            GoalStats.completion_rate := calculateCompletionRate n r.1 |}.
Proof.
  intros H. unfold calculateGoalStats. rewrite H.
  now destruct (scan_week _ _ _ _ _ _ _).
Qed.

(** What the scan finds for a template due on day [k] in 1..7. *)
Lemma scan_week_due template start completions :
  1 <= GoalTemplate.day_of_week template <= 7 ->
  let j := (GoalTemplate.day_of_week template - JsDate.getDay zone start) mod 7 in
  scan_week zone template start completions [0; 1; 2; 3; 4; 5; 6] 0 []
  = (1, option_list
          (List.find (is_completion_for template
                        (JsDate.isoDay (start + j * JsDate.msPerDay))) completions)).
Proof.
  intros Hk j. rewrite scan_week_spec.
  pose proof (getDay_range zone start) as Hg.
  assert (0 <= j <= 6) as Hj by (unfold j; Z.div_mod_to_equations; lia).
  assert (forall i, i ∈ [0; 1; 2; 3; 4; 5; 6] ->
            (GoalTemplate.day_of_week template =? dayOfWeek zone (checkDate zone start i))
            = true <-> i = j) as Hdue.
  { intros i Hi%week_index. rewrite dayOfWeek_checkDate.
    now apply weekday_after_hits. }
  rewrite (omap_single _ Some _ j week_indices_nodup (proj2 (week_index j) Hj) Hdue).
  rewrite (omap_single _ (fun i => List.find (is_completion_for template
                                    (JsDate.isoDay (checkDate zone start i))) completions)
             _ j week_indices_nodup (proj2 (week_index j) Hj) Hdue).
  rewrite checkDate_moves. reflexivity.
Qed.

Lemma scan_week_never_due template start completions :
  ~ 1 <= GoalTemplate.day_of_week template <= 7 ->
  scan_week zone template start completions [0; 1; 2; 3; 4; 5; 6] 0 [] = (0, []).
Proof.
  intros Hk. rewrite scan_week_spec.
  assert (forall i,
            (GoalTemplate.day_of_week template =? dayOfWeek zone (checkDate zone start i))
            = false) as Hdue.
  { intros i. rewrite dayOfWeek_checkDate. apply Z.eqb_neq.
    pose proof (weekday_after_range (JsDate.getDay zone start) i). lia. }
  now rewrite !omap_none.
Qed.

(** X6.  Whatever the time zone of the device and whatever day the week
    start is, the seven days the report generator examines hold each day
    of the week once: for a week start that is a date, a template whose
    [day_of_week] is between 1 and 7 gets [total_days = 1] and at most one
    completion, and any other template gets [total_days = 0] and no
    completion. *)
Theorem each_weekday_is_examined_once (template : GoalTemplate.t) (s : string)
    (start : Instant) (completions : list DailyGoalCompletion.t)
    (Hdate : JsDate.parse s = Some start) :
  exists stats,
    calculateGoalStats zone template s completions = Some stats
    /\ GoalStats.template_id stats = GoalTemplate.id template
    /\ GoalStats.title stats = GoalTemplate.title template
    /\ GoalStats.total_days stats
       = (if (1 <=? GoalTemplate.day_of_week template)
             && (GoalTemplate.day_of_week template <=? 7) then 1 else 0)
    /\ 0 <= GoalStats.completions stats <= GoalStats.total_days stats.
Proof.
  rewrite (calculateGoalStats_unfold _ _ _ _ Hdate). cbv zeta.
  eexists. split; [reflexivity|]. cbn [GoalStats.template_id GoalStats.title
    GoalStats.total_days GoalStats.completions].
  split; [reflexivity|]. split; [reflexivity|].
  destruct (decide (1 <= GoalTemplate.day_of_week template <= 7)) as [Hk|Hk].
  - rewrite (scan_week_due _ _ _ Hk). cbn [fst snd].
    replace (1 <=? GoalTemplate.day_of_week template) with true
      by (symmetry; apply Z.leb_le; lia).
    replace (GoalTemplate.day_of_week template <=? 7) with true
      by (symmetry; apply Z.leb_le; lia).
    split; [reflexivity|]. destruct (List.find _ _); cbn; lia.
  - rewrite (scan_week_never_due _ _ _ Hk). cbn [fst snd length].
    destruct (1 <=? GoalTemplate.day_of_week template) eqn:E1;
      destruct (GoalTemplate.day_of_week template <=? 7) eqn:E2; cbn [andb];
      try (split; [reflexivity | lia]).
    apply Z.leb_le in E1, E2. lia.
Qed.

End WeeklyStats.

Lemma each_weekday_witness :
  exists stats,
    WeeklyReportService.calculateGoalStats Sample.new_york Sample.monday_goal "2024-01-01"
      [Sample.ran_on_new_year] = Some stats
    /\ GoalStats.total_days stats = 1.
Proof.
  destruct (each_weekday_is_examined_once Sample.new_york Sample.monday_goal "2024-01-01"
              Sample.new_year [Sample.ran_on_new_year])
    as (stats & E & _ & _ & Ht & _).
  - vm_compute. reflexivity.
  - exists stats. split; [exact E | exact Ht].
Defined.

Section WeeklyStatsEast.
Import WeeklyReportService.
Variable zone : Z.
Hypothesis Heast : 0 <= zone < JsDate.msPerDay.

Lemma getDay_of_midnight start :
  start mod JsDate.msPerDay = 0 -> JsDate.getDay zone start = JsDate.getDay 0 start.
Proof.
  intros Hmid. unfold JsDate.getDay, JsDate.localDay. f_equal. f_equal.
  unfold JsDate.msPerDay in *. Z.div_mod_to_equations. lia.
Qed.


End WeeklyStatsEast.


(** ** The collections of goals on a healthy device *)

Section GoalCollections.
Import LocalStorageService GoalStorage.

Lemma stored_written {A} (field : AsyncStorage.t -> option (list A)) put l w :
  (forall s, AsyncStorage.EXPIRY (put s) = AsyncStorage.EXPIRY s) ->
  (forall s, field (put s) = Some l) ->
  (forall s e, field (AsyncStorage.set_EXPIRY e s) = field s) ->
  expired w = false ->
  stored field (written put w) = l.
Proof.
  intros Hexp Hput Hfield He. unfold stored. rewrite expired_written by assumption.
  destruct w as [[s ? ? ?] ? ? ?]. unfold written, stamped. cbn.
  destruct (AsyncStorage.EXPIRY (put s)); [|rewrite Hfield]; now rewrite Hput.
Qed.

Lemma stored_written_other {A} (field : AsyncStorage.t -> option (list A)) put w :
  (forall s, AsyncStorage.EXPIRY (put s) = AsyncStorage.EXPIRY s) ->
  (forall s, field (put s) = field s) ->
  (forall s e, field (AsyncStorage.set_EXPIRY e s) = field s) ->
  expired w = false ->
  stored field (written put w) = stored field w.
Proof.
  intros Hexp Hput Hfield He. unfold stored. rewrite expired_written by assumption.
  rewrite He. destruct w as [[s ? ? ?] ? ? ?]. unfold written, stamped. cbn.
  destruct (AsyncStorage.EXPIRY (put s)); [|rewrite Hfield]; now rewrite Hput.
Qed.

Lemma saveGoalTemplates_healthy ts w :
  healthy w ->
  saveGoalTemplates ts w
  = (Ok tt, written (AsyncStorage.set_GOAL_TEMPLATES (Some ts)) w).
Proof.
  intros H. unfold saveGoalTemplates. apply try_catch_ok.
  now apply write_collection_healthy.
Qed.

Lemma saveWeeklyReports_healthy rs w :
  healthy w ->
  saveWeeklyReports rs w
  = (Ok tt, written (AsyncStorage.set_WEEKLY_REPORTS (Some rs)) w).
Proof.
  intros H. unfold saveWeeklyReports. apply try_catch_ok.
  now apply write_collection_healthy.
Qed.

Lemma deleteGoalTemplate_healthy id w :
  healthy w ->
  deleteGoalTemplate id w
  = (Ok tt,
     written (AsyncStorage.set_GOAL_COMPLETIONS
                (Some (filter (fun c => DailyGoalCompletion.goal_template_id c <> id)
                         (stored AsyncStorage.GOAL_COMPLETIONS w))))
       (written (AsyncStorage.set_GOAL_TEMPLATES
                   (Some (filter (fun t => GoalTemplate.id t <> id)
                            (stored AsyncStorage.GOAL_TEMPLATES w))))
          (settled w))).
Proof.
  intros H. unfold deleteGoalTemplate. rewrite try_catch_rethrow.
  rewrite (bind_ok _ _ _ _ _ (getGoalTemplates_healthy w H)). cbv zeta.
  set (w1 := written _ (settled w)).
  assert (healthy w1) as H1 by (apply healthy_written, healthy_settled, H).
  assert (expired w1 = false) as He1
    by (apply expired_written; [reflexivity | apply settled_fresh]).
  rewrite (bind_ok _ _ _ _ _ (saveGoalTemplates_healthy _ (settled w) (healthy_settled w H))).
  fold w1. rewrite (bind_ok _ _ _ _ _ (getDailyCompletions_healthy w1 H1)).
  assert (settled w1 = w1) as -> by (rewrite settled_unfold; now rewrite He1).
  assert (stored AsyncStorage.GOAL_COMPLETIONS w1 = stored AsyncStorage.GOAL_COMPLETIONS w)
    as ->.
  { unfold w1. rewrite stored_written_other; try reflexivity; [|apply settled_fresh].
    now apply stored_settled. }
  apply saveDailyCompletions_healthy, H1.
Qed.

(** X8.  On a device whose store answers, [deleteGoalTemplate] removes
    the template and, with it, the completions that refer to it: afterwards
    no stored template has the id and no stored completion refers to it,
    the other templates and completions are kept in their order, expenses
    and weekly reports are untouched, and if every completion referred to
    a stored template before, it still does. *)
Theorem deleteGoalTemplate_removes_its_completions (w : World) (id : string)
    (Hhealthy : healthy w) :
  exists w',
    deleteGoalTemplate id w = (Ok tt, w')
    /\ stored AsyncStorage.GOAL_TEMPLATES w'
       = filter (fun t => GoalTemplate.id t <> id) (stored AsyncStorage.GOAL_TEMPLATES w)
    /\ stored AsyncStorage.GOAL_COMPLETIONS w'
       = filter (fun c => DailyGoalCompletion.goal_template_id c <> id)
           (stored AsyncStorage.GOAL_COMPLETIONS w)
    /\ stored AsyncStorage.EXPENSES w' = stored AsyncStorage.EXPENSES w
    /\ stored AsyncStorage.WEEKLY_REPORTS w' = stored AsyncStorage.WEEKLY_REPORTS w
    /\ (id ∉ map GoalTemplate.id (stored AsyncStorage.GOAL_TEMPLATES w'))
    /\ (id ∉ map DailyGoalCompletion.goal_template_id
               (stored AsyncStorage.GOAL_COMPLETIONS w'))
    /\ (completions_refer_to_templates w -> completions_refer_to_templates w').
Proof.
  eexists. split; [apply (deleteGoalTemplate_healthy id w Hhealthy)|].
  set (w1 := written (AsyncStorage.set_GOAL_TEMPLATES _) (settled w)).
  assert (expired w1 = false) as He1
    by (apply expired_written; [reflexivity | apply settled_fresh]).
  assert (stored AsyncStorage.GOAL_TEMPLATES (written (AsyncStorage.set_GOAL_COMPLETIONS
            (Some (filter (fun c => DailyGoalCompletion.goal_template_id c <> id)
                     (stored AsyncStorage.GOAL_COMPLETIONS w)))) w1)
          = filter (fun t => GoalTemplate.id t <> id) (stored AsyncStorage.GOAL_TEMPLATES w))
    as Ht.
  { rewrite stored_written_other; try reflexivity; [|exact He1].
    unfold w1. apply stored_written; try reflexivity. apply settled_fresh. }
  assert (stored AsyncStorage.GOAL_COMPLETIONS (written (AsyncStorage.set_GOAL_COMPLETIONS
            (Some (filter (fun c => DailyGoalCompletion.goal_template_id c <> id)
                     (stored AsyncStorage.GOAL_COMPLETIONS w)))) w1)
          = filter (fun c => DailyGoalCompletion.goal_template_id c <> id)
              (stored AsyncStorage.GOAL_COMPLETIONS w)) as Hc.
  { apply stored_written; try reflexivity. exact He1. }
  split; [exact Ht|]. split; [exact Hc|].
  split.
  { rewrite stored_written_other; try reflexivity; [|exact He1].
    unfold w1. rewrite stored_written_other; try reflexivity; [|apply settled_fresh].
    now apply stored_settled. }
  split.
  { rewrite stored_written_other; try reflexivity; [|exact He1].
    unfold w1. rewrite stored_written_other; try reflexivity; [|apply settled_fresh].
    now apply stored_settled. }
  unfold completions_refer_to_templates. rewrite Ht, Hc. split; [|split].
  - intros (t & -> & [Hne _]%list_elem_of_filter)%list_elem_of_fmap. now apply Hne.
  - intros (c & -> & [Hne _]%list_elem_of_filter)%list_elem_of_fmap. now apply Hne.
  - intros Href c [Hne Hc']%list_elem_of_filter.
    destruct (Href c Hc') as (t & Hin & Hid). exists t. split; [|exact Hid].
    apply list_elem_of_filter. split; [congruence | exact Hin].
Qed.

End GoalCollections.

Section GoalFailures.
Import LocalStorageService GoalStorage.

(** X9.  [deleteGoalTemplate] is not atomic: when the store fails at the
    write of the completions (its seventh access on a device that holds
    an expiry stamp not yet passed), the call throws the store's error,
    the template is already gone and the completions are all still there,
    those of the deleted template included. *)
Theorem deleteGoalTemplate_can_leave_orphans (w : World) (id : string)
    (expiry : Instant) (plan : list bool)
    (Hfaults : storage_faults (device w)
               = false :: false :: false :: false :: false :: false :: true :: plan)
    (Hstamp : AsyncStorage.EXPIRY (storage (device w)) = Some expiry)
    (Hfresh : expired w = false) :
  exists w',
    deleteGoalTemplate id w = (Err storage_failure, w')
    /\ AsyncStorage.GOAL_TEMPLATES (storage (device w'))
       = Some (filter (fun t => GoalTemplate.id t <> id)
                 (stored AsyncStorage.GOAL_TEMPLATES w))
    /\ AsyncStorage.GOAL_COMPLETIONS (storage (device w'))
       = AsyncStorage.GOAL_COMPLETIONS (storage (device w)).
Proof.
  destruct w as [[s sf t rnd] ? ? ?]. simpl in Hfaults, Hstamp. subst sf.
  revert Hfresh.
  unfold expired, expired_on, stored, deleteGoalTemplate, getGoalTemplates,
    getDailyCompletions, read_collection, isDataExpired, saveGoalTemplates,
    saveDailyCompletions, write_collection, expired, expired_on.
  cbn [device storage clock]. rewrite Hstamp. intros He. exec.
  destruct s as [ex ts cs rs ey]. cbn in Hstamp. subst ey.
  cbn [AsyncStorage.EXPIRY AsyncStorage.GOAL_TEMPLATES AsyncStorage.GOAL_COMPLETIONS
       AsyncStorage.set_GOAL_TEMPLATES AsyncStorage.set_GOAL_COMPLETIONS].
  rewrite He.
  destruct ts as [ts|]; destruct cs as [cs|]; cbn; rewrite ?He; cbn;
    eexists; (split; [reflexivity|]); split; reflexivity.
Qed.

End GoalFailures.

Section TemplatesOfADay.
Import LocalStorageService GoalStorage.

Lemma insert_by_order_perm t l : insert_by_order t l ≡ₚ t :: l.
Proof.
  induction l as [|x l IH]; [reflexivity|]. cbn [insert_by_order].
  destruct (_ <=? _); [reflexivity|]. rewrite IH. apply Permutation_swap.
Qed.

Lemma sort_by_order_perm l : sort_by_order l ≡ₚ l.
Proof.
  induction l as [|x l IH]; [reflexivity|]. unfold sort_by_order in *. cbn [foldr].
  rewrite insert_by_order_perm. now rewrite IH.
Qed.

Lemma insert_by_order_sorted t l :
  StronglySorted by_order l -> StronglySorted by_order (insert_by_order t l).
Proof.
  induction 1 as [|x l Hs IH Hx]; cbn [insert_by_order].
  - constructor; constructor.
  - destruct (_ <=? _) eqn:E.
    + apply Z.leb_le in E. constructor; [now constructor|].
      constructor; [exact E|]. eapply Forall_impl; [exact Hx|].
      unfold by_order. intros y Hy. lia.
    + apply Z.leb_gt in E. constructor; [exact IH|].
      rewrite insert_by_order_perm. constructor; [unfold by_order; lia | exact Hx].
Qed.

Lemma sort_by_order_sorted l : StronglySorted by_order (sort_by_order l).
Proof.
  induction l as [|x l IH]; [constructor|]. unfold sort_by_order in *. cbn [foldr].
  now apply insert_by_order_sorted.
Qed.

(** X10.  [getGoalTemplatesForDay] never throws.  What it returns is in
    ascending order of [order_index] and holds only active templates of
    the day asked for; on a device whose store answers it holds each stored
    active template of that day, as many times as it is stored. *)
Theorem getGoalTemplatesForDay_is_sorted (w : World) (dayOfWeek : Z) :
  exists l w',
    getGoalTemplatesForDay dayOfWeek w = (Ok l, w')
    /\ StronglySorted by_order l
    /\ Forall (fun t => GoalTemplate.is_active t = true
                        /\ GoalTemplate.day_of_week t = dayOfWeek) l
    /\ (healthy w ->
        l ≡ₚ filter (fun t => GoalTemplate.is_active t = true
                             /\ GoalTemplate.day_of_week t = dayOfWeek)
               (stored AsyncStorage.GOAL_TEMPLATES w)).
Proof.
  destruct readers_total as (_ & Htotal & _). destruct (Htotal w) as (ts & w1 & E).
  unfold getGoalTemplatesForDay, try_catch. rewrite (bind_ok _ _ _ _ _ E).
  eexists _, w1. split; [reflexivity|].
  set (due := fun template : GoalTemplate.t =>
                GoalTemplate.is_active template
                && (GoalTemplate.day_of_week template =? dayOfWeek)).
  assert (forall t, due t = true
                    <-> GoalTemplate.is_active t = true
                        /\ GoalTemplate.day_of_week t = dayOfWeek) as Hdue
    by (intros t; unfold due; rewrite andb_true_iff, Z.eqb_eq; reflexivity).
  split; [apply sort_by_order_sorted|]. split.
  - rewrite sort_by_order_perm. apply Forall_forall. intros t Ht.
    apply list_elem_of_In, filter_In in Ht as [_ Ht]. now apply Hdue.
  - intros Hh. rewrite (getGoalTemplates_healthy w Hh) in E. injection E as <- _.
    rewrite sort_by_order_perm.
    induction (stored AsyncStorage.GOAL_TEMPLATES w) as [|t l IH]; [reflexivity|].
    cbn [List.filter]. destruct (due t) eqn:Et.
    + rewrite filter_cons_True by now apply Hdue. now rewrite IH.
    + rewrite filter_cons_False; [exact IH|]. rewrite <- Hdue. congruence.
Qed.

End TemplatesOfADay.

Section CompletionLookup.
Import LocalStorageService GoalStorage.

Lemma getDailyCompletions_on healthy_w date :
  healthy healthy_w -> date <> EmptyString ->
  getDailyCompletions (Some date) healthy_w
  = (Ok (filter (fun c => DailyGoalCompletion.completion_date c = date)
           (stored AsyncStorage.GOAL_COMPLETIONS healthy_w)), settled healthy_w).
Proof.
  intros H Hdate. unfold getDailyCompletions. apply try_catch_ok. rewrite settled_unfold.
  rewrite (bind_ok _ _ _ _ _ (isDataExpired_healthy _ H)).
  unfold stored. destruct (expired healthy_w).
  - rewrite (bind_ok _ _ _ _ _ (clearAllData_healthy _ H)). reflexivity.
  - world healthy_w. exec.
    destruct (AsyncStorage.GOAL_COMPLETIONS s); [|reflexivity].
    destruct (String.eqb_spec date EmptyString); [contradiction | reflexivity].
Qed.

Lemma find_in_the_day completion l j r :
  list_find (same_slot completion) l = Some (j, r) ->
  List.find (fun c => String.eqb (DailyGoalCompletion.goal_template_id c)
                        (DailyGoalCompletion.i_goal_template_id completion))
    (filter (fun c => DailyGoalCompletion.completion_date c
                      = DailyGoalCompletion.i_completion_date completion) l)
  = Some r.
Proof.
  revert j. induction l as [|x l IH]; intros j; [discriminate|].
  cbn [list_find]. destruct (decide (same_slot completion x)) as [[Ht Hd]|Hn].
  - intros [= _ ->]. rewrite (filter_cons_True _ r l Hd). cbn [List.find].
    now rewrite Ht, String.eqb_refl.
  - destruct (list_find (same_slot completion) l) as [[j' r']|] eqn:E; [|discriminate].
    intros Hj. cbn in Hj. injection Hj as _ ->.
    destruct (decide (DailyGoalCompletion.completion_date x
                      = DailyGoalCompletion.i_completion_date completion)) as [Hd|Hd].
    + rewrite (filter_cons_True _ x l Hd). cbn [List.find].
      destruct (String.eqb_spec (DailyGoalCompletion.goal_template_id x)
                  (DailyGoalCompletion.i_goal_template_id completion)) as [Ht|Ht].
      * exfalso. apply Hn. now split.
      * now apply (IH j').
    + rewrite (filter_cons_False _ x l Hd). now apply (IH j').
Qed.

(** X11.  A completion written by [updateGoalCompletion] is the one that
    [getCompletionForDate] then finds for its template and date, on a
    device whose store answers and for a date that is not the empty string
    (an empty date makes the lookup ignore the date). *)
Theorem written_completion_is_found (w : World) (completion : DailyGoalCompletion.input)
    (Hhealthy : healthy w)
    (Hdate : DailyGoalCompletion.i_completion_date completion <> EmptyString) :
  exists r w1 w2,
    updateGoalCompletion completion w = (Ok r, w1)
    /\ getCompletionForDate (DailyGoalCompletion.i_goal_template_id completion)
         (DailyGoalCompletion.i_completion_date completion) w1 = (Ok (Some r), w2)
    /\ DailyGoalCompletion.is_completed r
       = DailyGoalCompletion.i_is_completed completion
    /\ DailyGoalCompletion.completed_at r
       = DailyGoalCompletion.i_completed_at completion.
Proof.
  pose proof (updateGoalCompletion_healthy completion w Hhealthy) as E. cbv zeta in E.
  pose proof (list_find_after_upsert completion
                (stored AsyncStorage.GOAL_COMPLETIONS w)) as Hfind.
  assert (forall r w1 l',
             healthy w1 -> expired w1 = false ->
             stored AsyncStorage.GOAL_COMPLETIONS w1 = l' ->
             (exists j, list_find (same_slot completion) l' = Some (j, r)) ->
             getCompletionForDate (DailyGoalCompletion.i_goal_template_id completion)
               (DailyGoalCompletion.i_completion_date completion) w1
             = (Ok (Some r), settled w1)) as Hlookup.
  { intros r w1 l' H1 He1 Hst [j Hj]. unfold getCompletionForDate. apply try_catch_ok.
    rewrite (bind_ok _ _ _ _ _ (getDailyCompletions_on w1 _ H1 Hdate)).
    rewrite Hst, (find_in_the_day completion l' j r Hj). reflexivity. }
  destruct (list_find (same_slot completion) (stored AsyncStorage.GOAL_COMPLETIONS w))
    as [[i existing]|] eqn:Ef.
  - eexists _, _, _. split; [exact E|]. split; [|split; reflexivity].
    apply (Hlookup _ _ (<[i := merge_completion existing completion]>
                          (stored AsyncStorage.GOAL_COMPLETIONS w))).
    + apply healthy_written, healthy_settled, Hhealthy.
    + apply expired_written; [reflexivity | apply settled_fresh].
    + apply stored_written_completions, settled_fresh.
    + destruct (Hfind _ _ (conj eq_refl eq_refl)) as (j & Hj & _). now exists j.
  - eexists _, _, _. split; [exact E|]. split; [|split; reflexivity].
    apply (Hlookup _ _ (stored AsyncStorage.GOAL_COMPLETIONS w
                        ++ [created_completion completion w])%list).
    + apply healthy_written, healthy_drawn, healthy_settled, Hhealthy.
    + apply expired_written; [reflexivity|]. rewrite expired_drawn. apply settled_fresh.
    + apply stored_written_completions. rewrite expired_drawn. apply settled_fresh.
    + destruct (Hfind _ _ (conj (ex_intro _ w eq_refl) eq_refl)) as (j & Hj & _).
      now exists j.
Qed.

End CompletionLookup.

Section WeeklyReports.
Import LocalStorageService GoalStorage.

Lemma addWeeklyReport_healthy report w :
  healthy w ->
  let l := stored AsyncStorage.WEEKLY_REPORTS w in
  let r := created_report report w in
  addWeeklyReport report w
  = (Ok r,
     written (AsyncStorage.set_WEEKLY_REPORTS
                (Some match list_find (same_week (WeeklyReportData.i_week_start_date report)
                                         (WeeklyReportData.i_user_id report)) l with
                      | Some (i, _) => <[i := r]> l
                      | None => (l ++ [r])%list
                      end))
       (drawn (settled w))).
Proof.
  intros H l r. unfold addWeeklyReport. rewrite try_catch_rethrow.
  rewrite (bind_ok _ _ _ _ _ (getWeeklyReports_healthy w H)). cbv zeta.
  destruct (settled_device w) as [Hc Hr].
  rewrite (bind_ok _ _ _ _ _ (generate_id_run (settled w))), bind_now.
  cbn [clock device drawn on_device set_random]. rewrite Hc, Hr.
  fold l. fold (created_report report w). fold r.
  rewrite (bind_ok _ _ _ _ _ (saveWeeklyReports_healthy _ (drawn (settled w))
                                (healthy_drawn _ (healthy_settled w H)))).
  reflexivity.
Qed.

Lemma filter_insert_same {A} (P : A -> Prop) `{!forall x, Decision (P x)}
    (l : list A) i old new :
  l !! i = Some old -> (P new <-> P old) ->
  length (filter P (<[i := new]> l)) = length (filter P l).
Proof.
  revert i. induction l as [|x l IH]; intros [|i] Hi Hiff; try discriminate.
  - simpl in Hi. injection Hi as ->. simpl.
    destruct (decide (P new)) as [Hn|Hn], (decide (P old)) as [Ho|Ho]; try tauto;
      [rewrite (filter_cons_True _ new l Hn), (filter_cons_True _ old l Ho)
      |rewrite (filter_cons_False _ new l Hn), (filter_cons_False _ old l Ho)];
      reflexivity.
  - simpl in Hi. simpl. destruct (decide (P x)) as [Hx|Hx].
    + rewrite !(filter_cons_True _ x _ Hx). cbn [length]. f_equal. now apply (IH i).
    + rewrite !(filter_cons_False _ x _ Hx). now apply (IH i).
Qed.

Lemma filter_nothing_found {A} (P : A -> Prop) `{!forall x, Decision (P x)} (l : list A) :
  list_find P l = None -> filter P l = [].
Proof.
  intros Hnone%list_find_None. induction l as [|x l IH]; [reflexivity|].
  apply Forall_cons in Hnone as [Hx Hl].
  rewrite (filter_cons_False _ x l Hx). now apply IH.
Qed.

(** X12.  [addWeeklyReport] keeps one report per week and user: on a device
    whose store answers, a report for a week and user that already have
    one takes its place, under a new id and with the time of the call as
    [generated_at], and otherwise the report is added at the end; the
    number of stored reports of that week and user does not grow unless it
    was zero, and [getWeeklyReportForWeek] then returns the report just
    written. *)
Theorem addWeeklyReport_replaces_the_report_of_the_week (w : World)
    (report : WeeklyReportData.input) (Hhealthy : healthy w) :
  let week := WeeklyReportData.i_week_start_date report in
  let user := WeeklyReportData.i_user_id report in
  let before := stored AsyncStorage.WEEKLY_REPORTS w in
  exists r w1 w2,
    addWeeklyReport report w = (Ok r, w1)
    /\ WeeklyReport.generated_at r = clock (device w)
    /\ WeeklyReport.goals r = WeeklyReportData.i_goals report
    /\ stored AsyncStorage.WEEKLY_REPORTS w1
       = match list_find (same_week week user) before with
         | Some (i, _) => <[i := r]> before
         | None => (before ++ [r])%list
         end
    /\ length (filter (same_week week user) (stored AsyncStorage.WEEKLY_REPORTS w1))
       = Nat.max 1 (length (filter (same_week week user) before))
    /\ getWeeklyReportForWeek week user w1 = (Ok (Some r), w2).
Proof.
  cbv zeta. pose proof (addWeeklyReport_healthy report w Hhealthy) as E. cbv zeta in E.
  set (week := WeeklyReportData.i_week_start_date report) in *.
  set (user := WeeklyReportData.i_user_id report) in *.
  set (before := stored AsyncStorage.WEEKLY_REPORTS w) in *.
  set (r := created_report report w) in *.
  set (after := match list_find (same_week week user) before with
                | Some (i, _) => <[i := r]> before
                | None => (before ++ [r])%list
                end) in *.
  set (w1 := written _ (drawn (settled w))) in E.
  assert (healthy w1) as H1
    by (apply healthy_written, healthy_drawn, healthy_settled, Hhealthy).
  assert (expired w1 = false) as He1
    by (apply expired_written; [reflexivity|]; rewrite expired_drawn; apply settled_fresh).
  assert (stored AsyncStorage.WEEKLY_REPORTS w1 = after) as Hst.
  { apply stored_written; try reflexivity. rewrite expired_drawn. apply settled_fresh. }
  assert (same_week week user r) as Hr by (split; reflexivity).
  exists r, w1, (settled w1). split; [exact E|]. split; [reflexivity|].
  split; [reflexivity|]. split; [exact Hst|]. rewrite Hst. split.
  - unfold after. destruct (list_find (same_week week user) before) as [[i old]|] eqn:Ef.
    + apply list_find_Some in Ef as (Hi & Hold & _).
      rewrite (filter_insert_same _ before i old r Hi) by tauto.
      assert (old ∈ filter (same_week week user) before) as Hin
        by (apply list_elem_of_filter; split; [exact Hold | eauto using list_elem_of_lookup_2]).
      destruct (filter (same_week week user) before); [inversion Hin | cbn; lia].
    + rewrite filter_app, (filter_cons_True _ r [] Hr).
      rewrite (filter_nothing_found _ before Ef). reflexivity.
  - unfold getWeeklyReportForWeek. apply try_catch_ok.
    rewrite (bind_ok _ _ _ _ _ (getWeeklyReports_healthy w1 H1)), Hst.
    assert (exists j, list_find (same_week week user) after = Some (j, r)) as [j ->];
      [|reflexivity].
    unfold after. destruct (list_find (same_week week user) before) as [[i old]|] eqn:Ef.
    + exists i. now apply (list_find_insert_same _ before i old r).
    + exists (length before). apply list_find_app_Some. right.
      split; [lia|]. split; [exact Ef|]. rewrite Nat.sub_diag. cbn.
      now rewrite decide_True.
Qed.

End WeeklyReports.

Section ExpiryStamp.
Import LocalStorageService.

Lemma written_expiry put w :
  (forall s, AsyncStorage.EXPIRY (put s) = AsyncStorage.EXPIRY s) ->
  AsyncStorage.EXPIRY (storage (device (written put w)))
  = Some (default (clock (device w) + EXPIRY_DAYS * JsDate.msPerDay)
            (AsyncStorage.EXPIRY (storage (device w)))).
Proof.
  intros Hput. destruct w as [[s ? t ?] ? ? ?]. unfold written, stamped. cbn.
  rewrite Hput. destruct (AsyncStorage.EXPIRY s) eqn:E; cbn; [now rewrite Hput|].
  now destruct (put s).
Qed.

Lemma getExpiryInfo_healthy w :
  healthy w ->
  getExpiryInfo w
  = (Ok match AsyncStorage.EXPIRY (storage (device w)) with
        | None => mkExpiryInfo None None
        | Some expiry =>
            mkExpiryInfo (Some expiry)
              (Some (Z.max 0 (DateUtils.getDaysBetween (clock (device w)) expiry)))
        end, w).
Proof.
  intros H. world w. unfold getExpiryInfo. exec.
  destruct (AsyncStorage.EXPIRY s); destruct s; reflexivity.
Qed.


End ExpiryStamp.

(** ** What escapes from the remote adapter *)

Section AppErrors.
Import SupabaseService.

Lemma app_errors_bind {A B} (m : M A) (k : A -> M B) :
  app_errors_only m -> (forall a, app_errors_only (k a)) -> app_errors_only (bind m k).
Proof.
  intros Hm Hk w e w'. unfold bind. destruct (m w) as [[a|e0] w1] eqn:E.
  - apply Hk.
  - intros [= <- <-]. eapply Hm, E.
Qed.

Lemma app_errors_ret {A} (a : A) : app_errors_only (ret a).
Proof. intros w e w'. discriminate. Qed.

Lemma app_errors_gets {A} (f : World -> A) : app_errors_only (gets f).
Proof. intros w e w'. discriminate. Qed.

Lemma app_errors_modify f : app_errors_only (modify f).
Proof. intros w e w'. discriminate. Qed.

Lemma app_errors_throw {A} code message : app_errors_only (@throw A (AppError code message)).
Proof. intros w e w' [= <- <-]. eauto. Qed.

Lemma app_errors_request {A} (handler : Backend -> Response A * Backend) :
  app_errors_only (request handler).
Proof.
  intros w e w'. unfold request.
  destruct (net_faults (backend w)) as [|[] plan]; try destruct (handler _); discriminate.
Qed.

Lemma app_errors_total {A} (m : M A) : total m -> app_errors_only m.
Proof. intros Ht w e w' E. destruct (Ht w) as (a & w1 & E1). congruence. Qed.

Lemma app_errors_handleDatabaseError {A} error operation :
  app_errors_only (@handleDatabaseError A error operation).
Proof.
  unfold handleDatabaseError. destruct (String.eqb _ _); [apply app_errors_throw|].
  destruct (includes _ _); apply app_errors_throw.
Qed.

Lemma getCurrentUser_total : total getCurrentUser.
Proof. apply total_catch. intros. apply total_ret. Qed.

Lemma app_errors_ensureAuthenticated : app_errors_only ensureAuthenticated.
Proof.
  apply app_errors_bind; [apply app_errors_total, getCurrentUser_total|].
  intros [u|]; [apply app_errors_ret | apply app_errors_throw].
Qed.

(** What the [catch] of an adapter method turns an [AppError] into. *)
Lemma rethrown_is_unknown {A} (m : M A) context w e w' :
  app_errors_only m ->
  try_catch m (fun error => throw (handleAsyncError error context)) w = (Err e, w') ->
  e = unknown_error.
Proof.
  intros Hm. unfold try_catch. destruct (m w) as [[a|e0] w1] eqn:E; [discriminate|].
  destruct (Hm _ _ _ E) as (c & msg & ->). now intros [= <- <-].
Qed.

End AppErrors.

Ltac app_errors :=
  repeat first
    [ apply app_errors_ensureAuthenticated
    | apply app_errors_handleDatabaseError
    | apply app_errors_request
    | apply app_errors_ret
    | apply app_errors_gets
    | apply app_errors_modify
    | apply app_errors_throw
    | apply app_errors_bind
    | match goal with
      | |- forall _, _ => intro
      | |- app_errors_only (match ?x with _ => _ end) => destruct x
      | |- app_errors_only (if ?x then _ else _) => destruct x
      end ].

(** X14.  An error of the remote adapter's expense methods reaches the
    caller without its cause: whatever fails (no user, the network, the
    database), [getExpenses], [addExpense], [updateExpense] and
    [deleteExpense] throw the same object, with code UNKNOWN_ERROR and
    the message 'An unknown error occurred'; the codes and messages that
    [handleDatabaseError] and [ensureAuthenticated] prepare never leave
    the adapter. *)
Theorem adapter_errors_lose_their_cause (w w' : World) (e : Thrown)
    (Hfails : SupabaseService.getExpenses w = (Err e, w')
              \/ (exists expense, SupabaseService.addExpense expense w = (Err e, w'))
              \/ (exists id updates, SupabaseService.updateExpense id updates w = (Err e, w'))
              \/ (exists id, SupabaseService.deleteExpense id w = (Err e, w'))) :
  e = AppError "UNKNOWN_ERROR" "An unknown error occurred".
Proof.
  change (e = unknown_error).
  destruct Hfails as [E|[[expense E]|[(id & updates & E)|[id E]]]];
    revert E; apply rethrown_is_unknown; unfold now; app_errors.
Qed.

Lemma adapter_errors_witness :
  result_of (SupabaseService.updateExpense "srv-lunch" Sample.cheaper) Sample.alice_offline
  = Err (AppError "UNKNOWN_ERROR" "An unknown error occurred").
Proof.
  destruct (SupabaseService.updateExpense "srv-lunch" Sample.cheaper Sample.alice_offline)
    as [[r|e] w'] eqn:E.
  - vm_compute in E. discriminate E.
  - unfold result_of. rewrite E. cbn [fst]. f_equal.
    apply (adapter_errors_lose_their_cause Sample.alice_offline w' e).
    right. right. left. exists "srv-lunch", Sample.cheaper. exact E.
Defined.

(** ** What a refused sign-in shows *)

Section AuthErrors.

Lemma adapter_signIn_error email password w e w' :
  SupabaseService.signIn email password w = (Err e, w') -> e = unknown_error.
Proof.
  apply rethrown_is_unknown. unfold SupabaseService.isConfigured. app_errors.
Qed.

Lemma adapter_signUp_error email password w e w' :
  SupabaseService.signUp email password w = (Err e, w') -> e = unknown_error.
Proof.
  apply rethrown_is_unknown. unfold SupabaseService.isConfigured. app_errors.
Qed.

Lemma clearAllData_total : total LocalStorageService.clearAllData.
Proof. apply total_catch. intros. apply total_ret. Qed.

Lemma signIn_body_errors email password w e w' :
  useAuth.signIn email password w = (Err e, w') ->
  (e = unknown_error /\ configured (backend w) = true
   \/ e = parseError useAuth.not_configured /\ configured (backend w) = false)
  /\ authError (hooks w') = Some (error_message e)
  /\ authLoading (hooks w') = false.
Proof.
  unfold useAuth.signIn, try_finally, try_catch.
  cbv [bind modify gets SupabaseService.isConfigured].
  cbn [backend on_hooks].
  destruct (configured (backend w)) eqn:Ec; cbn [negb].
  - destruct (SupabaseService.signIn email password _) as [[u|e0] w1] eqn:E.
    + destruct (clearAllData_total w1) as ([] & w2 & E2). rewrite E2. discriminate.
    + apply adapter_signIn_error in E as ->. cbn. intros [= <- <-]. cbn. auto.
  - cbn. intros [= <- <-]. cbn. auto.
Qed.

Lemma signUp_body_errors email password w e w' :
  useAuth.signUp email password w = (Err e, w') ->
  (e = unknown_error /\ configured (backend w) = true
   \/ e = parseError useAuth.not_configured /\ configured (backend w) = false)
  /\ authError (hooks w') = Some (error_message e)
  /\ authLoading (hooks w') = false.
Proof.
  unfold useAuth.signUp, try_finally, try_catch.
  cbv [bind modify gets SupabaseService.isConfigured].
  cbn [backend on_hooks].
  destruct (configured (backend w)) eqn:Ec; cbn [negb].
  - destruct (SupabaseService.signUp email password _) as [[u|e0] w1] eqn:E.
    + destruct (clearAllData_total w1) as ([] & w2 & E2). rewrite E2. discriminate.
    + apply adapter_signUp_error in E as ->. cbn. intros [= <- <-]. cbn. auto.
  - cbn. intros [= <- <-]. cbn. auto.
Qed.

(** X15.  A sign-in or a sign-up that is refused tells the user nothing
    about the reason: with a configured project, whatever the auth service
    answered (wrong password, email not confirmed, account already
    registered, no network), the hook throws and shows the message 'An
    unknown error occurred'; the messages that the adapter prepares for
    these cases do not reach the hook.  Only the message for a project
    that is not configured is shown as written.  The loading flag is off
    and the error is set when the call returns. *)
Theorem refused_sign_in_shows_no_reason (w w' : World) (email password : string)
    (e : Thrown)
    (Hrefused : useAuth.signIn email password w = (Err e, w')
                \/ useAuth.signUp email password w = (Err e, w')) :
  (if configured (backend w)
   then e = AppError "UNKNOWN_ERROR" "An unknown error occurred"
   else e = AppError "UNKNOWN_ERROR"
              "Authentication service is not available. Please continue as guest.")
  /\ authError (hooks w') = Some (error_message e)
  /\ authLoading (hooks w') = false.
Proof.
  assert ((e = unknown_error /\ configured (backend w) = true
           \/ e = parseError useAuth.not_configured /\ configured (backend w) = false)
          /\ authError (hooks w') = Some (error_message e)
          /\ authLoading (hooks w') = false) as (Hcases & Herr & Hload).
  { destruct Hrefused as [E|E];
      [exact (signIn_body_errors _ _ _ _ _ E) | exact (signUp_body_errors _ _ _ _ _ E)]. }
  split; [|split; assumption].
  destruct Hcases as [[-> ->]|[-> ->]]; reflexivity.
Qed.

End AuthErrors.

(** ** The rows of the other users *)

Section OtherUsers.
Import SupabaseService.
Variables (w : World) (u : User.t).
Hypothesis Hcached : currentUser (services w) = Some u.

Lemma others_kept_refl l : others_kept (User.id u) l l.
Proof. intros row Hin _. exact Hin. Qed.

Lemma others_kept_app l x : others_kept (User.id u) l (l ++ [x]).
Proof. intros row Hin _. apply elem_of_app. now left. Qed.

Lemma others_kept_insert l i own x :
  l !! i = Some own -> owned_by (User.id u) own -> others_kept (User.id u) l (<[i := x]> l).
Proof.
  intros Hi Hown row Hin Hnot.
  apply list_elem_of_lookup in Hin as [j Hj].
  apply list_elem_of_lookup. exists j.
  rewrite list_lookup_insert_ne; [exact Hj|]. intros ->. congruence.
Qed.

Lemma others_kept_delete l id :
  others_kept (User.id u) l (filter (fun e => ~ row_matches id (User.id u) e) l).
Proof.
  intros row Hin Hnot. apply list_elem_of_filter. split; [|exact Hin].
  intros [_ Hown]. contradiction.
Qed.

Ltac run_request :=
  unfold try_catch;
  rewrite (bind_ok _ _ _ _ _ (ensureAuthenticated_cached w u Hcached));
  rewrite ?bind_now; unfold bind, request;
  destruct (net_faults (backend w)) as [|[] plan].

Lemma addExpense_others expense :
  others_kept (User.id u) (rows (backend w))
    (rows (backend (state_after (addExpense expense) w))).
Proof.
  unfold state_after, addExpense, addExpense_. run_request;
    unfold insert_row; cbn [rows set_net_faults set_issued];
    try destruct (bool_decide _); cbn; auto using others_kept_refl, others_kept_app.
Qed.

Lemma updateExpense_others id updates :
  others_kept (User.id u) (rows (backend w))
    (rows (backend (state_after (updateExpense id updates) w))).
Proof.
  unfold state_after, updateExpense, updateExpense_. run_request;
    unfold update_row; cbn [rows set_net_faults];
    try (destruct (list_find _ (rows (backend w))) as [[i own]|] eqn:Ef);
    cbn; auto using others_kept_refl;
    apply list_find_Some in Ef as (Hi & [_ Hown] & _);
    now apply (others_kept_insert _ i own).
Qed.

Lemma deleteExpense_others id :
  others_kept (User.id u) (rows (backend w))
    (rows (backend (state_after (deleteExpense id) w))).
Proof.
  unfold state_after, deleteExpense, deleteExpense_. run_request;
    cbn; auto using others_kept_refl, others_kept_delete.
Qed.

Lemma getExpenses_owned l w' :
  getExpenses w = (Ok l, w') ->
  Forall (owned_by (User.id u)) l /\ rows (backend w') = rows (backend w).
Proof.
  unfold getExpenses. run_request; cbn; intros [= <- <-]; (split; [|reflexivity]);
    apply Forall_forall; intros row [Hown _]%elem_of_order_by_date%list_elem_of_filter;
    exact Hown.
Qed.

End OtherUsers.

(** X16.  The remote adapter works on the rows of the current user only:
    whatever the table holds and whether or not the request gets through,
    adding, updating or deleting an expense leaves every row of another
    user in the table, and [getExpenses] returns rows of the current user
    only and changes no row. *)
Theorem adapter_keeps_the_rows_of_other_users (w : World) (u : User.t)
    (Hcached : currentUser (services w) = Some u) :
  (forall expense,
      others_kept (User.id u) (rows (backend w))
        (rows (backend (state_after (SupabaseService.addExpense expense) w))))
  /\ (forall id updates,
      others_kept (User.id u) (rows (backend w))
        (rows (backend (state_after (SupabaseService.updateExpense id updates) w))))
  /\ (forall id,
      others_kept (User.id u) (rows (backend w))
        (rows (backend (state_after (SupabaseService.deleteExpense id) w))))
  /\ (forall l w', SupabaseService.getExpenses w = (Ok l, w') ->
      Forall (SupabaseService.owned_by (User.id u)) l
      /\ rows (backend w') = rows (backend w)).
Proof.
  split; [|split; [|split]].
  - intros expense. now apply addExpense_others.
  - intros id updates. now apply updateExpense_others.
  - intros id. now apply deleteExpense_others.
  - intros l w'. now apply getExpenses_owned.
Qed.

(** ** The sync service without a user *)

Section SyncWithoutUser.
Import SyncService.

Lemma service_status_update updates w :
  service_status (updateSyncStatus_now updates w)
  = merge_status (service_status w) updates.
Proof.
  unfold service_status, updateSyncStatus_now, notify.
  now destruct (subscribed _).
Qed.

Lemma updateSyncStatus_now_backend updates w :
  backend (updateSyncStatus_now updates w) = backend w.
Proof. unfold updateSyncStatus_now, notify. now destruct (subscribed _). Qed.

Lemma updateSyncStatus_now_device updates w :
  device (updateSyncStatus_now updates w) = device w.
Proof. unfold updateSyncStatus_now, notify. now destruct (subscribed _). Qed.

Lemma getCurrentUser_signed_out w :
  signed_out w ->
  exists w', SupabaseService.getCurrentUser w = (Ok None, w')
             /\ device w' = device w /\ rows (backend w') = rows (backend w)
             /\ services w' = services w /\ hooks w' = hooks w.
Proof.
  intros [Hc Hs]. unfold SupabaseService.getCurrentUser, try_catch, bind, gets.
  rewrite Hc. unfold SupabaseService.getSupabaseUser, bind, SupabaseService.request.
  destruct (net_faults (backend w)) as [|[] plan]; cbn; rewrite ?Hs; cbn;
    eexists; (split; [reflexivity|]); auto.
Qed.

(** X17.  Without a signed-in user the reconciliation does nothing but
    report it: [syncExpenses] throws an error with code UNKNOWN_ERROR and
    the message 'User not authenticated for sync', the status carries that
    message and is no longer in progress, and neither the local store nor
    the table has changed. *)
Theorem syncExpenses_needs_a_user (w : World) (Hout : signed_out w) :
  exists w',
    syncExpenses w
    = (Err (AppError "UNKNOWN_ERROR" "User not authenticated for sync"), w')
    /\ SyncStatus.error (service_status w') = Some "User not authenticated for sync"
    /\ SyncStatus.sync_in_progress (service_status w') = false
    /\ device w' = device w
    /\ rows (backend w') = rows (backend w).
Proof.
  unfold syncExpenses, try_finally, try_catch.
  unfold updateSyncStatus at 1. rewrite bind_modify.
  set (w1 := updateSyncStatus_now _ w).
  assert (signed_out w1) as Hout1.
  { destruct Hout as [Hc Hs]. split.
    - unfold w1. now rewrite updateSyncStatus_currentUser.
    - unfold w1. now rewrite updateSyncStatus_now_backend. }
  destruct (getCurrentUser_signed_out w1 Hout1) as (w2 & E & Hd & Hr & Hsv & Hh).
  rewrite (bind_ok _ _ _ _ _ E). cbn [throw handleAsyncError parseError createAppError].
  unfold updateSyncStatus. rewrite bind_modify. cbn [throw].
  eexists. split; [reflexivity|].
  unfold not_in_progress. rewrite !service_status_update.
  rewrite !updateSyncStatus_now_device, !updateSyncStatus_now_backend, Hd, Hr.
  unfold w1. rewrite updateSyncStatus_now_device, updateSyncStatus_now_backend.
  repeat split; reflexivity.
Qed.

Lemma parseError_is_unknown e :
  exists message, parseError e = AppError "UNKNOWN_ERROR" message.
Proof. destruct e; cbn; eauto. Qed.

Lemma app_errors_syncExpenses : app_errors_only syncExpenses.
Proof.
  intros w e w'. unfold syncExpenses, try_finally, try_catch.
  destruct (bind _ _ w) as [[[]|e0] w1]; [discriminate|].
  unfold handleAsyncError, updateSyncStatus. rewrite bind_modify. cbn [throw].
  intros [= <- <-]. destruct (parseError_is_unknown e0) as [m ->]. eauto.
Qed.

(** X18.  [syncAll] hides why it failed: whatever makes it fail (no user,
    the network, the database), the error it throws and the message it
    leaves in the status are 'An unknown error occurred' with code
    UNKNOWN_ERROR, because the error of [syncExpenses] is normalised a
    second time; the status is no longer in progress. *)
Theorem syncAll_hides_the_reason (w w' : World) (e : Thrown)
    (Hfails : SyncAll.syncAll w = (Err e, w')) :
  e = AppError "UNKNOWN_ERROR" "An unknown error occurred"
  /\ SyncStatus.error (service_status w') = Some "An unknown error occurred"
  /\ SyncStatus.sync_in_progress (service_status w') = false.
Proof.
  revert Hfails. unfold SyncAll.syncAll, try_finally, try_catch.
  unfold updateSyncStatus at 1. rewrite bind_modify.
  set (w1 := updateSyncStatus_now _ w).
  unfold bind at 1. destruct (syncExpenses w1) as [[[]|e0] w2] eqn:E.
  - rewrite bind_now. unfold updateSyncStatus, modify. discriminate.
  - destruct (app_errors_syncExpenses _ _ _ E) as (c & m & ->).
    cbn [handleAsyncError parseError createAppError]. unfold updateSyncStatus.
    rewrite bind_modify. cbn [throw]. intros [= <- <-].
    unfold not_in_progress. rewrite !service_status_update. repeat split; reflexivity.
Qed.

Lemma processQueue_signed_out w r q :
  signed_out w -> queue w = r :: q ->
  exists w',
    processQueue w
    = (Err (AppError "UNKNOWN_ERROR" "User not authenticated for sync"), w')
    /\ queue_state w' = queue_state w
    /\ service_status w'
       = {| SyncStatus.last_sync := SyncStatus.last_sync (service_status w);
            SyncStatus.pending_changes := SyncStatus.pending_changes (service_status w);
            SyncStatus.sync_in_progress := false;
            SyncStatus.error := Some "User not authenticated for sync" |}
    /\ device w' = device w /\ rows (backend w') = rows (backend w).
Proof.
  intros Hout Hq. unfold processQueue. rewrite bind_gets.
  change (syncQueue (services w)) with (queue w). rewrite Hq.
  unfold try_finally, try_catch. unfold updateSyncStatus at 1. rewrite bind_modify.
  set (w1 := updateSyncStatus_now _ w).
  assert (signed_out w1) as Hout1.
  { destruct Hout as [Hc Hs]. split.
    - unfold w1. now rewrite updateSyncStatus_currentUser.
    - unfold w1. now rewrite updateSyncStatus_now_backend. }
  destruct (getCurrentUser_signed_out w1 Hout1) as (w2 & E & Hd & Hr & Hsv & Hh).
  rewrite (bind_ok _ _ _ _ _ E). cbn [throw handleAsyncError parseError createAppError].
  unfold updateSyncStatus. rewrite bind_modify. cbn [throw].
  eexists. split; [reflexivity|].
  unfold not_in_progress. rewrite !service_status_update, !updateSyncStatus_queue_state.
  rewrite !updateSyncStatus_now_device, !updateSyncStatus_now_backend, Hd, Hr.
  assert (queue_state w2 = queue_state w1) as -> by (unfold queue_state; now rewrite Hsv).
  assert (service_status w2 = service_status w1) as ->
    by (unfold service_status; now rewrite Hsv).
  unfold w1. rewrite service_status_update, updateSyncStatus_queue_state.
  rewrite updateSyncStatus_now_device, updateSyncStatus_now_backend.
  repeat split; reflexivity.
Qed.

(** X19.  An operation queued while nobody is signed in waits untouched:
    [queueOperation] returns normally, the operation is at the end of the
    queue, no operation has been attempted and no retry counted, and the
    status shows the length of the queue as [pending_changes] and the
    message 'User not authenticated for sync'; a drain pass made later in
    the same situation changes nothing in the queue either. *)
Theorem queued_operation_waits_for_a_user (w : World) (r : Ref) (Hout : signed_out w) :
  exists w',
    queueOperation r w = (Ok tt, w')
    /\ queue w' = (queue w ++ [r])%list
    /\ attempts w' = attempts w
    /\ (forall r', retries_of w' r' = retries_of w r')
    /\ SyncStatus.pending_changes (service_status w')
       = Z.of_nat (length (queue w ++ [r]))
    /\ SyncStatus.error (service_status w') = Some "User not authenticated for sync"
    /\ SyncStatus.sync_in_progress (service_status w') = false
    /\ (signed_out w' ->
        queue_state (state_after processQueue w') = queue_state w').
Proof.
  unfold queueOperation. rewrite bind_modify, bind_gets.
  set (w0 := on_services _ w).
  unfold updateSyncStatus. rewrite bind_modify.
  set (w1 := updateSyncStatus_now _ w0).
  assert (queue_state w1
          = ((queue w ++ [r])%list, operations (services w), attempted (services w)))
    as Hqs by (unfold w1; rewrite updateSyncStatus_queue_state; reflexivity).
  assert (queue w1 = (queue w ++ [r])%list) as Hq1
    by (apply (f_equal (fun x => x.1.1)) in Hqs; exact Hqs).
  assert (signed_out w1) as Hout1.
  { destruct Hout as [Hc Hs]. split.
    - unfold w1. rewrite updateSyncStatus_currentUser. exact Hc.
    - unfold w1. rewrite updateSyncStatus_now_backend. exact Hs. }
  assert (exists r0 q0, queue w1 = r0 :: q0) as (r0 & q0 & Hne).
  { rewrite Hq1. destruct (queue w); cbn; eauto. }
  destruct (processQueue_signed_out w1 r0 q0 Hout1 Hne)
    as (w2 & E & Hqs2 & Hst2 & Hd2 & Hr2).
  unfold try_catch. rewrite E. cbn [ret].
  exists w2. split; [reflexivity|].
  rewrite Hqs in Hqs2.
  assert (queue w2 = (queue w ++ [r])%list) as Hq2
    by (apply (f_equal (fun x => x.1.1)) in Hqs2; exact Hqs2).
  split; [exact Hq2|].
  split; [apply (f_equal snd) in Hqs2; exact Hqs2|].
  split.
  { intros r'. unfold retries_of.
    apply (f_equal (fun x => x.1.2)) in Hqs2. cbn in Hqs2. now rewrite Hqs2. }
  rewrite Hst2. cbn [SyncStatus.pending_changes SyncStatus.error SyncStatus.sync_in_progress].
  split.
  { unfold w1. rewrite service_status_update. cbn. unfold w0. cbn.
    reflexivity. }
  split; [reflexivity|]. split; [reflexivity|].
  intros Hout2.
  assert (exists r1 q1, queue w2 = r1 :: q1) as (r1 & q1 & Hne2).
  { rewrite Hq2. destruct (queue w); cbn; eauto. }
  destruct (processQueue_signed_out w2 r1 q1 Hout2 Hne2) as (w3 & E3 & Hqs3 & _).
  unfold state_after. now rewrite E3.
Qed.

End SyncWithoutUser.

(** ** Signing out *)

Section SigningOut.

(** X20.  [signOut] of the hook never throws.  When the identity is
    authenticated and the request to the auth service fails, the identity
    on screen stays the authenticated user and the error shown is 'An
    unknown error occurred', while the adapter has forgotten its user and
    the session of the auth service is still there; when the request is
    answered the identity becomes a fresh guest named after the time of
    the call, the session is closed and no error is shown. *)
Theorem signOut_that_fails_changes_no_identity (w : World)
    (Hauth : useAuth.isAuthenticated (hooks w) = true) :
  exists w',
    useAuth.signOut w = (Ok tt, w')
    /\ currentUser (services w') = None
    /\ authLoading (hooks w') = false
    /\ device w' = device w
    /\ match net_faults (backend w) with
       | true :: _ =>
           user (hooks w') = user (hooks w)
           /\ authError (hooks w') = Some "An unknown error occurred"
           /\ auth_session (backend w') = auth_session (backend w)
       | _ =>
           user (hooks w')
           = Some (User.mk ("guest_" ++ pretty (clock (device w))) None true)
           /\ authError (hooks w') = None
           /\ auth_session (backend w') = None
       end.
Proof.
  destruct w as [d b sv [ex er st ld usr ae al fa]]. cbn [hooks] in Hauth.
  unfold useAuth.isAuthenticated in Hauth. cbn [user] in Hauth.
  destruct usr as [[uid em []]|]; try discriminate Hauth.
  unfold useAuth.signOut, useAuth.createGuestUser, SupabaseService.signOut,
    useAuth.isAuthenticated.
  exec_all.
  destruct b as [rws src iss nf accs sess cfg]. cbn [net_faults User.isGuest].
  destruct nf as [|[] plan]; cbn; eexists; repeat split; reflexivity.
Qed.

End SigningOut.

(** ** The list on screen and the list in the store, for a guest *)

Section GuestScreen.

Lemma replaced_absent id r (l : list Expense.t) :
  (forall e, e ∈ l -> Expense.id e <> id) -> replaced id r l = l.
Proof.
  unfold replaced. induction l as [|e l IH]; [reflexivity|]. intros H. cbn [map].
  rewrite IH by (intros x Hx; apply H; now right).
  destruct (String.eqb_spec (Expense.id e) id) as [E|_]; [|reflexivity].
  exfalso. apply (H e); [now left | exact E].
Qed.

Lemma insert_is_replaced id r i existing (l : list Expense.t) :
  NoDup (map Expense.id l) ->
  list_find (has_id id) l = Some (i, existing) ->
  <[i := r]> l = replaced id r l.
Proof.
  unfold replaced. revert i. induction l as [|e l IH]; intros i Hn Hf; [discriminate|].
  cbn [map] in Hn. apply NoDup_cons in Hn as [Hnotin Hn].
  cbn [list_find] in Hf. destruct (decide (Expense.id e = id)) as [E|E].
  - injection Hf as <- <-. cbn [map]. rewrite <- E, String.eqb_refl.
    change (<[0%nat := r]> (e :: l)) with (r :: l). f_equal.
    symmetry. apply (replaced_absent (Expense.id e) r l).
    intros x Hx Hid. apply Hnotin. rewrite <- Hid.
    apply list_elem_of_fmap. now exists x.
  - destruct (list_find (has_id id) l) as [[j x]|] eqn:El; [|discriminate].
    cbn in Hf. injection Hf as <- <-. cbn [map].
    destruct (String.eqb_spec (Expense.id e) id) as [E'|_]; [contradiction|].
    change (<[S j := r]> (e :: l)) with (e :: <[j := r]> l). f_equal.
    now apply IH.
Qed.

Lemma replaced_twice id (f : Expense.t -> Expense.t) r (l : list Expense.t) :
  (forall e, Expense.id (f e) = Expense.id e) ->
  replaced id r (map (fun exp => if String.eqb (Expense.id exp) id then f exp else exp) l)
  = replaced id r l.
Proof.
  intros Hf. unfold replaced. rewrite map_map. apply map_ext. intros e.
  destruct (String.eqb_spec (Expense.id e) id) as [E|E].
  - rewrite Hf. rewrite E, String.eqb_refl. reflexivity.
  - destruct (String.eqb_spec (Expense.id e) id); [contradiction|reflexivity].
Qed.

Lemma stored_on_hooks {A} (field : AsyncStorage.t -> option (list A)) f w :
  stored field (on_hooks f w) = stored field w.
Proof. reflexivity. Qed.

Lemma optimistic_update_id updates t e :
  Expense.p_id updates = None ->
  Expense.id (useExpenses.optimistic_update updates t e) = Expense.id e.
Proof. intros H. cbn. now rewrite H. Qed.

(** X21.  A guest's [addExpense] and [deleteExpense] keep the list on
    screen a rearrangement of the stored list: with a working store,
    [addExpense] returns the record the store created, shows it first on
    screen while the store holds it last, provided no record on screen
    carries the temporary id of the call; [deleteExpense] removes the
    records of the id from both. *)
Theorem guest_screen_mirrors_the_store (w : World)
    (Hguest : useExpenses.remote_identity (hooks w) = false)
    (Hhealthy : healthy w)
    (Hmirror : expenses (hooks w) ≡ₚ stored AsyncStorage.EXPENSES w) :
  (forall content price date,
     (forall e, e ∈ expenses (hooks w) ->
                Expense.id e <> "temp_" ++ pretty (clock (device w))) ->
     let saved := created_expense (Expense.fields content price date) w in
     exists w',
       useExpenses.addExpense content price date w = (Ok saved, w')
       /\ expenses (hooks w') = saved :: expenses (hooks w)
       /\ stored AsyncStorage.EXPENSES w'
          = (stored AsyncStorage.EXPENSES w ++ [saved])%list
       /\ expenses (hooks w') ≡ₚ stored AsyncStorage.EXPENSES w')
  /\ (forall id,
        exists w',
          useExpenses.deleteExpense id w = (Ok tt, w')
          /\ expenses (hooks w')
             = filter (fun e => Expense.id e <> id) (expenses (hooks w))
          /\ stored AsyncStorage.EXPENSES w'
             = filter (fun e => Expense.id e <> id) (stored AsyncStorage.EXPENSES w)
          /\ expenses (hooks w') ≡ₚ stored AsyncStorage.EXPENSES w').
Proof.
  split.
  - intros content price date Hfresh saved.
    unfold useExpenses.addExpense. hook_steps. remote_is false Hguest.
    match goal with
    | |- context [LocalStorageService.addExpense ?d ?W] =>
        rewrite (addExpense_healthy d W Hhealthy)
    end.
    cbv zeta. eexists. split; [reflexivity|].
    match goal with
    | |- expenses (hooks ?W) = _ /\ _ => set (w' := W)
    end.
    assert (stored AsyncStorage.EXPENSES w'
            = (stored AsyncStorage.EXPENSES w ++ [saved])%list) as Hs.
    { refine (stored_written_expenses _ (drawn (settled w)) _).
      rewrite expired_drawn. apply settled_fresh. }
    assert (expenses (hooks w') = saved :: expenses (hooks w)) as He.
    { subst w'. project. cbn [map Expense.id]. rewrite String.eqb_refl.
      f_equal. now apply replaced_absent. }
    split; [exact He|]. split; [exact Hs|]. rewrite He, Hs, Hmirror.
    apply Permutation_cons_append.
  - intros id.
    unfold useExpenses.deleteExpense. hook_steps. remote_is false Hguest.
    match goal with
    | |- context [LocalStorageService.deleteExpense ?a ?W] =>
        rewrite (deleteExpense_healthy a W Hhealthy)
    end.
    eexists. split; [reflexivity|].
    match goal with
    | |- expenses (hooks ?W) = _ /\ _ => set (w' := W)
    end.
    assert (stored AsyncStorage.EXPENSES w'
            = filter (fun e => Expense.id e <> id) (stored AsyncStorage.EXPENSES w))
      as Hs.
    { refine (stored_written_expenses _ (settled w) _). apply settled_fresh. }
    split; [reflexivity|].
    split; [exact Hs|]. rewrite Hs. now apply filter_Permutation.
Qed.

(** X22.  A guest's [updateExpense] of a stored expense keeps the list on
    screen a rearrangement of the stored list when the stored ids are
    distinct and the update leaves the id alone; of an expense the store
    does not hold, it throws an error of code UNKNOWN_ERROR with the
    message 'Expense not found', which it also shows, after the screen has
    been reloaded from the store. *)
Theorem guest_update_mirrors_the_store (w : World) (id : string)
    (updates : Expense.partial)
    (Hguest : useExpenses.remote_identity (hooks w) = false)
    (Hhealthy : healthy w)
    (Hmirror : expenses (hooks w) ≡ₚ stored AsyncStorage.EXPENSES w)
    (Hdistinct : NoDup (map Expense.id (stored AsyncStorage.EXPENSES w)))
    (Hid : Expense.p_id updates = None) :
  match list_find (has_id id) (stored AsyncStorage.EXPENSES w) with
  | Some (i, existing) =>
      let updated :=
        useExpenses.optimistic_update updates (clock (device w)) existing in
      exists w',
        useExpenses.updateExpense id updates w = (Ok updated, w')
        /\ stored AsyncStorage.EXPENSES w'
           = <[i := updated]> (stored AsyncStorage.EXPENSES w)
        /\ expenses (hooks w') = replaced id updated (expenses (hooks w))
        /\ expenses (hooks w') ≡ₚ stored AsyncStorage.EXPENSES w'
  | None =>
      exists w',
        useExpenses.updateExpense id updates w
        = (Err (createAppError "UNKNOWN_ERROR" "Expense not found"), w')
        /\ error (hooks w') = Some "Expense not found"
        /\ expenses (hooks w') = stored AsyncStorage.EXPENSES w
        /\ stored AsyncStorage.EXPENSES w' = stored AsyncStorage.EXPENSES w
  end.
Proof.
  destruct (list_find (has_id id) (stored AsyncStorage.EXPENSES w))
    as [[i existing]|] eqn:Hfound.
  - intros updated.
    unfold useExpenses.updateExpense. hook_steps. remote_is false Hguest.
    match goal with
    | |- context [LocalStorageService.updateExpense ?a ?b ?W] =>
        rewrite (updateExpense_healthy a b W Hhealthy)
    end.
    cbv zeta. stored_at w. rewrite Hfound.
    eexists. split; [reflexivity|].
    match goal with
    | |- stored _ ?W = _ /\ _ => set (w' := W)
    end.
    assert (stored AsyncStorage.EXPENSES w'
            = <[i := updated]> (stored AsyncStorage.EXPENSES w)) as Hs.
    { refine (stored_written_expenses _ (settled w) _). apply settled_fresh. }
    assert (expenses (hooks w') = replaced id updated (expenses (hooks w))) as He.
    { subst w'. project.
      exact (replaced_twice id
               (useExpenses.optimistic_update updates (clock (device w)))
               updated (expenses (hooks w))
               (fun e => optimistic_update_id updates _ e Hid)). }
    split; [exact Hs|]. rewrite Hs, He.
    split; [reflexivity|].
    rewrite (insert_is_replaced id updated i existing _ Hdistinct Hfound).
    unfold replaced. now apply Permutation_map.
  - unfold useExpenses.updateExpense. hook_steps. remote_is false Hguest.
    match goal with
    | |- context [LocalStorageService.updateExpense ?a ?b ?W] =>
        rewrite (updateExpense_healthy a b W Hhealthy)
    end.
    cbv zeta. stored_at w. rewrite Hfound.
    unfold useExpenses.loadExpenses. hook_steps. remote_is false Hguest.
    match goal with
    | |- context [LocalStorageService.getExpenses ?W] =>
        rewrite (getExpenses_healthy W (healthy_settled w Hhealthy))
    end.
    eexists. split; [reflexivity|]. project. split; [reflexivity|].
    split; repeat (rewrite ?stored_on_hooks, ?stored_settled by reflexivity);
      reflexivity.
Qed.

End GuestScreen.

(** ** The report of a week *)

Section ReportData.
Variable zone : Z.
Import WeeklyReportService WeeklyReportData.

Lemma calculateGoalStats_counts template s start completions :
  JsDate.parse s = Some start ->
  exists stats,
    calculateGoalStats zone template s completions = Some stats
    /\ GoalStats.template_id stats = GoalTemplate.id template
    /\ 0 <= GoalStats.completions stats <= GoalStats.total_days stats
    /\ GoalStats.total_days stats <= 1.
Proof.
  intros Hdate. rewrite (calculateGoalStats_unfold _ _ _ _ _ Hdate). cbv zeta.
  eexists. split; [reflexivity|].
  cbn [GoalStats.template_id GoalStats.total_days GoalStats.completions].
  split; [reflexivity|].
  destruct (decide (1 <= GoalTemplate.day_of_week template <= 7)) as [Hk|Hk].
  - rewrite (scan_week_due _ _ _ _ Hk). cbn [fst snd].
    destruct (List.find _ _); cbn; lia.
  - rewrite (scan_week_never_due _ _ _ _ Hk). cbn [fst snd length]. lia.
Qed.

Lemma goalStats_of_counts templates s start completions :
  JsDate.parse s = Some start ->
  exists goals,
    goalStats_of zone templates s completions = Some goals
    /\ map GoalStats.template_id goals = map GoalTemplate.id templates
    /\ Forall (fun g => 0 <= GoalStats.completions g <= GoalStats.total_days g
                        /\ GoalStats.total_days g <= 1) goals.
Proof.
  intros Hdate. induction templates as [|t l (goals & E & Hids & Hall)].
  - exists []. repeat split; constructor.
  - destruct (calculateGoalStats_counts t s start completions Hdate)
      as (stats & Es & Hid & Hc & Ht).
    exists (stats :: goals). cbn [goalStats_of]. rewrite Es, E.
    split; [reflexivity|]. split.
    + cbn [map]. now rewrite Hid, Hids.
    + constructor; [split; assumption | exact Hall].
Qed.

Lemma fold_left_total (f : GoalStats.t -> Z) (goals : list GoalStats.t) (a : Z) :
  fold_left (fun sum stat => sum + f stat) goals a
  = a + fold_left (fun sum stat => sum + f stat) goals 0.
Proof.
  revert a. induction goals as [|g l IH]; intros a; cbn [fold_left]; [lia|].
  rewrite (IH (a + f g)), (IH (0 + f g)). lia.
Qed.

(** X23.  For a week start that is a date, [createWeeklyReport] gives a
    report for the user and the week it was asked for, with one entry per
    active template, in the order of the templates, and none for an
    inactive one; every entry counts at most one due day and no more
    completions than due days, so the completions of the week in total
    are at most the due days, which are at most the number of active
    templates. *)
Theorem report_lists_the_active_templates (userId : string)
    (templates : list GoalTemplate.t) (completions : list DailyGoalCompletion.t)
    (s : string) (start : Instant)
    (Hdate : JsDate.parse s = Some start) :
  exists report,
    createWeeklyReport zone userId templates completions s = Some report
    /\ i_user_id report = userId
    /\ i_week_start_date report = s
    /\ map GoalStats.template_id (i_goals report)
       = map GoalTemplate.id (List.filter GoalTemplate.is_active templates)
    /\ Forall (fun g => 0 <= GoalStats.completions g <= GoalStats.total_days g
                        /\ GoalStats.total_days g <= 1) (i_goals report)
    /\ 0 <= fold_left (fun sum stat => sum + GoalStats.completions stat)
              (i_goals report) 0
         <= fold_left (fun sum stat => sum + GoalStats.total_days stat)
              (i_goals report) 0
    /\ fold_left (fun sum stat => sum + GoalStats.total_days stat)
         (i_goals report) 0
       <= Z.of_nat (length (List.filter GoalTemplate.is_active templates)).
Proof.
  destruct (goalStats_of_counts (List.filter GoalTemplate.is_active templates)
              s start completions Hdate) as (goals & E & Hids & Hall).
  unfold createWeeklyReport, generateReportData. rewrite E.
  eexists. split; [reflexivity|]. cbn [i_user_id i_week_start_date i_goals].
  split; [reflexivity|]. split; [reflexivity|]. split; [exact Hids|].
  split; [exact Hall|].
  rewrite <- (length_map GoalTemplate.id), <- Hids, length_map.
  clear E Hids. induction Hall as [|g l [Hc Ht] _ IH]; [cbn; lia|].
  cbn [fold_left length].
  rewrite (fold_left_total GoalStats.completions l (0 + _)),
    (fold_left_total GoalStats.total_days l (0 + _)).
  lia.
Qed.

End ReportData.

Lemma report_witness :
  exists report,
    WeeklyReportData.createWeeklyReport Sample.new_york "alice"
      [Sample.monday_goal] [] "2024-01-01" = Some report
    /\ map GoalStats.template_id (WeeklyReportData.i_goals report)
       = [GoalTemplate.id Sample.monday_goal].
Proof.
  destruct (report_lists_the_active_templates Sample.new_york "alice"
              [Sample.monday_goal] [] "2024-01-01" Sample.new_year eq_refl)
    as (report & E & _ & _ & Hids & _).
  exists report. split; [exact E | exact Hids].
Defined.

(** ** The first reconciliation of a device that holds no expense *)

Section FirstSync.
Import SyncService.

Lemma prefix_app p s : String.prefix p (p ++ s) = true.
Proof.
  induction p as [|c p IH]; [now destruct s|].
  change (String.prefix (String c p) (String c (p ++ s)) = true).
  cbn [String.prefix]. destruct (ascii_dec c c); [exact IH | congruence].
Qed.

Lemma prefix_head p s : String.prefix p s = true -> exists r, s = p ++ r.
Proof.
  revert s. induction p as [|c p IH]; intros s H; [now exists s|].
  destruct s as [|c' s]; [discriminate|]. cbn [String.prefix] in H.
  destruct (ascii_dec c c') as [<-|]; [|discriminate].
  destruct (IH s H) as [r ->]. now exists r.
Qed.

Lemma Map_get_absent (l : list Expense.t) id :
  (forall e, e ∈ l -> Expense.id e <> id) -> Map_get l id = None.
Proof.
  induction l as [|x l IH]; intros H; [reflexivity|]. cbn [Map_get].
  rewrite IH by (intros y Hy; apply H; now right).
  destruct (String.eqb_spec (Expense.id x) id) as [Hid|]; [|reflexivity].
  exfalso. apply (H x); [now left | exact Hid].
Qed.

Lemma Map_has_absent (l : list Expense.t) id :
  (forall e, e ∈ l -> Expense.id e <> id) -> Map_has l id = false.
Proof.
  intros H. unfold Map_has. rewrite (Map_get_absent l id H).
  apply bool_decide_eq_false. now intros [e He].
Qed.

Lemma filter_everything {A} (P : A -> Prop) `{!forall x, Decision (P x)} (l : list A) :
  (forall x, x ∈ l -> P x) -> filter P l = l.
Proof.
  induction l as [|x l IH]; intros Hall; [reflexivity|].
  rewrite (filter_cons_True _ x l) by (apply Hall; now left).
  f_equal. apply IH. intros y Hy. apply Hall. now right.
Qed.

Lemma omap_everything {A B} (f : A -> option B) (l : list A) :
  (forall x, x ∈ l -> exists y, f x = Some y) -> length (omap f l) = length l.
Proof.
  induction l as [|x l IH]; intros H; [reflexivity|]. cbn [omap list_omap].
  destruct (H x) as [y ->]; [now left|]. cbn [length]. f_equal.
  apply IH. intros z Hz. apply H. now right.
Qed.

Lemma omap_nothing {A B} (f : A -> option B) (l : list A) :
  (forall x, x ∈ l -> f x = None) -> omap f l = [].
Proof.
  induction l as [|x l IH]; intros H; [reflexivity|]. cbn [omap list_omap].
  rewrite (H x) by now left. apply IH. intros z Hz. apply H. now right.
Qed.

Lemma clock_written put w : clock (device (written put w)) = clock (device w).
Proof. now destruct w as [[? ? ? ?] ? ? ?]. Qed.

Lemma clock_drawn w : clock (device (drawn w)) = clock (device w).
Proof. now destruct w as [[? ? ? ?] ? ? ?]. Qed.

(** The download pass on a healthy device. *)
Lemma downloads_spec (Rs : list Expense.t) w :
  healthy w ->
  exists w' copies,
    for_of Rs download_one w = (Ok tt, w')
    /\ healthy w'
    /\ backend w' = backend w /\ services w' = services w
    /\ clock (device w') = clock (device w)
    /\ stored AsyncStorage.EXPENSES w'
       = (stored AsyncStorage.EXPENSES w ++ copies)%list
    /\ Forall2 (downloaded_copy (clock (device w))) Rs copies.
Proof.
  revert w. induction Rs as [|r Rs IH]; intros w Hh.
  - exists w, []. cbn [for_of]. rewrite app_nil_r.
    repeat split; try reflexivity; [exact Hh | constructor].
  - cbn [for_of]. unfold download_one at 1, try_catch, bind at 1 2.
    rewrite (addExpense_healthy _ w Hh). cbv zeta. cbn [ret].
    set (copy := created_expense _ w).
    set (w1 := written _ _).
    assert (healthy w1) as Hh1
      by exact (healthy_written _ _ (healthy_drawn _ (healthy_settled w Hh))).
    assert (clock (device w1) = clock (device w)) as Hc1.
    { unfold w1. rewrite clock_written, clock_drawn. apply settled_device. }
    assert (stored AsyncStorage.EXPENSES w1
            = (stored AsyncStorage.EXPENSES w ++ [copy])%list) as Hs1.
    { apply stored_written_expenses. rewrite expired_drawn. apply settled_fresh. }
    destruct (IH w1 Hh1) as (w' & copies & E & Hh' & Hb & Hsv & Hc & Hs & Hall).
    exists w', (copy :: copies). rewrite E.
    split; [reflexivity|]. split; [exact Hh'|].
    split; [now rewrite Hb|]. split; [now rewrite Hsv|].
    split; [now rewrite Hc|]. split.
    + rewrite Hs, Hs1, <- app_assoc. reflexivity.
    + constructor; [|now rewrite <- Hc1].
      unfold downloaded_copy, copy. cbn.
      repeat split; try reflexivity. apply prefix_app.
Qed.

(** X24.  The first reconciliation of a device that holds no expense, in
    the session of a signed-in user, with the store and the project
    answering: [syncExpenses] returns, the table is as before, and the
    store holds one copy per row of the user, in the order of the read,
    each with the fields of its row but under an id the device generated
    from its clock.  Hence, when no row's id begins with the digits of the
    clock, the copies and the rows share no id, and the next
    reconciliation has every row to download again and every copy to
    upload. *)
Theorem first_sync_downloads_under_new_ids (u : User.t) (w : World)
    (Hhealthy : healthy w)
    (Hnet : net_faults (backend w) = [])
    (Huser : currentUser (services w) = Some u)
    (Hsigned : User.isGuest u = false)
    (Hempty : stored AsyncStorage.EXPENSES w = []) :
  let Rs := SupabaseService.order_by_date_desc
              (filter (SupabaseService.owned_by (User.id u)) (rows (backend w))) in
  exists w',
    syncExpenses w = (Ok tt, w')
    /\ rows (backend w') = rows (backend w)
    /\ Forall2 (downloaded_copy (clock (device w))) Rs
         (stored AsyncStorage.EXPENSES w')
    /\ ((forall row, row ∈ Rs ->
           String.prefix (pretty (clock (device w))) (Expense.id row) = false) ->
        expensesToDownload (stored AsyncStorage.EXPENSES w') Rs = Rs
        /\ length (expensesToUpload (stored AsyncStorage.EXPENSES w') Rs u)
           = length Rs
        /\ conflictsToResolve (stored AsyncStorage.EXPENSES w') Rs = []).
Proof.
  intros Rs.
  set (w1 := updateSyncStatus_now (mkUpdate None None (Some true) (Some None)) w).
  destruct (updateSyncStatus_now_stores
              (mkUpdate None None (Some true) (Some None)) w) as [Hd1 Hb1].
  fold w1 in Hd1, Hb1.
  assert (currentUser (services w1) = Some u) as Hc1
    by (unfold w1; now rewrite updateSyncStatus_currentUser).
  assert (healthy w1) as Hh1 by (unfold healthy; now rewrite Hd1).
  assert (stored AsyncStorage.EXPENSES w1 = []) as Hst1
    by (rewrite <- Hempty; unfold stored, expired; now rewrite Hd1).
  assert (SupabaseService.getExpenses (settled w1) = (Ok Rs, settled w1)) as Eget.
  { rewrite (remote_getExpenses_spec u); [| exact Hc1 |].
    - change (backend (settled w1)) with (backend w1). unfold Rs. now rewrite Hb1.
    - change (backend (settled w1)) with (backend w1). now rewrite Hb1. }
  destruct (downloads_spec Rs (settled w1) (healthy_settled w1 Hh1))
    as (w2 & copies & E2 & Hh2 & Hb2 & Hsv2 & Hc2 & Hs2 & Hall).
  rewrite stored_settled, Hst1 in Hs2 by reflexivity. cbn [app] in Hs2.
  assert (clock (device (settled w1)) = clock (device w)) as Hclock
    by (rewrite (proj1 (settled_device w1)); now rewrite Hd1).
  rewrite Hclock in Hall.
  assert (resolveExpenseConflicts [] Rs u (settled w1) = (Ok tt, w2)) as Eres.
  { unfold resolveExpenseConflicts, expensesToUpload, expensesToDownload,
      conflictsToResolve. cbn [omap list_omap for_of].
    rewrite bind_ret.
    replace (filter _ Rs) with Rs.
    - rewrite (bind_ok _ _ _ _ _ E2). reflexivity.
    - symmetry. clear. induction Rs as [|r l IH]; [reflexivity|].
      rewrite filter_cons_True by reflexivity. now rewrite IH. }
  set (w3 := updateSyncStatus_now
               (mkUpdate (Some (Some (clock (device w2)))) (Some 0) None (Some None))
               w2).
  exists (not_in_progress w3).
  assert (device (not_in_progress w3) = device w2
          /\ backend (not_in_progress w3) = backend w2) as [Hd3 Hb3].
  { unfold not_in_progress, w3.
    split; [now rewrite !(proj1 (updateSyncStatus_now_stores _ _))
           |now rewrite !(proj2 (updateSyncStatus_now_stores _ _))]. }
  assert (stored AsyncStorage.EXPENSES (not_in_progress w3) = copies) as Hs3
    by (rewrite <- Hs2; unfold stored, expired; now rewrite Hd3).
  split; [|split; [|split]].
  - unfold syncExpenses, try_finally, try_catch.
    unfold updateSyncStatus at 1. rewrite bind_modify. fold w1.
    rewrite (bind_ok _ _ _ _ _ (getCurrentUser_cached w1 u Hc1)). rewrite Hsigned.
    rewrite (bind_ok _ _ _ _ _ (getExpenses_healthy w1 Hh1)), Hst1.
    rewrite (bind_ok _ _ _ _ _ Eget), (bind_ok _ _ _ _ _ Eres), bind_now.
    reflexivity.
  - rewrite Hb3, Hb2. change (backend (settled w1)) with (backend w1).
    now rewrite Hb1.
  - now rewrite Hs3.
  - intros Hids. rewrite Hs3.
    assert (Forall (fun copy => String.prefix (pretty (clock (device w)))
                                  (Expense.id copy) = true) copies) as Hpre.
    { clear -Hall. induction Hall as [|r c Rs' cs Hc _ IH]; constructor; [|exact IH].
      apply Hc. }
    rewrite Forall_forall in Hpre.
    assert (forall row copy, row ∈ Rs -> copy ∈ copies ->
              Expense.id copy <> Expense.id row) as Hne.
    { intros row copy Hrow Hcopy Heq. pose proof (Hpre copy Hcopy) as Ht.
      rewrite Heq, (Hids row Hrow) in Ht. discriminate. }
    split; [|split].
    + unfold expensesToDownload. apply filter_everything. intros row Hrow.
      apply Map_has_absent. intros copy Hcopy. now apply Hne.
    + rewrite (Forall2_length _ _ _ Hall). unfold expensesToUpload.
      apply omap_everything. intros copy Hcopy.
      rewrite (Map_has_absent Rs (Expense.id copy))
        by (intros row Hrow Heq; now apply (Hne row copy)).
      destruct (is_temp (Expense.id copy)); eauto.
    + unfold conflictsToResolve. apply omap_nothing. intros copy Hcopy.
      rewrite (Map_get_absent Rs (Expense.id copy))
        by (intros row Hrow Heq; now apply (Hne row copy)).
      reflexivity.
Qed.

End FirstSync.

(** ** Adding and editing goal templates *)

Section TemplateWrites.
Import LocalStorageService GoalStorage.

Local Abbreviation TEMPLATES := AsyncStorage.GOAL_TEMPLATES.

Lemma stored_written_templates ts w :
  expired w = false ->
  stored TEMPLATES (written (AsyncStorage.set_GOAL_TEMPLATES (Some ts)) w) = ts.
Proof. intros He. now apply stored_written. Qed.

Lemma addGoalTemplate_healthy template w :
  healthy w ->
  let r := created_template template w in
  addGoalTemplate template w
  = (Ok r, written (AsyncStorage.set_GOAL_TEMPLATES
                      (Some (stored TEMPLATES w ++ [r])%list))
             (drawn (settled w))).
Proof.
  intros H r. unfold addGoalTemplate. rewrite try_catch_rethrow.
  rewrite (bind_ok _ _ _ _ _ (getGoalTemplates_healthy w H)).
  destruct (settled_device w) as [Hc Hr].
  assert (generate_id (settled w) = (Ok (GoalTemplate.id r), drawn (settled w))) as Hid.
  { rewrite generate_id_run, Hc, Hr. reflexivity. }
  rewrite (bind_ok _ _ _ _ _ Hid), bind_now. cbv zeta.
  rewrite clock_drawn, Hc.
  rewrite (bind_ok _ _ _ _ _
             (saveGoalTemplates_healthy _ _ (healthy_drawn _ (healthy_settled w H)))).
  reflexivity.
Qed.

Lemma updateGoalTemplate_healthy id updates w :
  healthy w ->
  updateGoalTemplate id updates w
  = match list_find (fun t => GoalTemplate.id t = id) (stored TEMPLATES w) with
    | Some (i, existing) =>
        let r := updated_template updates (clock (device w)) existing in
        (Ok r, written (AsyncStorage.set_GOAL_TEMPLATES
                          (Some (<[i := r]> (stored TEMPLATES w))))
                 (settled w))
    | None => (Err (JsError "Goal template not found"), settled w)
    end.
Proof.
  intros H. unfold updateGoalTemplate. rewrite try_catch_rethrow.
  rewrite (bind_ok _ _ _ _ _ (getGoalTemplates_healthy w H)).
  destruct (list_find _ (stored TEMPLATES w)) as [[i existing]|]; [|reflexivity].
  rewrite bind_now. cbv zeta. rewrite (proj1 (settled_device w)).
  rewrite (bind_ok _ _ _ _ _
             (saveGoalTemplates_healthy _ _ (healthy_settled w H))).
  reflexivity.
Qed.

(** X25.  A template added on a device whose store answers is stored last,
    under an id made of the time and of a random suffix, with both
    timestamps equal to the time of the call; from then on
    [getGoalTemplatesForDay] lists it for its own day if it is active, and
    for no other day and not at all if it is inactive. *)
Theorem added_template_is_listed_on_its_day (w : World)
    (template : GoalTemplateInput.draft) (Hhealthy : healthy w) :
  let t := created_template template w in
  exists w',
    addGoalTemplate template w = (Ok t, w')
    /\ healthy w'
    /\ stored TEMPLATES w' = (stored TEMPLATES w ++ [t])%list
    /\ forall dayOfWeek,
         exists l w'',
           getGoalTemplatesForDay dayOfWeek w' = (Ok l, w'')
           /\ (t ∈ l <-> GoalTemplateInput.d_is_active template = true
                         /\ GoalTemplateInput.d_day_of_week template = dayOfWeek).
Proof.
  intros t. rewrite (addGoalTemplate_healthy template w Hhealthy). cbv zeta. fold t.
  set (w' := written _ _).
  assert (healthy w') as Hh'
    by exact (healthy_written _ _ (healthy_drawn _ (healthy_settled w Hhealthy))).
  assert (stored TEMPLATES w' = (stored TEMPLATES w ++ [t])%list) as Hs.
  { apply stored_written_templates. rewrite expired_drawn. apply settled_fresh. }
  exists w'. split; [reflexivity|]. split; [exact Hh'|]. split; [exact Hs|].
  intros dayOfWeek. unfold getGoalTemplatesForDay, try_catch.
  rewrite (bind_ok _ _ _ _ _ (getGoalTemplates_healthy w' Hh')).
  eexists _, _. split; [reflexivity|].
  rewrite sort_by_order_perm, list_elem_of_In, filter_In, <- list_elem_of_In, Hs.
  rewrite andb_true_iff, Z.eqb_eq. cbn [t created_template GoalTemplate.is_active
    GoalTemplate.day_of_week].
  split; [tauto|]. intros Hd. split; [|exact Hd].
  apply elem_of_app. right. now left.
Qed.

(** X26.  [updateGoalTemplate] on a device whose store answers: for an id
    the store does not hold it throws 'Goal template not found' and the
    templates stay as they were; otherwise the first template of that id
    is replaced in place by its merge with the update, stamped with the
    time of the call, and every other position of the list keeps its
    template. *)
Theorem updateGoalTemplate_replaces_in_place (w : World) (id : string)
    (updates : GoalTemplateInput.partial) (Hhealthy : healthy w) :
  match list_find (fun t => GoalTemplate.id t = id) (stored TEMPLATES w) with
  | None =>
      exists w',
        updateGoalTemplate id updates w
        = (Err (JsError "Goal template not found"), w')
        /\ stored TEMPLATES w' = stored TEMPLATES w
  | Some (i, existing) =>
      let r := updated_template updates (clock (device w)) existing in
      exists w',
        updateGoalTemplate id updates w = (Ok r, w')
        /\ GoalTemplate.updated_at r = clock (device w)
        /\ stored TEMPLATES w' !! i = Some r
        /\ length (stored TEMPLATES w') = length (stored TEMPLATES w)
        /\ forall j, j <> i ->
             stored TEMPLATES w' !! j = stored TEMPLATES w !! j
  end.
Proof.
  rewrite (updateGoalTemplate_healthy id updates w Hhealthy).
  destruct (list_find _ (stored TEMPLATES w)) as [[i existing]|] eqn:Hfound.
  - cbv zeta. eexists. split; [reflexivity|]. split; [reflexivity|].
    rewrite stored_written_templates by apply settled_fresh.
    apply list_find_Some in Hfound as (Hi & _ & _).
    split; [apply list_lookup_insert_eq; now apply lookup_lt_Some in Hi|].
    split; [apply length_insert|].
    intros j Hj. apply list_lookup_insert_ne. congruence.
  - eexists. split; [reflexivity|]. now apply stored_settled.
Qed.

End TemplateWrites.

(** ** Completions of a range of days *)

Section DateRange.
Import LocalStorageService GoalStorage.

Lemma filter_one_day d (l : list DailyGoalCompletion.t) :
  List.filter (fun completion =>
                 String.leb d (DailyGoalCompletion.completion_date completion)
                 && String.leb (DailyGoalCompletion.completion_date completion) d) l
  = filter (fun c => DailyGoalCompletion.completion_date c = d) l.
Proof.
  induction l as [|c l IH]; [reflexivity|]. cbn [List.filter]. rewrite IH.
  destruct (decide (DailyGoalCompletion.completion_date c = d)) as [E|E].
  - rewrite (filter_cons_True _ c l E), E.
    destruct (String.leb_total d d) as [-> | ->]; reflexivity.
  - rewrite (filter_cons_False _ c l E).
    destruct (String.leb d _) eqn:E1; [|reflexivity].
    destruct (String.leb _ d) eqn:E2; [|reflexivity].
    exfalso. apply E. now apply String.leb_antisym.
Qed.

Lemma getDailyCompletions_of_a_day d w :
  d <> EmptyString ->
  getDailyCompletions (Some d) w
  = (match (getDailyCompletions None w).1 with
     | Ok l => Ok (filter (fun c => DailyGoalCompletion.completion_date c = d) l)
     | Err e => Err e
     end, (getDailyCompletions None w).2).
Proof.
  intros Hd. unfold getDailyCompletions, try_catch, bind.
  destruct (String.eqb_spec d EmptyString) as [|_]; [contradiction|].
  destruct (isDataExpired w) as [[[]|e] w1]; [| |reflexivity].
  - destruct (clearAllData w1) as [[?|?] ?]; reflexivity.
  - destruct (getItem AsyncStorage.GOAL_COMPLETIONS w1) as [[[l|]|e] w2]; reflexivity.
Qed.

Lemma getDailyCompletions_returns date w :
  exists l w', getDailyCompletions date w = (Ok l, w').
Proof.
  unfold getDailyCompletions, try_catch.
  match goal with |- context [bind ?m ?k w] => destruct (bind m k w) as [[l|e] w'] end;
    eauto.
Qed.

(** X27.  A range that starts and ends on the same day gives the
    completions of that day: on any device, whether its store answers or
    not, [getCompletionsForDateRange d d] returns what
    [getDailyCompletions d] returns and leaves the same state; neither
    throws. *)
Theorem range_of_one_day_is_the_day (w : World) (d : string)
    (Hday : d <> EmptyString) :
  getCompletionsForDateRange d d w = getDailyCompletions (Some d) w
  /\ exists l w', getDailyCompletions (Some d) w = (Ok l, w').
Proof.
  split; [|apply getDailyCompletions_returns].
  rewrite (getDailyCompletions_of_a_day d w Hday).
  unfold getCompletionsForDateRange, try_catch, bind.
  destruct (getDailyCompletions_returns None w) as (l & w' & ->). cbn [fst snd ret].
  now rewrite filter_one_day.
Qed.

End DateRange.

Lemma range_of_one_day_witness :
  GoalStorage.getCompletionsForDateRange "2024-01-01" "2024-01-01" Sample.guest_with_coffee
  = LocalStorageService.getDailyCompletions (Some "2024-01-01") Sample.guest_with_coffee.
Proof.
  apply (range_of_one_day_is_the_day Sample.guest_with_coffee "2024-01-01"). discriminate.
Defined.

(** ** Instances *)

(** At ten on a Monday morning, midnight of that Monday is not in the
    current week. *)
Lemma isCurrentWeek_witness :
  DateUtils.isCurrentWeek 0 Cases.monday_at_ten Sample.new_year = false.
Proof.
  destruct (isCurrentWeek_window 0 Cases.monday_at_ten Sample.new_year)
    as (_ & _ & _ & H & _).
  apply H. vm_compute. reflexivity.
Defined.

Lemma deleteGoalTemplate_witness :
  exists w',
    GoalStorage.deleteGoalTemplate "goal-1" Cases.runner = (Ok tt, w')
    /\ stored AsyncStorage.GOAL_TEMPLATES w' = []
    /\ stored AsyncStorage.GOAL_COMPLETIONS w' = [].
Proof.
  destruct (deleteGoalTemplate_removes_its_completions Cases.runner "goal-1" eq_refl)
    as (w' & E & Ht & Hc & _).
  exists w'. split; [exact E|]. split; [rewrite Ht | rewrite Hc]; vm_compute; reflexivity.
Defined.

Lemma deleteGoalTemplate_orphans_witness :
  exists w',
    GoalStorage.deleteGoalTemplate "goal-1" Cases.runner_interrupted
    = (Err storage_failure, w')
    /\ AsyncStorage.GOAL_TEMPLATES (storage (device w')) = Some []
    /\ AsyncStorage.GOAL_COMPLETIONS (storage (device w'))
       = Some [Sample.ran_on_new_year].
Proof.
  destruct (deleteGoalTemplate_can_leave_orphans Cases.runner_interrupted "goal-1"
              (Sample.new_year + 1000) [] eq_refl eq_refl eq_refl)
    as (w' & E & Ht & Hc).
  exists w'. split; [exact E|]. split; [rewrite Ht | rewrite Hc]; vm_compute; reflexivity.
Defined.

Lemma getGoalTemplatesForDay_witness :
  exists l w',
    GoalStorage.getGoalTemplatesForDay 1 Cases.runner = (Ok l, w')
    /\ l ≡ₚ [Sample.monday_goal].
Proof.
  destruct (getGoalTemplatesForDay_is_sorted Cases.runner 1)
    as (l & w' & E & _ & _ & H).
  exists l, w'. split; [exact E|]. rewrite (H eq_refl). vm_compute. reflexivity.
Defined.

Lemma written_completion_witness :
  exists r w1 w2,
    LocalStorageService.updateGoalCompletion Sample.daily_run Sample.guest_with_coffee
    = (Ok r, w1)
    /\ GoalStorage.getCompletionForDate "goal-1" "2024-01-01" w1 = (Ok (Some r), w2).
Proof.
  destruct (written_completion_is_found Sample.guest_with_coffee Sample.daily_run eq_refl)
    as (r & w1 & w2 & E1 & E2 & _).
  - discriminate.
  - exists r, w1, w2. split; [exact E1 | exact E2].
Defined.

Lemma addWeeklyReport_witness :
  exists r w1 w2,
    GoalStorage.addWeeklyReport Cases.first_week Sample.guest_with_coffee = (Ok r, w1)
    /\ stored AsyncStorage.WEEKLY_REPORTS w1 = [r]
    /\ GoalStorage.getWeeklyReportForWeek "2024-01-01" "alice" w1 = (Ok (Some r), w2).
Proof.
  destruct (addWeeklyReport_replaces_the_report_of_the_week Sample.guest_with_coffee
              Cases.first_week eq_refl)
    as (r & w1 & w2 & E1 & _ & _ & Hs & _ & E2).
  exists r, w1, w2. split; [exact E1|]. split; [exact Hs | exact E2].
Defined.


Lemma refused_sign_in_witness :
  result_of (useAuth.signIn "alice@example.org" "guess") Sample.guest_with_coffee
  = Err (AppError "UNKNOWN_ERROR" "An unknown error occurred").
Proof.
  destruct (useAuth.signIn "alice@example.org" "guess" Sample.guest_with_coffee)
    as [[r|e] w'] eqn:E.
  - vm_compute in E. discriminate E.
  - unfold result_of. rewrite E. cbn [fst]. f_equal.
    destruct (refused_sign_in_shows_no_reason Sample.guest_with_coffee w'
                "alice@example.org" "guess" e (or_introl E)) as (H & _).
    exact H.
Defined.

Lemma other_users_witness :
  others_kept "alice" (rows (backend Sample.alice_signed_in))
    (rows (backend (state_after (SupabaseService.deleteExpense "srv-lunch")
                      Sample.alice_signed_in))).
Proof.
  destruct (adapter_keeps_the_rows_of_other_users Sample.alice_signed_in Sample.alice
              eq_refl) as (_ & _ & H & _).
  exact (H "srv-lunch").
Defined.

Lemma syncExpenses_needs_a_user_witness :
  exists w',
    SyncService.syncExpenses Sample.guest_with_coffee
    = (Err (AppError "UNKNOWN_ERROR" "User not authenticated for sync"), w')
    /\ device w' = device Sample.guest_with_coffee.
Proof.
  destruct (syncExpenses_needs_a_user Sample.guest_with_coffee (conj eq_refl eq_refl))
    as (w' & E & _ & _ & Hd & _).
  exists w'. split; [exact E | exact Hd].
Defined.

Lemma syncAll_witness :
  result_of SyncAll.syncAll Sample.guest_with_coffee
  = Err (AppError "UNKNOWN_ERROR" "An unknown error occurred").
Proof.
  destruct (SyncAll.syncAll Sample.guest_with_coffee) as [[r|e] w'] eqn:E.
  - vm_compute in E. discriminate E.
  - unfold result_of. rewrite E. cbn [fst]. f_equal.
    destruct (syncAll_hides_the_reason Sample.guest_with_coffee w' e E) as (H & _).
    exact H.
Defined.

Lemma queued_operation_witness :
  exists w',
    SyncService.queueOperation 0%nat Sample.guest_with_coffee = (Ok tt, w')
    /\ queue w' = [0%nat]
    /\ attempts w' = [].
Proof.
  destruct (queued_operation_waits_for_a_user Sample.guest_with_coffee 0%nat
              (conj eq_refl eq_refl)) as (w' & E & Hq & Ha & _).
  exists w'. split; [exact E|]. split; [exact Hq | exact Ha].
Defined.

Lemma signOut_witness :
  exists w',
    useAuth.signOut Sample.alice_offline = (Ok tt, w')
    /\ user (hooks w') = Some Sample.alice
    /\ authError (hooks w') = Some "An unknown error occurred".
Proof.
  destruct (signOut_that_fails_changes_no_identity Sample.alice_offline eq_refl)
    as (w' & E & _ & _ & _ & Hu & He & _).
  exists w'. split; [exact E|]. split; [exact Hu | exact He].
Defined.

Lemma guest_screen_witness :
  exists w',
    useExpenses.deleteExpense (Expense.id Sample.coffee) Sample.guest_with_coffee
    = (Ok tt, w')
    /\ expenses (hooks w') ≡ₚ stored AsyncStorage.EXPENSES w'.
Proof.
  destruct (guest_screen_mirrors_the_store Sample.guest_with_coffee eq_refl eq_refl)
    as (_ & H).
  - reflexivity.
  - destruct (H (Expense.id Sample.coffee)) as (w' & E & _ & _ & Hm).
    exists w'. split; [exact E | exact Hm].
Defined.

Lemma guest_update_witness :
  exists w',
    useExpenses.updateExpense (Expense.id Sample.coffee) Sample.cheaper
      Sample.guest_with_coffee
    = (Ok (useExpenses.optimistic_update Sample.cheaper Sample.new_year Sample.coffee),
       w')
    /\ expenses (hooks w') ≡ₚ stored AsyncStorage.EXPENSES w'.
Proof.
  pose proof (guest_update_mirrors_the_store Sample.guest_with_coffee
                (Expense.id Sample.coffee) Sample.cheaper eq_refl eq_refl) as H.
  change (list_find _ (stored AsyncStorage.EXPENSES Sample.guest_with_coffee))
    with (Some (0%nat, Sample.coffee)) in H.
  destruct H as (w' & E & _ & _ & Hm).
  - reflexivity.
  - apply NoDup_singleton.
  - reflexivity.
  - exists w'. split; [exact E | exact Hm].
Defined.

Lemma first_sync_witness :
  exists w',
    SyncService.syncExpenses Sample.alice_with_queue = (Ok tt, w')
    /\ Forall2 (downloaded_copy Sample.new_year) [Sample.lunch]
         (stored AsyncStorage.EXPENSES w')
    /\ SyncService.expensesToDownload (stored AsyncStorage.EXPENSES w') [Sample.lunch]
       = [Sample.lunch].
Proof.
  destruct (first_sync_downloads_under_new_ids Sample.alice Sample.alice_with_queue
              eq_refl eq_refl eq_refl eq_refl eq_refl) as (w' & E & _ & Hc & Hn).
  exists w'. split; [exact E|]. split; [exact Hc|].
  apply Hn. intros row Hrow. apply list_elem_of_singleton in Hrow. subst row.
  vm_compute. reflexivity.
Defined.

Lemma added_template_witness :
  exists w',
    GoalStorage.addGoalTemplate Cases.morning_walk Cases.runner
    = (Ok (created_template Cases.morning_walk Cases.runner), w')
    /\ stored AsyncStorage.GOAL_TEMPLATES w'
       = [Sample.monday_goal; created_template Cases.morning_walk Cases.runner].
Proof.
  destruct (added_template_is_listed_on_its_day Cases.runner Cases.morning_walk eq_refl)
    as (w' & E & _ & Hs & _).
  exists w'. split; [exact E | exact Hs].
Defined.

Lemma updateGoalTemplate_witness :
  exists w',
    GoalStorage.updateGoalTemplate "goal-1" Cases.renamed Cases.runner
    = (Ok (updated_template Cases.renamed Sample.new_year Sample.monday_goal), w')
    /\ length (stored AsyncStorage.GOAL_TEMPLATES w') = 1%nat.
Proof.
  pose proof (updateGoalTemplate_replaces_in_place Cases.runner "goal-1" Cases.renamed
                eq_refl) as H.
  change (list_find _ (stored AsyncStorage.GOAL_TEMPLATES Cases.runner))
    with (Some (0%nat, Sample.monday_goal)) in H.
  destruct H as (w' & E & _ & _ & Hl & _).
  exists w'. split; [exact E | exact Hl].
Defined.
